(** * The ethtool netlink request engine: link settings and device parameters

    A shallow embedding of [net/ethtool/netlink.c], [net/ethtool/settings.c]
    and the two versions of [net/ethtool/params.c], and the properties of
    their GET, dump and SET paths.

    Integers of the C code are [Z]; a [u32] mask is a non-negative [Z] and
    its bit operations are [Z.land], [Z.lor] and [Z.lxor].  The socket
    buffer is a sequence of written items with a capacity; device
    operations are fields of the device's [ethtool_ops]. *)

From Stdlib Require Import ZArith List Bool Lia String.
From stdpp Require Import base list.
Import ListNotations.
Local Open Scope Z_scope.

(** ** Error numbers *)

Definition EINVAL : Z := 22.
Definition ENODEV : Z := 19.
Definition EOPNOTSUPP : Z := 95.
Definition EMSGSIZE : Z := 90.

(** ** Netlink attributes and the message buffer *)

Module Nl.

(** Payload of an attribute.  A nest holds attributes, each with its type. *)
#[warnings="-register-all"]
Inductive nla_data : Type :=
| DU8 (v : Z)
| DU32 (v : Z)
| DFlag
| DString (s : string)
| DBinary (bytes : list Z)
| DBitfield32 (value selector : Z)
| DNested (attrs : list (nat * nla_data)).

Definition nlattr : Type := (nat * nla_data)%type.

Definition NLA_HDRLEN : Z := 4.
Definition NLA_ALIGN (len : Z) : Z := Z.land (len + 3) (Z.lnot 3).
Definition nla_total_size (payload : Z) : Z := NLA_ALIGN (NLA_HDRLEN + payload).

Definition NLMSG_HDRLEN : Z := 16.
Definition GENL_HDRLEN : Z := 4.
Definition nlmsg_total_size (payload : Z) : Z := NLA_ALIGN (NLMSG_HDRLEN + payload).

(** What a policy expects of an attribute type. *)
Inductive nla_policy_type : Type :=
| NLA_UNSPEC | NLA_U8 | NLA_U32 | NLA_FLAG | NLA_NUL_STRING | NLA_BINARY
| NLA_BITFIELD32 | NLA_NESTED | NLA_REJECT.

Record nla_policy : Type := { pol_type : nla_policy_type; pol_len : Z }.

Definition pol (t : nla_policy_type) : nla_policy := {| pol_type := t; pol_len := 0 |}.

Definition strlen (s : string) : Z := Z.of_nat (String.length s).

(** Modelled from the spec: the attribute decoder is kernel library code
    that is not among the sources.  An attribute is checked against the
    policy entry of its type: a rejected type, a payload of the wrong
    kind, or one longer than the policy allows, fails the whole parse. *)
Definition validate_nla (p : nla_policy) (d : nla_data) : bool :=
  match pol_type p, d with
  | NLA_REJECT, _ => false
  | NLA_UNSPEC, _ => true
  | NLA_U8, DU8 _ => true
  | NLA_U32, DU32 _ => true
  | NLA_FLAG, DFlag => true
  | NLA_NUL_STRING, DString s => strlen s <=? pol_len p
  | NLA_BINARY, DBinary b => Z.of_nat (length b) <=? pol_len p
  | NLA_BITFIELD32, DBitfield32 _ _ => true
  | NLA_NESTED, DNested _ => true
  | _, _ => false
  end.

(** Modelled from the spec: [nla_parse] fills the table [tb], indexed by
    attribute type, from the attributes in stream order.  Types above
    [maxtype] are skipped; a later attribute of the same type replaces an
    earlier one. *)
Fixpoint nla_parse_from (tb : list (option nla_data)) (maxtype : nat)
    (policy : list nla_policy) (attrs : list nlattr)
    : Z + list (option nla_data) :=
  match attrs with
  | [] => inr tb
  | (ty, d) :: rest =>
      if (maxtype <? ty)%nat then nla_parse_from tb maxtype policy rest
      else
        match policy !! ty with
        | Some p =>
            if validate_nla p d
            then nla_parse_from (<[ty := Some d]> tb) maxtype policy rest
            else inl (- EINVAL)
        | None => nla_parse_from (<[ty := Some d]> tb) maxtype policy rest
        end
  end.

Definition nla_parse (maxtype : nat) (policy : list nla_policy)
    (attrs : list nlattr) : Z + list (option nla_data) :=
  nla_parse_from (replicate (S maxtype) None) maxtype policy attrs.

(** [tb[type]]: the attribute of that type, if the message had one. *)
Definition tb_get (tb : list (option nla_data)) (ty : nat) : option nla_data :=
  match tb !! ty with
  | Some o => o
  | None => None
  end.

(** [nla_get_u32] reads four payload bytes; of a one-byte payload these are
    the byte and its padding, taken as zero. *)
Definition nla_get_u32 (d : nla_data) : Z :=
  match d with DU32 v => v | DU8 v => v | _ => 0 end.
Definition nla_get_u8 (d : nla_data) : Z :=
  match d with DU8 v => v | _ => 0 end.
Definition nla_data_string (d : nla_data) : string :=
  match d with DString s => s | _ => EmptyString end.
Definition nla_nested (d : nla_data) : list nlattr :=
  match d with DNested l => l | _ => [] end.

(** *** Writing *)

(** Arguments of a bitset put: number of bits, value, optional mask, flags. *)
Record bitset_args : Type :=
  { bs_nbits : Z; bs_val : Z; bs_mask : option Z; bs_flags : Z }.

(** The bitset codec ([bitset.c], [bitset.h]) is not among the sources; the
    handlers use its two flag bits and three of its functions, which are
    taken as parameters: what [ethnl_bitset32_size] returns, how many
    bytes [ethnl_put_bitset32] writes, and what [ethnl_update_bitset]
    decodes from an attribute (modified, error, new bitmap). *)
Class bitset_codec : Type :=
  { ETHNL_BITSET_COMPACT : Z;
    ETHNL_BITSET_LIST : Z;
    ethnl_bitset32_size : bitset_args -> Z;
    bitset32_put_len : bitset_args -> Z;
    bitset_decode : Z -> nla_data -> bool * Z * Z }.

(** One item written to the buffer.  A nest is its header, the attributes
    that follow, and the point at which its length was fixed. *)
Inductive item : Type :=
| IMsgHdr (cmd : Z)
| IMsgEnd
| INest (attrtype : nat)
| INestEnd
| IAttr (attrtype : nat) (attrlen : Z) (d : nla_data)
| IBitset (attrtype : nat) (a : bitset_args).

Section Buffer.
Context {codec : bitset_codec}.

Definition item_len (i : item) : Z :=
  match i with
  | IMsgHdr _ => nlmsg_total_size GENL_HDRLEN
  | IMsgEnd => 0
  | INest _ => nla_total_size 0
  | INestEnd => 0
  | IAttr _ attrlen _ => nla_total_size attrlen
  | IBitset _ a => bitset32_put_len a
  end.

Definition items_len (l : list item) : Z :=
  fold_right (fun i acc => item_len i + acc) 0 l.

Record sk_buff : Type := { skb_data : list item; skb_end : Z }.

Definition skb_len (skb : sk_buff) : Z := items_len (skb_data skb).
Definition skb_tailroom (skb : sk_buff) : Z := skb_end skb - skb_len skb.

Definition skb_append (skb : sk_buff) (i : item) : sk_buff :=
  {| skb_data := skb_data skb ++ [i]; skb_end := skb_end skb |}.

(** [nlmsg_trim]: cut the buffer back to a mark taken earlier. *)
Definition skb_trim (skb : sk_buff) (mark : nat) : sk_buff :=
  {| skb_data := take mark (skb_data skb); skb_end := skb_end skb |}.

(** Code that writes to the buffer. *)
Definition skbM (A : Type) : Type := sk_buff -> A * sk_buff.

Definition ret {A} (x : A) : skbM A := fun skb => (x, skb).
Definition bind {A B} (m : skbM A) (k : A -> skbM B) : skbM B :=
  fun skb => let (x, skb') := m skb in k x skb'.

(** [a || b] on int results: [b] is not run when [a] is non-zero. *)
Definition orM (a b : skbM Z) : skbM Z :=
  bind a (fun r => if r =? 0 then b else ret r).

Definition put_item (need : Z) (i : item) : skbM Z :=
  fun skb =>
    if skb_tailroom skb <? need then (- EMSGSIZE, skb)
    else (0, skb_append skb i).

Definition nla_put (attrtype : nat) (attrlen : Z) (d : nla_data) : skbM Z :=
  put_item (nla_total_size attrlen) (IAttr attrtype attrlen d).

Definition nla_put_u8 (attrtype : nat) (v : Z) : skbM Z :=
  nla_put attrtype 1 (DU8 v).
Definition nla_put_u32 (attrtype : nat) (v : Z) : skbM Z :=
  nla_put attrtype 4 (DU32 v).
Definition nla_put_string (attrtype : nat) (s : string) : skbM Z :=
  nla_put attrtype (strlen s + 1) (DString s).
Definition nla_put_bitfield32 (attrtype : nat) (value selector : Z) : skbM Z :=
  nla_put attrtype 8 (DBitfield32 value selector).

(** The bitset encoder writes one nested attribute, or nothing when it does
    not fit. *)
Definition ethnl_put_bitset32 (attrtype : nat) (a : bitset_args) : skbM Z :=
  put_item (bitset32_put_len a) (IBitset attrtype a).

(** [nla_nest_start] returns the mark of the nest, or nothing when the
    header does not fit. *)
Definition nla_nest_start (attrtype : nat) : skbM (option nat) :=
  fun skb =>
    let mark := length (skb_data skb) in
    let (r, skb') := put_item (nla_total_size 0) (INest attrtype) skb in
    if r <? 0 then (None, skb') else (Some mark, skb').

Definition nla_nest_end (mark : nat) : skbM unit :=
  fun skb => (tt, skb_append skb INestEnd).

Definition nla_nest_cancel (mark : nat) : skbM unit :=
  fun skb => (tt, skb_trim skb mark).

Definition genlmsg_put (cmd : Z) : skbM (option nat) :=
  fun skb =>
    let mark := length (skb_data skb) in
    let (r, skb') := put_item (nlmsg_total_size GENL_HDRLEN) (IMsgHdr cmd) skb in
    if r <? 0 then (None, skb') else (Some mark, skb').

Definition genlmsg_end (hdr : option nat) : skbM unit :=
  fun skb => (tt, skb_append skb IMsgEnd).

Definition genlmsg_cancel (hdr : option nat) : skbM unit :=
  fun skb =>
    match hdr with
    | Some mark => (tt, skb_trim skb mark)
    | None => (tt, skb)
    end.

(** *** How code uses the buffer *)

(** [appends P n m]: whatever the buffer, [m] leaves its items in place and
    adds items after them; the added items satisfy [P] and take at most
    [n] bytes; the capacity is unchanged. *)
Definition appends {A : Type} (P : item -> Prop) (n : Z) (m : skbM A) : Prop :=
  forall skb : sk_buff,
    skb_end (snd (m skb)) = skb_end skb
    /\ exists ext : list item,
         skb_data (snd (m skb)) = skb_data skb ++ ext
         /\ items_len ext <= n
         /\ Forall P ext.

(** [in_nest base P n m]: run on a buffer that holds [base] and then an
    open nest, [m] either trims the buffer back to [base] or adds items
    as above. *)
Definition in_nest {A : Type} (base : list item) (P : item -> Prop) (n : Z)
    (m : skbM A) : Prop :=
  forall (ext0 : list item) (cap : Z),
    let skb' := snd (m {| skb_data := base ++ ext0; skb_end := cap |}) in
    skb_end skb' = cap
    /\ (skb_data skb' = base
        \/ exists ext : list item,
             skb_data skb' = base ++ ext0 ++ ext
             /\ items_len ext <= n
             /\ Forall P ext).

(** [keeps_prefix m]: [m] leaves the items of the buffer in place, and its
    capacity. *)
Definition keeps_prefix {A : Type} (m : skbM A) : Prop :=
  forall skb : sk_buff,
    skb_end (snd (m skb)) = skb_end skb
    /\ exists ext : list item, skb_data (snd (m skb)) = skb_data skb ++ ext.

(** The items that are not the header of a nest of another type than
    [ty]. *)
Definition nest_is (ty : nat) (i : item) : Prop :=
  match i with
  | INest ty' => ty' = ty
  | _ => True
  end.

End Buffer.

(** *** Reading updates from attributes *)

(** Modelled from the spec: the [ethnl_update_*] helpers of [netlink.h]
    are not among the sources.  Each compares the value an attribute
    proposes with the current one, stores it when they differ, and tells
    whether it did; an absent attribute changes nothing. *)
Definition ethnl_update_u32 (dst : Z) (attr : option nla_data) : bool * Z :=
  match attr with
  | None => (false, dst)
  | Some d => let val := nla_get_u32 d in
              if dst =? val then (false, dst) else (true, val)
  end.

Definition ethnl_update_u8 (dst : Z) (attr : option nla_data) : bool * Z :=
  match attr with
  | None => (false, dst)
  | Some d => let val := nla_get_u8 d in
              if dst =? val then (false, dst) else (true, val)
  end.

Definition to_bool (v : Z) : Z := if v =? 0 then 0 else 1.

Definition ethnl_update_bool32 (dst : Z) (attr : option nla_data) : bool * Z :=
  match attr with
  | None => (false, dst)
  | Some d => let val := to_bool (nla_get_u8 d) in
              if to_bool dst =? val then (false, dst) else (true, val)
  end.

(** Modelled from the spec: without an attribute nothing is decoded and
    the bitmap stays as it is; a present attribute is the codec's to
    decode. *)
Definition ethnl_update_bitset {codec : bitset_codec} (bitmap : Z)
    (attr : option nla_data) : bool * Z * Z :=
  match attr with
  | None => (false, 0, bitmap)
  | Some d => bitset_decode bitmap d
  end.

End Nl.

(** ** Devices and their ethtool operations *)

Module Dev.

Record ethtool_link_settings : Type :=
  { speed : Z; duplex : Z; port : Z; phy_address : Z; autoneg : Z;
    eth_tp_mdix : Z; eth_tp_mdix_ctrl : Z; transceiver : Z }.

(** The three link mode bitmaps; bit [i] of the integer is bit [i] of the
    bitmap. *)
Record ethtool_link_modes : Type :=
  { supported : Z; advertising : Z; lp_advertising : Z }.

Record ethtool_link_ksettings : Type :=
  { base : ethtool_link_settings; link_modes : ethtool_link_modes }.

Record ethtool_wolinfo : Type :=
  { wol_supported : Z; wolopts : Z; sopass : list Z }.

(** [struct ethtool_coalesce]: its 22 integer fields, by name. *)
Inductive coalesce_field : Type :=
| rx_coalesce_usecs | rx_max_coalesced_frames
| rx_coalesce_usecs_irq | rx_max_coalesced_frames_irq
| tx_coalesce_usecs | tx_max_coalesced_frames
| tx_coalesce_usecs_irq | tx_max_coalesced_frames_irq
| stats_block_coalesce_usecs
| use_adaptive_rx_coalesce | use_adaptive_tx_coalesce
| pkt_rate_low
| rx_coalesce_usecs_low | rx_max_coalesced_frames_low
| tx_coalesce_usecs_low | tx_max_coalesced_frames_low
| pkt_rate_high
| rx_coalesce_usecs_high | rx_max_coalesced_frames_high
| tx_coalesce_usecs_high | tx_max_coalesced_frames_high
| rate_sample_interval.

Definition coalesce_field_eq_dec (a b : coalesce_field) : {a = b} + {a <> b}.
Proof. decide equality. Defined.

Definition ethtool_coalesce : Type := coalesce_field -> Z.

Definition coalesce_set (f : coalesce_field) (v : Z) (data : ethtool_coalesce)
    : ethtool_coalesce :=
  fun g => if coalesce_field_eq_dec g f then v else data g.

Record ethtool_ringparam : Type :=
  { rx_max_pending : Z; rx_mini_max_pending : Z; rx_jumbo_max_pending : Z;
    tx_max_pending : Z;
    rx_pending : Z; rx_mini_pending : Z; rx_jumbo_pending : Z; tx_pending : Z }.

Record ethtool_pauseparam : Type :=
  { pause_autoneg : Z; rx_pause : Z; tx_pause : Z }.

Record ethtool_channels : Type :=
  { max_rx : Z; max_tx : Z; max_other : Z; max_combined : Z;
    rx_count : Z; tx_count : Z; other_count : Z; combined_count : Z }.

Section WithDriver.
(** The private state of a driver; its operations read and change it. *)
Context {drv : Type}.

(** [dev->ethtool_ops]: every operation may be missing.  The [get]
    operations of the C code fill a zeroed structure; here they return it. *)
Record ethtool_ops : Type :=
  { get_coalesce : option (drv -> Z * ethtool_coalesce);
    set_coalesce : option (ethtool_coalesce -> drv -> Z * drv);
    get_ringparam : option (drv -> ethtool_ringparam);
    set_ringparam : option (ethtool_ringparam -> drv -> Z * drv);
    get_pauseparam : option (drv -> ethtool_pauseparam);
    set_pauseparam : option (ethtool_pauseparam -> drv -> Z * drv);
    get_channels : option (drv -> ethtool_channels);
    set_channels : option (ethtool_channels -> drv -> Z * drv) }.

(** A device.  The helpers of the ethtool core that are not among the
    sources are fields: what [ethnl_before_ops], [__ethtool_get_link],
    [__ethtool_get_link_ksettings], [__ethtool_get_wol] and
    [__ethtool_set_channels] return on this device. *)
Record net_device : Type :=
  { ifindex : Z;
    name : string;
    netif_device_present : bool;
    ops : ethtool_ops;
    priv : drv;
    ethnl_before_ops : drv -> Z;
    __ethtool_get_link : drv -> Z;
    __ethtool_get_link_ksettings : drv -> Z * ethtool_link_ksettings;
    __ethtool_get_wol : drv -> Z * ethtool_wolinfo;
    __ethtool_set_channels :
      ethtool_channels -> ethtool_channels -> drv -> Z * drv }.

Definition with_priv (dev : net_device) (p : drv) : net_device :=
  {| ifindex := ifindex dev; name := name dev;
     netif_device_present := netif_device_present dev;
     ops := ops dev; priv := p;
     ethnl_before_ops := ethnl_before_ops dev;
     __ethtool_get_link := __ethtool_get_link dev;
     __ethtool_get_link_ksettings := __ethtool_get_link_ksettings dev;
     __ethtool_get_wol := __ethtool_get_wol dev;
     __ethtool_set_channels := __ethtool_set_channels dev |}.

Definition NETDEV_HASHENTRIES : nat := 256.

(** A network namespace: the devices in the buckets of the index hash, and
    the number of references held on each device, by ifindex. *)
Record net : Type :=
  { dev_index_head : list (list net_device);
    dev_refcnt : Z -> Z }.

Definition dev_hold (n : net) (idx : Z) : net :=
  {| dev_index_head := dev_index_head n;
     dev_refcnt := fun i => if i =? idx then dev_refcnt n i + 1 else dev_refcnt n i |}.

(** Modelled from the spec: [dev_put] gives back one reference to the
    device. *)
Definition dev_put (n : net) (dev : net_device) : net :=
  {| dev_index_head := dev_index_head n;
     dev_refcnt := fun i => if i =? ifindex dev then dev_refcnt n i - 1
                            else dev_refcnt n i |}.

Definition all_devices (n : net) : list net_device := concat (dev_index_head n).

(** The registry holds the devices by value; after a driver operation has
    changed a device, [dev_store] puts its new state in its place. *)
Definition dev_store (n : net) (dev : net_device) : net :=
  {| dev_index_head :=
       map (map (fun d => if ifindex d =? ifindex dev then dev else d))
           (dev_index_head n);
     dev_refcnt := dev_refcnt n |}.

(** Modelled from the spec: the registry's lookups are not among the
    sources.  [dev_get_by_index] finds the device with the given ifindex
    and takes a reference on it. *)
Definition dev_get_by_index (n : net) (idx : Z) : option net_device * net :=
  match find (fun d => ifindex d =? idx) (all_devices n) with
  | Some d => (Some d, dev_hold n (ifindex d))
  | None => (None, n)
  end.

(** Modelled from the spec: [dev_get_by_name] finds the device with the
    given name and takes a reference on it. *)
Definition dev_get_by_name (n : net) (nm : string) : option net_device * net :=
  match find (fun d => if string_dec (name d) nm then true else false)
             (all_devices n) with
  | Some d => (Some d, dev_hold n (ifindex d))
  | None => (None, n)
  end.

End WithDriver.

Arguments ethtool_ops : clear implicits.
Arguments net_device : clear implicits.
Arguments net : clear implicits.

Definition IFNAMSIZ : nat := 16.

(** [strncmp]: zero when the two strings agree on their first [n]
    characters (or are equal and shorter), non-zero otherwise. *)
Fixpoint strncmp (a b : string) (n : nat) : Z :=
  match n with
  | O => 0
  | S n' =>
      match a, b with
      | EmptyString, EmptyString => 0
      | EmptyString, String _ _ => -1
      | String _ _, EmptyString => 1
      | String c a', String d b' =>
          if Ascii.ascii_dec c d then strncmp a' b' n'
          else if (Ascii.nat_of_ascii c <? Ascii.nat_of_ascii d)%nat then -1 else 1
      end
  end.

End Dev.

(** ** [net/ethtool/netlink.c]: device resolution and the GET engine *)

Module Netlink.
Import Nl Dev.

Definition ETHTOOL_A_DEV_UNSPEC : nat := 0.
Definition ETHTOOL_A_DEV_INDEX : nat := 1.
Definition ETHTOOL_A_DEV_NAME : nat := 2.
Definition ETHTOOL_A_DEV_MAX : nat := 2.

Definition dev_policy : list nla_policy :=
  [ pol NLA_REJECT;
    pol NLA_U32;
    {| pol_type := NLA_NUL_STRING; pol_len := Z.of_nat IFNAMSIZ - 1 |} ].

(** The attribute an error message points at: the nest that was passed in,
    or the attribute of some type inside the parsed table. *)
Inductive attr_ref : Type :=
| TheNest
| InTable (ty : nat).

(** [info->extack]: the message and the offending attribute. *)
Record genl_info : Type :=
  { _msg : option string; bad_attr : option attr_ref }.

Definition GENL_SET_ERR_MSG (info : genl_info) (msg : string) : genl_info :=
  {| _msg := Some msg; bad_attr := bad_attr info |}.

Definition NL_SET_ERR_MSG_ATTR (info : genl_info) (attr : attr_ref)
    (msg : string) : genl_info :=
  {| _msg := Some msg; bad_attr := Some attr |}.

(** [ERR_PTR(err)] or a device. *)
Definition dev_or_err (drv : Type) : Type := (Z + net_device drv)%type.

Section WithDriver.
Context {drv : Type}.

Definition ethnl_dev_get (n : net drv) (info : genl_info)
    (nest : option nla_data) : dev_or_err drv * genl_info * net drv :=
  match nest with
  | None =>
      (inl (- EINVAL), GENL_SET_ERR_MSG info "device identification missing", n)
  | Some nst =>
  match nla_parse ETHTOOL_A_DEV_MAX dev_policy (nla_nested nst) with
  | inl ret => (inl ret, info, n)
  | inr tb =>
      let check_present (dev : net_device drv) (n : net drv) :=
        if negb (netif_device_present dev)
        then (inl (- ENODEV), GENL_SET_ERR_MSG info "device not present",
              dev_put n dev)
        else (inr dev, info, n) in
      match tb_get tb ETHTOOL_A_DEV_INDEX with
      | Some a_index =>
          match dev_get_by_index n (nla_get_u32 a_index) with
          | (None, n) =>
              (inl (- ENODEV),
               NL_SET_ERR_MSG_ATTR info (InTable ETHTOOL_A_DEV_INDEX)
                 "no device matches ifindex", n)
          | (Some dev, n) =>
              (* if both ifindex and ifname are passed, they must match *)
              match tb_get tb ETHTOOL_A_DEV_NAME with
              | Some a_name =>
                  let nl_name := nla_data_string a_name in
                  if negb (strncmp (name dev) nl_name IFNAMSIZ =? 0)
                  then (inl (- ENODEV),
                        NL_SET_ERR_MSG_ATTR info TheNest
                          "ifindex and name do not match",
                        dev_put n dev)
                  else (inr dev, info, n)
              | None => (inr dev, info, n)
              end
          end
      | None =>
          match tb_get tb ETHTOOL_A_DEV_NAME with
          | Some a_name =>
              match dev_get_by_name n (nla_data_string a_name) with
              | (None, n) =>
                  (inl (- ENODEV),
                   NL_SET_ERR_MSG_ATTR info (InTable ETHTOOL_A_DEV_NAME)
                     "no device matches name", n)
              | (Some dev, n) => check_present dev n
              end
          | None =>
              (inl (- EINVAL),
               NL_SET_ERR_MSG_ATTR info TheNest
                 "neither ifindex nor name specified", n)
          end
      end
  end
  end.

Context {codec : bitset_codec}.

Definition ethnl_fill_dev (dev : net_device drv) (attrtype : nat) : skbM Z :=
  bind (nla_nest_start attrtype) (fun nest =>
  match nest with
  | None => ret (- EMSGSIZE)
  | Some nest =>
      bind (nla_put_u32 ETHTOOL_A_DEV_INDEX (ifindex dev)) (fun r =>
      if negb (r =? 0) then bind (nla_nest_cancel nest) (fun _ => ret (- EMSGSIZE))
      else
      bind (nla_put_string ETHTOOL_A_DEV_NAME (name dev)) (fun r =>
      if negb (r =? 0) then bind (nla_nest_cancel nest) (fun _ => ret (- EMSGSIZE))
      else bind (nla_nest_end nest) (fun _ => ret 0)))
  end).

(** Modelled from the spec: [dev_ident_size] of [netlink.h] is not among
    the sources; it is the room the identification nest can take, an
    index and a name of at most [IFNAMSIZ] bytes. *)
Definition dev_ident_size : Z :=
  nla_total_size (nla_total_size 4 + nla_total_size (Z.of_nat IFNAMSIZ)).

(** Modelled from the spec: [warn_partial_info] of [netlink.h] is not among
    the sources; it records the diagnostic of a reply that lacks some of
    the requested information, when there is somewhere to record it. *)
Definition warn_partial_info (info : option genl_info) : option genl_info :=
  match info with
  | Some i => Some (GENL_SET_ERR_MSG i "not all requested data could be retrieved")
  | None => None
  end.

(** *** GET requests *)

Record common_req_info : Type :=
  { req_dev : option (net_device drv); req_mask : Z; compact : bool }.

Record common_reply_data : Type :=
  { rep_dev : option (net_device drv); info_mask : Z }.

(** The working record of a request.  The first two fields are the part
    before [repdata_offset], kept for the whole request; the last two are
    the reply part, cleared for every device. *)
Record get_data (Q R : Type) : Type :=
  { reqinfo_base : common_req_info;
    req_rest : Q;
    repdata_base : common_reply_data;
    rep_rest : R }.
Arguments reqinfo_base {Q R}.
Arguments req_rest {Q R}.
Arguments repdata_base {Q R}.
Arguments rep_rest {Q R}.

(** A received request: its attributes, and whether its sender is
    privileged (what [ethnl_is_privileged] finds). *)
Record nlmsghdr : Type :=
  { nlmsg_attrs : list nlattr; sender_privileged : bool }.

(** One command.  [rep_zero] is the reply part after [memset];
    [prepare_data] is given the device of [repdata_base], which the engine
    stored just before the call. *)
Record get_request_ops (Q R : Type) : Type :=
  { request_cmd : Z;
    reply_cmd : Z;
    dev_attrtype : nat;
    rep_zero : R;
    parse_request : net drv -> get_data Q R -> nlmsghdr -> genl_info ->
                    Z * get_data Q R * genl_info * net drv;
    prepare_data : get_data Q R -> net_device drv -> option genl_info ->
                   Z * get_data Q R * option genl_info;
    reply_size : get_data Q R -> Z;
    fill_reply : get_data Q R -> skbM Z }.
Arguments request_cmd {Q R}.
Arguments reply_cmd {Q R}.
Arguments dev_attrtype {Q R}.
Arguments rep_zero {Q R}.
Arguments parse_request {Q R}.
Arguments prepare_data {Q R}.
Arguments reply_size {Q R}.
Arguments fill_reply {Q R}.

Section Engine.
Context {Q R : Type}.
Variable ops : get_request_ops Q R.

Definition set_rep_dev (data : get_data Q R) (d : option (net_device drv))
    : get_data Q R :=
  {| reqinfo_base := reqinfo_base data; req_rest := req_rest data;
     repdata_base := {| rep_dev := d; info_mask := info_mask (repdata_base data) |};
     rep_rest := rep_rest data |}.

Definition ethnl_init_reply_data (data : get_data Q R) (dev : net_device drv)
    : get_data Q R :=
  {| reqinfo_base := reqinfo_base data; req_rest := req_rest data;
     repdata_base := {| rep_dev := Some dev; info_mask := 0 |};
     rep_rest := rep_zero ops |}.

Definition ethnl_get_dump_one (dev : net_device drv) (data : get_data Q R)
    (skb : sk_buff) : Z * get_data Q R * sk_buff :=
  let data := ethnl_init_reply_data data dev in
  let '(ret, data, _) := prepare_data ops data dev None in
  if ret <? 0 then (ret, set_rep_dev data None, skb)
  else
    let (ret, skb) := ethnl_fill_dev dev (dev_attrtype ops) skb in
    if ret <? 0 then (ret, set_rep_dev data None, skb)
    else
      let (ret, skb) := fill_reply ops data skb in
      (ret, set_rep_dev data None, skb).

(** How the walk over the devices ended: it ran through ([Done]), or it
    jumped to [out] or to [out_err] with the error. *)
Inductive dump_exit : Type :=
| Done
| GotoOut
| GotoOutErr (ret : Z).

(** The body of [hlist_for_each_entry] over the devices left in a bucket;
    [idx] counts the devices passed. *)
Fixpoint dump_bucket (devs : list (net_device drv)) (idx s_idx : nat)
    (data : get_data Q R) (skb : sk_buff)
    : dump_exit * nat * get_data Q R * sk_buff :=
  match devs with
  | [] => (Done, idx, data, skb)
  | dev :: rest =>
      if (idx <? s_idx)%nat then dump_bucket rest (S idx) s_idx data skb
      else
        let (ehdr, skb) := genlmsg_put (reply_cmd ops) skb in
        let '(ret, data, skb) := ethnl_get_dump_one dev data skb in
        if ret <? 0 then
          let (_, skb) := genlmsg_cancel ehdr skb in
          if ret =? - EOPNOTSUPP then dump_bucket rest (S idx) s_idx data skb
          else if negb (skb_len skb =? 0) then (GotoOut, idx, data, skb)
          else (GotoOutErr ret, idx, data, skb)
        else
          let (_, skb) := genlmsg_end ehdr skb in
          dump_bucket rest (S idx) s_idx data skb
  end.

(** The loop over the buckets [h], [h + 1], ... below
    [NETDEV_HASHENTRIES]; [todo] is the number of buckets left. *)
Fixpoint dump_buckets (heads : list (list (net_device drv))) (todo : nat)
    (h idx s_idx : nat) (data : get_data Q R) (skb : sk_buff)
    : dump_exit * nat * nat * get_data Q R * sk_buff :=
  match todo with
  | O => (Done, h, idx, data, skb)
  | S todo' =>
      let head := default [] (heads !! h) in
      match dump_bucket head 0 s_idx data skb with
      | (Done, idx, data, skb) =>
          dump_buckets heads todo' (S h) idx 0%nat data skb
      | (exit, idx, data, skb) => (exit, h, idx, data, skb)
      end
  end.

(** The state a dump keeps between calls: [cb->args[1..3]]. *)
Record netlink_callback : Type :=
  { cb_data : get_data Q R; cb_h : nat; cb_idx : nat }.

Definition ethnl_get_dumpit (n : net drv) (skb : sk_buff) (cb : netlink_callback)
    : Z * sk_buff * netlink_callback :=
  let s_h := cb_h cb in
  let s_idx := cb_idx cb in
  let '(exit, h, idx, data, skb) :=
    dump_buckets (dev_index_head n) (NETDEV_HASHENTRIES - s_h) s_h 0 s_idx
      (cb_data cb) skb in
  let ret := match exit with
             | GotoOutErr ret => ret
             | _ => skb_len skb
             end in
  (ret, skb, {| cb_data := data; cb_h := h; cb_idx := idx |}).

(** *** A dump as a walk over a list

    The devices a cursor has not passed yet, in the order of the walk:
    the rest of its bucket, then the buckets after it. *)
Definition pending (n : net drv) (cb : netlink_callback) : list (net_device drv) :=
  drop (cb_idx cb) (default [] (dev_index_head n !! cb_h cb))
  ++ concat (drop (S (cb_h cb)) (dev_index_head n)).

(** The spec's words for one dump step: handle the devices still to visit
    one after the other, each once; a device that is not supported is
    passed without a trace; any other failure stops the step at that
    device.  Returns how the step ended, the devices passed, the devices
    left, the record and the buffer. *)
Fixpoint dump_devices (devs : list (net_device drv)) (data : get_data Q R)
    (skb : sk_buff)
    : dump_exit * list (net_device drv) * list (net_device drv)
      * get_data Q R * sk_buff :=
  match devs with
  | [] => (Done, [], [], data, skb)
  | dev :: rest =>
      let (ehdr, skb1) := genlmsg_put (reply_cmd ops) skb in
      let '(ret, data, skb2) := ethnl_get_dump_one dev data skb1 in
      if ret <? 0 then
        let (_, skb3) := genlmsg_cancel ehdr skb2 in
        if ret =? - EOPNOTSUPP then
          let '(exit, passed, rest_, data, skb) := dump_devices rest data skb3 in
          (exit, dev :: passed, rest_, data, skb)
        else if negb (skb_len skb3 =? 0) then (GotoOut, [], dev :: rest, data, skb3)
        else (GotoOutErr ret, [], dev :: rest, data, skb3)
      else
        let (_, skb3) := genlmsg_end ehdr skb2 in
        let '(exit, passed, rest_, data, skb) := dump_devices rest data skb3 in
        (exit, dev :: passed, rest_, data, skb)
  end.

Definition dump_ret (exit : dump_exit) (skb : sk_buff) : Z :=
  match exit with
  | GotoOutErr ret => ret
  | _ => skb_len skb
  end.

(** Modelled from the spec: the transport that drives a dump is not among
    the sources.  It calls the dump step with an empty buffer, sends what
    the step wrote, and calls it again with the cursor the step left, for
    as long as the step returns a positive length.  [caps] gives the
    capacity of the buffer of each call. *)
Fixpoint dump_session (n : net drv) (caps : list Z) (cb : netlink_callback)
    : list (Z * sk_buff) * netlink_callback :=
  match caps with
  | [] => ([], cb)
  | cap :: caps =>
      let '(ret, skb, cb) :=
        ethnl_get_dumpit n {| skb_data := []; skb_end := cap |} cb in
      if 0 <? ret then
        let (sent, cb) := dump_session n caps cb in ((ret, skb) :: sent, cb)
      else ([(ret, skb)], cb)
  end.

(** The spec's words for a whole dump: the same calls, each a walk over the
    devices the calls before it left.  Returns what each call returned and
    wrote, the devices each call passed, and the devices left at the
    end. *)
Fixpoint walk_session (caps : list Z) (devs : list (net_device drv))
    (data : get_data Q R)
    : list (Z * sk_buff) * list (list (net_device drv)) * list (net_device drv) :=
  match caps with
  | [] => ([], [], devs)
  | cap :: caps =>
      let '(exit, passed, rest0, data, skb) :=
        dump_devices devs data {| skb_data := []; skb_end := cap |} in
      let ret := dump_ret exit skb in
      if 0 <? ret then
        let '(sent, passes, rest_) := walk_session caps rest0 data in
        ((ret, skb) :: sent, passed :: passes, rest_)
      else ([(ret, skb)], [passed], rest0)
  end.

End Engine.
End WithDriver.

Arguments common_req_info : clear implicits.
Arguments common_reply_data : clear implicits.
Arguments get_data : clear implicits.
Arguments get_request_ops : clear implicits.
Arguments netlink_callback : clear implicits.
Arguments reqinfo_base {drv Q R}.
Arguments req_rest {drv Q R}.
Arguments repdata_base {drv Q R}.
Arguments rep_rest {drv Q R}.
Arguments request_cmd {drv Q R}.
Arguments reply_cmd {drv Q R}.
Arguments dev_attrtype {drv Q R}.
Arguments rep_zero {drv Q R}.
Arguments parse_request {drv Q R}.
Arguments prepare_data {drv Q R}.
Arguments reply_size {drv Q R}.
Arguments fill_reply {drv Q R}.

End Netlink.

(** ** [net/ethtool/settings.c]: link settings *)

Module Settings.
Import Nl Dev Netlink.

Definition ETHTOOL_A_SETTINGS_UNSPEC : nat := 0.
Definition ETHTOOL_A_SETTINGS_DEV : nat := 1.
Definition ETHTOOL_A_SETTINGS_INFOMASK : nat := 2.
Definition ETHTOOL_A_SETTINGS_COMPACT : nat := 3.
Definition ETHTOOL_A_SETTINGS_LINK_INFO : nat := 4.
Definition ETHTOOL_A_SETTINGS_LINK_MODES : nat := 5.
Definition ETHTOOL_A_SETTINGS_LINK_STATE : nat := 6.
Definition ETHTOOL_A_SETTINGS_WOL : nat := 7.
Definition ETHTOOL_A_SETTINGS_MAX : nat := 7.

Definition ETHTOOL_A_LINKINFO_PORT : nat := 1.
Definition ETHTOOL_A_LINKINFO_PHYADDR : nat := 2.
Definition ETHTOOL_A_LINKINFO_TP_MDIX : nat := 3.
Definition ETHTOOL_A_LINKINFO_TP_MDIX_CTRL : nat := 4.
Definition ETHTOOL_A_LINKINFO_TRANSCEIVER : nat := 5.

Definition ETHTOOL_A_LINKMODES_AUTONEG : nat := 1.
Definition ETHTOOL_A_LINKMODES_OURS : nat := 2.
Definition ETHTOOL_A_LINKMODES_PEER : nat := 3.
Definition ETHTOOL_A_LINKMODES_SPEED : nat := 4.
Definition ETHTOOL_A_LINKMODES_DUPLEX : nat := 5.
Definition ETHTOOL_A_LINKMODES_MAX : nat := 5.

Definition ETHTOOL_A_LINKSTATE_LINK : nat := 1.

Definition ETHTOOL_A_WOL_MODES : nat := 1.
Definition ETHTOOL_A_WOL_SOPASS : nat := 2.

(** The categories of the info mask, one bit each. *)
Definition ETHTOOL_IM_SETTINGS_LINKINFO : Z := 1.
Definition ETHTOOL_IM_SETTINGS_LINKMODES : Z := 2.
Definition ETHTOOL_IM_SETTINGS_LINKSTATE : Z := 4.
Definition ETHTOOL_IM_SETTINGS_WOL : Z := 8.
Definition ETHTOOL_IM_SETTINGS_ALL : Z := 15.

Definition SOPASS_MAX : Z := 6.
Definition ETHNL_CMD_GET_SETTINGS : Z := 3.
Definition ETHNL_CMD_SET_SETTINGS : Z := 4.

Definition SPEED_UNKNOWN : Z := -1.
Definition DUPLEX_HALF : Z := 0.
Definition DUPLEX_FULL : Z := 1.
Definition DUPLEX_UNKNOWN : Z := 255.

Record link_mode_info : Type := { lm_speed : Z; lm_duplex : Z }.

Definition LINK_MODE (s d : Z) : link_mode_info := {| lm_speed := s; lm_duplex := d |}.
Definition SPECIAL_MODE : link_mode_info :=
  {| lm_speed := SPEED_UNKNOWN; lm_duplex := DUPLEX_UNKNOWN |}.
Definition Half : Z := DUPLEX_HALF.
Definition Full : Z := DUPLEX_FULL.

(** [link_mode_params], in the order of the bits: entry [i] describes link
    mode bit [i]. *)
Definition link_mode_params : list link_mode_info :=
  [ LINK_MODE 10 Half; LINK_MODE 10 Full;
    LINK_MODE 100 Half; LINK_MODE 100 Full;
    LINK_MODE 1000 Half; LINK_MODE 1000 Full;
    SPECIAL_MODE (* Autoneg *); SPECIAL_MODE (* TP *); SPECIAL_MODE (* AUI *);
    SPECIAL_MODE (* MII *); SPECIAL_MODE (* FIBRE *); SPECIAL_MODE (* BNC *);
    LINK_MODE 10000 Full;
    SPECIAL_MODE (* Pause *); SPECIAL_MODE (* Asym_Pause *);
    LINK_MODE 2500 Full;
    SPECIAL_MODE (* Backplane *);
    LINK_MODE 1000 Full; LINK_MODE 10000 Full; LINK_MODE 10000 Full;
    LINK_MODE 10000 Full (* 10000baseR_FEC *);
    LINK_MODE 20000 Full; LINK_MODE 20000 Full;
    LINK_MODE 40000 Full; LINK_MODE 40000 Full; LINK_MODE 40000 Full;
    LINK_MODE 40000 Full;
    LINK_MODE 56000 Full; LINK_MODE 56000 Full; LINK_MODE 56000 Full;
    LINK_MODE 56000 Full;
    LINK_MODE 25000 Full; LINK_MODE 25000 Full; LINK_MODE 25000 Full;
    LINK_MODE 50000 Full; LINK_MODE 50000 Full;
    LINK_MODE 100000 Full; LINK_MODE 100000 Full; LINK_MODE 100000 Full;
    LINK_MODE 100000 Full;
    LINK_MODE 50000 Full;
    LINK_MODE 1000 Full;
    LINK_MODE 10000 Full; LINK_MODE 10000 Full; LINK_MODE 10000 Full;
    LINK_MODE 10000 Full; LINK_MODE 10000 Full;
    LINK_MODE 2500 Full; LINK_MODE 5000 Full;
    SPECIAL_MODE (* FEC_NONE *); SPECIAL_MODE (* FEC_RS *);
    SPECIAL_MODE (* FEC_BASER *);
    LINK_MODE 50000 Full; LINK_MODE 50000 Full; LINK_MODE 50000 Full;
    LINK_MODE 50000 Full; LINK_MODE 50000 Full;
    LINK_MODE 100000 Full; LINK_MODE 100000 Full; LINK_MODE 100000 Full;
    LINK_MODE 100000 Full; LINK_MODE 100000 Full;
    LINK_MODE 200000 Full; LINK_MODE 200000 Full; LINK_MODE 200000 Full;
    LINK_MODE 200000 Full; LINK_MODE 200000 Full ].

(** The number of link mode bits; the table has an entry for each. *)
Definition __ETHTOOL_LINK_MODE_MASK_NBITS : Z := 67.

Definition get_settings_policy : list nla_policy :=
  [ pol NLA_REJECT; pol NLA_NESTED; pol NLA_U32; pol NLA_FLAG;
    pol NLA_REJECT; pol NLA_REJECT; pol NLA_REJECT; pol NLA_REJECT ].

Definition set_linkmodes_policy : list nla_policy :=
  [ pol NLA_REJECT; pol NLA_U8; pol NLA_NESTED; pol NLA_REJECT;
    pol NLA_U32; pol NLA_U8 ].

Definition bitmap_empty (bitmap nbits : Z) : bool :=
  Z.land bitmap (Z.ones nbits) =? 0.
Definition bitmap_equal (a b nbits : Z) : bool :=
  Z.land a (Z.ones nbits) =? Z.land b (Z.ones nbits).

(** The reply part of [struct settings_data] after its base.  The pointer
    [lsettings] always points at [ksettings.base] and is not a field here. *)
Record settings_reply : Type :=
  { ksettings : ethtool_link_ksettings;
    wolinfo : ethtool_wolinfo;
    link : Z;
    lpm_empty : bool }.

Record settings_req : Type := { privileged : bool }.

Definition zero_link_settings : ethtool_link_settings :=
  {| speed := 0; duplex := 0; port := 0; phy_address := 0; autoneg := 0;
     eth_tp_mdix := 0; eth_tp_mdix_ctrl := 0; transceiver := 0 |}.

Definition zero_settings_reply : settings_reply :=
  {| ksettings := {| base := zero_link_settings;
                     link_modes := {| supported := 0; advertising := 0;
                                      lp_advertising := 0 |} |};
     wolinfo := {| wol_supported := 0; wolopts := 0; sopass := [0; 0; 0; 0; 0; 0] |};
     link := 0;
     lpm_empty := false |}.

Section WithDriver.
Context {drv : Type} {codec : bitset_codec}.

Definition settings_data : Type := get_data drv settings_req settings_reply.

Definition set_reqinfo (data : settings_data) (ri : common_req_info drv)
    : settings_data :=
  {| reqinfo_base := ri; req_rest := req_rest data;
     repdata_base := repdata_base data; rep_rest := rep_rest data |}.

Definition set_req_rest (data : settings_data) (q : settings_req)
    : settings_data :=
  {| reqinfo_base := reqinfo_base data; req_rest := q;
     repdata_base := repdata_base data; rep_rest := rep_rest data |}.

Definition set_reply (data : settings_data) (b : common_reply_data drv)
    (r : settings_reply) : settings_data :=
  {| reqinfo_base := reqinfo_base data; req_rest := req_rest data;
     repdata_base := b; rep_rest := r |}.

Definition parse_settings (n : net drv) (data : settings_data)
    (nlhdr : nlmsghdr) (info : genl_info)
    : Z * settings_data * genl_info * net drv :=
  let data := set_req_rest data {| privileged := sender_privileged nlhdr |} in
  match nla_parse ETHTOOL_A_SETTINGS_MAX get_settings_policy (nlmsg_attrs nlhdr) with
  | inl ret => (ret, data, info, n)
  | inr tb =>
      let req_info := reqinfo_base data in
      let resolved :=
        match tb_get tb ETHTOOL_A_SETTINGS_DEV with
        | Some a_dev =>
            match ethnl_dev_get n info (Some a_dev) with
            | (inr dev, info, n) => (inr (Some dev), info, n)
            | (inl ret, info, n) => (inl ret, info, n)
            end
        | None => (inr (req_dev req_info), info, n)
        end in
      match resolved with
      | (inl ret, info, n) =>
          (ret,
           set_reqinfo data {| req_dev := None; req_mask := req_mask req_info;
                               compact := compact req_info |},
           info, n)
      | (inr dev, info, n) =>
          let mask := match tb_get tb ETHTOOL_A_SETTINGS_INFOMASK with
                      | Some a => nla_get_u32 a
                      | None => req_mask req_info
                      end in
          let cpt := match tb_get tb ETHTOOL_A_SETTINGS_COMPACT with
                     | Some _ => true
                     | None => compact req_info
                     end in
          let mask := if mask =? 0 then ETHTOOL_IM_SETTINGS_ALL else mask in
          (0,
           set_reqinfo data {| req_dev := dev; req_mask := mask; compact := cpt |},
           info, n)
      end
  end.

Definition ethnl_get_link_ksettings (info : option genl_info)
    (dev : net_device drv) : Z * ethtool_link_ksettings * option genl_info :=
  let (ret, ks) := __ethtool_get_link_ksettings dev (priv dev) in
  match info with
  | Some i => if ret <? 0
              then (ret, ks, Some (GENL_SET_ERR_MSG i "failed to retrieve link settings"))
              else (ret, ks, info)
  | None => (ret, ks, info)
  end.

Definition ethnl_get_wol (info : option genl_info) (dev : net_device drv)
    : Z * ethtool_wolinfo * option genl_info :=
  let (ret, wol) := __ethtool_get_wol dev (priv dev) in
  match info with
  | Some i => if ret <? 0
              then (ret, wol, Some (GENL_SET_ERR_MSG i "failed to retrieve wol info"))
              else (ret, wol, info)
  | None => (ret, wol, info)
  end.

Definition prepare_settings (data : settings_data) (dev : net_device drv)
    (info : option genl_info) : Z * settings_data * option genl_info :=
  let req_info := reqinfo_base data in
  let req_mask0 := req_mask req_info in
  let rep := rep_rest data in
  let rep := {| ksettings := ksettings rep; wolinfo := wolinfo rep;
                link := - EOPNOTSUPP; lpm_empty := true |} in
  let ret := ethnl_before_ops dev (priv dev) in
  if ret <? 0 then (ret, set_reply data (repdata_base data) rep, info)
  else
    let '(mask, rep, info) :=
      if negb (Z.land req_mask0
                 (Z.lor ETHTOOL_IM_SETTINGS_LINKINFO ETHTOOL_IM_SETTINGS_LINKMODES) =? 0)
      then
        let '(ret, ks, info) := ethnl_get_link_ksettings info dev in
        let rep := {| ksettings := ks; wolinfo := wolinfo rep;
                      link := link rep; lpm_empty := lpm_empty rep |} in
        if ret <? 0
        then (Z.land req_mask0
                (Z.lnot (Z.lor ETHTOOL_IM_SETTINGS_LINKINFO
                               ETHTOOL_IM_SETTINGS_LINKMODES)), rep, info)
        else (req_mask0, rep, info)
      else (req_mask0, rep, info) in
    (* ethnl_bitmap_to_u32 only lays the three bitmaps out as u32 words *)
    let rep :=
      if negb (Z.land mask ETHTOOL_IM_SETTINGS_LINKMODES =? 0)
      then {| ksettings := ksettings rep; wolinfo := wolinfo rep; link := link rep;
              lpm_empty :=
                bitmap_empty (lp_advertising (link_modes (ksettings rep)))
                             __ETHTOOL_LINK_MODE_MASK_NBITS |}
      else rep in
    let rep :=
      if negb (Z.land mask ETHTOOL_IM_SETTINGS_LINKSTATE =? 0)
      then {| ksettings := ksettings rep; wolinfo := wolinfo rep;
              link := __ethtool_get_link dev (priv dev);
              lpm_empty := lpm_empty rep |}
      else rep in
    let '(mask, rep, info) :=
      if negb (Z.land mask ETHTOOL_IM_SETTINGS_WOL =? 0)
      then
        let '(ret, wol, info) := ethnl_get_wol info dev in
        let rep := {| ksettings := ksettings rep; wolinfo := wol;
                      link := link rep; lpm_empty := lpm_empty rep |} in
        if ret <? 0
        then (Z.land mask (Z.lnot ETHTOOL_IM_SETTINGS_WOL), rep, info)
        else (mask, rep, info)
      else (mask, rep, info) in
    let base := {| rep_dev := rep_dev (repdata_base data); info_mask := mask |} in
    let info := if negb (Z.land req_mask0 (Z.lnot mask) =? 0)
                then warn_partial_info info else info in
    (0, set_reply data base rep, info).

Definition link_info_size : Z :=
  let len := 0 in
  (* port, phyaddr, mdix, mdixctrl, transcvr *)
  let len := len + 5 * nla_total_size 1 in
  (* mdio_support *)
  let len := len + nla_total_size 8 in
  (* nest *)
  nla_total_size len.

Definition link_modes_size (ks : ethtool_link_ksettings) (compact : bool) : Z :=
  let flags := if compact then ETHNL_BITSET_COMPACT else 0 in
  let len := 0 in
  (* speed, duplex, autoneg *)
  let len := len + (nla_total_size 4 + 2 * nla_total_size 1) in
  let ret := ethnl_bitset32_size
               {| bs_nbits := __ETHTOOL_LINK_MODE_MASK_NBITS;
                  bs_val := advertising (link_modes ks);
                  bs_mask := Some (supported (link_modes ks));
                  bs_flags := flags |} in
  if ret <? 0 then ret
  else
    let len := len + ret in
    let ret := ethnl_bitset32_size
                 {| bs_nbits := __ETHTOOL_LINK_MODE_MASK_NBITS;
                    bs_val := lp_advertising (link_modes ks);
                    bs_mask := None;
                    bs_flags := Z.land flags ETHNL_BITSET_LIST |} in
    if ret <? 0 then ret
    else
      let len := len + ret in
      (* nest *)
      nla_total_size len.

Definition link_state_size (link : Z) : Z :=
  if link <? 0 then nla_total_size 0
  else nla_total_size (nla_total_size 1).

Definition wol_size : Z :=
  nla_total_size (nla_total_size 8 + nla_total_size SOPASS_MAX).

Definition settings_size (data : settings_data) : Z :=
  let info_mask := info_mask (repdata_base data) in
  let compact := compact (reqinfo_base data) in
  let rep := rep_rest data in
  let len := 0 in
  let len := len + dev_ident_size in
  let len := if negb (Z.land info_mask ETHTOOL_IM_SETTINGS_LINKINFO =? 0)
             then len + link_info_size else len in
  let ret := if negb (Z.land info_mask ETHTOOL_IM_SETTINGS_LINKMODES =? 0)
             then link_modes_size (ksettings rep) compact else 0 in
  if ret <? 0 then ret
  else
    let len := len + ret in
    let len := if negb (Z.land info_mask ETHTOOL_IM_SETTINGS_LINKSTATE =? 0)
               then len + link_state_size (link rep) else len in
    let len := if negb (Z.land info_mask ETHTOOL_IM_SETTINGS_WOL =? 0)
               then len + wol_size else len in
    len.

Definition fill_link_info (lsettings : ethtool_link_settings) : skbM Z :=
  bind (nla_nest_start ETHTOOL_A_SETTINGS_LINK_INFO) (fun nest =>
  match nest with
  | None => ret (- EMSGSIZE)
  | Some nest =>
      bind (orM (nla_put_u8 ETHTOOL_A_LINKINFO_PORT (port lsettings))
           (orM (nla_put_u8 ETHTOOL_A_LINKINFO_PHYADDR (phy_address lsettings))
           (orM (nla_put_u8 ETHTOOL_A_LINKINFO_TP_MDIX (eth_tp_mdix lsettings))
           (orM (nla_put_u8 ETHTOOL_A_LINKINFO_TP_MDIX_CTRL
                            (eth_tp_mdix_ctrl lsettings))
                (nla_put_u8 ETHTOOL_A_LINKINFO_TRANSCEIVER
                            (transceiver lsettings)))))) (fun r =>
      if negb (r =? 0)
      then bind (nla_nest_cancel nest) (fun _ => ret (- EMSGSIZE))
      else bind (nla_nest_end nest) (fun _ => ret 0))
  end).

Definition fill_link_modes (ks : ethtool_link_ksettings) (lpm_empty compact : bool)
    : skbM Z :=
  let flags := if compact then ETHNL_BITSET_COMPACT else 0 in
  let lsettings := base ks in
  bind (nla_nest_start ETHTOOL_A_SETTINGS_LINK_MODES) (fun nest =>
  match nest with
  | None => ret (- EMSGSIZE)
  | Some nest =>
      let err := bind (nla_nest_cancel nest) (fun _ => ret (- EMSGSIZE)) in
      bind (nla_put_u8 ETHTOOL_A_LINKMODES_AUTONEG (autoneg lsettings)) (fun r =>
      if negb (r =? 0) then err
      else
      bind (ethnl_put_bitset32 ETHTOOL_A_LINKMODES_OURS
              {| bs_nbits := __ETHTOOL_LINK_MODE_MASK_NBITS;
                 bs_val := advertising (link_modes ks);
                 bs_mask := Some (supported (link_modes ks));
                 bs_flags := flags |}) (fun r =>
      if r <? 0 then err
      else
      bind (if negb lpm_empty
            then ethnl_put_bitset32 ETHTOOL_A_LINKMODES_PEER
                   {| bs_nbits := __ETHTOOL_LINK_MODE_MASK_NBITS;
                      bs_val := lp_advertising (link_modes ks);
                      bs_mask := None;
                      bs_flags := Z.lor flags ETHNL_BITSET_LIST |}
            else ret 0) (fun r =>
      if r <? 0 then err
      else
      bind (orM (nla_put_u32 ETHTOOL_A_LINKMODES_SPEED (speed lsettings))
                (nla_put_u8 ETHTOOL_A_LINKMODES_DUPLEX (duplex lsettings)))
           (fun r =>
      if negb (r =? 0) then err
      else bind (nla_nest_end nest) (fun _ => ret 0)))))
  end).

Definition fill_link_state (link : Z) : skbM Z :=
  bind (nla_nest_start ETHTOOL_A_SETTINGS_LINK_STATE) (fun nest =>
  match nest with
  | None => ret (- EMSGSIZE)
  | Some nest =>
      bind (if 0 <=? link
            then nla_put_u8 ETHTOOL_A_LINKSTATE_LINK (to_bool link)
            else ret 0) (fun r =>
      if negb (r =? 0)
      then bind (nla_nest_cancel nest) (fun _ => ret (- EMSGSIZE))
      else bind (nla_nest_end nest) (fun _ => ret 0))
  end).

Definition fill_wolinfo (wol : ethtool_wolinfo) (privileged : bool) : skbM Z :=
  bind (nla_nest_start ETHTOOL_A_SETTINGS_WOL) (fun nest =>
  match nest with
  | None => ret (- EMSGSIZE)
  | Some nest =>
      let err := bind (nla_nest_cancel nest) (fun _ => ret (- EMSGSIZE)) in
      bind (nla_put_bitfield32 ETHTOOL_A_WOL_MODES (wolopts wol) (wol_supported wol))
           (fun r =>
      if negb (r =? 0) then err
      else
      bind (if privileged
            then nla_put ETHTOOL_A_WOL_SOPASS SOPASS_MAX (DBinary (sopass wol))
            else ret 0) (fun r =>
      if negb (r =? 0) then err
      else bind (nla_nest_end nest) (fun _ => ret 0)))
  end).

Definition fill_settings (data : settings_data) : skbM Z :=
  let info_mask := info_mask (repdata_base data) in
  let compact := compact (reqinfo_base data) in
  let rep := rep_rest data in
  bind (if negb (Z.land info_mask ETHTOOL_IM_SETTINGS_LINKINFO =? 0)
        then fill_link_info (base (ksettings rep)) else ret 0) (fun r =>
  if r <? 0 then ret r
  else
  bind (if negb (Z.land info_mask ETHTOOL_IM_SETTINGS_LINKMODES =? 0)
        then fill_link_modes (ksettings rep) (lpm_empty rep) compact
        else ret 0) (fun r =>
  if r <? 0 then ret r
  else
  bind (if negb (Z.land info_mask ETHTOOL_IM_SETTINGS_LINKSTATE =? 0)
        then fill_link_state (link rep) else ret 0) (fun r =>
  if r <? 0 then ret r
  else
  bind (if negb (Z.land info_mask ETHTOOL_IM_SETTINGS_WOL =? 0)
        then fill_wolinfo (wolinfo rep) (privileged (req_rest data))
        else ret 0) (fun r =>
  if r <? 0 then ret r
  else ret 0)))).

Definition settings_request_ops
    : get_request_ops drv settings_req settings_reply :=
  {| request_cmd := ETHNL_CMD_GET_SETTINGS;
     reply_cmd := ETHNL_CMD_SET_SETTINGS;
     dev_attrtype := ETHTOOL_A_SETTINGS_DEV;
     rep_zero := zero_settings_reply;
     parse_request := parse_settings;
     prepare_data := prepare_settings;
     reply_size := settings_size;
     fill_reply := fill_settings |}.

(** *** SET_SETTINGS: link modes *)

(** The loop of [auto_link_modes] over the table entries from bit [i] on. *)
Fixpoint auto_link_modes_from (params : list link_mode_info) (i : Z)
    (ks : ethtool_link_ksettings) (req_speed req_duplex : bool)
    (advertising : Z) : Z :=
  match params with
  | [] => advertising
  | info :: params =>
      if lm_speed info =? SPEED_UNKNOWN
      then auto_link_modes_from params (i + 1) ks req_speed req_duplex advertising
      else
        let advertising :=
          if Z.testbit (supported (link_modes ks)) i
             && (negb req_speed || (lm_speed info =? speed (base ks)))
             && (negb req_duplex || (lm_duplex info =? duplex (base ks)))
          then Z.setbit advertising i
          else Z.clearbit advertising i in
        auto_link_modes_from params (i + 1) ks req_speed req_duplex advertising
  end.

Definition set_advertising (ks : ethtool_link_ksettings) (adv : Z)
    : ethtool_link_ksettings :=
  {| base := base ks;
     link_modes := {| supported := supported (link_modes ks);
                      advertising := adv;
                      lp_advertising := lp_advertising (link_modes ks) |} |}.

(** Returns whether the advertised bitmap was modified, and the settings. *)
Definition auto_link_modes (ks : ethtool_link_ksettings)
    (req_speed req_duplex : bool) : bool * ethtool_link_ksettings :=
  let old_adv := advertising (link_modes ks) in
  let adv := auto_link_modes_from link_mode_params 0 ks req_speed req_duplex
               old_adv in
  (negb (bitmap_equal old_adv adv __ETHTOOL_LINK_MODE_MASK_NBITS),
   set_advertising ks adv).

Definition set_base (ks : ethtool_link_ksettings) (b : ethtool_link_settings)
    : ethtool_link_ksettings :=
  {| base := b; link_modes := link_modes ks |}.

Definition set_autoneg (l : ethtool_link_settings) (v : Z) : ethtool_link_settings :=
  {| speed := speed l; duplex := duplex l; port := port l;
     phy_address := phy_address l; autoneg := v; eth_tp_mdix := eth_tp_mdix l;
     eth_tp_mdix_ctrl := eth_tp_mdix_ctrl l; transceiver := transceiver l |}.

Definition set_speed (l : ethtool_link_settings) (v : Z) : ethtool_link_settings :=
  {| speed := v; duplex := duplex l; port := port l;
     phy_address := phy_address l; autoneg := autoneg l;
     eth_tp_mdix := eth_tp_mdix l;
     eth_tp_mdix_ctrl := eth_tp_mdix_ctrl l; transceiver := transceiver l |}.

Definition set_duplex (l : ethtool_link_settings) (v : Z) : ethtool_link_settings :=
  {| speed := speed l; duplex := v; port := port l;
     phy_address := phy_address l; autoneg := autoneg l;
     eth_tp_mdix := eth_tp_mdix l;
     eth_tp_mdix_ctrl := eth_tp_mdix_ctrl l; transceiver := transceiver l |}.

(** Returns a negative error, or whether anything was modified, and the
    settings as the function leaves them. *)
Definition update_link_modes (nest : option nla_data)
    (ks : ethtool_link_ksettings) : Z * ethtool_link_ksettings :=
  match nest with
  | None => (0, ks)
  | Some nst =>
  match nla_parse ETHTOOL_A_LINKMODES_MAX set_linkmodes_policy (nla_nested nst) with
  | inl ret => (ret, ks)
  | inr tb =>
      let req_speed := bool_decide (is_Some (tb_get tb ETHTOOL_A_LINKMODES_SPEED)) in
      let req_duplex := bool_decide (is_Some (tb_get tb ETHTOOL_A_LINKMODES_DUPLEX)) in
      let mod_ := false in
      let (m, v) := ethnl_update_u8 (autoneg (base ks))
                      (tb_get tb ETHTOOL_A_LINKMODES_AUTONEG) in
      let ks := set_base ks (set_autoneg (base ks) v) in
      let mod_ := mod_ || m in
      let '(m, ret, adv) := ethnl_update_bitset (advertising (link_modes ks))
                              (tb_get tb ETHTOOL_A_LINKMODES_OURS) in
      let ks := set_advertising ks adv in
      let mod_ := mod_ || m in
      if ret <? 0 then (ret, ks)
      else
        let (m, v) := ethnl_update_u32 (speed (base ks))
                        (tb_get tb ETHTOOL_A_LINKMODES_SPEED) in
        let ks := set_base ks (set_speed (base ks) v) in
        let mod_ := mod_ || m in
        let (m, v) := ethnl_update_u8 (duplex (base ks))
                        (tb_get tb ETHTOOL_A_LINKMODES_DUPLEX) in
        let ks := set_base ks (set_duplex (base ks) v) in
        let mod_ := mod_ || m in
        if negb (bool_decide (is_Some (tb_get tb ETHTOOL_A_LINKMODES_OURS)))
           && negb (autoneg (base ks) =? 0)
           && (req_speed || req_duplex)
        then
          let (m, ks) := auto_link_modes ks req_speed req_duplex in
          ((if mod_ || m then 1 else 0), ks)
        else ((if mod_ then 1 else 0), ks)
  end
  end.

End WithDriver.

End Settings.

(** ** [net/ethtool/params.c], four categories: device parameters *)

Module Params.
Import Nl Dev Netlink.

Definition ETHTOOL_A_PARAMS_UNSPEC : nat := 0.
Definition ETHTOOL_A_PARAMS_DEV : nat := 1.
Definition ETHTOOL_A_PARAMS_INFOMASK : nat := 2.
Definition ETHTOOL_A_PARAMS_COMPACT : nat := 3.
Definition ETHTOOL_A_PARAMS_COALESCE : nat := 4.
Definition ETHTOOL_A_PARAMS_RING : nat := 5.
Definition ETHTOOL_A_PARAMS_PAUSE : nat := 6.
Definition ETHTOOL_A_PARAMS_CHANNELS : nat := 7.
Definition ETHTOOL_A_PARAMS_MAX : nat := 7.

Definition ETHTOOL_IM_PARAMS_COALESCE : Z := 1.
Definition ETHTOOL_IM_PARAMS_RING : Z := 2.
Definition ETHTOOL_IM_PARAMS_PAUSE : Z := 4.
Definition ETHTOOL_IM_PARAMS_CHANNELS : Z := 8.
Definition ETHTOOL_IM_PARAMS_ALL : Z := 15.

Definition ETHNL_CMD_GET_PARAMS : Z := 5.
Definition ETHNL_CMD_SET_PARAMS : Z := 6.

Definition ETHTOOL_A_COALESCE_RX_USECS : nat := 1.
Definition ETHTOOL_A_COALESCE_RX_MAXFRM : nat := 2.
Definition ETHTOOL_A_COALESCE_RX_USECS_IRQ : nat := 3.
Definition ETHTOOL_A_COALESCE_RX_MAXFRM_IRQ : nat := 4.
Definition ETHTOOL_A_COALESCE_RX_USECS_LOW : nat := 5.
Definition ETHTOOL_A_COALESCE_RX_MAXFRM_LOW : nat := 6.
Definition ETHTOOL_A_COALESCE_RX_USECS_HIGH : nat := 7.
Definition ETHTOOL_A_COALESCE_RX_MAXFRM_HIGH : nat := 8.
Definition ETHTOOL_A_COALESCE_TX_USECS : nat := 9.
Definition ETHTOOL_A_COALESCE_TX_MAXFRM : nat := 10.
Definition ETHTOOL_A_COALESCE_TX_USECS_IRQ : nat := 11.
Definition ETHTOOL_A_COALESCE_TX_MAXFRM_IRQ : nat := 12.
Definition ETHTOOL_A_COALESCE_TX_USECS_LOW : nat := 13.
Definition ETHTOOL_A_COALESCE_TX_MAXFRM_LOW : nat := 14.
Definition ETHTOOL_A_COALESCE_TX_USECS_HIGH : nat := 15.
Definition ETHTOOL_A_COALESCE_TX_MAXFRM_HIGH : nat := 16.
Definition ETHTOOL_A_COALESCE_PKT_RATE_LOW : nat := 17.
Definition ETHTOOL_A_COALESCE_PKT_RATE_HIGH : nat := 18.
Definition ETHTOOL_A_COALESCE_RX_USE_ADAPTIVE : nat := 19.
Definition ETHTOOL_A_COALESCE_TX_USE_ADAPTIVE : nat := 20.
Definition ETHTOOL_A_COALESCE_RATE_SAMPLE_INTERVAL : nat := 21.
Definition ETHTOOL_A_COALESCE_STATS_BLOCK_USECS : nat := 22.
Definition ETHTOOL_A_COALESCE_MAX : nat := 22.

Definition ETHTOOL_A_RING_RX_MAX_PENDING : nat := 1.
Definition ETHTOOL_A_RING_RX_MINI_MAX_PENDING : nat := 2.
Definition ETHTOOL_A_RING_RX_JUMBO_MAX_PENDING : nat := 3.
Definition ETHTOOL_A_RING_TX_MAX_PENDING : nat := 4.
Definition ETHTOOL_A_RING_RX_PENDING : nat := 5.
Definition ETHTOOL_A_RING_RX_MINI_PENDING : nat := 6.
Definition ETHTOOL_A_RING_RX_JUMBO_PENDING : nat := 7.
Definition ETHTOOL_A_RING_TX_PENDING : nat := 8.
Definition ETHTOOL_A_RING_MAX : nat := 8.

Definition ETHTOOL_A_PAUSE_AUTONEG : nat := 1.
Definition ETHTOOL_A_PAUSE_RX : nat := 2.
Definition ETHTOOL_A_PAUSE_TX : nat := 3.
Definition ETHTOOL_A_PAUSE_MAX : nat := 3.

Definition ETHTOOL_A_CHANNELS_MAX_RX : nat := 1.
Definition ETHTOOL_A_CHANNELS_MAX_TX : nat := 2.
Definition ETHTOOL_A_CHANNELS_MAX_OTHER : nat := 3.
Definition ETHTOOL_A_CHANNELS_MAX_COMBINED : nat := 4.
Definition ETHTOOL_A_CHANNELS_RX_COUNT : nat := 5.
Definition ETHTOOL_A_CHANNELS_TX_COUNT : nat := 6.
Definition ETHTOOL_A_CHANNELS_OTHER_COUNT : nat := 7.
Definition ETHTOOL_A_CHANNELS_COMBINED_COUNT : nat := 8.
Definition ETHTOOL_A_CHANNELS_MAX : nat := 8.

Definition get_params_policy : list nla_policy :=
  [ pol NLA_REJECT; pol NLA_NESTED; pol NLA_U32; pol NLA_FLAG;
    pol NLA_REJECT; pol NLA_REJECT; pol NLA_REJECT; pol NLA_REJECT ].

Definition set_params_policy : list nla_policy :=
  [ pol NLA_REJECT; pol NLA_NESTED; pol NLA_REJECT; pol NLA_FLAG;
    pol NLA_NESTED; pol NLA_NESTED; pol NLA_NESTED; pol NLA_NESTED ].

Definition coalesce_policy : list nla_policy :=
  [ pol NLA_REJECT;
    pol NLA_U32; pol NLA_U32; pol NLA_U32; pol NLA_U32;
    pol NLA_U32; pol NLA_U32; pol NLA_U32; pol NLA_U32;
    pol NLA_U32; pol NLA_U32; pol NLA_U32; pol NLA_U32;
    pol NLA_U32; pol NLA_U32; pol NLA_U32; pol NLA_U32;
    pol NLA_U32; pol NLA_U32;
    pol NLA_U8; pol NLA_U8;
    pol NLA_U32; pol NLA_U32 ].

Definition ring_policy : list nla_policy :=
  [ pol NLA_REJECT;
    pol NLA_REJECT; pol NLA_REJECT; pol NLA_REJECT; pol NLA_REJECT;
    pol NLA_U32; pol NLA_U32; pol NLA_U32; pol NLA_U32 ].

Definition pause_policy : list nla_policy :=
  [ pol NLA_REJECT; pol NLA_U8; pol NLA_U8; pol NLA_U8 ].

Definition channels_policy : list nla_policy :=
  [ pol NLA_REJECT;
    pol NLA_REJECT; pol NLA_REJECT; pol NLA_REJECT; pol NLA_REJECT;
    pol NLA_U32; pol NLA_U32; pol NLA_U32; pol NLA_U32 ].

(** The reply part of [struct params_data] after its base. *)
Record params_reply : Type :=
  { coalesce : ethtool_coalesce;
    ring : ethtool_ringparam;
    pause : ethtool_pauseparam;
    channels : ethtool_channels }.

Definition zero_ringparam : ethtool_ringparam :=
  {| rx_max_pending := 0; rx_mini_max_pending := 0; rx_jumbo_max_pending := 0;
     tx_max_pending := 0; rx_pending := 0; rx_mini_pending := 0;
     rx_jumbo_pending := 0; tx_pending := 0 |}.

Definition zero_params_reply : params_reply :=
  {| coalesce := fun _ => 0;
     ring := zero_ringparam;
     pause := {| pause_autoneg := 0; rx_pause := 0; tx_pause := 0 |};
     channels := {| max_rx := 0; max_tx := 0; max_other := 0; max_combined := 0;
                    rx_count := 0; tx_count := 0; other_count := 0;
                    combined_count := 0 |} |}.

(** A call of one of the driver's [set] operations, with its argument. *)
Inductive set_call : Type :=
| CallSetCoalesce (data : ethtool_coalesce)
| CallSetRingparam (data : ethtool_ringparam)
| CallSetPauseparam (data : ethtool_pauseparam)
| CallSetChannels (old new : ethtool_channels).

Section WithDriver.
Context {drv : Type} {codec : bitset_codec}.

Definition params_data : Type := get_data drv unit params_reply.

Definition set_reqinfo (data : params_data) (ri : common_req_info drv)
    : params_data :=
  {| reqinfo_base := ri; req_rest := req_rest data;
     repdata_base := repdata_base data; rep_rest := rep_rest data |}.

Definition set_reply (data : params_data) (b : common_reply_data drv)
    (r : params_reply) : params_data :=
  {| reqinfo_base := reqinfo_base data; req_rest := req_rest data;
     repdata_base := b; rep_rest := r |}.

Definition parse_params (n : net drv) (data : params_data)
    (nlhdr : nlmsghdr) (info : genl_info)
    : Z * params_data * genl_info * net drv :=
  match nla_parse ETHTOOL_A_PARAMS_MAX get_params_policy (nlmsg_attrs nlhdr) with
  | inl ret => (ret, data, info, n)
  | inr tb =>
      let req_info := reqinfo_base data in
      let resolved :=
        match tb_get tb ETHTOOL_A_PARAMS_DEV with
        | Some a_dev =>
            match ethnl_dev_get n info (Some a_dev) with
            | (inr dev, info, n) => (inr (Some dev), info, n)
            | (inl ret, info, n) => (inl ret, info, n)
            end
        | None => (inr (req_dev req_info), info, n)
        end in
      match resolved with
      | (inl ret, info, n) =>
          (ret,
           set_reqinfo data {| req_dev := None; req_mask := req_mask req_info;
                               compact := compact req_info |},
           info, n)
      | (inr dev, info, n) =>
          let mask := match tb_get tb ETHTOOL_A_PARAMS_INFOMASK with
                      | Some a => nla_get_u32 a
                      | None => req_mask req_info
                      end in
          let cpt := match tb_get tb ETHTOOL_A_PARAMS_COMPACT with
                     | Some _ => true
                     | None => compact req_info
                     end in
          let mask := if mask =? 0 then ETHTOOL_IM_PARAMS_ALL else mask in
          (0,
           set_reqinfo data {| req_dev := dev; req_mask := mask; compact := cpt |},
           info, n)
      end
  end.

Definition ethnl_get_coalesce (dev : net_device drv) (data : ethtool_coalesce)
    : Z * ethtool_coalesce :=
  match get_coalesce (ops dev) with
  | None => (- EOPNOTSUPP, data)
  | Some get => get (priv dev)
  end.

Definition ethnl_get_ring (dev : net_device drv) (data : ethtool_ringparam)
    : Z * ethtool_ringparam :=
  match get_ringparam (ops dev) with
  | None => (- EOPNOTSUPP, data)
  | Some get => (0, get (priv dev))
  end.

Definition ethnl_get_pause (dev : net_device drv) (data : ethtool_pauseparam)
    : Z * ethtool_pauseparam :=
  match get_pauseparam (ops dev) with
  | None => (- EOPNOTSUPP, data)
  | Some get => (0, get (priv dev))
  end.

Definition ethnl_get_channels (dev : net_device drv) (data : ethtool_channels)
    : Z * ethtool_channels :=
  match get_channels (ops dev) with
  | None => (- EOPNOTSUPP, data)
  | Some get => (0, get (priv dev))
  end.

Definition prepare_params (data : params_data) (dev : net_device drv)
    (info : option genl_info) : Z * params_data * option genl_info :=
  let req_info := reqinfo_base data in
  let req_mask0 := req_mask req_info in
  let rep := rep_rest data in
  let ret := ethnl_before_ops dev (priv dev) in
  if ret <? 0 then (ret, data, info)
  else
    let mask := req_mask0 in
    let (mask, rep) :=
      if negb (Z.land mask ETHTOOL_IM_PARAMS_COALESCE =? 0)
      then
        let (ret, c) := ethnl_get_coalesce dev (coalesce rep) in
        let rep := {| coalesce := c; ring := ring rep; pause := pause rep;
                      channels := channels rep |} in
        if ret <? 0 then (Z.land mask (Z.lnot ETHTOOL_IM_PARAMS_COALESCE), rep)
        else (mask, rep)
      else (mask, rep) in
    let (mask, rep) :=
      if negb (Z.land mask ETHTOOL_IM_PARAMS_RING =? 0)
      then
        let (ret, r) := ethnl_get_ring dev (ring rep) in
        let rep := {| coalesce := coalesce rep; ring := r; pause := pause rep;
                      channels := channels rep |} in
        if ret <? 0 then (Z.land mask (Z.lnot ETHTOOL_IM_PARAMS_RING), rep)
        else (mask, rep)
      else (mask, rep) in
    let (mask, rep) :=
      if negb (Z.land mask ETHTOOL_IM_PARAMS_PAUSE =? 0)
      then
        let (ret, p) := ethnl_get_pause dev (pause rep) in
        let rep := {| coalesce := coalesce rep; ring := ring rep; pause := p;
                      channels := channels rep |} in
        if ret <? 0 then (Z.land mask (Z.lnot ETHTOOL_IM_PARAMS_PAUSE), rep)
        else (mask, rep)
      else (mask, rep) in
    let (mask, rep) :=
      if negb (Z.land mask ETHTOOL_IM_PARAMS_CHANNELS =? 0)
      then
        let (ret, c) := ethnl_get_channels dev (channels rep) in
        let rep := {| coalesce := coalesce rep; ring := ring rep;
                      pause := pause rep; channels := c |} in
        if ret <? 0 then (Z.land mask (Z.lnot ETHTOOL_IM_PARAMS_CHANNELS), rep)
        else (mask, rep)
      else (mask, rep) in
    let base := {| rep_dev := rep_dev (repdata_base data); info_mask := mask |} in
    let info := if negb (Z.land req_mask0 (Z.lnot mask) =? 0)
                then warn_partial_info info else info in
    (0, set_reply data base rep, info).

Definition coalesce_size : Z :=
  nla_total_size (20 * nla_total_size 4 + 2 * nla_total_size 1).

Definition ring_size : Z := nla_total_size (8 * nla_total_size 4).

Definition pause_size : Z := nla_total_size (3 * nla_total_size 1).

Definition channels_size : Z := nla_total_size (8 * nla_total_size 4).

Definition params_size (data : params_data) : Z :=
  let info_mask := info_mask (repdata_base data) in
  let len := 0 in
  let len := len + dev_ident_size in
  let len := if negb (Z.land info_mask ETHTOOL_IM_PARAMS_COALESCE =? 0)
             then len + coalesce_size else len in
  let len := if negb (Z.land info_mask ETHTOOL_IM_PARAMS_RING =? 0)
             then len + ring_size else len in
  let len := if negb (Z.land info_mask ETHTOOL_IM_PARAMS_PAUSE =? 0)
             then len + pause_size else len in
  let len := if negb (Z.land info_mask ETHTOOL_IM_PARAMS_CHANNELS =? 0)
             then len + channels_size else len in
  len.

Definition fill_coalesce (data : ethtool_coalesce) : skbM Z :=
  bind (nla_nest_start ETHTOOL_A_PARAMS_COALESCE) (fun nest =>
  match nest with
  | None => ret (- EMSGSIZE)
  | Some nest =>
      bind
        (orM (nla_put_u32 ETHTOOL_A_COALESCE_RX_USECS (data rx_coalesce_usecs))
        (orM (nla_put_u32 ETHTOOL_A_COALESCE_RX_MAXFRM (data rx_max_coalesced_frames))
        (orM (nla_put_u32 ETHTOOL_A_COALESCE_RX_USECS_IRQ (data rx_coalesce_usecs_irq))
        (orM (nla_put_u32 ETHTOOL_A_COALESCE_RX_MAXFRM_IRQ
                (data rx_max_coalesced_frames_irq))
        (orM (nla_put_u32 ETHTOOL_A_COALESCE_RX_USECS_LOW (data rx_coalesce_usecs_low))
        (orM (nla_put_u32 ETHTOOL_A_COALESCE_RX_MAXFRM_LOW
                (data rx_max_coalesced_frames_low))
        (orM (nla_put_u32 ETHTOOL_A_COALESCE_RX_USECS_HIGH
                (data rx_coalesce_usecs_high))
        (orM (nla_put_u32 ETHTOOL_A_COALESCE_RX_MAXFRM_HIGH
                (data rx_max_coalesced_frames_high))
        (orM (nla_put_u32 ETHTOOL_A_COALESCE_TX_USECS (data tx_coalesce_usecs))
        (orM (nla_put_u32 ETHTOOL_A_COALESCE_TX_MAXFRM (data tx_max_coalesced_frames))
        (orM (nla_put_u32 ETHTOOL_A_COALESCE_TX_USECS_IRQ (data tx_coalesce_usecs_irq))
        (orM (nla_put_u32 ETHTOOL_A_COALESCE_TX_MAXFRM_IRQ
                (data tx_max_coalesced_frames_irq))
        (orM (nla_put_u32 ETHTOOL_A_COALESCE_TX_USECS_LOW (data tx_coalesce_usecs_low))
        (orM (nla_put_u32 ETHTOOL_A_COALESCE_TX_MAXFRM_LOW
                (data tx_max_coalesced_frames_low))
        (orM (nla_put_u32 ETHTOOL_A_COALESCE_TX_USECS_HIGH
                (data tx_coalesce_usecs_high))
        (orM (nla_put_u32 ETHTOOL_A_COALESCE_TX_MAXFRM_HIGH
                (data tx_max_coalesced_frames_high))
        (orM (nla_put_u32 ETHTOOL_A_COALESCE_PKT_RATE_LOW (data pkt_rate_low))
        (orM (nla_put_u32 ETHTOOL_A_COALESCE_PKT_RATE_HIGH (data pkt_rate_high))
        (orM (nla_put_u8 ETHTOOL_A_COALESCE_RX_USE_ADAPTIVE
                (to_bool (data use_adaptive_rx_coalesce)))
        (orM (nla_put_u8 ETHTOOL_A_COALESCE_TX_USE_ADAPTIVE
                (to_bool (data use_adaptive_tx_coalesce)))
        (orM (nla_put_u32 ETHTOOL_A_COALESCE_RATE_SAMPLE_INTERVAL
                (data rate_sample_interval))
             (nla_put_u32 ETHTOOL_A_COALESCE_STATS_BLOCK_USECS
                (data stats_block_coalesce_usecs)))))))))))))))))))))))
        (fun r =>
      if negb (r =? 0)
      then bind (nla_nest_cancel nest) (fun _ => ret (- EMSGSIZE))
      else bind (nla_nest_end nest) (fun _ => ret 0))
  end).

Definition fill_ring (data : ethtool_ringparam) : skbM Z :=
  bind (nla_nest_start ETHTOOL_A_PARAMS_RING) (fun nest =>
  match nest with
  | None => ret (- EMSGSIZE)
  | Some nest =>
      bind
        (orM (nla_put_u32 ETHTOOL_A_RING_RX_MAX_PENDING (rx_max_pending data))
        (orM (nla_put_u32 ETHTOOL_A_RING_RX_MINI_MAX_PENDING (rx_mini_max_pending data))
        (orM (nla_put_u32 ETHTOOL_A_RING_RX_JUMBO_MAX_PENDING
                (rx_jumbo_max_pending data))
        (orM (nla_put_u32 ETHTOOL_A_RING_TX_MAX_PENDING (tx_max_pending data))
        (orM (nla_put_u32 ETHTOOL_A_RING_RX_PENDING (rx_pending data))
        (orM (nla_put_u32 ETHTOOL_A_RING_RX_MINI_PENDING (rx_mini_pending data))
        (orM (nla_put_u32 ETHTOOL_A_RING_RX_JUMBO_PENDING (rx_jumbo_pending data))
             (nla_put_u32 ETHTOOL_A_RING_TX_PENDING (tx_pending data)))))))))
        (fun r =>
      if negb (r =? 0)
      then bind (nla_nest_cancel nest) (fun _ => ret (- EMSGSIZE))
      else bind (nla_nest_end nest) (fun _ => ret 0))
  end).

Definition fill_pause (data : ethtool_pauseparam) : skbM Z :=
  bind (nla_nest_start ETHTOOL_A_PARAMS_PAUSE) (fun nest =>
  match nest with
  | None => ret (- EMSGSIZE)
  | Some nest =>
      bind
        (orM (nla_put_u8 ETHTOOL_A_PAUSE_AUTONEG (to_bool (pause_autoneg data)))
        (orM (nla_put_u8 ETHTOOL_A_PAUSE_RX (to_bool (rx_pause data)))
             (nla_put_u8 ETHTOOL_A_PAUSE_TX (to_bool (tx_pause data)))))
        (fun r =>
      if negb (r =? 0)
      then bind (nla_nest_cancel nest) (fun _ => ret (- EMSGSIZE))
      else bind (nla_nest_end nest) (fun _ => ret 0))
  end).

(** On failure [fill_channels] returns without cancelling its nest. *)
Definition fill_channels (data : ethtool_channels) : skbM Z :=
  bind (nla_nest_start ETHTOOL_A_PARAMS_CHANNELS) (fun nest =>
  match nest with
  | None => ret (- EMSGSIZE)
  | Some nest =>
      bind
        (orM (nla_put_u32 ETHTOOL_A_CHANNELS_MAX_RX (max_rx data))
        (orM (nla_put_u32 ETHTOOL_A_CHANNELS_MAX_TX (max_tx data))
        (orM (nla_put_u32 ETHTOOL_A_CHANNELS_MAX_OTHER (max_other data))
        (orM (nla_put_u32 ETHTOOL_A_CHANNELS_MAX_COMBINED (max_combined data))
        (orM (nla_put_u32 ETHTOOL_A_CHANNELS_RX_COUNT (rx_count data))
        (orM (nla_put_u32 ETHTOOL_A_CHANNELS_TX_COUNT (tx_count data))
        (orM (nla_put_u32 ETHTOOL_A_CHANNELS_OTHER_COUNT (other_count data))
             (nla_put_u32 ETHTOOL_A_CHANNELS_COMBINED_COUNT (combined_count data)))))))))
        (fun r =>
      if negb (r =? 0)
      then ret (- EMSGSIZE)
      else bind (nla_nest_end nest) (fun _ => ret 0))
  end).

Definition fill_params (data : params_data) : skbM Z :=
  let info_mask := info_mask (repdata_base data) in
  let rep := rep_rest data in
  bind (if negb (Z.land info_mask ETHTOOL_IM_PARAMS_COALESCE =? 0)
        then fill_coalesce (coalesce rep) else ret 0) (fun r =>
  if r <? 0 then ret r
  else
  bind (if negb (Z.land info_mask ETHTOOL_IM_PARAMS_RING =? 0)
        then fill_ring (ring rep) else ret 0) (fun r =>
  if r <? 0 then ret r
  else
  bind (if negb (Z.land info_mask ETHTOOL_IM_PARAMS_PAUSE =? 0)
        then fill_pause (pause rep) else ret 0) (fun r =>
  if r <? 0 then ret r
  else
  bind (if negb (Z.land info_mask ETHTOOL_IM_PARAMS_CHANNELS =? 0)
        then fill_channels (channels rep) else ret 0) (fun r =>
  if r <? 0 then ret r
  else ret 0)))).

Definition params_request_ops : get_request_ops drv unit params_reply :=
  {| request_cmd := ETHNL_CMD_GET_PARAMS;
     reply_cmd := ETHNL_CMD_SET_PARAMS;
     dev_attrtype := ETHTOOL_A_PARAMS_DEV;
     rep_zero := zero_params_reply;
     parse_request := parse_params;
     prepare_data := prepare_params;
     reply_size := params_size;
     fill_reply := fill_params |}.

(** *** SET_PARAMS *)

(** What an update returns: a negative error, 0 for no change or 1 for a
    change; the extended ack; the device as the driver left it; and the
    calls made to the driver's [set] operations. *)
Definition update_result : Type :=
  (Z * genl_info * net_device drv * list set_call)%type.

(** [if (ethnl_update_x(&data.f, attr)) mod = true;] on a coalesce field. *)
Definition coalesce_update (update : Z -> option nla_data -> bool * Z)
    (f : coalesce_field) (attr : option nla_data)
    (st : ethtool_coalesce * bool) : ethtool_coalesce * bool :=
  let (data, mod_) := st in
  let (m, v) := update (data f) attr in
  if m then (coalesce_set f v data, true) else (data, mod_).

Definition update_coalesce (info : genl_info) (dev : net_device drv)
    (nest : option nla_data) : update_result :=
  match nest with
  | None => (0, info, dev, [])
  | Some nst =>
  match get_coalesce (ops dev), set_coalesce (ops dev) with
  | Some get, Some set =>
      let (ret, data) := get (priv dev) in
      if ret <? 0 then (ret, info, dev, [])
      else
      match nla_parse ETHTOOL_A_COALESCE_MAX coalesce_policy (nla_nested nst) with
      | inl ret => (ret, info, dev, [])
      | inr tb =>
          let st := (data, false) in
          let st := coalesce_update ethnl_update_u32 rx_coalesce_usecs
                      (tb_get tb ETHTOOL_A_COALESCE_RX_USECS) st in
          let st := coalesce_update ethnl_update_u32 rx_max_coalesced_frames
                      (tb_get tb ETHTOOL_A_COALESCE_RX_MAXFRM) st in
          let st := coalesce_update ethnl_update_u32 rx_coalesce_usecs_irq
                      (tb_get tb ETHTOOL_A_COALESCE_RX_USECS_IRQ) st in
          let st := coalesce_update ethnl_update_u32 rx_max_coalesced_frames_irq
                      (tb_get tb ETHTOOL_A_COALESCE_RX_MAXFRM_IRQ) st in
          let st := coalesce_update ethnl_update_u32 rx_coalesce_usecs_low
                      (tb_get tb ETHTOOL_A_COALESCE_RX_USECS_LOW) st in
          let st := coalesce_update ethnl_update_u32 rx_max_coalesced_frames_low
                      (tb_get tb ETHTOOL_A_COALESCE_RX_MAXFRM_LOW) st in
          let st := coalesce_update ethnl_update_u32 rx_coalesce_usecs_high
                      (tb_get tb ETHTOOL_A_COALESCE_RX_USECS_HIGH) st in
          let st := coalesce_update ethnl_update_u32 rx_max_coalesced_frames_high
                      (tb_get tb ETHTOOL_A_COALESCE_RX_MAXFRM_HIGH) st in
          let st := coalesce_update ethnl_update_u32 tx_coalesce_usecs
                      (tb_get tb ETHTOOL_A_COALESCE_TX_USECS) st in
          let st := coalesce_update ethnl_update_u32 tx_max_coalesced_frames
                      (tb_get tb ETHTOOL_A_COALESCE_TX_MAXFRM) st in
          let st := coalesce_update ethnl_update_u32 tx_coalesce_usecs_irq
                      (tb_get tb ETHTOOL_A_COALESCE_TX_USECS_IRQ) st in
          let st := coalesce_update ethnl_update_u32 tx_max_coalesced_frames_irq
                      (tb_get tb ETHTOOL_A_COALESCE_TX_MAXFRM_IRQ) st in
          let st := coalesce_update ethnl_update_u32 tx_coalesce_usecs_low
                      (tb_get tb ETHTOOL_A_COALESCE_TX_USECS_LOW) st in
          let st := coalesce_update ethnl_update_u32 tx_max_coalesced_frames_low
                      (tb_get tb ETHTOOL_A_COALESCE_TX_MAXFRM_LOW) st in
          let st := coalesce_update ethnl_update_u32 tx_coalesce_usecs_high
                      (tb_get tb ETHTOOL_A_COALESCE_TX_USECS_HIGH) st in
          let st := coalesce_update ethnl_update_u32 tx_max_coalesced_frames_high
                      (tb_get tb ETHTOOL_A_COALESCE_TX_MAXFRM_HIGH) st in
          let st := coalesce_update ethnl_update_u32 pkt_rate_low
                      (tb_get tb ETHTOOL_A_COALESCE_PKT_RATE_LOW) st in
          let st := coalesce_update ethnl_update_u32 pkt_rate_high
                      (tb_get tb ETHTOOL_A_COALESCE_PKT_RATE_HIGH) st in
          let st := coalesce_update ethnl_update_bool32 use_adaptive_rx_coalesce
                      (tb_get tb ETHTOOL_A_COALESCE_RX_USE_ADAPTIVE) st in
          let st := coalesce_update ethnl_update_bool32 use_adaptive_tx_coalesce
                      (tb_get tb ETHTOOL_A_COALESCE_TX_USE_ADAPTIVE) st in
          let st := coalesce_update ethnl_update_u32 rate_sample_interval
                      (tb_get tb ETHTOOL_A_COALESCE_RATE_SAMPLE_INTERVAL) st in
          let st := coalesce_update ethnl_update_u32 stats_block_coalesce_usecs
                      (tb_get tb ETHTOOL_A_COALESCE_STATS_BLOCK_USECS) st in
          let (data, mod_) := st in
          if negb mod_ then (0, info, dev, [])
          else
            let (ret, p) := set data (priv dev) in
            ((if ret <? 0 then ret else 1), info, with_priv dev p,
             [CallSetCoalesce data])
      end
  | _, _ => (- EOPNOTSUPP, info, dev, [])
  end
  end.

Definition set_rx_pending (d : ethtool_ringparam) (v : Z) : ethtool_ringparam :=
  {| rx_max_pending := rx_max_pending d;
     rx_mini_max_pending := rx_mini_max_pending d;
     rx_jumbo_max_pending := rx_jumbo_max_pending d;
     tx_max_pending := tx_max_pending d;
     rx_pending := v; rx_mini_pending := rx_mini_pending d;
     rx_jumbo_pending := rx_jumbo_pending d; tx_pending := tx_pending d |}.

Definition set_rx_mini_pending (d : ethtool_ringparam) (v : Z) : ethtool_ringparam :=
  {| rx_max_pending := rx_max_pending d;
     rx_mini_max_pending := rx_mini_max_pending d;
     rx_jumbo_max_pending := rx_jumbo_max_pending d;
     tx_max_pending := tx_max_pending d;
     rx_pending := rx_pending d; rx_mini_pending := v;
     rx_jumbo_pending := rx_jumbo_pending d; tx_pending := tx_pending d |}.

Definition set_rx_jumbo_pending (d : ethtool_ringparam) (v : Z) : ethtool_ringparam :=
  {| rx_max_pending := rx_max_pending d;
     rx_mini_max_pending := rx_mini_max_pending d;
     rx_jumbo_max_pending := rx_jumbo_max_pending d;
     tx_max_pending := tx_max_pending d;
     rx_pending := rx_pending d; rx_mini_pending := rx_mini_pending d;
     rx_jumbo_pending := v; tx_pending := tx_pending d |}.

Definition set_tx_pending (d : ethtool_ringparam) (v : Z) : ethtool_ringparam :=
  {| rx_max_pending := rx_max_pending d;
     rx_mini_max_pending := rx_mini_max_pending d;
     rx_jumbo_max_pending := rx_jumbo_max_pending d;
     tx_max_pending := tx_max_pending d;
     rx_pending := rx_pending d; rx_mini_pending := rx_mini_pending d;
     rx_jumbo_pending := rx_jumbo_pending d; tx_pending := v |}.

(** [tb[type]] as the attribute an error points at: null when the request
    had no attribute of that type. *)
Definition tb_ref (tb : list (option nla_data)) (ty : nat) : option attr_ref :=
  match tb_get tb ty with
  | Some _ => Some (InTable ty)
  | None => None
  end.

Definition update_ring (info : genl_info) (dev : net_device drv)
    (nest : option nla_data) : update_result :=
  match nest with
  | None => (0, info, dev, [])
  | Some nst =>
  match get_ringparam (ops dev), set_ringparam (ops dev) with
  | Some get, Some set =>
      let data := get (priv dev) in
      match nla_parse ETHTOOL_A_RING_MAX ring_policy (nla_nested nst) with
      | inl ret => (ret, info, dev, [])
      | inr tb =>
          let mod_ := false in
          let (m, v) := ethnl_update_u32 (rx_pending data)
                          (tb_get tb ETHTOOL_A_RING_RX_PENDING) in
          let data := set_rx_pending data v in
          let mod_ := mod_ || m in
          let (m, v) := ethnl_update_u32 (rx_mini_pending data)
                          (tb_get tb ETHTOOL_A_RING_RX_MINI_PENDING) in
          let data := set_rx_mini_pending data v in
          let mod_ := mod_ || m in
          let (m, v) := ethnl_update_u32 (rx_jumbo_pending data)
                          (tb_get tb ETHTOOL_A_RING_RX_JUMBO_PENDING) in
          let data := set_rx_jumbo_pending data v in
          let mod_ := mod_ || m in
          let (m, v) := ethnl_update_u32 (tx_pending data)
                          (tb_get tb ETHTOOL_A_RING_TX_PENDING) in
          let data := set_tx_pending data v in
          let mod_ := mod_ || m in
          if negb mod_ then (0, info, dev, [])
          else
            (* ensure new ring parameters are within the maximums *)
            let err_attr :=
              if rx_max_pending data <? rx_pending data
              then tb_ref tb ETHTOOL_A_RING_RX_PENDING
              else if rx_mini_max_pending data <? rx_mini_pending data
              then tb_ref tb ETHTOOL_A_RING_RX_MINI_PENDING
              else if rx_jumbo_max_pending data <? rx_jumbo_pending data
              then tb_ref tb ETHTOOL_A_RING_RX_JUMBO_PENDING
              else if tx_max_pending data <? tx_pending data
              then tb_ref tb ETHTOOL_A_RING_TX_PENDING
              else None in
            match err_attr with
            | Some a =>
                (- EINVAL,
                 NL_SET_ERR_MSG_ATTR info a "requested ring size exceeeds maximum",
                 dev, [])
            | None =>
                let (ret, p) := set data (priv dev) in
                ((if ret <? 0 then ret else 1), info, with_priv dev p,
                 [CallSetRingparam data])
            end
      end
  | _, _ => (- EOPNOTSUPP, info, dev, [])
  end
  end.

(** The value a field takes from its attribute: the attribute's when there
    is one, else the current value. *)
Definition proposed (dst : Z) (attr : option nla_data) : Z :=
  match attr with
  | Some d => nla_get_u32 d
  | None => dst
  end.

(** Whether the request proposes, for the attribute [ty], a value above
    [max]. *)
Definition exceeds (tb : list (option nla_data)) (ty : nat) (max : Z) : bool :=
  match tb_get tb ty with
  | Some d => max <? nla_get_u32 d
  | None => false
  end.

(** The claim's words for the field a rejected ring update names: the
    first proposed field above its maximum, in the order rx, rx-mini,
    rx-jumbo, tx. *)
Definition first_over_max (cur : ethtool_ringparam)
    (tb : list (option nla_data)) : option nat :=
  if exceeds tb ETHTOOL_A_RING_RX_PENDING (rx_max_pending cur)
  then Some ETHTOOL_A_RING_RX_PENDING
  else if exceeds tb ETHTOOL_A_RING_RX_MINI_PENDING (rx_mini_max_pending cur)
  then Some ETHTOOL_A_RING_RX_MINI_PENDING
  else if exceeds tb ETHTOOL_A_RING_RX_JUMBO_PENDING (rx_jumbo_max_pending cur)
  then Some ETHTOOL_A_RING_RX_JUMBO_PENDING
  else if exceeds tb ETHTOOL_A_RING_TX_PENDING (tx_max_pending cur)
  then Some ETHTOOL_A_RING_TX_PENDING
  else None.

Definition update_pause (info : genl_info) (dev : net_device drv)
    (nest : option nla_data) : update_result :=
  match nest with
  | None => (0, info, dev, [])
  | Some nst =>
  match get_pauseparam (ops dev), set_pauseparam (ops dev) with
  | Some get, Some set =>
      let data := get (priv dev) in
      match nla_parse ETHTOOL_A_PAUSE_MAX pause_policy (nla_nested nst) with
      | inl ret => (ret, info, dev, [])
      | inr tb =>
          let mod_ := false in
          let (m, v) := ethnl_update_u32 (pause_autoneg data)
                          (tb_get tb ETHTOOL_A_PAUSE_AUTONEG) in
          let data := {| pause_autoneg := v; rx_pause := rx_pause data;
                         tx_pause := tx_pause data |} in
          let mod_ := mod_ || m in
          let (m, v) := ethnl_update_u32 (rx_pause data)
                          (tb_get tb ETHTOOL_A_PAUSE_RX) in
          let data := {| pause_autoneg := pause_autoneg data; rx_pause := v;
                         tx_pause := tx_pause data |} in
          let mod_ := mod_ || m in
          let (m, v) := ethnl_update_u32 (tx_pause data)
                          (tb_get tb ETHTOOL_A_PAUSE_TX) in
          let data := {| pause_autoneg := pause_autoneg data;
                         rx_pause := rx_pause data; tx_pause := v |} in
          let mod_ := mod_ || m in
          if negb mod_ then (0, info, dev, [])
          else
            let (ret, p) := set data (priv dev) in
            ((if ret <? 0 then ret else 1), info, with_priv dev p,
             [CallSetPauseparam data])
      end
  | _, _ => (- EOPNOTSUPP, info, dev, [])
  end
  end.

Definition set_counts (d : ethtool_channels) (rx tx other combined : Z)
    : ethtool_channels :=
  {| max_rx := max_rx d; max_tx := max_tx d; max_other := max_other d;
     max_combined := max_combined d;
     rx_count := rx; tx_count := tx; other_count := other;
     combined_count := combined |}.

Definition update_channels (info : genl_info) (dev : net_device drv)
    (nest : option nla_data) : update_result :=
  match nest with
  | None => (0, info, dev, [])
  | Some nst =>
  match get_channels (ops dev), set_channels (ops dev) with
  | Some get, Some _ =>
      let old := get (priv dev) in
      let new := old in
      match nla_parse ETHTOOL_A_CHANNELS_MAX channels_policy (nla_nested nst) with
      | inl ret => (ret, info, dev, [])
      | inr tb =>
          let (m1, rx) := ethnl_update_u32 (rx_count new)
                            (tb_get tb ETHTOOL_A_CHANNELS_RX_COUNT) in
          let (m2, tx) := ethnl_update_u32 (tx_count new)
                            (tb_get tb ETHTOOL_A_CHANNELS_TX_COUNT) in
          let (m3, other) := ethnl_update_u32 (other_count new)
                               (tb_get tb ETHTOOL_A_CHANNELS_OTHER_COUNT) in
          let (m4, combined) := ethnl_update_u32 (combined_count new)
                                  (tb_get tb ETHTOOL_A_CHANNELS_COMBINED_COUNT) in
          let new := set_counts new rx tx other combined in
          let mod_ := m1 || m2 || m3 || m4 in
          if negb mod_ then (0, info, dev, [])
          else
            (* check new values against maximum *)
            let err_attr :=
              if max_rx new <? rx_count new
              then tb_ref tb ETHTOOL_A_CHANNELS_RX_COUNT
              else if max_tx new <? tx_count new
              then tb_ref tb ETHTOOL_A_CHANNELS_TX_COUNT
              else if max_other new <? other_count new
              then tb_ref tb ETHTOOL_A_CHANNELS_OTHER_COUNT
              else if max_combined new <? combined_count new
              then tb_ref tb ETHTOOL_A_CHANNELS_COMBINED_COUNT
              else None in
            match err_attr with
            | Some a =>
                (- EINVAL,
                 NL_SET_ERR_MSG_ATTR info a
                   "requested channel count exceeeds maximum",
                 dev, [])
            | None =>
                let (ret, p) := __ethtool_set_channels dev old new (priv dev) in
                ((if ret <? 0 then ret else 1), info, with_priv dev p,
                 [CallSetChannels old new])
            end
      end
  | _, _ => (- EOPNOTSUPP, info, dev, [])
  end
  end.

(** A device lacks a category when it has no [get] or no [set] operation
    for it. *)
Definition lacks_coalesce (dev : net_device drv) : Prop :=
  get_coalesce (ops dev) = None \/ set_coalesce (ops dev) = None.
Definition lacks_ring (dev : net_device drv) : Prop :=
  get_ringparam (ops dev) = None \/ set_ringparam (ops dev) = None.
Definition lacks_pause (dev : net_device drv) : Prop :=
  get_pauseparam (ops dev) = None \/ set_pauseparam (ops dev) = None.
Definition lacks_channels (dev : net_device drv) : Prop :=
  get_channels (ops dev) = None \/ set_channels (ops dev) = None.

(** What a SET request leaves behind: its return value, the extended ack,
    the registry, the calls made to the driver's [set] operations, and
    the mask passed to [ethtool_notify] (zero when it was not called). *)
Record set_result : Type :=
  { sr_ret : Z;
    sr_info : genl_info;
    sr_net : net drv;
    sr_calls : list set_call;
    sr_notify : Z }.

Definition ethnl_set_params (n : net drv) (nlhdr : nlmsghdr) (info : genl_info)
    : set_result :=
  match nla_parse ETHTOOL_A_PARAMS_MAX set_params_policy (nlmsg_attrs nlhdr) with
  | inl ret =>
      {| sr_ret := ret; sr_info := info; sr_net := n; sr_calls := [];
         sr_notify := 0 |}
  | inr tb =>
  match ethnl_dev_get n info (tb_get tb ETHTOOL_A_PARAMS_DEV) with
  | (inl err, info, n) =>
      {| sr_ret := err; sr_info := info; sr_net := n; sr_calls := [];
         sr_notify := 0 |}
  | (inr dev, info, n) =>
      let ret := ethnl_before_ops dev (priv dev) in
      if ret <? 0
      then {| sr_ret := ret; sr_info := info; sr_net := dev_put n dev;
              sr_calls := []; sr_notify := 0 |}
      else
        (* [out_ops]: notify what changed, then release the device *)
        let out_ops (ret : Z) (info : genl_info) (dev : net_device drv)
                    (calls : list set_call) (req_mask : Z) :=
          {| sr_ret := ret; sr_info := info;
             sr_net := dev_put (dev_store n dev) dev;
             sr_calls := calls; sr_notify := req_mask |} in
        let req_mask := 0 in
        let '(ret, info, dev, c1) :=
          update_coalesce info dev (tb_get tb ETHTOOL_A_PARAMS_COALESCE) in
        if ret <? 0 then out_ops ret info dev c1 req_mask
        else
        let req_mask := if negb (ret =? 0)
                        then Z.lor req_mask ETHTOOL_IM_PARAMS_COALESCE
                        else req_mask in
        let '(ret, info, dev, c2) :=
          update_ring info dev (tb_get tb ETHTOOL_A_PARAMS_RING) in
        if ret <? 0 then out_ops ret info dev (c1 ++ c2) req_mask
        else
        let req_mask := if negb (ret =? 0)
                        then Z.lor req_mask ETHTOOL_IM_PARAMS_RING
                        else req_mask in
        let '(ret, info, dev, c3) :=
          update_pause info dev (tb_get tb ETHTOOL_A_PARAMS_PAUSE) in
        if ret <? 0 then out_ops ret info dev (c1 ++ c2 ++ c3) req_mask
        else
        let req_mask := if negb (ret =? 0)
                        then Z.lor req_mask ETHTOOL_IM_PARAMS_PAUSE
                        else req_mask in
        let '(ret, info, dev, c4) :=
          update_channels info dev (tb_get tb ETHTOOL_A_PARAMS_CHANNELS) in
        if ret <? 0 then out_ops ret info dev (c1 ++ c2 ++ c3 ++ c4) req_mask
        else
        let req_mask := if negb (ret =? 0)
                        then Z.lor req_mask ETHTOOL_IM_PARAMS_CHANNELS
                        else req_mask in
        out_ops 0 info dev (c1 ++ c2 ++ c3 ++ c4) req_mask
  end
  end.

End WithDriver.

End Params.

(** ** [net/ethtool/params.c], coalescing only: the request parser *)

Module ParamsCoalesce.
Import Nl Dev Netlink.

Definition ETHTOOL_A_PARAMS_DEV : nat := 1.
Definition ETHTOOL_A_PARAMS_INFOMASK : nat := 2.
Definition ETHTOOL_A_PARAMS_COMPACT : nat := 3.
Definition ETHTOOL_A_PARAMS_COALESCE : nat := 4.
Definition ETHTOOL_A_PARAMS_MAX : nat := 4.

Definition ETHTOOL_IM_PARAMS_COALESCE : Z := 1.
Definition ETHTOOL_IM_PARAMS_ALL : Z := 1.

Definition get_params_policy : list nla_policy :=
  [ pol NLA_REJECT; pol NLA_NESTED; pol NLA_U32; pol NLA_FLAG; pol NLA_REJECT ].

Record params_reply : Type := { coalesce : ethtool_coalesce }.

Section WithDriver.
Context {drv : Type}.

Definition params_data : Type := get_data drv unit params_reply.

Definition set_reqinfo (data : params_data) (ri : common_req_info drv)
    : params_data :=
  {| reqinfo_base := ri; req_rest := req_rest data;
     repdata_base := repdata_base data; rep_rest := rep_rest data |}.

Definition parse_params (n : net drv) (data : params_data)
    (nlhdr : nlmsghdr) (info : genl_info)
    : Z * params_data * genl_info * net drv :=
  match nla_parse ETHTOOL_A_PARAMS_MAX get_params_policy (nlmsg_attrs nlhdr) with
  | inl ret => (ret, data, info, n)
  | inr tb =>
      let req_info := reqinfo_base data in
      let resolved :=
        match tb_get tb ETHTOOL_A_PARAMS_DEV with
        | Some a_dev =>
            match ethnl_dev_get n info (Some a_dev) with
            | (inr dev, info, n) => (inr (Some dev), info, n)
            | (inl ret, info, n) => (inl ret, info, n)
            end
        | None => (inr (req_dev req_info), info, n)
        end in
      match resolved with
      | (inl ret, info, n) =>
          (ret,
           set_reqinfo data {| req_dev := None; req_mask := req_mask req_info;
                               compact := compact req_info |},
           info, n)
      | (inr dev, info, n) =>
          let mask := match tb_get tb ETHTOOL_A_PARAMS_INFOMASK with
                      | Some a => nla_get_u32 a
                      | None => req_mask req_info
                      end in
          let cpt := match tb_get tb ETHTOOL_A_PARAMS_COMPACT with
                     | Some _ => true
                     | None => compact req_info
                     end in
          let mask := if mask =? 0 then ETHTOOL_IM_PARAMS_ALL else mask in
          (0,
           set_reqinfo data {| req_dev := dev; req_mask := mask; compact := cpt |},
           info, n)
      end
  end.

End WithDriver.

End ParamsCoalesce.

(** ** A bitset codec to run examples with

    Every bitset takes the room of a compact bitmap of 67 bits with its
    mask; decoding leaves the bitmap as it is. *)
Definition sample_codec : Nl.bitset_codec :=
  {| Nl.ETHNL_BITSET_COMPACT := 1;
     Nl.ETHNL_BITSET_LIST := 2;
     Nl.ethnl_bitset32_size := fun _ => 48;
     Nl.bitset32_put_len := fun _ => 48;
     Nl.bitset_decode := fun bitmap _ => (false, 0, bitmap) |}.

(** ** Sample devices *)

Module Samples.
Import Nl Dev Netlink.

(** A driver that keeps its ring parameters and its coalescing parameters
    and accepts every update of them. *)
Record sample_priv : Type :=
  { sp_ring : ethtool_ringparam; sp_coalesce : ethtool_coalesce }.

Definition sample_ring : ethtool_ringparam :=
  {| rx_max_pending := 4096; rx_mini_max_pending := 0;
     rx_jumbo_max_pending := 0; tx_max_pending := 4096;
     rx_pending := 256; rx_mini_pending := 0; rx_jumbo_pending := 0;
     tx_pending := 256 |}.

Definition sample_ops (with_set_ring : bool) : ethtool_ops sample_priv :=
  {| get_coalesce := Some (fun p => (0, sp_coalesce p));
     set_coalesce := Some (fun c p => (0, {| sp_ring := sp_ring p; sp_coalesce := c |}));
     get_ringparam := Some sp_ring;
     set_ringparam :=
       if with_set_ring
       then Some (fun r p => (0, {| sp_ring := r; sp_coalesce := sp_coalesce p |}))
       else None;
     get_pauseparam := None;
     set_pauseparam := None;
     get_channels := None;
     set_channels := None |}.

Definition zero_ksettings : ethtool_link_ksettings :=
  {| base := Settings.zero_link_settings;
     link_modes := {| supported := 0; advertising := 0; lp_advertising := 0 |} |}.

Definition sample_dev (idx : Z) (nm : string) (present with_set_ring : bool)
    : net_device sample_priv :=
  {| ifindex := idx; name := nm; netif_device_present := present;
     ops := sample_ops with_set_ring;
     priv := {| sp_ring := sample_ring; sp_coalesce := fun _ => 0 |};
     ethnl_before_ops := fun _ => 0;
     __ethtool_get_link := fun _ => - EOPNOTSUPP;
     __ethtool_get_link_ksettings := fun _ => (- EOPNOTSUPP, zero_ksettings);
     __ethtool_get_wol := fun _ => (- EOPNOTSUPP,
                                    {| wol_supported := 0; wolopts := 0;
                                       sopass := [0; 0; 0; 0; 0; 0] |});
     __ethtool_set_channels := fun _ _ p => (- EOPNOTSUPP, p) |}.

(** [eth0] is present and can set its ring; [eth1] is not present; [eth2]
    is present and can read its ring parameters but not set them. *)
Definition eth0 : net_device sample_priv := sample_dev 2 "eth0" true true.
Definition eth1 : net_device sample_priv := sample_dev 3 "eth1" false false.
Definition eth2 : net_device sample_priv := sample_dev 4 "eth2" true false.

(** A registry with each device in the bucket of its index, no reference
    held. *)
Definition sample_net : net sample_priv :=
  {| dev_index_head := [[]; []; [eth0]; [eth1]; [eth2]] ++ replicate 251 [];
     dev_refcnt := fun _ => 0 |}.

Definition no_info : genl_info := {| _msg := None; bad_attr := None |}.

(** Identification nests: index 2 with the name of another device; index 3
    alone; the name "eth1" alone. *)
Definition conflict_nest : nla_data :=
  DNested [(ETHTOOL_A_DEV_INDEX, DU32 2); (ETHTOOL_A_DEV_NAME, DString "eth1")].
Definition index_nest : nla_data := DNested [(ETHTOOL_A_DEV_INDEX, DU32 3)].
Definition name_nest : nla_data := DNested [(ETHTOOL_A_DEV_NAME, DString "eth1")].

(** Link settings with autonegotiation on, of a device that supports
    100baseT/Full (bit 3), 1000baseT/Full (bit 5) and Autoneg (bit 6) and
    advertises 100baseT/Full and Autoneg. *)
Definition sample_ksettings : ethtool_link_ksettings :=
  {| base := Settings.set_autoneg Settings.zero_link_settings 1;
     link_modes := {| supported := 104; advertising := 72; lp_advertising := 0 |} |}.

(** Request records as the allocator hands them out, zeroed. *)
Definition fresh_req : common_req_info sample_priv :=
  {| req_dev := None; req_mask := 0; compact := false |}.
Definition fresh_rep : common_reply_data sample_priv :=
  {| rep_dev := None; info_mask := 0 |}.
Definition fresh_settings_data : @Settings.settings_data sample_priv :=
  {| reqinfo_base := fresh_req; req_rest := {| Settings.privileged := false |};
     repdata_base := fresh_rep; rep_rest := Settings.zero_settings_reply |}.
Definition fresh_params_data : @Params.params_data sample_priv :=
  {| reqinfo_base := fresh_req; req_rest := tt;
     repdata_base := fresh_rep; rep_rest := Params.zero_params_reply |}.
Definition fresh_coalesce_data : @ParamsCoalesce.params_data sample_priv :=
  {| reqinfo_base := fresh_req; req_rest := tt;
     repdata_base := fresh_rep;
     rep_rest := {| ParamsCoalesce.coalesce := fun _ => 0 |} |}.

(** A settings request record that asks for the link state only, and one
    that asks for everything in the compact form; a parameters record that
    asks for everything. *)
Definition link_state_data : @Settings.settings_data sample_priv :=
  {| reqinfo_base := {| req_dev := None;
                        req_mask := Settings.ETHTOOL_IM_SETTINGS_LINKSTATE;
                        compact := false |};
     req_rest := {| Settings.privileged := false |};
     repdata_base := fresh_rep; rep_rest := Settings.zero_settings_reply |}.
Definition all_settings_data : @Settings.settings_data sample_priv :=
  {| reqinfo_base := {| req_dev := None;
                        req_mask := Settings.ETHTOOL_IM_SETTINGS_ALL;
                        compact := true |};
     req_rest := {| Settings.privileged := true |};
     repdata_base := fresh_rep; rep_rest := Settings.zero_settings_reply |}.
Definition all_params_data : @Params.params_data sample_priv :=
  {| reqinfo_base := {| req_dev := None;
                        req_mask := Params.ETHTOOL_IM_PARAMS_ALL;
                        compact := false |};
     req_rest := tt;
     repdata_base := fresh_rep; rep_rest := Params.zero_params_reply |}.

(** A parameters record as [prepare_params] leaves it when every category
    could be read. *)
Definition prepared_params_data : @Params.params_data sample_priv :=
  {| reqinfo_base := reqinfo_base all_params_data; req_rest := tt;
     repdata_base := {| rep_dev := None;
                        info_mask := Params.ETHTOOL_IM_PARAMS_ALL |};
     rep_rest := Params.zero_params_reply |}.

(** [eth3] has a link: its link is up, it reports link settings in which
    the peer advertises 1000baseT/Full, and Wake-on-LAN settings. *)
Definition eth3 : net_device sample_priv :=
  {| ifindex := 5; name := "eth3"; netif_device_present := true;
     ops := sample_ops true;
     priv := {| sp_ring := sample_ring; sp_coalesce := fun _ => 0 |};
     ethnl_before_ops := fun _ => 0;
     __ethtool_get_link := fun _ => 1;
     __ethtool_get_link_ksettings :=
       fun _ => (0, {| base := base sample_ksettings;
                       link_modes := {| supported := 104; advertising := 72;
                                        lp_advertising := 32 |} |});
     __ethtool_get_wol := fun _ => (0, {| wol_supported := 32; wolopts := 32;
                                         sopass := [1; 2; 3; 4; 5; 6] |});
     __ethtool_set_channels := fun _ _ p => (- EOPNOTSUPP, p) |}.

(** [eth4] does not support the operations at all; [eth5] fails them with
    another error. *)
Definition failing_dev (idx : Z) (nm : string) (err : Z) : net_device sample_priv :=
  {| ifindex := idx; name := nm; netif_device_present := true;
     ops := sample_ops true;
     priv := {| sp_ring := sample_ring; sp_coalesce := fun _ => 0 |};
     ethnl_before_ops := fun _ => err;
     __ethtool_get_link := fun _ => - EOPNOTSUPP;
     __ethtool_get_link_ksettings := fun _ => (- EOPNOTSUPP, zero_ksettings);
     __ethtool_get_wol := fun _ => (- EOPNOTSUPP,
                                    {| wol_supported := 0; wolopts := 0;
                                       sopass := [0; 0; 0; 0; 0; 0] |});
     __ethtool_set_channels := fun _ _ p => (- EOPNOTSUPP, p) |}.
Definition eth4 : net_device sample_priv := failing_dev 6 "eth4" (- EOPNOTSUPP).
Definition eth5 : net_device sample_priv := failing_dev 7 "eth5" (- ENODEV).

(** A registry with two devices in one bucket, among them one that is not
    supported, and one that fails in a later bucket. *)
Definition dump_net : net sample_priv :=
  {| dev_index_head :=
       [[]; []; [eth0; eth4]; [eth1]; []; [eth3]; []; [eth5]; [eth2]]
       ++ replicate 247 [];
     dev_refcnt := fun _ => 0 |}.

(** The state of a dump of the parameters before its first call. *)
Definition dump_start : @netlink_callback sample_priv unit Params.params_reply :=
  {| cb_data := all_params_data; cb_h := 0; cb_idx := 0 |}.

(** An empty buffer with room for [cap] bytes. *)
Definition empty_skb (cap : Z) : sk_buff := {| skb_data := []; skb_end := cap |}.

(** A GET request for [eth0] with an info mask of zero. *)
Definition get_zero_mask_msg : nlmsghdr :=
  {| nlmsg_attrs := [(1%nat, DNested [(ETHTOOL_A_DEV_INDEX, DU32 2)]);
                     (2%nat, DU32 0)];
     sender_privileged := false |}.

(** A SET_PARAMS request for [eth2] that changes the rx coalescing delay
    and the rx ring size. *)
Definition set_coalesce_ring_msg : nlmsghdr :=
  {| nlmsg_attrs :=
       [(Params.ETHTOOL_A_PARAMS_DEV, DNested [(ETHTOOL_A_DEV_INDEX, DU32 4)]);
        (Params.ETHTOOL_A_PARAMS_COALESCE,
         DNested [(Params.ETHTOOL_A_COALESCE_RX_USECS, DU32 50)]);
        (Params.ETHTOOL_A_PARAMS_RING,
         DNested [(Params.ETHTOOL_A_RING_RX_PENDING, DU32 512)])];
     sender_privileged := true |}.

(** The attribute table of that request. *)
Definition set_coalesce_ring_tb : list (option nla_data) :=
  [None; Some (DNested [(ETHTOOL_A_DEV_INDEX, DU32 4)]); None; None;
   Some (DNested [(Params.ETHTOOL_A_COALESCE_RX_USECS, DU32 50)]);
   Some (DNested [(Params.ETHTOOL_A_RING_RX_PENDING, DU32 512)]);
   None; None].

(** A ring nest that asks for 512 rx descriptors and 8192 tx descriptors,
    the latter above the maximum of 4096. *)
Definition ring_nest : nla_data :=
  DNested [(Params.ETHTOOL_A_RING_RX_PENDING, DU32 512);
           (Params.ETHTOOL_A_RING_TX_PENDING, DU32 8192)].

(** A link modes nest that asks for speed 1000 and nothing else. *)
Definition speed_1000_nest : nla_data :=
  DNested [(Settings.ETHTOOL_A_LINKMODES_SPEED, DU32 1000)].

End Samples.

(** ** The layout of what the writers put in a message *)

Module Layout.
Import Nl Dev Netlink.

Section WithCodec.
Context {codec : bitset_codec}.

(** The writers are run on buffers that hold no more than their capacity.

    [puts m items]: [m] is a sequence of puts of [items].  With room for
    all of them it writes them and returns 0; with less it returns
    [-EMSGSIZE], having left what the buffer held in place. *)
Definition puts (m : skbM Z) (items : list item) : Prop :=
  Forall (fun i => 0 <= item_len i) items
  /\ forall skb : sk_buff,
       0 <= skb_tailroom skb ->
       if skb_tailroom skb <? items_len items
       then fst (m skb) = - EMSGSIZE
            /\ skb_end (snd (m skb)) = skb_end skb
            /\ exists ext, skb_data (snd (m skb)) = skb_data skb ++ ext
       else m skb = (0, {| skb_data := skb_data skb ++ items;
                           skb_end := skb_end skb |}).

(** [exactly m items]: [m] writes [items] or nothing.  With room for all
    of them it writes them and returns 0; with less it returns
    [-EMSGSIZE] and the buffer is as before. *)
Definition exactly (m : skbM Z) (items : list item) : Prop :=
  forall skb : sk_buff,
    0 <= skb_tailroom skb ->
    m skb = if skb_tailroom skb <? items_len items
            then (- EMSGSIZE, skb)
            else (0, {| skb_data := skb_data skb ++ items;
                        skb_end := skb_end skb |}).

(** [closes mark m items]: [m] is the rest of a writer whose nest was
    opened at [mark].  With room for [items] it writes them and returns 0;
    with less it cuts the buffer back to [mark] and returns [-EMSGSIZE]. *)
Definition closes (mark : nat) (m : skbM Z) (items : list item) : Prop :=
  Forall (fun i => 0 <= item_len i) items
  /\ forall skb : sk_buff,
       (mark <= length (skb_data skb))%nat ->
       0 <= skb_tailroom skb ->
       m skb = if skb_tailroom skb <? items_len items
               then (- EMSGSIZE, skb_trim skb mark)
               else (0, {| skb_data := skb_data skb ++ items;
                           skb_end := skb_end skb |}).

(** [adds P m]: whatever the buffer, [m] leaves its items in place and
    adds items that satisfy [P]. *)
Definition adds {A : Type} (P : item -> Prop) (m : skbM A) : Prop :=
  forall skb : sk_buff,
    skb_end (snd (m skb)) = skb_end skb
    /\ exists ext : list item,
         skb_data (snd (m skb)) = skb_data skb ++ ext /\ Forall P ext.

(** [adds_in mark P m]: in a nest opened at [mark], [m] either cuts the
    buffer back to [mark] or adds items that satisfy [P]. *)
Definition adds_in {A : Type} (mark : nat) (P : item -> Prop) (m : skbM A)
    : Prop :=
  forall skb : sk_buff,
    (mark <= length (skb_data skb))%nat ->
    skb_end (snd (m skb)) = skb_end skb
    /\ (skb_data (snd (m skb)) = take mark (skb_data skb)
        \/ exists ext : list item,
             skb_data (snd (m skb)) = skb_data skb ++ ext /\ Forall P ext).

(** The items that are not an attribute with a binary payload. *)
Definition no_binary (i : item) : Prop :=
  match i with
  | IAttr _ _ (DBinary _) => False
  | _ => True
  end.

Definition u8 (ty : nat) (v : Z) : item := IAttr ty 1 (DU8 v).
Definition u32 (ty : nat) (v : Z) : item := IAttr ty 4 (DU32 v).

(** A complete nest: its header, its attributes, its end. *)
Definition nested (ty : nat) (body : list item) : list item :=
  INest ty :: body ++ [INestEnd].

Section WithDriver.
Context {drv : Type}.

(** The identification nest of a device. *)
Definition dev_items (dev : net_device drv) (ty : nat) : list item :=
  nested ty
    [ u32 ETHTOOL_A_DEV_INDEX (ifindex dev);
      IAttr ETHTOOL_A_DEV_NAME (strlen (name dev) + 1) (DString (name dev)) ].

End WithDriver.

(** *** Link settings *)

Definition link_info_items (l : ethtool_link_settings) : list item :=
  nested Settings.ETHTOOL_A_SETTINGS_LINK_INFO
    [ u8 Settings.ETHTOOL_A_LINKINFO_PORT (port l);
      u8 Settings.ETHTOOL_A_LINKINFO_PHYADDR (phy_address l);
      u8 Settings.ETHTOOL_A_LINKINFO_TP_MDIX (eth_tp_mdix l);
      u8 Settings.ETHTOOL_A_LINKINFO_TP_MDIX_CTRL (eth_tp_mdix_ctrl l);
      u8 Settings.ETHTOOL_A_LINKINFO_TRANSCEIVER (transceiver l) ].

Definition link_modes_items (ks : ethtool_link_ksettings)
    (lpm_empty compact : bool) : list item :=
  let flags := if compact then ETHNL_BITSET_COMPACT else 0 in
  nested Settings.ETHTOOL_A_SETTINGS_LINK_MODES
    ([ u8 Settings.ETHTOOL_A_LINKMODES_AUTONEG (autoneg (base ks));
       IBitset Settings.ETHTOOL_A_LINKMODES_OURS
         {| bs_nbits := Settings.__ETHTOOL_LINK_MODE_MASK_NBITS;
            bs_val := advertising (link_modes ks);
            bs_mask := Some (supported (link_modes ks));
            bs_flags := flags |} ]
     ++ (if lpm_empty then []
         else [ IBitset Settings.ETHTOOL_A_LINKMODES_PEER
                  {| bs_nbits := Settings.__ETHTOOL_LINK_MODE_MASK_NBITS;
                     bs_val := lp_advertising (link_modes ks);
                     bs_mask := None;
                     bs_flags := Z.lor flags ETHNL_BITSET_LIST |} ])
     ++ [ u32 Settings.ETHTOOL_A_LINKMODES_SPEED (speed (base ks));
          u8 Settings.ETHTOOL_A_LINKMODES_DUPLEX (duplex (base ks)) ]).

(** An unknown link state, a negative one, gives an empty nest. *)
Definition link_state_items (link : Z) : list item :=
  nested Settings.ETHTOOL_A_SETTINGS_LINK_STATE
    (if 0 <=? link then [ u8 Settings.ETHTOOL_A_LINKSTATE_LINK (to_bool link) ]
     else []).

(** The pass-phrase is there for a privileged requester only. *)
Definition wol_items (wol : ethtool_wolinfo) (privileged : bool) : list item :=
  nested Settings.ETHTOOL_A_SETTINGS_WOL
    (IAttr Settings.ETHTOOL_A_WOL_MODES 8
       (DBitfield32 (wolopts wol) (wol_supported wol))
     :: (if privileged
         then [ IAttr Settings.ETHTOOL_A_WOL_SOPASS Settings.SOPASS_MAX
                  (DBinary (sopass wol)) ]
         else [])).

(** *** Device parameters *)

Definition coalesce_items (d : ethtool_coalesce) : list item :=
  nested Params.ETHTOOL_A_PARAMS_COALESCE
    [ u32 Params.ETHTOOL_A_COALESCE_RX_USECS (d rx_coalesce_usecs);
      u32 Params.ETHTOOL_A_COALESCE_RX_MAXFRM (d rx_max_coalesced_frames);
      u32 Params.ETHTOOL_A_COALESCE_RX_USECS_IRQ (d rx_coalesce_usecs_irq);
      u32 Params.ETHTOOL_A_COALESCE_RX_MAXFRM_IRQ (d rx_max_coalesced_frames_irq);
      u32 Params.ETHTOOL_A_COALESCE_RX_USECS_LOW (d rx_coalesce_usecs_low);
      u32 Params.ETHTOOL_A_COALESCE_RX_MAXFRM_LOW (d rx_max_coalesced_frames_low);
      u32 Params.ETHTOOL_A_COALESCE_RX_USECS_HIGH (d rx_coalesce_usecs_high);
      u32 Params.ETHTOOL_A_COALESCE_RX_MAXFRM_HIGH (d rx_max_coalesced_frames_high);
      u32 Params.ETHTOOL_A_COALESCE_TX_USECS (d tx_coalesce_usecs);
      u32 Params.ETHTOOL_A_COALESCE_TX_MAXFRM (d tx_max_coalesced_frames);
      u32 Params.ETHTOOL_A_COALESCE_TX_USECS_IRQ (d tx_coalesce_usecs_irq);
      u32 Params.ETHTOOL_A_COALESCE_TX_MAXFRM_IRQ (d tx_max_coalesced_frames_irq);
      u32 Params.ETHTOOL_A_COALESCE_TX_USECS_LOW (d tx_coalesce_usecs_low);
      u32 Params.ETHTOOL_A_COALESCE_TX_MAXFRM_LOW (d tx_max_coalesced_frames_low);
      u32 Params.ETHTOOL_A_COALESCE_TX_USECS_HIGH (d tx_coalesce_usecs_high);
      u32 Params.ETHTOOL_A_COALESCE_TX_MAXFRM_HIGH (d tx_max_coalesced_frames_high);
      u32 Params.ETHTOOL_A_COALESCE_PKT_RATE_LOW (d pkt_rate_low);
      u32 Params.ETHTOOL_A_COALESCE_PKT_RATE_HIGH (d pkt_rate_high);
      u8 Params.ETHTOOL_A_COALESCE_RX_USE_ADAPTIVE
         (to_bool (d use_adaptive_rx_coalesce));
      u8 Params.ETHTOOL_A_COALESCE_TX_USE_ADAPTIVE
         (to_bool (d use_adaptive_tx_coalesce));
      u32 Params.ETHTOOL_A_COALESCE_RATE_SAMPLE_INTERVAL (d rate_sample_interval);
      u32 Params.ETHTOOL_A_COALESCE_STATS_BLOCK_USECS
          (d stats_block_coalesce_usecs) ].

Definition ring_items (d : ethtool_ringparam) : list item :=
  nested Params.ETHTOOL_A_PARAMS_RING
    [ u32 Params.ETHTOOL_A_RING_RX_MAX_PENDING (rx_max_pending d);
      u32 Params.ETHTOOL_A_RING_RX_MINI_MAX_PENDING (rx_mini_max_pending d);
      u32 Params.ETHTOOL_A_RING_RX_JUMBO_MAX_PENDING (rx_jumbo_max_pending d);
      u32 Params.ETHTOOL_A_RING_TX_MAX_PENDING (tx_max_pending d);
      u32 Params.ETHTOOL_A_RING_RX_PENDING (rx_pending d);
      u32 Params.ETHTOOL_A_RING_RX_MINI_PENDING (rx_mini_pending d);
      u32 Params.ETHTOOL_A_RING_RX_JUMBO_PENDING (rx_jumbo_pending d);
      u32 Params.ETHTOOL_A_RING_TX_PENDING (tx_pending d) ].

Definition pause_items (d : ethtool_pauseparam) : list item :=
  nested Params.ETHTOOL_A_PARAMS_PAUSE
    [ u8 Params.ETHTOOL_A_PAUSE_AUTONEG (to_bool (pause_autoneg d));
      u8 Params.ETHTOOL_A_PAUSE_RX (to_bool (rx_pause d));
      u8 Params.ETHTOOL_A_PAUSE_TX (to_bool (tx_pause d)) ].

Definition channels_items (d : ethtool_channels) : list item :=
  nested Params.ETHTOOL_A_PARAMS_CHANNELS
    [ u32 Params.ETHTOOL_A_CHANNELS_MAX_RX (max_rx d);
      u32 Params.ETHTOOL_A_CHANNELS_MAX_TX (max_tx d);
      u32 Params.ETHTOOL_A_CHANNELS_MAX_OTHER (max_other d);
      u32 Params.ETHTOOL_A_CHANNELS_MAX_COMBINED (max_combined d);
      u32 Params.ETHTOOL_A_CHANNELS_RX_COUNT (rx_count d);
      u32 Params.ETHTOOL_A_CHANNELS_TX_COUNT (tx_count d);
      u32 Params.ETHTOOL_A_CHANNELS_OTHER_COUNT (other_count d);
      u32 Params.ETHTOOL_A_CHANNELS_COMBINED_COUNT (combined_count d) ].

Section WithDriver.
Context {drv : Type}.

Definition on (mask bit : Z) (items : list item) : list item :=
  if negb (Z.land mask bit =? 0) then items else [].

(** The categories of a parameters reply, in the order they are written:
    those in the achieved mask. *)
Definition params_items (data : @Params.params_data drv) : list item :=
  let m := info_mask (repdata_base data) in
  let rep := rep_rest data in
  on m Params.ETHTOOL_IM_PARAMS_COALESCE (coalesce_items (Params.coalesce rep))
  ++ on m Params.ETHTOOL_IM_PARAMS_RING (ring_items (Params.ring rep))
  ++ on m Params.ETHTOOL_IM_PARAMS_PAUSE (pause_items (Params.pause rep))
  ++ on m Params.ETHTOOL_IM_PARAMS_CHANNELS (channels_items (Params.channels rep)).

Definition settings_items (data : @Settings.settings_data drv) : list item :=
  let m := info_mask (repdata_base data) in
  let rep := rep_rest data in
  on m Settings.ETHTOOL_IM_SETTINGS_LINKINFO
     (link_info_items (base (Settings.ksettings rep)))
  ++ on m Settings.ETHTOOL_IM_SETTINGS_LINKMODES
        (link_modes_items (Settings.ksettings rep) (Settings.lpm_empty rep)
           (compact (reqinfo_base data)))
  ++ on m Settings.ETHTOOL_IM_SETTINGS_LINKSTATE
        (link_state_items (Settings.link rep))
  ++ on m Settings.ETHTOOL_IM_SETTINGS_WOL
        (wol_items (Settings.wolinfo rep) (Settings.privileged (req_rest data))).

End WithDriver.
End WithCodec.
End Layout.

(** ** [net/ethtool/netlink.c]: replies to GET requests *)

Module Reply.
Import Nl Dev Netlink.

Definition ENOMEM : Z := 12.

(** [genlmsg_total_size]: the room of a generic netlink message with that
    payload, after the netlink header. *)
Definition genlmsg_total_size (payload : Z) : Z := NLA_ALIGN (GENL_HDRLEN + payload).

Section WithDriver.
Context {drv : Type} {codec : bitset_codec}.

(** The allocator and the transport are not among the sources.
    [alloc_skb size] is the capacity of the buffer the allocator gives for
    a request of [size] bytes, if it gives one; [genlmsg_reply] is what
    sending a message returns. *)
Variable alloc_skb : Z -> option Z.
Variable genlmsg_reply : sk_buff -> Z.

(** [genlmsg_new]: an empty buffer for a message with that payload. *)
Definition genlmsg_new (payload : Z) : option sk_buff :=
  match alloc_skb (nlmsg_total_size (genlmsg_total_size payload)) with
  | Some cap => Some {| skb_data := []; skb_end := cap |}
  | None => None
  end.

Definition reply_err (info : option genl_info) : option genl_info :=
  match info with
  | Some i => Some (GENL_SET_ERR_MSG i "failed to allocate reply message")
  | None => None
  end.

(** Returns the buffer and the mark of its header, or nothing. *)
Definition ethnl_reply_init (payload : Z) (dev : option (net_device drv))
    (cmd : Z) (dev_attrtype : nat) (info : option genl_info)
    : option (sk_buff * option nat) * option genl_info :=
  match genlmsg_new payload with
  | None => (None, reply_err info)
  | Some skb =>
      let (ehdr, skb) := genlmsg_put cmd skb in
      match ehdr with
      | None => (None, reply_err info)
      | Some _ =>
          match dev with
          | Some dev =>
              let (ret, skb) := ethnl_fill_dev dev dev_attrtype skb in
              if ret <? 0 then (None, reply_err info)
              else (Some (skb, ehdr), info)
          | None => (Some (skb, ehdr), info)
          end
      end
  end.

Section Doit.
Context {Q R : Type}.

(** What a GET request leaves behind: its return value, the extended ack,
    the registry, and the reply that was sent, if one was. *)
Record doit_result : Type :=
  { dr_ret : Z;
    dr_info : genl_info;
    dr_net : net drv;
    dr_reply : option sk_buff }.

(** [ethnl_alloc_get_data]: the request part of the block is zeroed, the
    reply part is whatever the block held. *)
Definition ethnl_alloc_get_data (req_zero : Q) (held : common_reply_data drv * R)
    : get_data drv Q R :=
  {| reqinfo_base := {| req_dev := None; req_mask := 0; compact := false |};
     req_rest := req_zero;
     repdata_base := fst held;
     rep_rest := snd held |}.

(** [ethnl_get_doit] for the commands of [settings.c] and [params.c],
    whose [get_request_ops] leave [allow_nodev_do] unset.  [ops] is the
    entry of [get_requests] for the command, and [req_info] the block
    [ethnl_alloc_get_data] returned; either may be null. *)
Definition ethnl_get_doit (ops : option (get_request_ops drv Q R))
    (req_info : option (get_data drv Q R)) (n : net drv) (nlhdr : nlmsghdr)
    (info : genl_info) : doit_result :=
  match ops with
  | None => {| dr_ret := - EOPNOTSUPP; dr_info := info; dr_net := n;
               dr_reply := None |}
  | Some ops =>
  match req_info with
  | None => {| dr_ret := - ENOMEM; dr_info := info; dr_net := n;
               dr_reply := None |}
  | Some req_info =>
      let '(ret, data, info, n) := parse_request ops n req_info nlhdr info in
      match req_dev (reqinfo_base data) with
      | None =>
          {| dr_ret := - EINVAL;
             dr_info := GENL_SET_ERR_MSG info "device not specified in do request";
             dr_net := n; dr_reply := None |}
      | Some dev =>
          (* [err_dev]: give the device back *)
          let err_dev (ret : Z) (info : genl_info) :=
            {| dr_ret := ret; dr_info := info; dr_net := dev_put n dev;
               dr_reply := None |} in
          if ret <? 0 then err_dev ret info
          else
            let data := ethnl_init_reply_data ops data dev in
            let '(ret, data, oinfo) := prepare_data ops data dev (Some info) in
            let info := default info oinfo in
            if ret <? 0 then err_dev ret info
            else
              let reply_len := reply_size ops data in
              if ret <? 0 then err_dev ret info
              else
                match ethnl_reply_init reply_len (Some dev) (reply_cmd ops)
                        (dev_attrtype ops) (Some info) with
                | (None, oinfo) => err_dev (- ENOMEM) (default info oinfo)
                | (Some (rskb, reply_payload), oinfo) =>
                    let info := default info oinfo in
                    let (ret, rskb) := fill_reply ops data rskb in
                    if ret <? 0 then err_dev ret info
                    else
                      let (_, rskb) := genlmsg_end reply_payload rskb in
                      {| dr_ret := genlmsg_reply rskb; dr_info := info;
                         dr_net := dev_put n dev; dr_reply := Some rskb |}
                end
      end
  end
  end.

(** A parser that takes at most one reference, on the registered device
    it leaves in the request, and leaves the devices of the registry as
    they are. *)
Definition parse_holds_req_dev (ops : get_request_ops drv Q R) : Prop :=
  forall (n : net drv) (req_info : get_data drv Q R) (nlhdr : nlmsghdr)
         (info : genl_info),
    req_dev (reqinfo_base req_info) = None ->
    let '(_, data, _, n') := parse_request ops n req_info nlhdr info in
    dev_index_head n' = dev_index_head n
    /\ (forall dev, req_dev (reqinfo_base data) = Some dev ->
                    In dev (all_devices n))
    /\ forall i,
         dev_refcnt n' i
         = dev_refcnt n i
           + match req_dev (reqinfo_base data) with
             | Some dev => if i =? ifindex dev then 1 else 0
             | None => 0
             end.

End Doit.
End WithDriver.
End Reply.

(** ** The calls a SET request makes to the driver *)

Module Calls.
Import Nl Dev Netlink Params.

Definition is_set_coalesce (c : set_call) : Prop :=
  match c with CallSetCoalesce _ => True | _ => False end.
Definition is_set_ringparam (c : set_call) : Prop :=
  match c with CallSetRingparam _ => True | _ => False end.
Definition is_set_pauseparam (c : set_call) : Prop :=
  match c with CallSetPauseparam _ => True | _ => False end.
Definition is_set_channels (c : set_call) : Prop :=
  match c with CallSetChannels _ _ => True | _ => False end.

Section WithDriver.
Context {drv : Type}.

(** What an update hands back: the device with the state its driver left,
    and at most one call, made when the update did not fail before it.  A
    positive return means the call was made and succeeded. *)
Definition update_outcome (dev : net_device drv) (is_call : set_call -> Prop)
    (res : update_result) : Prop :=
  (exists p, snd (fst res) = with_priv dev p)
  /\ ((snd res = [] /\ fst (fst (fst res)) <= 0)
      \/ (exists c, snd res = [c] /\ is_call c
                    /\ (fst (fst (fst res)) < 0 \/ fst (fst (fst res)) = 1))).

(** The registry holds the same devices, bucket by bucket, and as many
    references on each. *)
Definition same_registry (n n' : net drv) : Prop :=
  (forall i, dev_refcnt n' i = dev_refcnt n i)
  /\ map (map ifindex) (dev_index_head n') = map (map ifindex) (dev_index_head n).

(** The channel counts a request proposes, over the current ones. *)
Definition proposed_channels (cur : ethtool_channels)
    (tb : list (option nla_data)) : ethtool_channels :=
  set_counts cur
    (proposed (rx_count cur) (tb_get tb ETHTOOL_A_CHANNELS_RX_COUNT))
    (proposed (tx_count cur) (tb_get tb ETHTOOL_A_CHANNELS_TX_COUNT))
    (proposed (other_count cur) (tb_get tb ETHTOOL_A_CHANNELS_OTHER_COUNT))
    (proposed (combined_count cur) (tb_get tb ETHTOOL_A_CHANNELS_COMBINED_COUNT)).

(** The ring sizes and the pause parameters a request proposes, over the
    current ones; the maximums of the ring stay what the driver reports. *)
Definition proposed_ring (cur : ethtool_ringparam)
    (tb : list (option nla_data)) : ethtool_ringparam :=
  {| rx_max_pending := rx_max_pending cur;
     rx_mini_max_pending := rx_mini_max_pending cur;
     rx_jumbo_max_pending := rx_jumbo_max_pending cur;
     tx_max_pending := tx_max_pending cur;
     rx_pending := proposed (rx_pending cur) (tb_get tb ETHTOOL_A_RING_RX_PENDING);
     rx_mini_pending :=
       proposed (rx_mini_pending cur) (tb_get tb ETHTOOL_A_RING_RX_MINI_PENDING);
     rx_jumbo_pending :=
       proposed (rx_jumbo_pending cur)
         (tb_get tb ETHTOOL_A_RING_RX_JUMBO_PENDING);
     tx_pending := proposed (tx_pending cur) (tb_get tb ETHTOOL_A_RING_TX_PENDING) |}.

Definition proposed_pause (cur : ethtool_pauseparam)
    (tb : list (option nla_data)) : ethtool_pauseparam :=
  {| pause_autoneg := proposed (pause_autoneg cur)
                        (tb_get tb ETHTOOL_A_PAUSE_AUTONEG);
     rx_pause := proposed (rx_pause cur) (tb_get tb ETHTOOL_A_PAUSE_RX);
     tx_pause := proposed (tx_pause cur) (tb_get tb ETHTOOL_A_PAUSE_TX) |}.

(** Whether every count is within the maximum the driver reports. *)
Definition channels_within_max (c : ethtool_channels) : bool :=
  (rx_count c <=? max_rx c) && (tx_count c <=? max_tx c)
  && (other_count c <=? max_other c) && (combined_count c <=? max_combined c).

End WithDriver.
End Calls.

(** ** [net/ethtool/settings.c]: SET_SETTINGS, link info and Wake-on-LAN *)

Module SettingsSet.
Import Nl Dev Netlink Settings.

Definition ETHTOOL_A_LINKINFO_MAX : nat := ETHTOOL_A_LINKINFO_TRANSCEIVER.
Definition ETHTOOL_A_WOL_MAX : nat := ETHTOOL_A_WOL_SOPASS.

Definition set_linkinfo_policy : list nla_policy :=
  [ pol NLA_REJECT; pol NLA_U8; pol NLA_U8; pol NLA_REJECT; pol NLA_U8;
    pol NLA_REJECT ].

(** The array is declared with [ETHTOOL_A_LINKINFO_MAX + 1] entries; those
    after the pass-phrase are zero. *)
Definition set_wol_policy : list nla_policy :=
  [ pol NLA_REJECT; pol NLA_BITFIELD32;
    {| pol_type := NLA_BINARY; pol_len := SOPASS_MAX |};
    pol NLA_UNSPEC; pol NLA_UNSPEC; pol NLA_UNSPEC ].

Definition set_settings_policy : list nla_policy :=
  [ pol NLA_REJECT; pol NLA_NESTED; pol NLA_REJECT; pol NLA_FLAG;
    pol NLA_NESTED; pol NLA_NESTED; pol NLA_REJECT; pol NLA_NESTED ].

Definition set_port (l : ethtool_link_settings) (v : Z) : ethtool_link_settings :=
  {| speed := speed l; duplex := duplex l; port := v;
     phy_address := phy_address l; autoneg := autoneg l;
     eth_tp_mdix := eth_tp_mdix l;
     eth_tp_mdix_ctrl := eth_tp_mdix_ctrl l; transceiver := transceiver l |}.

Definition set_phy_address (l : ethtool_link_settings) (v : Z)
    : ethtool_link_settings :=
  {| speed := speed l; duplex := duplex l; port := port l;
     phy_address := v; autoneg := autoneg l;
     eth_tp_mdix := eth_tp_mdix l;
     eth_tp_mdix_ctrl := eth_tp_mdix_ctrl l; transceiver := transceiver l |}.

Definition set_eth_tp_mdix_ctrl (l : ethtool_link_settings) (v : Z)
    : ethtool_link_settings :=
  {| speed := speed l; duplex := duplex l; port := port l;
     phy_address := phy_address l; autoneg := autoneg l;
     eth_tp_mdix := eth_tp_mdix l;
     eth_tp_mdix_ctrl := v; transceiver := transceiver l |}.

(** Returns a negative error, or whether anything was modified, and the
    settings as the function leaves them. *)
Definition update_linkinfo (nest : option nla_data)
    (lsettings : ethtool_link_settings) : Z * ethtool_link_settings :=
  match nest with
  | None => (0, lsettings)
  | Some nst =>
  match nla_parse ETHTOOL_A_LINKINFO_MAX set_linkinfo_policy (nla_nested nst) with
  | inl ret => (ret, lsettings)
  | inr tb =>
      let ret := 0 in
      let (m, v) := ethnl_update_u8 (port lsettings)
                      (tb_get tb ETHTOOL_A_LINKINFO_PORT) in
      let lsettings := set_port lsettings v in
      let ret := if m then 1 else ret in
      let (m, v) := ethnl_update_u8 (phy_address lsettings)
                      (tb_get tb ETHTOOL_A_LINKINFO_PHYADDR) in
      let lsettings := set_phy_address lsettings v in
      let ret := if m then 1 else ret in
      let (m, v) := ethnl_update_u8 (eth_tp_mdix_ctrl lsettings)
                      (tb_get tb ETHTOOL_A_LINKINFO_TP_MDIX_CTRL) in
      let lsettings := set_eth_tp_mdix_ctrl lsettings v in
      let ret := if m then 1 else ret in
      (ret, lsettings)
  end
  end.

(** A call of one of the driver's [set] operations, with its argument. *)
Inductive settings_call : Type :=
| CallSetLinkKsettings (data : ethtool_link_ksettings)
| CallSetWol (data : ethtool_wolinfo).

Definition is_set_link_ksettings (c : settings_call) : Prop :=
  match c with CallSetLinkKsettings _ => True | _ => False end.
Definition is_set_wol (c : settings_call) : Prop :=
  match c with CallSetWol _ => True | _ => False end.

(** The operations of [dev->ethtool_ops] that the SET request uses:
    whether [get_link_ksettings] is there, and the two [set] operations,
    which the code calls without looking whether they are. *)
Record settings_ops (drv : Type) : Type :=
  { get_link_ksettings : bool;
    set_link_ksettings : ethtool_link_ksettings -> drv -> Z * drv;
    set_wol : ethtool_wolinfo -> drv -> Z * drv }.
Arguments get_link_ksettings {drv} _.
Arguments set_link_ksettings {drv} _ _ _.
Arguments set_wol {drv} _ _ _.

Definition set_wolopts (w : ethtool_wolinfo) (v : Z) : ethtool_wolinfo :=
  {| wol_supported := wol_supported w; wolopts := v; sopass := sopass w |}.
Definition set_sopass (w : ethtool_wolinfo) (v : list Z) : ethtool_wolinfo :=
  {| wol_supported := wol_supported w; wolopts := wolopts w; sopass := v |}.

(** What a SET_SETTINGS request leaves behind: its return value, the
    extended ack, the registry, the calls made to the driver's [set]
    operations, and the mask passed to [ethtool_notify] (zero when it was
    not called). *)
Record set_settings_result (drv : Type) : Type :=
  { ssr_ret : Z;
    ssr_info : genl_info;
    ssr_net : net drv;
    ssr_calls : list settings_call;
    ssr_notify : Z }.
Arguments ssr_ret {drv} _.
Arguments ssr_info {drv} _.
Arguments ssr_net {drv} _.
Arguments ssr_calls {drv} _.
Arguments ssr_notify {drv} _.

Section WithDriver.
Context {drv : Type} {codec : bitset_codec}.

(** The operations of a device; the helpers [ethnl_update_bitfield32] and
    [ethnl_update_binary] of [netlink.h], which are not among the sources:
    each tells whether it changed the value and gives the value it left. *)
Variable ethtool_ops_of : net_device drv -> settings_ops drv.
Variable ethnl_update_bitfield32 : Z -> option nla_data -> bool * Z.
Variable ethnl_update_binary : list Z -> Z -> option nla_data -> bool * list Z.

Definition ethnl_set_link_ksettings (info : genl_info) (dev : net_device drv)
    (eops : settings_ops drv) (ksettings : ethtool_link_ksettings)
    : Z * genl_info * net_device drv :=
  let (ret, p) := set_link_ksettings eops ksettings (priv dev) in
  ((ret,
    if ret <? 0 then GENL_SET_ERR_MSG info "link settings update failed"
    else info),
   with_priv dev p).

(** Update device settings using the [set_link_ksettings] callback.
    Returns the error or 0, the extended ack, the device, the calls made
    and the request mask. *)
Definition ethnl_update_ksettings (info : genl_info)
    (tb : list (option nla_data)) (dev : net_device drv)
    (eops : settings_ops drv) (req_mask : Z)
    : Z * genl_info * net_device drv * list settings_call * Z :=
  let mod_mask := 0 in
  let '(ret, ksettings, oinfo) := ethnl_get_link_ksettings (Some info) dev in
  let info := match oinfo with Some i => i | None => info end in
  if ret <? 0 then (ret, info, dev, [], req_mask)
  else
  let (ret, lsettings) :=
    update_linkinfo (tb_get tb ETHTOOL_A_SETTINGS_LINK_INFO) (base ksettings) in
  let ksettings := set_base ksettings lsettings in
  if ret <? 0 then (ret, info, dev, [], req_mask)
  else
  let mod_mask := if negb (ret =? 0)
                  then Z.lor mod_mask ETHTOOL_IM_SETTINGS_LINKINFO
                  else mod_mask in
  let (ret, ksettings) :=
    update_link_modes (tb_get tb ETHTOOL_A_SETTINGS_LINK_MODES) ksettings in
  if ret <? 0 then (ret, info, dev, [], req_mask)
  else
  let mod_mask := if negb (ret =? 0)
                  then Z.lor mod_mask ETHTOOL_IM_SETTINGS_LINKMODES
                  else mod_mask in
  if negb (mod_mask =? 0)
  then
    let '(ret, info, dev) := ethnl_set_link_ksettings info dev eops ksettings in
    if ret <? 0
    then (ret, info, dev, [CallSetLinkKsettings ksettings], req_mask)
    else (0, info, dev, [CallSetLinkKsettings ksettings],
          Z.lor req_mask mod_mask)
  else (0, info, dev, [], req_mask).

Definition update_wol (info : genl_info) (nest : option nla_data)
    (dev : net_device drv) (eops : settings_ops drv)
    : Z * genl_info * net_device drv * list settings_call :=
  match nest with
  | None => (0, info, dev, [])
  | Some nst =>
  match nla_parse ETHTOOL_A_WOL_MAX set_wol_policy (nla_nested nst) with
  | inl ret => (ret, info, dev, [])
  | inr tb =>
      let '(ret, wolinfo, oinfo) := ethnl_get_wol (Some info) dev in
      let info := match oinfo with Some i => i | None => info end in
      if ret <? 0 then (ret, info, dev, [])
      else
        let ret := 0 in
        let (m, v) := ethnl_update_bitfield32 (wolopts wolinfo)
                        (tb_get tb ETHTOOL_A_WOL_MODES) in
        let wolinfo := set_wolopts wolinfo v in
        let ret := if m then 1 else ret in
        let (m, v) := ethnl_update_binary (sopass wolinfo) SOPASS_MAX
                        (tb_get tb ETHTOOL_A_WOL_SOPASS) in
        let wolinfo := set_sopass wolinfo v in
        let ret := if m then 1 else ret in
        if negb (ret =? 0)
        then
          let (ret2, p) := set_wol eops wolinfo (priv dev) in
          if ret2 <? 0
          then (ret2, GENL_SET_ERR_MSG info "wol info update failed",
                with_priv dev p, [CallSetWol wolinfo])
          else (ret, info, with_priv dev p, [CallSetWol wolinfo])
        else (ret, info, dev, [])
  end
  end.

Definition ethnl_set_settings (n : net drv) (nlhdr : nlmsghdr) (info : genl_info)
    : set_settings_result drv :=
  match nla_parse ETHTOOL_A_SETTINGS_MAX set_settings_policy (nlmsg_attrs nlhdr) with
  | inl ret =>
      {| ssr_ret := ret; ssr_info := info; ssr_net := n; ssr_calls := [];
         ssr_notify := 0 |}
  | inr tb =>
  match ethnl_dev_get n info (tb_get tb ETHTOOL_A_SETTINGS_DEV) with
  | (inl err, info, n) =>
      {| ssr_ret := err; ssr_info := info; ssr_net := n; ssr_calls := [];
         ssr_notify := 0 |}
  | (inr dev, info, n) =>
      let eops := ethtool_ops_of dev in
      let ret := ethnl_before_ops dev (priv dev) in
      if ret <? 0
      then {| ssr_ret := ret; ssr_info := info; ssr_net := dev_put n dev;
              ssr_calls := []; ssr_notify := 0 |}
      else
        (* [out_ops]: notify what changed, then release the device *)
        let out_ops (ret : Z) (info : genl_info) (dev : net_device drv)
                    (calls : list settings_call) (req_mask : Z) :=
          {| ssr_ret := ret; ssr_info := info;
             ssr_net := dev_put (dev_store n dev) dev;
             ssr_calls := calls; ssr_notify := req_mask |} in
        let wol_part (info : genl_info) (dev : net_device drv)
                     (c1 : list settings_call) (req_mask : Z) :=
          match tb_get tb ETHTOOL_A_SETTINGS_WOL with
          | Some _ =>
              let '(ret, info, dev, c2) :=
                update_wol info (tb_get tb ETHTOOL_A_SETTINGS_WOL) dev eops in
              if ret <? 0 then out_ops ret info dev (c1 ++ c2) req_mask
              else
                let req_mask := if negb (ret =? 0)
                                then Z.lor req_mask ETHTOOL_IM_SETTINGS_WOL
                                else req_mask in
                out_ops 0 info dev (c1 ++ c2) req_mask
          | None => out_ops 0 info dev c1 req_mask
          end in
        let req_mask := 0 in
        if bool_decide (is_Some (tb_get tb ETHTOOL_A_SETTINGS_LINK_INFO))
           || bool_decide (is_Some (tb_get tb ETHTOOL_A_SETTINGS_LINK_MODES))
        then
          if negb (get_link_ksettings eops)
          then out_ops (- EOPNOTSUPP) info dev [] req_mask
          else
            let '(ret, info, dev, c1, req_mask) :=
              ethnl_update_ksettings info tb dev eops req_mask in
            if ret <? 0 then out_ops ret info dev c1 req_mask
            else wol_part info dev c1 req_mask
        else wol_part info dev [] req_mask
  end
  end.

End WithDriver.
End SettingsSet.

(** ** [net/ethtool/netlink.c]: notifications of the device list *)

Module Notify.
Import Nl Dev Netlink Reply.

(** Size of a NEWDEV/DELDEV notification. *)
Definition dev_notify_size : Z := nla_total_size dev_ident_size.

Section WithDriver.
Context {drv : Type} {codec : bitset_codec}.

(** The allocator is not among the sources, nor is the header that gives
    the command of event notifications its number. *)
Variable alloc_skb : Z -> option Z.
Variable ETHNL_CMD_EVENT : Z.

(** [ethnl_notify_devlist] for the device of the notifier info.  Returns
    the message it multicasts to the monitor group, if it sends one, and
    the broadcast sequence counter, which [ethnl_bcastmsg_put] increments
    before it writes the header. *)
Definition ethnl_notify_devlist (dev : net_device drv) (ev_type dev_attr : nat)
    (ethnl_bcast_seq : Z) : option sk_buff * Z :=
  match genlmsg_new alloc_skb dev_notify_size with
  | None => (None, ethnl_bcast_seq)
  | Some skb =>
      let ethnl_bcast_seq := ethnl_bcast_seq + 1 in
      let (ehdr, skb) := genlmsg_put ETHNL_CMD_EVENT skb in
      match ehdr with
      | None => (None, ethnl_bcast_seq)
      | Some _ =>
          let (nest, skb) := nla_nest_start ev_type skb in
          match nest with
          | None => (None, ethnl_bcast_seq)
          | Some mark =>
              let (ret, skb) := ethnl_fill_dev dev dev_attr skb in
              if ret <? 0 then (None, ethnl_bcast_seq)
              else
                let (_, skb) := nla_nest_end mark skb in
                let (_, skb) := genlmsg_end ehdr skb in
                (Some skb, ethnl_bcast_seq)
          end
      end
  end.

End WithDriver.
End Notify.

(** ** The categories a device cannot report *)

Module Unavailable.
Import Nl Dev Netlink.

Section WithDriver.
Context {drv : Type}.

(** The parameter categories whose [get] operation the device lacks, or,
    for the coalescing parameters, fails. *)
Definition unavailable_params (dev : net_device drv) : Z :=
  Z.lor
    (Z.lor
       (Z.lor
          (match get_coalesce (ops dev) with
           | Some get => if fst (get (priv dev)) <? 0
                         then Params.ETHTOOL_IM_PARAMS_COALESCE else 0
           | None => Params.ETHTOOL_IM_PARAMS_COALESCE
           end)
          (match get_ringparam (ops dev) with
           | Some _ => 0
           | None => Params.ETHTOOL_IM_PARAMS_RING
           end))
       (match get_pauseparam (ops dev) with
        | Some _ => 0
        | None => Params.ETHTOOL_IM_PARAMS_PAUSE
        end))
    (match get_channels (ops dev) with
     | Some _ => 0
     | None => Params.ETHTOOL_IM_PARAMS_CHANNELS
     end).

(** The settings categories the device fails to report: link info and
    link modes together, and Wake-on-LAN. *)
Definition unavailable_settings (dev : net_device drv) : Z :=
  Z.lor
    (if fst (__ethtool_get_link_ksettings dev (priv dev)) <? 0
     then Z.lor Settings.ETHTOOL_IM_SETTINGS_LINKINFO
                Settings.ETHTOOL_IM_SETTINGS_LINKMODES
     else 0)
    (if fst (__ethtool_get_wol dev (priv dev)) <? 0
     then Settings.ETHTOOL_IM_SETTINGS_WOL else 0).

End WithDriver.
End Unavailable.

(** ** More sample data: requests, a device with channels, the helpers
    that are not among the sources *)

Module MoreSamples.
Import Nl Dev Netlink Samples.

(** An allocator that gives exactly the room asked for, and nothing for a
    negative size; a transport that always succeeds. *)
Definition alloc_exact (size : Z) : option Z :=
  if size <? 0 then None else Some size.
Definition reply_ok (_ : sk_buff) : Z := 0.

(** A bitset codec whose size computation fails. *)
Definition failing_codec : bitset_codec :=
  {| ETHNL_BITSET_COMPACT := 1;
     ETHNL_BITSET_LIST := 2;
     ethnl_bitset32_size := fun _ => - EMSGSIZE;
     bitset32_put_len := fun _ => 48;
     bitset_decode := fun bitmap _ => (false, 0, bitmap) |}.

(** A GET request that names no device, and one for [eth3] from a sender
    without privileges. *)
Definition nodev_msg : nlmsghdr :=
  {| nlmsg_attrs := [(2%nat, DU32 0)]; sender_privileged := false |}.
Definition get_eth3_msg : nlmsghdr :=
  {| nlmsg_attrs := [(1%nat, DNested [(ETHTOOL_A_DEV_INDEX, DU32 5)])];
     sender_privileged := false |}.

(** [eth6] has eight channels of each kind at most, and uses four for
    receiving and four for sending. *)
Definition sample_channels : ethtool_channels :=
  {| max_rx := 8; max_tx := 8; max_other := 1; max_combined := 8;
     rx_count := 4; tx_count := 4; other_count := 1; combined_count := 0 |}.

Definition eth6 : net_device sample_priv :=
  {| ifindex := 8; name := "eth6"; netif_device_present := true;
     ops := {| get_coalesce := None; set_coalesce := None;
               get_ringparam := None; set_ringparam := None;
               get_pauseparam := None; set_pauseparam := None;
               get_channels := Some (fun _ => sample_channels);
               set_channels := Some (fun _ p => (0, p)) |};
     priv := {| sp_ring := sample_ring; sp_coalesce := fun _ => 0 |};
     ethnl_before_ops := fun _ => 0;
     __ethtool_get_link := fun _ => 1;
     __ethtool_get_link_ksettings := fun _ => (- EOPNOTSUPP, zero_ksettings);
     __ethtool_get_wol := fun _ => (- EOPNOTSUPP,
                                    {| wol_supported := 0; wolopts := 0;
                                       sopass := [0; 0; 0; 0; 0; 0] |});
     __ethtool_set_channels := fun _ _ p => (0, p) |}.

(** A channels nest that asks for two receive channels and sixteen send
    channels, the latter above the maximum of eight, and its table. *)
Definition channels_nest : nla_data :=
  DNested [(Params.ETHTOOL_A_CHANNELS_RX_COUNT, DU32 2);
           (Params.ETHTOOL_A_CHANNELS_TX_COUNT, DU32 16)].
Definition channels_tb : list (option nla_data) :=
  [None; None; None; None; None; Some (DU32 2); Some (DU32 16); None; None].

(** A ring nest that asks for 512 rx descriptors. *)
Definition rx_512_nest : nla_data :=
  DNested [(Params.ETHTOOL_A_RING_RX_PENDING, DU32 512)].

(** A driver without [get_link_ksettings] whose [set] operations accept
    everything and keep nothing. *)
Definition no_ksettings_ops (_ : net_device sample_priv)
    : SettingsSet.settings_ops sample_priv :=
  {| SettingsSet.get_link_ksettings := false;
     SettingsSet.set_link_ksettings := fun _ p => (0, p);
     SettingsSet.set_wol := fun _ p => (0, p) |}.

(** Helpers that take the value of the attribute when there is one. *)
Definition sample_update_bitfield32 (dst : Z) (attr : option nla_data)
    : bool * Z :=
  match attr with
  | Some (DBitfield32 value selector) =>
      let new := Z.lor (Z.land dst (Z.lnot selector)) (Z.land value selector) in
      (negb (new =? dst), new)
  | _ => (false, dst)
  end.
Definition sample_update_binary (dst : list Z) (len : Z)
    (attr : option nla_data) : bool * list Z :=
  match attr with
  | Some (DBinary b) => (negb (bool_decide (b = dst)), b)
  | _ => (false, dst)
  end.

(** A SET_SETTINGS request for [eth0] that changes the port and the
    Wake-on-LAN modes, and its table. *)
Definition set_port_wol_msg : nlmsghdr :=
  {| nlmsg_attrs :=
       [(Settings.ETHTOOL_A_SETTINGS_DEV, DNested [(ETHTOOL_A_DEV_INDEX, DU32 2)]);
        (Settings.ETHTOOL_A_SETTINGS_LINK_INFO,
         DNested [(Settings.ETHTOOL_A_LINKINFO_PORT, DU8 3)]);
        (Settings.ETHTOOL_A_SETTINGS_WOL,
         DNested [(Settings.ETHTOOL_A_WOL_MODES, DBitfield32 32 32)])];
     sender_privileged := true |}.
Definition set_port_wol_tb : list (option nla_data) :=
  [None; Some (DNested [(ETHTOOL_A_DEV_INDEX, DU32 2)]); None; None;
   Some (DNested [(Settings.ETHTOOL_A_LINKINFO_PORT, DU8 3)]); None; None;
   Some (DNested [(Settings.ETHTOOL_A_WOL_MODES, DBitfield32 32 32)])].

End MoreSamples.

(** * Properties *)

(** ** Device resolution *)

Module DevGetFacts.
Import Nl Dev Netlink.

Lemma strncmp_zero_eq (n : nat) : forall a b : string,
  (String.length a < n)%nat -> strncmp a b n = 0 -> a = b.
Proof.
  induction n as [|n IH]; intros a b Hlen Hcmp; [lia|].
  destruct a as [|c a], b as [|d b]; simpl in *; try discriminate; [reflexivity|].
  destruct (Ascii.ascii_dec c d) as [->|Hne].
  - f_equal. apply IH; [lia|assumption].
  - destruct (Ascii.nat_of_ascii c <? Ascii.nat_of_ascii d)%nat; discriminate.
Qed.

Lemma strncmp_differ (a b : string) (n : nat) :
  (String.length a < n)%nat -> a <> b -> (strncmp a b n =? 0) = false.
Proof.
  intros Hlen Hne. apply Z.eqb_neq. intros H. apply Hne.
  eapply strncmp_zero_eq; eassumption.
Qed.

Section WithDriver.
Context {drv : Type}.

Lemma dev_get_by_index_hold (n n1 : net drv) (idx : Z) (dev : net_device drv) :
  dev_get_by_index n idx = (Some dev, n1) -> n1 = dev_hold n (ifindex dev).
Proof.
  unfold dev_get_by_index. destruct (find _ _); intros H; inversion H; subst.
  reflexivity.
Qed.

Lemma dev_put_hold_refcnt (n : net drv) (dev : net_device drv) (i : Z) :
  dev_refcnt (dev_put (dev_hold n (ifindex dev)) dev) i = dev_refcnt n i.
Proof. simpl. destruct (i =? ifindex dev); lia. Qed.

(** C9.  When the index and the name of an identification nest are both
    given and the device found by index has another name, the resolution
    fails with [-ENODEV] and the message that index and name do not
    match, and the reference taken by the lookup is given back: every
    reference count is what it was before the call. *)
Theorem ethnl_dev_get_name_conflict (n : net drv) (info : genl_info)
    (nst a_index a_name : nla_data) (tb : list (option nla_data))
    (dev : net_device drv) :
  nla_parse ETHTOOL_A_DEV_MAX dev_policy (nla_nested nst) = inr tb ->
  tb_get tb ETHTOOL_A_DEV_INDEX = Some a_index ->
  tb_get tb ETHTOOL_A_DEV_NAME = Some a_name ->
  fst (dev_get_by_index n (nla_get_u32 a_index)) = Some dev ->
  (String.length (name dev) < IFNAMSIZ)%nat ->
  name dev <> nla_data_string a_name ->
  exists n',
    ethnl_dev_get n info (Some nst)
    = (inl (- ENODEV),
       NL_SET_ERR_MSG_ATTR info TheNest "ifindex and name do not match", n')
    /\ dev_index_head n' = dev_index_head n
    /\ forall i, dev_refcnt n' i = dev_refcnt n i.
Proof.
  intros Hparse Hidx Hname Hget Hlen Hne.
  destruct (dev_get_by_index n (nla_get_u32 a_index)) as [o n1] eqn:Hg.
  simpl in Hget; subst o.
  pose proof (dev_get_by_index_hold _ _ _ _ Hg) as ->.
  exists (dev_put (dev_hold n (ifindex dev)) dev).
  split; [|split].
  - unfold ethnl_dev_get. rewrite Hparse, Hidx, Hg, Hname.
    rewrite (strncmp_differ _ _ _ Hlen Hne). reflexivity.
  - reflexivity.
  - intros i. apply dev_put_hold_refcnt.
Qed.

End WithDriver.

Lemma ethnl_dev_get_name_conflict_witness :
  exists n',
    ethnl_dev_get Samples.sample_net Samples.no_info (Some Samples.conflict_nest)
    = (inl (- ENODEV),
       NL_SET_ERR_MSG_ATTR Samples.no_info TheNest "ifindex and name do not match",
       n')
    /\ dev_index_head n' = dev_index_head Samples.sample_net
    /\ forall i, dev_refcnt n' i = dev_refcnt Samples.sample_net i.
Proof.
  apply (ethnl_dev_get_name_conflict Samples.sample_net Samples.no_info
           Samples.conflict_nest (DU32 2) (DString "eth1")
           [None; Some (DU32 2); Some (DString "eth1")] Samples.eth0).
  - reflexivity.
  - reflexivity.
  - reflexivity.
  - reflexivity.
  - vm_compute. lia.
  - discriminate.
Defined.

(** C4.  [eth1] is registered but not present.  Resolved by name it is
    refused with "device not present" and its reference is given back;
    resolved by index it is returned, with the reference held: the index
    branch returns before the presence check. *)
Theorem ethnl_dev_get_index_skips_presence :
  netif_device_present Samples.eth1 = false
  /\ ethnl_dev_get Samples.sample_net Samples.no_info (Some Samples.name_nest)
     = (inl (- ENODEV),
        GENL_SET_ERR_MSG Samples.no_info "device not present",
        dev_put (dev_hold Samples.sample_net 3) Samples.eth1)
  /\ ethnl_dev_get Samples.sample_net Samples.no_info (Some Samples.index_nest)
     = (inr Samples.eth1, Samples.no_info, dev_hold Samples.sample_net 3).
Proof. split; [|split]; reflexivity. Qed.

End DevGetFacts.

(** ** Parsed attribute tables *)

Module ParseFacts.
Import Nl.

Lemma tb_get_insert (tb : list (option nla_data)) (ty ty' : nat) (d : nla_data) :
  tb_get (<[ty := Some d]> tb) ty'
  = if decide (ty = ty' /\ (ty < length tb)%nat) then Some d else tb_get tb ty'.
Proof.
  unfold tb_get. destruct (decide (ty = ty')) as [->|Hne].
  - destruct (decide (ty' < length tb)%nat) as [Hlt|Hge].
    + rewrite list_lookup_insert_eq by assumption.
      destruct (decide _) as [_|H]; [reflexivity|]. exfalso; apply H; auto.
    + rewrite list_insert_ge by lia.
      destruct (decide _) as [[_ H]|_]; [lia|reflexivity].
  - rewrite list_lookup_insert_ne by assumption.
    destruct (decide _) as [[H _]|_]; [contradiction|reflexivity].
Qed.

Lemma tb_get_replicate (k ty : nat) : tb_get (replicate k None) ty = None.
Proof.
  unfold tb_get. destruct (replicate k None !! ty) as [o|] eqn:H; [|reflexivity].
  apply lookup_replicate in H as [-> _]. reflexivity.
Qed.

(** Whatever the table holds after a parse was in the table before or is
    an attribute of the message. *)
Lemma nla_parse_from_get (maxtype : nat) (policy : list nla_policy)
    (attrs : list nlattr) : forall (tb0 tb : list (option nla_data)) ty d,
  nla_parse_from tb0 maxtype policy attrs = inr tb ->
  tb_get tb ty = Some d ->
  tb_get tb0 ty = Some d \/ In (ty, d) attrs.
Proof.
  induction attrs as [|[ty' d'] rest IH]; intros tb0 tb ty d Hp Hg; simpl in Hp.
  - inversion Hp; subst. left; assumption.
  - assert (Hins : forall tb1, nla_parse_from (<[ty' := Some d']> tb0) maxtype
                                  policy rest = inr tb1 -> tb_get tb1 ty = Some d ->
                     tb_get tb0 ty = Some d \/ In (ty, d) ((ty', d') :: rest)).
    { intros tb1 H1 H2. destruct (IH _ _ _ _ H1 H2) as [H|H].
      - rewrite tb_get_insert in H. destruct (decide _) as [[-> _]|_].
        + inversion H; subst. right; left; reflexivity.
        + left; assumption.
      - right; right; assumption. }
    destruct (maxtype <? ty')%nat.
    + destruct (IH _ _ _ _ Hp Hg) as [H|H]; [left|right; right]; assumption.
    + destruct (policy !! ty') as [p|].
      * destruct (validate_nla p d'); [|discriminate]. eapply Hins; eassumption.
      * eapply Hins; eassumption.
Qed.

Lemma nla_parse_get (maxtype : nat) (policy : list nla_policy)
    (attrs : list nlattr) (tb : list (option nla_data)) ty d :
  nla_parse maxtype policy attrs = inr tb ->
  tb_get tb ty = Some d -> In (ty, d) attrs.
Proof.
  intros Hp Hg. destruct (nla_parse_from_get _ _ _ _ _ _ _ Hp Hg) as [H|H].
  - rewrite tb_get_replicate in H. discriminate.
  - assumption.
Qed.

Lemma nla_parse_from_error (maxtype : nat) (policy : list nla_policy)
    (attrs : list nlattr) : forall (tb0 : list (option nla_data)) ret,
  nla_parse_from tb0 maxtype policy attrs = inl ret -> ret = - EINVAL.
Proof.
  induction attrs as [|[ty' d'] rest IH]; intros tb0 ret Hp; simpl in Hp.
  - discriminate.
  - destruct (maxtype <? ty')%nat; [eauto|].
    destruct (policy !! ty') as [p|]; [|eauto].
    destruct (validate_nla p d'); [eauto|]. inversion Hp; reflexivity.
Qed.

End ParseFacts.

(** ** Request parsing *)

Module ParseRequestFacts.
Import Nl Dev Netlink ParseFacts.

Section WithDriver.
Context {drv : Type}.

Lemma ethnl_dev_get_error (n n' : net drv) (info info' : genl_info)
    (nest : option nla_data) (ret : Z) :
  ethnl_dev_get n info nest = (inl ret, info', n') -> ret < 0.
Proof.
  unfold ethnl_dev_get. destruct nest as [nst|].
  2:{ intros H; inversion H; subst. unfold EINVAL; lia. }
  destruct (nla_parse _ _ _) as [e|tb] eqn:Hp.
  { intros H; inversion H; subst.
    apply nla_parse_from_error in Hp. subst. unfold EINVAL; lia. }
  destruct (tb_get tb ETHTOOL_A_DEV_INDEX).
  - destruct (dev_get_by_index _ _) as [[dev|] n1].
    + destruct (tb_get tb ETHTOOL_A_DEV_NAME).
      * destruct (negb _); intros H; inversion H; subst. unfold ENODEV; lia.
      * intros H; inversion H.
    + intros H; inversion H; subst. unfold ENODEV; lia.
  - destruct (tb_get tb ETHTOOL_A_DEV_NAME).
    + destruct (dev_get_by_name _ _) as [[dev|] n1].
      * destruct (negb _); intros H; inversion H; subst. unfold ENODEV; lia.
      * intros H; inversion H; subst. unfold ENODEV; lia.
    + intros H; inversion H; subst. unfold EINVAL; lia.
Qed.


End WithDriver.


(** The three parses above do succeed. *)
Lemma parse_request_sample_succeeds :
  fst (fst (fst (Settings.parse_settings Samples.sample_net
                   Samples.fresh_settings_data Samples.get_zero_mask_msg
                   Samples.no_info))) = 0
  /\ fst (fst (fst (Params.parse_params Samples.sample_net
                      Samples.fresh_params_data Samples.get_zero_mask_msg
                      Samples.no_info))) = 0
  /\ fst (fst (fst (ParamsCoalesce.parse_params Samples.sample_net
                      Samples.fresh_coalesce_data Samples.get_zero_mask_msg
                      Samples.no_info))) = 0.
Proof. repeat split. Qed.

End ParseRequestFacts.

(** ** Link modes derived from speed and duplex *)

Module LinkModesFacts.
Import Nl Dev Netlink Settings.

(** What the loop of [auto_link_modes] leaves in bit [j]: the bits of the
    entries it walks are decided by the entry, unless the entry has no
    speed; all other bits are as before. *)
Lemma auto_link_modes_from_testbit (params : list link_mode_info) :
  forall (i : Z) (ks : ethtool_link_ksettings) (rs rd : bool) (adv j : Z),
  0 <= i -> 0 <= j ->
  Z.testbit (auto_link_modes_from params i ks rs rd adv) j
  = match (if decide (i <= j) then params !! Z.to_nat (j - i) else None) with
    | Some info =>
        if lm_speed info =? SPEED_UNKNOWN then Z.testbit adv j
        else Z.testbit (supported (link_modes ks)) j
             && (negb rs || (lm_speed info =? speed (base ks)))
             && (negb rd || (lm_duplex info =? duplex (base ks)))
    | None => Z.testbit adv j
    end.
Proof.
  induction params as [|info params IH]; intros i ks rs rd adv j Hi Hj; simpl.
  - destruct (decide (i <= j)); reflexivity.
  - assert (Hstep : forall adv',
      (forall k, 0 <= k -> k <> i -> Z.testbit adv' k = Z.testbit adv k) ->
      i < j ->
      Z.testbit (auto_link_modes_from params (i + 1) ks rs rd adv') j
      = match params !! Z.to_nat (j - (i + 1)) with
        | Some info =>
            if lm_speed info =? SPEED_UNKNOWN then Z.testbit adv j
            else Z.testbit (supported (link_modes ks)) j
                 && (negb rs || (lm_speed info =? speed (base ks)))
                 && (negb rd || (lm_duplex info =? duplex (base ks)))
        | None => Z.testbit adv j
        end).
    { intros adv' Hadv Hlt. rewrite IH by lia.
      destruct (decide (i + 1 <= j)); [|lia].
      rewrite (Hadv j) by lia. reflexivity. }
    assert (Hskip : forall adv',
      Z.testbit adv' i = Z.testbit (auto_link_modes_from params (i + 1) ks rs rd adv') i).
    { intros adv'. rewrite IH by lia. destruct (decide (i + 1 <= i)); [lia|reflexivity]. }
    destruct (decide (i <= j)) as [Hle|Hgt].
    + destruct (decide (i = j)) as [<-|Hne].
      * replace (Z.to_nat (i - i)) with 0%nat by lia. simpl.
        destruct (lm_speed info =? SPEED_UNKNOWN).
        -- symmetry. apply Hskip.
        -- rewrite <- Hskip.
           destruct (Z.testbit (supported (link_modes ks)) i
                     && (negb rs || (lm_speed info =? speed (base ks)))
                     && (negb rd || (lm_duplex info =? duplex (base ks)))).
           ++ rewrite Z.setbit_eqb by assumption. rewrite Z.eqb_refl. reflexivity.
           ++ rewrite Z.clearbit_eqb. rewrite Z.eqb_refl.
              apply andb_false_r.
      * replace (Z.to_nat (j - i)) with (S (Z.to_nat (j - (i + 1)))) by lia.
        simpl.
        destruct (lm_speed info =? SPEED_UNKNOWN).
        -- apply Hstep; [reflexivity|lia].
        -- apply Hstep; [|lia]. intros k Hk Hki.
           destruct (_ && _).
           ++ rewrite Z.setbit_neq by lia. reflexivity.
           ++ rewrite Z.clearbit_neq by lia. reflexivity.
    + destruct (lm_speed info =? SPEED_UNKNOWN).
      * rewrite IH by lia. destruct (decide (i + 1 <= j)); [lia|reflexivity].
      * rewrite IH by lia. destruct (decide (i + 1 <= j)); [lia|].
        destruct (_ && _).
        -- rewrite Z.setbit_neq by lia. reflexivity.
        -- rewrite Z.clearbit_neq by lia. reflexivity.
Qed.

Lemma ethnl_update_u32_value (dst : Z) (d : nla_data) :
  snd (ethnl_update_u32 dst (Some d)) = nla_get_u32 d.
Proof.
  unfold ethnl_update_u32. destruct (dst =? nla_get_u32 d) eqn:H; simpl.
  - apply Z.eqb_eq in H. assumption.
  - reflexivity.
Qed.

Lemma ethnl_update_u8_value (dst : Z) (d : nla_data) :
  snd (ethnl_update_u8 dst (Some d)) = nla_get_u8 d.
Proof.
  unfold ethnl_update_u8. destruct (dst =? nla_get_u8 d) eqn:H; simpl.
  - apply Z.eqb_eq in H. assumption.
  - reflexivity.
Qed.

(** C6, as the code has it.  When a link modes nest carries no bitset of
    our modes, autonegotiation is on after the update and a speed or a
    duplex is given, every bit whose table entry has a speed is set in the
    advertised bitmap exactly when it is supported and its entry matches
    the requested speed (if given) and duplex (if given); the bits whose
    entry has no speed, and the bits beyond the table, keep the value
    they had. *)
Theorem update_link_modes_auto {codec : bitset_codec}
    (ks : ethtool_link_ksettings) (nst : nla_data)
    (tb : list (option nla_data)) :
  nla_parse ETHTOOL_A_LINKMODES_MAX set_linkmodes_policy (nla_nested nst) = inr tb ->
  tb_get tb ETHTOOL_A_LINKMODES_OURS = None ->
  is_Some (tb_get tb ETHTOOL_A_LINKMODES_SPEED)
    \/ is_Some (tb_get tb ETHTOOL_A_LINKMODES_DUPLEX) ->
  snd (ethnl_update_u8 (autoneg (base ks))
         (tb_get tb ETHTOOL_A_LINKMODES_AUTONEG)) <> 0 ->
  let (ret, ks') := update_link_modes (Some nst) ks in
  0 <= ret
  /\ supported (link_modes ks') = supported (link_modes ks)
  /\ forall j, 0 <= j ->
       Z.testbit (advertising (link_modes ks')) j
       = match link_mode_params !! Z.to_nat j with
         | Some info =>
             if lm_speed info =? SPEED_UNKNOWN
             then Z.testbit (advertising (link_modes ks)) j
             else Z.testbit (supported (link_modes ks)) j
                  && match tb_get tb ETHTOOL_A_LINKMODES_SPEED with
                     | Some d => lm_speed info =? nla_get_u32 d
                     | None => true
                     end
                  && match tb_get tb ETHTOOL_A_LINKMODES_DUPLEX with
                     | Some d => lm_duplex info =? nla_get_u8 d
                     | None => true
                     end
         | None => Z.testbit (advertising (link_modes ks)) j
         end.
Proof.
  intros Hparse Hours Hreq Hauto.
  unfold update_link_modes. rewrite Hparse, Hours.
  destruct (ethnl_update_u8 (autoneg (base ks)) _) as [m1 v1] eqn:H1.
  simpl in Hauto. cbn [ethnl_update_bitset Z.ltb Z.compare].
  cbn [set_advertising set_base set_autoneg base link_modes advertising
       supported lp_advertising speed duplex autoneg].
  destruct (ethnl_update_u32 (speed (base ks)) _) as [m3 v3] eqn:H3.
  cbn [set_advertising set_base set_speed set_autoneg base link_modes advertising
       supported lp_advertising speed duplex autoneg].
  destruct (ethnl_update_u8 (duplex (base ks)) _) as [m4 v4] eqn:H4.
  unfold set_advertising, set_base, set_speed, set_duplex, set_autoneg.
  cbn [base link_modes advertising supported lp_advertising speed duplex autoneg].
  assert (Hv1 : (v1 =? 0) = false) by (apply Z.eqb_neq; assumption).
  rewrite Hv1.
  assert (Hrq : bool_decide (is_Some (tb_get tb ETHTOOL_A_LINKMODES_SPEED))
                || bool_decide (is_Some (tb_get tb ETHTOOL_A_LINKMODES_DUPLEX))
                = true).
  { destruct Hreq as [H|H]; rewrite (bool_decide_eq_true_2 _ H);
      [reflexivity|apply orb_true_r]. }
  assert (Hnone : bool_decide (is_Some (@None nla_data)) = false).
  { apply bool_decide_eq_false_2. intros [x Hx]; discriminate. }
  rewrite Hnone, Hrq. cbn [negb andb].
  unfold auto_link_modes, set_advertising.
  cbn [base link_modes advertising supported lp_advertising].
  split.
  { match goal with |- 0 <= (if ?b then _ else _) => destruct b; lia end. }
  split; [reflexivity|].
  intros j Hj.
  rewrite auto_link_modes_from_testbit by lia.
  destruct (decide (0 <= j)) as [_|]; [|lia].
  rewrite Z.sub_0_r.
  destruct (link_mode_params !! Z.to_nat j) as [info|]; [|reflexivity].
  destruct (lm_speed info =? SPEED_UNKNOWN); [reflexivity|].
  cbn [base link_modes supported speed duplex].
  f_equal; [f_equal|].
  - destruct (tb_get tb ETHTOOL_A_LINKMODES_SPEED) as [d|] eqn:Hd.
    + assert (Hs : is_Some (Some d)) by (eexists; reflexivity).
      rewrite (bool_decide_eq_true_2 _ Hs).
      pose proof (ethnl_update_u32_value (speed (base ks)) d) as Hv.
      rewrite H3 in Hv. simpl in Hv. rewrite Hv. reflexivity.
    + rewrite Hnone. reflexivity.
  - destruct (tb_get tb ETHTOOL_A_LINKMODES_DUPLEX) as [d|] eqn:Hd.
    + assert (Hs : is_Some (Some d)) by (eexists; reflexivity).
      rewrite (bool_decide_eq_true_2 _ Hs).
      pose proof (ethnl_update_u8_value (duplex (base ks)) d) as Hv.
      rewrite H4 in Hv. simpl in Hv. rewrite Hv. reflexivity.
    + rewrite Hnone. reflexivity.
Qed.

(** On the sample settings a request for speed 1000 sets 1000baseT/Full
    and clears 100baseT/Full, and leaves Autoneg advertised. *)
Lemma update_link_modes_auto_witness :
  let (ret, ks') := @update_link_modes sample_codec
                      (Some Samples.speed_1000_nest) Samples.sample_ksettings in
  0 <= ret
  /\ supported (link_modes ks') = 104
  /\ forall j, 0 <= j ->
       Z.testbit (advertising (link_modes ks')) j
       = match link_mode_params !! Z.to_nat j with
         | Some info =>
             if lm_speed info =? SPEED_UNKNOWN
             then Z.testbit 72 j
             else Z.testbit 104 j && (lm_speed info =? 1000) && true
         | None => Z.testbit 72 j
         end.
Proof.
  apply (@update_link_modes_auto sample_codec Samples.sample_ksettings
           Samples.speed_1000_nest [None; None; None; None; Some (DU32 1000); None]).
  - reflexivity.
  - reflexivity.
  - left. eexists. reflexivity.
  - vm_compute. discriminate.
Defined.

(** C6 as stated asks for every bit outside the matching speed modes to be
    cleared.  On the sample settings, Autoneg (bit 6) has no speed in the
    table and stays advertised: the result is bits 5 and 6, not bit 5
    alone. *)
Lemma update_link_modes_keeps_special_bits :
  let ks' := snd (@update_link_modes sample_codec
                    (Some Samples.speed_1000_nest) Samples.sample_ksettings) in
  option_map lm_speed (link_mode_params !! 6%nat) = Some SPEED_UNKNOWN
  /\ Z.testbit (advertising (link_modes ks')) 6 = true
  /\ advertising (link_modes ks') = 96
  /\ advertising (link_modes ks') <> 32.
Proof. vm_compute. repeat split; discriminate. Qed.

End LinkModesFacts.

(** ** Updates of device parameters *)

Module ParamsSetFacts.
Import Nl Dev Netlink Params.

(** The value an attribute proposes for a field, the current one when
    there is no attribute. *)
Lemma ethnl_update_u32_spec (dst : Z) (attr : option nla_data) :
  ethnl_update_u32 dst attr
  = (negb (dst =? proposed dst attr), proposed dst attr).
Proof.
  unfold ethnl_update_u32, proposed. destruct attr as [d|].
  - destruct (Z.eqb_spec dst (nla_get_u32 d)) as [->|]; reflexivity.
  - rewrite Z.eqb_refl. reflexivity.
Qed.

Section WithDriver.
Context {drv : Type}.


(** An update on a device that lacks the category does nothing but fail. *)
Lemma update_coalesce_unsupported (info : genl_info) (dev : net_device drv)
    (nst : nla_data) :
  lacks_coalesce dev ->
  update_coalesce info dev (Some nst) = (- EOPNOTSUPP, info, dev, []).
Proof.
  unfold update_coalesce. intros [H|H]; rewrite H; [reflexivity|].
  destruct (get_coalesce (ops dev)); reflexivity.
Qed.

Lemma update_ring_unsupported (info : genl_info) (dev : net_device drv)
    (nst : nla_data) :
  lacks_ring dev ->
  update_ring info dev (Some nst) = (- EOPNOTSUPP, info, dev, []).
Proof.
  unfold update_ring. intros [H|H]; rewrite H; [reflexivity|].
  destruct (get_ringparam (ops dev)); reflexivity.
Qed.

Lemma update_pause_unsupported (info : genl_info) (dev : net_device drv)
    (nst : nla_data) :
  lacks_pause dev ->
  update_pause info dev (Some nst) = (- EOPNOTSUPP, info, dev, []).
Proof.
  unfold update_pause. intros [H|H]; rewrite H; [reflexivity|].
  destruct (get_pauseparam (ops dev)); reflexivity.
Qed.

Lemma update_channels_unsupported (info : genl_info) (dev : net_device drv)
    (nst : nla_data) :
  lacks_channels dev ->
  update_channels info dev (Some nst) = (- EOPNOTSUPP, info, dev, []).
Proof.
  unfold update_channels. intros [H|H]; rewrite H; [reflexivity|].
  destruct (get_channels (ops dev)); reflexivity.
Qed.

(** The updates change the driver's state only: the operations of the
    device stay the same. *)
Lemma update_coalesce_ops (info : genl_info) (dev : net_device drv)
    (nest : option nla_data) :
  ops (snd (fst (update_coalesce info dev nest))) = ops dev.
Proof.
  unfold update_coalesce.
  destruct nest; [|reflexivity].
  destruct (get_coalesce (ops dev)) as [get|]; [|reflexivity].
  destruct (set_coalesce (ops dev)) as [set|]; [|reflexivity].
  destruct (get (priv dev)) as [ret data].
  destruct (ret <? 0); [reflexivity|].
  destruct (nla_parse _ _ _) as [e|tb]; [reflexivity|].
  match goal with |- context [let (_, _) := ?x in _] => destruct x as [d m] end.
  destruct (negb m); [reflexivity|].
  destruct (set d (priv dev)). reflexivity.
Qed.

Lemma update_ring_ops (info : genl_info) (dev : net_device drv)
    (nest : option nla_data) :
  ops (snd (fst (update_ring info dev nest))) = ops dev.
Proof.
  unfold update_ring.
  destruct nest; [|reflexivity].
  destruct (get_ringparam (ops dev)) as [get|]; [|reflexivity].
  destruct (set_ringparam (ops dev)) as [set|]; [|reflexivity].
  destruct (nla_parse _ _ _) as [e|tb]; [reflexivity|].
  rewrite !ethnl_update_u32_spec.
  match goal with |- context [if negb ?m then _ else _] => destruct (negb m) end;
    [reflexivity|].
  match goal with |- context [match ?x with Some _ => _ | None => _ end] =>
    destruct x end; [reflexivity|].
  match goal with |- context [let (_, _) := ?x in _] => destruct x end.
  reflexivity.
Qed.

Lemma update_pause_ops (info : genl_info) (dev : net_device drv)
    (nest : option nla_data) :
  ops (snd (fst (update_pause info dev nest))) = ops dev.
Proof.
  unfold update_pause.
  destruct nest; [|reflexivity].
  destruct (get_pauseparam (ops dev)) as [get|]; [|reflexivity].
  destruct (set_pauseparam (ops dev)) as [set|]; [|reflexivity].
  destruct (nla_parse _ _ _) as [e|tb]; [reflexivity|].
  rewrite !ethnl_update_u32_spec.
  match goal with |- context [if negb ?m then _ else _] => destruct (negb m) end;
    [reflexivity|].
  match goal with |- context [let (_, _) := ?x in _] => destruct x end.
  reflexivity.
Qed.

(** C7, as the code has it.  [ethnl_set_params] handles the categories in
    the order coalesce, ring, pause, channels.  When it reaches a category
    that the request names and the device lacks, and the categories before
    it did not fail, it returns [-EOPNOTSUPP] and applies nothing of that
    category or of those after it; the calls the earlier categories made
    to the driver stay made, the device stays as they left it, and they
    are notified. *)
Theorem set_params_unsupported (n n1 : net drv) (nlhdr : nlmsghdr)
    (info info1 : genl_info) (tb : list (option nla_data))
    (dev : net_device drv) :
  nla_parse ETHTOOL_A_PARAMS_MAX set_params_policy (nlmsg_attrs nlhdr) = inr tb ->
  ethnl_dev_get n info (tb_get tb ETHTOOL_A_PARAMS_DEV) = (inr dev, info1, n1) ->
  0 <= ethnl_before_ops dev (priv dev) ->
  let r := ethnl_set_params n nlhdr info in
  let '(ret1, info2, dev2, c1) :=
    update_coalesce info1 dev (tb_get tb ETHTOOL_A_PARAMS_COALESCE) in
  let '(ret2, info3, dev3, c2) :=
    update_ring info2 dev2 (tb_get tb ETHTOOL_A_PARAMS_RING) in
  let '(ret3, info4, dev4, c3) :=
    update_pause info3 dev3 (tb_get tb ETHTOOL_A_PARAMS_PAUSE) in
  let m1 := if negb (ret1 =? 0) then Z.lor 0 ETHTOOL_IM_PARAMS_COALESCE else 0 in
  let m2 := if negb (ret2 =? 0) then Z.lor m1 ETHTOOL_IM_PARAMS_RING else m1 in
  let m3 := if negb (ret3 =? 0) then Z.lor m2 ETHTOOL_IM_PARAMS_PAUSE else m2 in
  (is_Some (tb_get tb ETHTOOL_A_PARAMS_COALESCE) -> lacks_coalesce dev ->
   sr_ret r = - EOPNOTSUPP /\ sr_calls r = [] /\ sr_notify r = 0
   /\ sr_net r = dev_put (dev_store n1 dev) dev)
  /\ (is_Some (tb_get tb ETHTOOL_A_PARAMS_RING) -> lacks_ring dev ->
      0 <= ret1 ->
      sr_ret r = - EOPNOTSUPP /\ sr_calls r = c1 /\ sr_notify r = m1
      /\ sr_net r = dev_put (dev_store n1 dev2) dev2)
  /\ (is_Some (tb_get tb ETHTOOL_A_PARAMS_PAUSE) -> lacks_pause dev ->
      0 <= ret1 -> 0 <= ret2 ->
      sr_ret r = - EOPNOTSUPP /\ sr_calls r = c1 ++ c2 /\ sr_notify r = m2
      /\ sr_net r = dev_put (dev_store n1 dev3) dev3)
  /\ (is_Some (tb_get tb ETHTOOL_A_PARAMS_CHANNELS) -> lacks_channels dev ->
      0 <= ret1 -> 0 <= ret2 -> 0 <= ret3 ->
      sr_ret r = - EOPNOTSUPP /\ sr_calls r = c1 ++ c2 ++ c3 /\ sr_notify r = m3
      /\ sr_net r = dev_put (dev_store n1 dev4) dev4).
Proof.
  intros Hparse Hdev Hbefore.
  unfold ethnl_set_params. rewrite Hparse, Hdev.
  destruct (Z.ltb_spec (ethnl_before_ops dev (priv dev)) 0) as [|_]; [lia|].
  pose proof (update_coalesce_ops info1 dev (tb_get tb ETHTOOL_A_PARAMS_COALESCE))
    as Hops1.
  destruct (update_coalesce info1 dev _) as [[[ret1 info2] dev2] c1] eqn:E1.
  simpl in Hops1.
  pose proof (update_ring_ops info2 dev2 (tb_get tb ETHTOOL_A_PARAMS_RING))
    as Hops2.
  destruct (update_ring info2 dev2 _) as [[[ret2 info3] dev3] c2] eqn:E2.
  simpl in Hops2.
  pose proof (update_pause_ops info3 dev3 (tb_get tb ETHTOOL_A_PARAMS_PAUSE))
    as Hops3.
  destruct (update_pause info3 dev3 _) as [[[ret3 info4] dev4] c3] eqn:E3.
  simpl in Hops3.
  split; [|split; [|split]].
  - intros [nst Hn] Hlack. rewrite Hn in E1.
    rewrite (update_coalesce_unsupported _ _ _ Hlack) in E1.
    inversion E1; subst. simpl. repeat split.
  - intros [nst Hn] Hlack Hret1. rewrite Hn in E2.
    assert (Hlack2 : lacks_ring dev2) by (unfold lacks_ring; rewrite Hops1; exact Hlack).
    rewrite (update_ring_unsupported _ _ _ Hlack2) in E2.
    inversion E2; subst.
    destruct (Z.ltb_spec ret1 0) as [|_]; [lia|].
    simpl. rewrite app_nil_r. repeat split.
  - intros [nst Hn] Hlack Hret1 Hret2. rewrite Hn in E3.
    assert (Hlack3 : lacks_pause dev3).
    { unfold lacks_pause. rewrite Hops2, Hops1. exact Hlack. }
    rewrite (update_pause_unsupported _ _ _ Hlack3) in E3.
    inversion E3; subst.
    destruct (Z.ltb_spec ret1 0) as [|_]; [lia|].
    destruct (Z.ltb_spec ret2 0) as [|_]; [lia|].
    simpl. rewrite app_nil_r. repeat split.
  - intros [nst Hn] Hlack Hret1 Hret2 Hret3. rewrite Hn.
    assert (Hlack4 : lacks_channels dev4).
    { unfold lacks_channels. rewrite Hops3, Hops2, Hops1. exact Hlack. }
    rewrite (update_channels_unsupported _ _ _ Hlack4).
    destruct (Z.ltb_spec ret1 0) as [|_]; [lia|].
    destruct (Z.ltb_spec ret2 0) as [|_]; [lia|].
    destruct (Z.ltb_spec ret3 0) as [|_]; [lia|].
    simpl. rewrite app_nil_r. repeat split.
Qed.

End WithDriver.


(** On [eth2], which cannot set its ring, the request that changes
    coalescing and ring size fails at the ring with the coalescing change
    made. *)
Lemma set_params_unsupported_witness :
  let tb := Samples.set_coalesce_ring_tb in
  let r := ethnl_set_params Samples.sample_net Samples.set_coalesce_ring_msg
             Samples.no_info in
  let '(ret1, info2, dev2, c1) :=
    update_coalesce Samples.no_info Samples.eth2
      (tb_get tb ETHTOOL_A_PARAMS_COALESCE) in
  let '(ret2, info3, dev3, c2) :=
    update_ring info2 dev2 (tb_get tb ETHTOOL_A_PARAMS_RING) in
  let '(ret3, info4, dev4, c3) :=
    update_pause info3 dev3 (tb_get tb ETHTOOL_A_PARAMS_PAUSE) in
  let m1 := if negb (ret1 =? 0) then Z.lor 0 ETHTOOL_IM_PARAMS_COALESCE else 0 in
  let m2 := if negb (ret2 =? 0) then Z.lor m1 ETHTOOL_IM_PARAMS_RING else m1 in
  let m3 := if negb (ret3 =? 0) then Z.lor m2 ETHTOOL_IM_PARAMS_PAUSE else m2 in
  (is_Some (tb_get tb ETHTOOL_A_PARAMS_COALESCE) -> lacks_coalesce Samples.eth2 ->
   sr_ret r = - EOPNOTSUPP /\ sr_calls r = [] /\ sr_notify r = 0
   /\ sr_net r = dev_put (dev_store (dev_hold Samples.sample_net 4) Samples.eth2)
                         Samples.eth2)
  /\ (is_Some (tb_get tb ETHTOOL_A_PARAMS_RING) -> lacks_ring Samples.eth2 ->
      0 <= ret1 ->
      sr_ret r = - EOPNOTSUPP /\ sr_calls r = c1 /\ sr_notify r = m1
      /\ sr_net r = dev_put (dev_store (dev_hold Samples.sample_net 4) dev2) dev2)
  /\ (is_Some (tb_get tb ETHTOOL_A_PARAMS_PAUSE) -> lacks_pause Samples.eth2 ->
      0 <= ret1 -> 0 <= ret2 ->
      sr_ret r = - EOPNOTSUPP /\ sr_calls r = c1 ++ c2 /\ sr_notify r = m2
      /\ sr_net r = dev_put (dev_store (dev_hold Samples.sample_net 4) dev3) dev3)
  /\ (is_Some (tb_get tb ETHTOOL_A_PARAMS_CHANNELS) -> lacks_channels Samples.eth2 ->
      0 <= ret1 -> 0 <= ret2 -> 0 <= ret3 ->
      sr_ret r = - EOPNOTSUPP /\ sr_calls r = c1 ++ c2 ++ c3 /\ sr_notify r = m3
      /\ sr_net r = dev_put (dev_store (dev_hold Samples.sample_net 4) dev4) dev4).
Proof.
  apply (set_params_unsupported Samples.sample_net
           (dev_hold Samples.sample_net 4) Samples.set_coalesce_ring_msg
           Samples.no_info Samples.no_info Samples.set_coalesce_ring_tb
           Samples.eth2).
  - reflexivity.
  - reflexivity.
  - vm_compute. discriminate.
Defined.

(** C7 as stated asks that nothing be committed when a category is not
    supported.  [eth2] has no [set_ringparam]; the request that changes
    its rx coalescing delay and its rx ring size fails with
    [-EOPNOTSUPP], but [set_coalesce] was called with the new delay, the
    device keeps it, and the change is notified. *)
Lemma set_params_commits_before_unsupported :
  let r := ethnl_set_params Samples.sample_net Samples.set_coalesce_ring_msg
             Samples.no_info in
  lacks_ring Samples.eth2
  /\ sr_ret r = - EOPNOTSUPP
  /\ match sr_calls r with
     | [CallSetCoalesce data] => data rx_coalesce_usecs = 50
     | _ => False
     end
  /\ sr_notify r = ETHTOOL_IM_PARAMS_COALESCE
  /\ option_map (fun d => Samples.sp_coalesce (priv d) rx_coalesce_usecs)
       (fst (dev_get_by_index Samples.sample_net 4)) = Some 0
  /\ option_map (fun d => Samples.sp_coalesce (priv d) rx_coalesce_usecs)
       (fst (dev_get_by_index (sr_net r) 4)) = Some 50.
Proof. split; [right; reflexivity|]. vm_compute. repeat split. Qed.

End ParamsSetFacts.

(** ** Writing to the buffer *)

Module BufferFacts.
Import Nl.

Lemma NLA_ALIGN_eq (x : Z) : NLA_ALIGN x = 4 * ((x + 3) / 4).
Proof.
  unfold NLA_ALIGN. change (Z.lnot 3) with (Z.lnot (Z.ones 2)).
  change (Z.land (x + 3) (Z.lnot (Z.ones 2))) with (Z.ldiff (x + 3) (Z.ones 2)).
  rewrite Z.ldiff_ones_r by lia.
  rewrite Z.shiftl_mul_pow2, Z.shiftr_div_pow2 by lia.
  change (2 ^ 2) with 4. lia.
Qed.

Lemma NLA_ALIGN_ge (x : Z) : x <= NLA_ALIGN x.
Proof.
  rewrite NLA_ALIGN_eq.
  pose proof (Z.div_mod (x + 3) 4 ltac:(lia)).
  pose proof (Z.mod_pos_bound (x + 3) 4 ltac:(lia)). lia.
Qed.

Lemma nla_total_size_ge (x : Z) : NLA_HDRLEN + x <= nla_total_size x.
Proof. unfold nla_total_size. apply NLA_ALIGN_ge. Qed.

Section WithCodec.
Context {codec : bitset_codec}.

Lemma items_len_app (l1 l2 : list item) :
  items_len (l1 ++ l2) = items_len l1 + items_len l2.
Proof. induction l1 as [|i l1 IH]; simpl; [reflexivity|]. rewrite IH. lia. Qed.

Lemma appends_ret {A : Type} (P : item -> Prop) (n : Z) (x : A) :
  0 <= n -> appends P n (ret x).
Proof.
  intros Hn skb. split; [reflexivity|]. exists []. simpl.
  rewrite app_nil_r. auto.
Qed.

Lemma appends_weaken {A : Type} (P P' : item -> Prop) (n n' : Z) (m : skbM A) :
  appends P n m -> n <= n' -> (forall i, P i -> P' i) -> appends P' n' m.
Proof.
  intros Hm Hn HP skb. destruct (Hm skb) as [He [ext [Hd [Hl Hf]]]].
  split; [assumption|]. exists ext. split; [assumption|]. split; [lia|].
  eapply Forall_impl; eassumption.
Qed.

Lemma appends_bound {A : Type} (P : item -> Prop) (n n' : Z) (m : skbM A) :
  appends P n m -> n <= n' -> appends P n' m.
Proof. intros Hm Hn. eapply appends_weaken; eauto. Qed.

Lemma appends_bind {A B : Type} (P : item -> Prop) (n1 n2 : Z)
    (m : skbM A) (k : A -> skbM B) :
  appends P n1 m -> (forall x, appends P n2 (k x)) ->
  appends P (n1 + n2) (bind m k).
Proof.
  intros Hm Hk skb. unfold bind.
  destruct (Hm skb) as [He [ext [Hd [Hl Hf]]]].
  destruct (m skb) as [x skb1]. simpl in *.
  destruct (Hk x skb1) as [He2 [ext2 [Hd2 [Hl2 Hf2]]]].
  split; [congruence|]. exists (ext ++ ext2).
  split; [rewrite Hd2, Hd, app_assoc; reflexivity|].
  split; [rewrite items_len_app; lia|].
  apply Forall_app; split; assumption.
Qed.

Lemma appends_put_item (P : item -> Prop) (need : Z) (i : item) :
  P i -> appends P (Z.max 0 (item_len i)) (put_item need i).
Proof.
  intros HP skb. unfold put_item.
  destruct (skb_tailroom skb <? need); simpl.
  - split; [reflexivity|]. exists []. rewrite app_nil_r. simpl.
    split; [reflexivity|]. split; [lia|constructor].
  - split; [reflexivity|]. exists [i]. split; [reflexivity|].
    split; [simpl; lia|]. constructor; [assumption|constructor].
Qed.

Lemma appends_orM (P : item -> Prop) (n1 n2 : Z) (a b : skbM Z) :
  appends P n1 a -> appends P n2 b -> 0 <= n2 -> appends P (n1 + n2) (orM a b).
Proof.
  intros Ha Hb Hn. unfold orM. apply appends_bind; [assumption|].
  intros r. destruct (r =? 0); [assumption|]. apply appends_ret. assumption.
Qed.

Lemma in_nest_ret {A : Type} (base : list item) (P : item -> Prop) (n : Z) (x : A) :
  0 <= n -> in_nest base P n (ret x).
Proof.
  intros Hn ext0 cap. simpl. split; [reflexivity|]. right. exists [].
  rewrite app_nil_r. simpl. auto.
Qed.

Lemma in_nest_weaken {A : Type} (base : list item) (P : item -> Prop) (n n' : Z)
    (m : skbM A) :
  in_nest base P n m -> n <= n' -> in_nest base P n' m.
Proof.
  intros Hm Hn ext0 cap. destruct (Hm ext0 cap) as [He [Hb|[ext [Hd [Hl Hf]]]]].
  - split; [assumption|]. left; assumption.
  - split; [assumption|]. right. exists ext. split; [assumption|].
    split; [lia|assumption].
Qed.

Lemma in_nest_cancel {A : Type} (base : list item) (P : item -> Prop) (n : Z)
    (x : A) :
  in_nest base P n (bind (nla_nest_cancel (length base)) (fun _ => ret x)).
Proof.
  intros ext0 cap. simpl. split; [reflexivity|]. left.
  apply take_app_length.
Qed.

Lemma in_nest_end {A : Type} (base : list item) (P : item -> Prop) (mark : nat)
    (x : A) :
  P INestEnd -> in_nest base P 0 (bind (nla_nest_end mark) (fun _ => ret x)).
Proof.
  intros HP ext0 cap. simpl. split; [reflexivity|]. right. exists [INestEnd].
  split; [rewrite app_assoc; reflexivity|]. split; [simpl; lia|].
  constructor; [assumption|constructor].
Qed.

Lemma in_nest_bind {A B : Type} (base : list item) (P : item -> Prop)
    (n1 n2 : Z) (m : skbM A) (k : A -> skbM B) :
  appends P n1 m -> (forall x, in_nest base P n2 (k x)) ->
  in_nest base P (n1 + n2) (bind m k).
Proof.
  intros Hm Hk ext0 cap. unfold bind.
  destruct (Hm {| skb_data := base ++ ext0; skb_end := cap |})
    as [He [ext [Hd [Hl Hf]]]].
  destruct (m _) as [x skb1]. simpl in *.
  destruct skb1 as [d1 e1]. simpl in *. subst.
  rewrite <- app_assoc.
  destruct (Hk x (ext0 ++ ext) (skb_end {| skb_data := base ++ ext0; skb_end := cap |}))
    as [He2 [Hb|[ext2 [Hd2 [Hl2 Hf2]]]]]; simpl in *.
  - split; [assumption|]. left; assumption.
  - split; [assumption|]. right. exists (ext ++ ext2).
    split; [rewrite Hd2, <- app_assoc; reflexivity|].
    split; [rewrite items_len_app; lia|].
    apply Forall_app; split; assumption.
Qed.

(** A nest: its header, then code that runs inside it. *)
Lemma appends_nest (P : item -> Prop) (n : Z) (ty : nat) (e : Z)
    (body : nat -> skbM Z) :
  P (INest ty) -> 0 <= n ->
  (forall base, in_nest base P n (body (length base))) ->
  appends P (nla_total_size 0 + n)
    (bind (nla_nest_start ty)
       (fun nest => match nest with
                    | None => ret e
                    | Some nest => body nest
                    end)).
Proof.
  intros HP Hn Hbody skb. unfold bind, nla_nest_start, put_item.
  destruct (skb_tailroom skb <? nla_total_size 0).
  - simpl. split; [reflexivity|]. exists []. rewrite app_nil_r. simpl.
    split; [reflexivity|]. split; [|constructor].
    change (nla_total_size 0) with 4. lia.
  - change (0 <? 0) with false. cbv iota.
    destruct skb as [d cap]. unfold skb_append. simpl skb_data. simpl skb_end.
    destruct (Hbody d [INest ty] cap) as [He [Hb|[ext [Hd [Hl Hf]]]]].
    + split; [assumption|]. exists []. rewrite app_nil_r.
      split; [assumption|]. split; [|constructor].
      simpl. change (nla_total_size 0) with 4. lia.
    + split; [assumption|]. exists (INest ty :: ext).
      split; [assumption|]. split; [simpl; lia|].
      constructor; assumption.
Qed.

End WithCodec.

End BufferFacts.

(** ** What the fill functions write *)

Module FillFacts.
Import Nl Dev Netlink BufferFacts.

(** A chain [a || b || ...] of puts appends what its puts append. *)
Ltac put_appends :=
  unfold nla_put_u8, nla_put_u32, nla_put_string, nla_put_bitfield32, nla_put,
         ethnl_put_bitset32;
  apply appends_put_item; exact I.

Ltac nonneg := first [vm_compute; discriminate | lia].

Ltac chain_appends :=
  first [ eapply appends_orM; [put_appends | chain_appends | nonneg]
        | put_appends ].

(** The end of a nest: cancel it on failure, close it otherwise. *)
Ltac nest_end :=
  let r := fresh "r" in
  intros r; cbv zeta;
  match goal with
  | |- in_nest _ _ _ (if ?c then _ else _) =>
      destruct c; [apply in_nest_cancel | apply in_nest_end; exact I]
  end.

Section WithCodec.
Context {codec : bitset_codec}.

Lemma fill_ring_appends (data : ethtool_ringparam) :
  appends (nest_is Params.ETHTOOL_A_PARAMS_RING) Params.ring_size
    (Params.fill_ring data).
Proof.
  unfold Params.fill_ring. eapply appends_bound.
  - apply appends_nest; [exact eq_refl| |intros base].
    2:{ eapply in_nest_bind; [chain_appends|nest_end]. }
    vm_compute; discriminate.
  - vm_compute; discriminate.
Qed.

Lemma fill_coalesce_appends (data : ethtool_coalesce) :
  appends (nest_is Params.ETHTOOL_A_PARAMS_COALESCE) Params.coalesce_size
    (Params.fill_coalesce data).
Proof.
  unfold Params.fill_coalesce. eapply appends_bound.
  - apply appends_nest; [exact eq_refl| |intros base].
    2:{ eapply in_nest_bind; [chain_appends|nest_end]. }
    vm_compute; discriminate.
  - vm_compute; discriminate.
Qed.

Lemma fill_pause_appends (data : ethtool_pauseparam) :
  appends (nest_is Params.ETHTOOL_A_PARAMS_PAUSE) Params.pause_size
    (Params.fill_pause data).
Proof.
  unfold Params.fill_pause. eapply appends_bound.
  - apply appends_nest; [exact eq_refl| |intros base].
    2:{ eapply in_nest_bind; [chain_appends|nest_end]. }
    vm_compute; discriminate.
  - vm_compute; discriminate.
Qed.

(** [fill_channels] leaves its nest open when a put fails; what it has
    written by then still fits the size. *)
Lemma fill_channels_appends (data : ethtool_channels) :
  appends (nest_is Params.ETHTOOL_A_PARAMS_CHANNELS) Params.channels_size
    (Params.fill_channels data).
Proof.
  unfold Params.fill_channels. eapply appends_bound.
  - apply appends_nest; [exact eq_refl| |intros base].
    2:{ eapply in_nest_bind; [chain_appends|].
        intros r. destruct (negb (r =? 0)).
        2:{ apply in_nest_end. exact I. }
        apply in_nest_ret. lia. }
    vm_compute; discriminate.
  - vm_compute; discriminate.
Qed.

(** One category of a reply: filled when its bit is in the mask, and the
    rest is skipped when the fill fails. *)
Lemma appends_category (P : item -> Prop) (n n2 : Z) (c : bool)
    (fill k : skbM Z) :
  (c = true -> appends P n fill) -> 0 <= n -> 0 <= n2 -> appends P n2 k ->
  appends P ((if c then n else 0) + n2)
    (bind (if c then fill else ret 0) (fun r => if r <? 0 then ret r else k)).
Proof.
  intros Hfill Hn Hn2 Hk. apply appends_bind.
  - destruct c; [auto|]. apply appends_ret. lia.
  - intros r. destruct (r <? 0); [|assumption]. apply appends_ret. assumption.
Qed.

Lemma land_bit_set (m b : Z) : negb (Z.land m b =? 0) = true -> Z.land m b <> 0.
Proof. intros H. apply negb_true_iff in H. apply Z.eqb_neq. assumption. Qed.

Lemma fill_link_info_appends (lsettings : ethtool_link_settings) :
  appends (nest_is Settings.ETHTOOL_A_SETTINGS_LINK_INFO) Settings.link_info_size
    (Settings.fill_link_info lsettings).
Proof.
  unfold Settings.fill_link_info. eapply appends_bound.
  - apply appends_nest; [exact eq_refl| |intros base].
    2:{ eapply in_nest_bind; [chain_appends|nest_end]. }
    vm_compute; discriminate.
  - vm_compute; discriminate.
Qed.

Lemma fill_link_state_appends (link : Z) :
  appends (nest_is Settings.ETHTOOL_A_SETTINGS_LINK_STATE)
    (Settings.link_state_size link) (Settings.fill_link_state link).
Proof.
  unfold Settings.fill_link_state, Settings.link_state_size.
  destruct (Z.leb_spec 0 link); destruct (Z.ltb_spec link 0); try lia.
  - eapply appends_bound.
    + apply appends_nest; [exact eq_refl| |intros base].
      2:{ eapply in_nest_bind; [put_appends|nest_end]. }
      vm_compute; discriminate.
    + vm_compute; discriminate.
  - eapply appends_bound.
    + apply appends_nest; [exact eq_refl| |intros base].
      2:{ eapply in_nest_bind; [apply appends_ret; reflexivity|nest_end]. }
      vm_compute; discriminate.
    + vm_compute; discriminate.
Qed.

Lemma fill_wolinfo_appends (wol : ethtool_wolinfo) (privileged : bool) :
  appends (nest_is Settings.ETHTOOL_A_SETTINGS_WOL) Settings.wol_size
    (Settings.fill_wolinfo wol privileged).
Proof.
  unfold Settings.fill_wolinfo. eapply appends_bound.
  - apply appends_nest; [exact eq_refl| |intros base].
    2:{ cbv zeta. eapply in_nest_bind; [put_appends|].
        intros r. destruct (negb (r =? 0)); [apply in_nest_cancel|].
        eapply in_nest_bind with (n1 := 12).
        - destruct privileged.
          + eapply appends_bound; [put_appends|vm_compute; discriminate].
          + apply appends_ret. lia.
        - nest_end. }
    vm_compute; discriminate.
  - vm_compute; discriminate.
Qed.

(** What [fill_link_modes] writes at most: the nest header, autoneg, our
    modes, the peer's modes unless they are empty, speed and duplex. *)
Lemma fill_link_modes_appends (ks : ethtool_link_ksettings)
    (lpm_empty compact : bool) :
  let flags := if compact then ETHNL_BITSET_COMPACT else 0 in
  appends (nest_is Settings.ETHTOOL_A_SETTINGS_LINK_MODES)
    (nla_total_size 0
     + (nla_total_size 1
        + (Z.max 0 (bitset32_put_len
                      {| bs_nbits := Settings.__ETHTOOL_LINK_MODE_MASK_NBITS;
                         bs_val := advertising (link_modes ks);
                         bs_mask := Some (supported (link_modes ks));
                         bs_flags := flags |})
           + ((if lpm_empty then 0
               else Z.max 0 (bitset32_put_len
                      {| bs_nbits := Settings.__ETHTOOL_LINK_MODE_MASK_NBITS;
                         bs_val := lp_advertising (link_modes ks);
                         bs_mask := None;
                         bs_flags := Z.lor flags ETHNL_BITSET_LIST |}))
              + ((nla_total_size 4 + nla_total_size 1) + 0)))))
    (Settings.fill_link_modes ks lpm_empty compact).
Proof.
  intros flags. unfold Settings.fill_link_modes. fold flags.
  apply appends_nest; [exact eq_refl| |intros base].
  { destruct lpm_empty; change (nla_total_size 1) with 8;
      change (nla_total_size 4) with 8; lia. }
  cbv zeta. apply in_nest_bind.
  { eapply appends_bound; [put_appends|vm_compute; discriminate]. }
  intros r. destruct (negb (r =? 0)); [apply in_nest_cancel|].
  apply in_nest_bind.
  { eapply appends_bound; [put_appends|apply Z.le_refl]. }
  intros r1. destruct (r1 <? 0); [apply in_nest_cancel|].
  apply in_nest_bind.
  { destruct lpm_empty; simpl negb; cbv iota.
    - apply appends_ret. lia.
    - eapply appends_bound; [put_appends|apply Z.le_refl]. }
  intros r2. destruct (r2 <? 0); [apply in_nest_cancel|].
  apply in_nest_bind.
  { eapply appends_bound; [chain_appends|vm_compute; discriminate]. }
  nest_end.
Qed.

Section WithDriver.
Context {drv : Type}.

(** [fill_settings] writes only nests of the categories in the info mask. *)
Lemma fill_settings_appends (data : @Settings.settings_data drv) :
  let m := info_mask (repdata_base data) in
  let rep := rep_rest data in
  let flags := if compact (reqinfo_base data) then ETHNL_BITSET_COMPACT else 0 in
  appends
    (fun i => forall ty, i = INest ty ->
       (ty = Settings.ETHTOOL_A_SETTINGS_LINK_INFO
        /\ Z.land m Settings.ETHTOOL_IM_SETTINGS_LINKINFO <> 0)
       \/ (ty = Settings.ETHTOOL_A_SETTINGS_LINK_MODES
           /\ Z.land m Settings.ETHTOOL_IM_SETTINGS_LINKMODES <> 0)
       \/ (ty = Settings.ETHTOOL_A_SETTINGS_LINK_STATE
           /\ Z.land m Settings.ETHTOOL_IM_SETTINGS_LINKSTATE <> 0)
       \/ (ty = Settings.ETHTOOL_A_SETTINGS_WOL
           /\ Z.land m Settings.ETHTOOL_IM_SETTINGS_WOL <> 0))
    ((if negb (Z.land m Settings.ETHTOOL_IM_SETTINGS_LINKINFO =? 0)
      then Settings.link_info_size else 0)
     + ((if negb (Z.land m Settings.ETHTOOL_IM_SETTINGS_LINKMODES =? 0)
         then
           nla_total_size 0
           + (nla_total_size 1
              + (Z.max 0 (bitset32_put_len
                   {| bs_nbits := Settings.__ETHTOOL_LINK_MODE_MASK_NBITS;
                      bs_val := advertising (link_modes (Settings.ksettings rep));
                      bs_mask := Some (supported (link_modes (Settings.ksettings rep)));
                      bs_flags := flags |})
                 + ((if Settings.lpm_empty rep then 0
                     else Z.max 0 (bitset32_put_len
                       {| bs_nbits := Settings.__ETHTOOL_LINK_MODE_MASK_NBITS;
                          bs_val := lp_advertising (link_modes (Settings.ksettings rep));
                          bs_mask := None;
                          bs_flags := Z.lor flags ETHNL_BITSET_LIST |}))
                    + ((nla_total_size 4 + nla_total_size 1) + 0))))
         else 0)
        + ((if negb (Z.land m Settings.ETHTOOL_IM_SETTINGS_LINKSTATE =? 0)
            then Settings.link_state_size (Settings.link rep) else 0)
           + ((if negb (Z.land m Settings.ETHTOOL_IM_SETTINGS_WOL =? 0)
               then Settings.wol_size else 0)
              + 0))))
    (Settings.fill_settings data).
Proof.
  intros m rep flags. unfold Settings.fill_settings. fold m rep.
  assert (Hmax : forall x, 0 <= Z.max 0 x) by (intros; lia).
  assert (Hls : 0 <= Settings.link_state_size (Settings.link rep)).
  { unfold Settings.link_state_size. destruct (_ <? 0); vm_compute; discriminate. }
  apply appends_category.
  { intros Hc. eapply appends_weaken; [apply fill_link_info_appends|lia|].
    intros [] HP ty E; inversion E; subst. left. split; [exact HP|].
    apply land_bit_set; assumption. }
  { vm_compute; discriminate. }
  { destruct (negb (Z.land m Settings.ETHTOOL_IM_SETTINGS_LINKMODES =? 0)),
             (negb (Z.land m Settings.ETHTOOL_IM_SETTINGS_LINKSTATE =? 0)),
             (negb (Z.land m Settings.ETHTOOL_IM_SETTINGS_WOL =? 0)),
             (Settings.lpm_empty rep);
      change (nla_total_size 0) with 4; change (nla_total_size 1) with 8;
      change (nla_total_size 4) with 8; change Settings.wol_size with 28; lia. }
  apply appends_category.
  { intros Hc. eapply appends_weaken; [apply fill_link_modes_appends|fold flags; lia|].
    intros [] HP ty E; inversion E; subst. right; left. split; [exact HP|].
    apply land_bit_set; assumption. }
  { destruct (Settings.lpm_empty rep);
      change (nla_total_size 0) with 4; change (nla_total_size 1) with 8;
      change (nla_total_size 4) with 8; lia. }
  { destruct (negb (Z.land m Settings.ETHTOOL_IM_SETTINGS_LINKSTATE =? 0)),
             (negb (Z.land m Settings.ETHTOOL_IM_SETTINGS_WOL =? 0));
      change Settings.wol_size with 28; lia. }
  apply appends_category.
  { intros Hc. eapply appends_weaken; [apply fill_link_state_appends|lia|].
    intros [] HP ty E; inversion E; subst. right; right; left. split; [exact HP|].
    apply land_bit_set; assumption. }
  { assumption. }
  { destruct (negb (Z.land m Settings.ETHTOOL_IM_SETTINGS_WOL =? 0));
      change Settings.wol_size with 28; lia. }
  apply appends_category.
  { intros Hc. eapply appends_weaken; [apply fill_wolinfo_appends|lia|].
    intros [] HP ty E; inversion E; subst. right; right; right. split; [exact HP|].
    apply land_bit_set; assumption. }
  { vm_compute; discriminate. }
  { lia. }
  apply appends_ret. lia.
Qed.

(** [fill_params] writes only nests of the categories in the info mask,
    in at most the room [params_size] counts for them. *)
Lemma fill_params_appends (data : @Params.params_data drv) :
  let m := info_mask (repdata_base data) in
  appends
    (fun i => forall ty, i = INest ty ->
       (ty = Params.ETHTOOL_A_PARAMS_COALESCE
        /\ Z.land m Params.ETHTOOL_IM_PARAMS_COALESCE <> 0)
       \/ (ty = Params.ETHTOOL_A_PARAMS_RING
           /\ Z.land m Params.ETHTOOL_IM_PARAMS_RING <> 0)
       \/ (ty = Params.ETHTOOL_A_PARAMS_PAUSE
           /\ Z.land m Params.ETHTOOL_IM_PARAMS_PAUSE <> 0)
       \/ (ty = Params.ETHTOOL_A_PARAMS_CHANNELS
           /\ Z.land m Params.ETHTOOL_IM_PARAMS_CHANNELS <> 0))
    (Params.params_size data - dev_ident_size)
    (Params.fill_params data).
Proof.
  intros m. unfold Params.fill_params. fold m.
  eapply appends_bound.
  - apply appends_category with (n := Params.coalesce_size).
    { intros Hc. eapply appends_weaken; [apply fill_coalesce_appends|lia|].
      intros [] HP ty E; inversion E; subst. left. split; [exact HP|].
      apply land_bit_set; assumption. }
    { vm_compute; discriminate. }
    2:{ apply appends_category with (n := Params.ring_size).
        { intros Hc. eapply appends_weaken; [apply fill_ring_appends|lia|].
          intros [] HP ty E; inversion E; subst. right; left. split; [exact HP|].
          apply land_bit_set; assumption. }
        { vm_compute; discriminate. }
        2:{ apply appends_category with (n := Params.pause_size).
            { intros Hc. eapply appends_weaken; [apply fill_pause_appends|lia|].
              intros [] HP ty E; inversion E; subst. right; right; left.
              split; [exact HP|]. apply land_bit_set; assumption. }
            { vm_compute; discriminate. }
            2:{ apply appends_category with (n := Params.channels_size) (n2 := 0).
                { intros Hc.
                  eapply appends_weaken; [apply fill_channels_appends|lia|].
                  intros [] HP ty E; inversion E; subst. right; right; right.
                  split; [exact HP|]. apply land_bit_set; assumption. }
                { vm_compute; discriminate. }
                { lia. }
                apply appends_ret. lia. }
            destruct (negb _); vm_compute; discriminate. }
        destruct (negb (Z.land m Params.ETHTOOL_IM_PARAMS_PAUSE =? 0)),
                 (negb (Z.land m Params.ETHTOOL_IM_PARAMS_CHANNELS =? 0));
          vm_compute; discriminate. }
    destruct (negb (Z.land m Params.ETHTOOL_IM_PARAMS_RING =? 0)),
             (negb (Z.land m Params.ETHTOOL_IM_PARAMS_PAUSE =? 0)),
             (negb (Z.land m Params.ETHTOOL_IM_PARAMS_CHANNELS =? 0));
      vm_compute; discriminate.
  - unfold Params.params_size. fold m.
    destruct (negb (Z.land m Params.ETHTOOL_IM_PARAMS_COALESCE =? 0)),
             (negb (Z.land m Params.ETHTOOL_IM_PARAMS_RING =? 0)),
             (negb (Z.land m Params.ETHTOOL_IM_PARAMS_PAUSE =? 0)),
             (negb (Z.land m Params.ETHTOOL_IM_PARAMS_CHANNELS =? 0));
      vm_compute; discriminate.
Qed.

End WithDriver.

End WithCodec.

End FillFacts.

(** ** Partial replies *)

Module PrepareFacts.
Import Nl Dev Netlink BufferFacts FillFacts.

Lemma land_sub (x c d : Z) : Z.land x c = 0 -> Z.land c d = d -> Z.land x d = 0.
Proof.
  intros Hx Hd. rewrite <- Hd, Z.land_assoc, Hx. apply Z.land_0_l.
Qed.

Lemma land_clear (x c d : Z) : Z.land c d = d -> Z.land (Z.land x (Z.lnot c)) d = 0.
Proof.
  intros Hd. rewrite <- Hd, <- Z.land_assoc, (Z.land_assoc (Z.lnot c)).
  rewrite (Z.land_comm (Z.lnot c) c), Z.land_lnot_diag.
  rewrite Z.land_0_l. apply Z.land_0_r.
Qed.

Lemma land_keep (x c d : Z) :
  Z.land c d = 0 -> Z.land (Z.land x (Z.lnot c)) d = Z.land x d.
Proof.
  intros Hd. apply Z.bits_inj'. intros n Hn.
  rewrite !Z.land_spec, Z.lnot_spec by assumption.
  assert (H : Z.testbit (Z.land c d) n = false) by (rewrite Hd; apply Z.bits_0).
  rewrite Z.land_spec in H.
  destruct (Z.testbit x n), (Z.testbit c n), (Z.testbit d n); simpl in *; congruence.
Qed.

Ltac step_if :=
  match goal with
  | |- context [if ?c then _ else _] => destruct c eqn:?; cbv beta iota zeta
  | |- context [match ?c with Some _ => _ | None => _ end] =>
      destruct c eqn:?; cbv beta iota zeta
  end.

Ltac norm_hyps :=
  repeat match goal with
         | H : negb (_ =? 0) = true |- _ => apply negb_true_iff, Z.eqb_neq in H
         | H : negb (_ =? 0) = false |- _ => apply negb_false_iff, Z.eqb_eq in H
         | H : (_ <? _) = true |- _ => apply Z.ltb_lt in H
         | H : (_ <? _) = false |- _ => apply Z.ltb_ge in H
         end.

Ltac bits :=
  repeat first [ rewrite land_clear by reflexivity
               | rewrite land_keep by reflexivity ];
  repeat match goal with
         | H : context [Z.land (Z.land _ (Z.lnot _)) _] |- _ =>
             first [ rewrite land_clear in H by reflexivity
                   | rewrite land_keep in H by reflexivity ]
         end.

Ltac mask_facts :=
  repeat split; intros; simpl fst in *;
  first [ reflexivity | lia | congruence
        | apply (land_sub _ 3); [assumption|reflexivity]
        | left; reflexivity | right; reflexivity ].

Section WithDriver.
Context {drv : Type} {codec : bitset_codec}.

(** What [prepare_settings] leaves in the record when [ethnl_before_ops]
    lets it run. *)
Lemma prepare_settings_mask (data : @Settings.settings_data drv)
    (dev : net_device drv) (info : option genl_info) :
  0 <= ethnl_before_ops dev (priv dev) ->
  let '(ret, data', _) := Settings.prepare_settings data dev info in
  let req := req_mask (reqinfo_base data) in
  let m := info_mask (repdata_base data') in
  ret = 0
  /\ reqinfo_base data' = reqinfo_base data
  /\ req_rest data' = req_rest data
  /\ (fst (__ethtool_get_link_ksettings dev (priv dev)) < 0 ->
      Z.land m Settings.ETHTOOL_IM_SETTINGS_LINKINFO = 0
      /\ Z.land m Settings.ETHTOOL_IM_SETTINGS_LINKMODES = 0)
  /\ (fst (__ethtool_get_wol dev (priv dev)) < 0 ->
      Z.land m Settings.ETHTOOL_IM_SETTINGS_WOL = 0)
  /\ Z.land m Settings.ETHTOOL_IM_SETTINGS_LINKSTATE
     = Z.land req Settings.ETHTOOL_IM_SETTINGS_LINKSTATE
  /\ (Z.land req Settings.ETHTOOL_IM_SETTINGS_LINKSTATE <> 0 ->
      Settings.link (rep_rest data') = __ethtool_get_link dev (priv dev))
  /\ (Settings.lpm_empty (rep_rest data') = true
      \/ Settings.lpm_empty (rep_rest data')
         = Settings.bitmap_empty
             (lp_advertising (link_modes (Settings.ksettings (rep_rest data'))))
             Settings.__ETHTOOL_LINK_MODE_MASK_NBITS).
Proof.
  intros Hb. unfold Settings.prepare_settings, Settings.ethnl_get_link_ksettings,
    Settings.ethnl_get_wol.
  destruct (Z.ltb_spec (ethnl_before_ops dev (priv dev)) 0) as [|_]; [lia|].
  destruct (__ethtool_get_link_ksettings dev (priv dev)) as [rk ks].
  destruct (__ethtool_get_wol dev (priv dev)) as [rw wol].
  cbv beta iota zeta.
  set (req := req_mask (reqinfo_base data)).
  change (Z.lor Settings.ETHTOOL_IM_SETTINGS_LINKINFO
                Settings.ETHTOOL_IM_SETTINGS_LINKMODES) with 3.
  repeat step_if.
  all: unfold Settings.set_reply;
    cbn [info_mask repdata_base reqinfo_base req_rest rep_rest fst snd
         Settings.link Settings.lpm_empty Settings.ksettings].
  all: norm_hyps; bits; mask_facts.
Qed.

(** What [prepare_params] leaves in the record when [ethnl_before_ops]
    lets it run. *)
Lemma prepare_params_mask (data : @Params.params_data drv)
    (dev : net_device drv) (info : option genl_info) :
  0 <= ethnl_before_ops dev (priv dev) ->
  let '(ret, data', _) := Params.prepare_params data dev info in
  let m := info_mask (repdata_base data') in
  ret = 0
  /\ (get_coalesce (ops dev) = None
      \/ (exists get, get_coalesce (ops dev) = Some get /\ fst (get (priv dev)) < 0) ->
      Z.land m Params.ETHTOOL_IM_PARAMS_COALESCE = 0)
  /\ (get_ringparam (ops dev) = None ->
      Z.land m Params.ETHTOOL_IM_PARAMS_RING = 0)
  /\ (get_pauseparam (ops dev) = None ->
      Z.land m Params.ETHTOOL_IM_PARAMS_PAUSE = 0)
  /\ (get_channels (ops dev) = None ->
      Z.land m Params.ETHTOOL_IM_PARAMS_CHANNELS = 0).
Proof.
  intros Hb. unfold Params.prepare_params, Params.ethnl_get_coalesce,
    Params.ethnl_get_ring, Params.ethnl_get_pause, Params.ethnl_get_channels.
  destruct (Z.ltb_spec (ethnl_before_ops dev (priv dev)) 0) as [|_]; [lia|].
  set (req := req_mask (reqinfo_base data)).
  destruct (get_coalesce (ops dev)) as [getc|];
  destruct (get_ringparam (ops dev)) as [getr|];
  destruct (get_pauseparam (ops dev)) as [getp|];
  destruct (get_channels (ops dev)) as [geth|];
  try destruct (getc (priv dev)) as [rc c] eqn:Eg;
  cbv beta iota zeta;
  change (- EOPNOTSUPP <? 0) with true; change (0 <? 0) with false;
  repeat step_if;
  unfold Params.set_reply; cbn [info_mask repdata_base fst snd];
  norm_hyps; bits;
  repeat split; intros;
  repeat match goal with
         | H : _ \/ _ |- _ => destruct H
         | H : exists _, _ |- _ => destruct H
         | H : _ /\ _ |- _ => destruct H
         | H : Some _ = Some _ |- _ => inversion H; subst; clear H
         end;
  try match goal with
      | E : ?g (priv dev) = (_, _), H : fst (?g (priv dev)) < 0 |- _ =>
          rewrite E in H
      end;
  simpl fst in *;
  first [ reflexivity | lia | congruence ].
Qed.

Lemma in_skb_after {A : Type} (P : item -> Prop) (n : Z) (m : skbM A)
    (skb : sk_buff) (i : item) :
  appends P n m -> In i (skb_data (snd (m skb))) -> In i (skb_data skb) \/ P i.
Proof.
  intros Hm Hin. destruct (Hm skb) as [_ [ext [Hd [_ Hf]]]].
  rewrite Hd in Hin. apply in_app_or in Hin as [H|H]; [left; assumption|].
  right. rewrite Forall_forall in Hf. apply Hf. apply list_elem_of_In. assumption.
Qed.

(** C1, as the code has it.  When [ethnl_before_ops] lets them run, both
    [prepare_settings] and [prepare_params] return 0.  A failure of the
    link settings call clears link info and link modes from the achieved
    mask, a failure of the wake-on-LAN call clears WoL, and a missing or
    failing parameter operation clears its category; the reply then has
    no nest of a category that is not in the achieved mask.  Link state
    is the exception: its bit is never cleared, and when the link state
    call fails the reply carries an empty link state nest. *)
Theorem prepare_data_partial (sdata : @Settings.settings_data drv)
    (pdata : @Params.params_data drv) (dev : net_device drv)
    (info : option genl_info) (skb : sk_buff) :
  0 <= ethnl_before_ops dev (priv dev) ->
  (let '(ret, data', _) := Settings.prepare_settings sdata dev info in
   let req := req_mask (reqinfo_base sdata) in
   let m := info_mask (repdata_base data') in
   ret = 0
   /\ (fst (__ethtool_get_link_ksettings dev (priv dev)) < 0 ->
       Z.land m Settings.ETHTOOL_IM_SETTINGS_LINKINFO = 0
       /\ Z.land m Settings.ETHTOOL_IM_SETTINGS_LINKMODES = 0)
   /\ (fst (__ethtool_get_wol dev (priv dev)) < 0 ->
       Z.land m Settings.ETHTOOL_IM_SETTINGS_WOL = 0)
   /\ Z.land m Settings.ETHTOOL_IM_SETTINGS_LINKSTATE
      = Z.land req Settings.ETHTOOL_IM_SETTINGS_LINKSTATE
   /\ (Z.land req Settings.ETHTOOL_IM_SETTINGS_LINKSTATE <> 0 ->
       __ethtool_get_link dev (priv dev) < 0 ->
       forall skb2, nla_total_size 0 <= skb_tailroom skb2 ->
       Settings.fill_link_state (Settings.link (rep_rest data')) skb2
       = (0, {| skb_data := skb_data skb2
                            ++ [INest Settings.ETHTOOL_A_SETTINGS_LINK_STATE;
                                INestEnd];
                skb_end := skb_end skb2 |}))
   /\ (forall cat ty,
         In (cat, ty)
            [(Settings.ETHTOOL_IM_SETTINGS_LINKINFO,
              Settings.ETHTOOL_A_SETTINGS_LINK_INFO);
             (Settings.ETHTOOL_IM_SETTINGS_LINKMODES,
              Settings.ETHTOOL_A_SETTINGS_LINK_MODES);
             (Settings.ETHTOOL_IM_SETTINGS_LINKSTATE,
              Settings.ETHTOOL_A_SETTINGS_LINK_STATE);
             (Settings.ETHTOOL_IM_SETTINGS_WOL,
              Settings.ETHTOOL_A_SETTINGS_WOL)] ->
         Z.land m cat = 0 ->
         ~ In (INest ty) (skb_data skb) ->
         ~ In (INest ty) (skb_data (snd (Settings.fill_settings data' skb)))))
  /\ (let '(ret, data', _) := Params.prepare_params pdata dev info in
      let m := info_mask (repdata_base data') in
      ret = 0
      /\ (get_coalesce (ops dev) = None
          \/ (exists get, get_coalesce (ops dev) = Some get
                          /\ fst (get (priv dev)) < 0) ->
          Z.land m Params.ETHTOOL_IM_PARAMS_COALESCE = 0)
      /\ (get_ringparam (ops dev) = None ->
          Z.land m Params.ETHTOOL_IM_PARAMS_RING = 0)
      /\ (get_pauseparam (ops dev) = None ->
          Z.land m Params.ETHTOOL_IM_PARAMS_PAUSE = 0)
      /\ (get_channels (ops dev) = None ->
          Z.land m Params.ETHTOOL_IM_PARAMS_CHANNELS = 0)
      /\ (forall cat ty,
            In (cat, ty)
               [(Params.ETHTOOL_IM_PARAMS_COALESCE,
                 Params.ETHTOOL_A_PARAMS_COALESCE);
                (Params.ETHTOOL_IM_PARAMS_RING, Params.ETHTOOL_A_PARAMS_RING);
                (Params.ETHTOOL_IM_PARAMS_PAUSE, Params.ETHTOOL_A_PARAMS_PAUSE);
                (Params.ETHTOOL_IM_PARAMS_CHANNELS,
                 Params.ETHTOOL_A_PARAMS_CHANNELS)] ->
            Z.land m cat = 0 ->
            ~ In (INest ty) (skb_data skb) ->
            ~ In (INest ty) (skb_data (snd (Params.fill_params data' skb))))).
Proof.
  intros Hb. split.
  - pose proof (prepare_settings_mask sdata dev info Hb) as H.
    destruct (Settings.prepare_settings sdata dev info) as [[ret data'] info'].
    destruct H as (Hret & _ & _ & Hks & Hwol & Hstate & Hlink & _).
    split; [assumption|]. split; [assumption|]. split; [assumption|].
    split; [assumption|]. split.
    + intros Hreq Hfail skb2 Hroom. rewrite (Hlink Hreq).
      unfold Settings.fill_link_state, bind, nla_nest_start, put_item.
      destruct (Z.ltb_spec (skb_tailroom skb2) (nla_total_size 0)) as [|_]; [lia|].
      destruct (Z.leb_spec 0 (__ethtool_get_link dev (priv dev))) as [|_]; [lia|].
      simpl. unfold skb_append. simpl. rewrite <- app_assoc. reflexivity.
    + intros cat ty Hin Hcat Hnot Hafter.
      destruct (in_skb_after _ _ _ _ _ (fill_settings_appends data') Hafter)
        as [H|H]; [contradiction|].
      specialize (H ty eq_refl).
      simpl in Hin.
      destruct Hin as [E|[E|[E|[E|[]]]]]; inversion E; subst;
        destruct H as [[H1 H2]|[[H1 H2]|[[H1 H2]|[H1 H2]]]];
        first [contradiction | discriminate].
  - pose proof (prepare_params_mask pdata dev info Hb) as H.
    destruct (Params.prepare_params pdata dev info) as [[ret data'] info'].
    destruct H as (Hret & Hc & Hr & Hp & Hh).
    split; [assumption|]. split; [assumption|]. split; [assumption|].
    split; [assumption|]. split; [assumption|].
    intros cat ty Hin Hcat Hnot Hafter.
    destruct (in_skb_after _ _ _ _ _ (fill_params_appends data') Hafter)
      as [H|H]; [contradiction|].
    specialize (H ty eq_refl).
    simpl in Hin.
    destruct Hin as [E|[E|[E|[E|[]]]]]; inversion E; subst;
      destruct H as [[H1 H2]|[[H1 H2]|[[H1 H2]|[H1 H2]]]];
      first [contradiction | discriminate].
Qed.

End WithDriver.

#[local] Existing Instance sample_codec.

(** [eth0] can give neither link settings, nor link state, nor WoL, nor
    pause parameters, nor channels; a request for everything still
    succeeds on it. *)
Lemma prepare_data_partial_witness :
  (let '(ret, data', _) := Settings.prepare_settings Samples.all_settings_data Samples.eth0 (@None genl_info) in
   let req := req_mask (reqinfo_base Samples.all_settings_data) in
   let m := info_mask (repdata_base data') in
   ret = 0
   /\ (fst (__ethtool_get_link_ksettings Samples.eth0 (priv Samples.eth0)) < 0 ->
       Z.land m Settings.ETHTOOL_IM_SETTINGS_LINKINFO = 0
       /\ Z.land m Settings.ETHTOOL_IM_SETTINGS_LINKMODES = 0)
   /\ (fst (__ethtool_get_wol Samples.eth0 (priv Samples.eth0)) < 0 ->
       Z.land m Settings.ETHTOOL_IM_SETTINGS_WOL = 0)
   /\ Z.land m Settings.ETHTOOL_IM_SETTINGS_LINKSTATE
      = Z.land req Settings.ETHTOOL_IM_SETTINGS_LINKSTATE
   /\ (Z.land req Settings.ETHTOOL_IM_SETTINGS_LINKSTATE <> 0 ->
       __ethtool_get_link Samples.eth0 (priv Samples.eth0) < 0 ->
       forall skb2, nla_total_size 0 <= skb_tailroom skb2 ->
       Settings.fill_link_state (Settings.link (rep_rest data')) skb2
       = (0, {| skb_data := skb_data skb2
                            ++ [INest Settings.ETHTOOL_A_SETTINGS_LINK_STATE;
                                INestEnd];
                skb_end := skb_end skb2 |}))
   /\ (forall cat ty,
         In (cat, ty)
            [(Settings.ETHTOOL_IM_SETTINGS_LINKINFO,
              Settings.ETHTOOL_A_SETTINGS_LINK_INFO);
             (Settings.ETHTOOL_IM_SETTINGS_LINKMODES,
              Settings.ETHTOOL_A_SETTINGS_LINK_MODES);
             (Settings.ETHTOOL_IM_SETTINGS_LINKSTATE,
              Settings.ETHTOOL_A_SETTINGS_LINK_STATE);
             (Settings.ETHTOOL_IM_SETTINGS_WOL,
              Settings.ETHTOOL_A_SETTINGS_WOL)] ->
         Z.land m cat = 0 ->
         ~ In (INest ty) (skb_data (Samples.empty_skb 4096)) ->
         ~ In (INest ty) (skb_data (snd (Settings.fill_settings data' (Samples.empty_skb 4096))))))
  /\ (let '(ret, data', _) := Params.prepare_params Samples.all_params_data Samples.eth0 (@None genl_info) in
      let m := info_mask (repdata_base data') in
      ret = 0
      /\ (get_coalesce (ops Samples.eth0) = None
          \/ (exists get, get_coalesce (ops Samples.eth0) = Some get
                          /\ fst (get (priv Samples.eth0)) < 0) ->
          Z.land m Params.ETHTOOL_IM_PARAMS_COALESCE = 0)
      /\ (get_ringparam (ops Samples.eth0) = None ->
          Z.land m Params.ETHTOOL_IM_PARAMS_RING = 0)
      /\ (get_pauseparam (ops Samples.eth0) = None ->
          Z.land m Params.ETHTOOL_IM_PARAMS_PAUSE = 0)
      /\ (get_channels (ops Samples.eth0) = None ->
          Z.land m Params.ETHTOOL_IM_PARAMS_CHANNELS = 0)
      /\ (forall cat ty,
            In (cat, ty)
               [(Params.ETHTOOL_IM_PARAMS_COALESCE,
                 Params.ETHTOOL_A_PARAMS_COALESCE);
                (Params.ETHTOOL_IM_PARAMS_RING, Params.ETHTOOL_A_PARAMS_RING);
                (Params.ETHTOOL_IM_PARAMS_PAUSE, Params.ETHTOOL_A_PARAMS_PAUSE);
                (Params.ETHTOOL_IM_PARAMS_CHANNELS,
                 Params.ETHTOOL_A_PARAMS_CHANNELS)] ->
            Z.land m cat = 0 ->
            ~ In (INest ty) (skb_data (Samples.empty_skb 4096)) ->
            ~ In (INest ty) (skb_data (snd (Params.fill_params data' (Samples.empty_skb 4096)))))).
Proof.
  apply (@prepare_data_partial Samples.sample_priv sample_codec
           Samples.all_settings_data Samples.all_params_data Samples.eth0 None
           (Samples.empty_skb 4096)).
  vm_compute. discriminate.
Defined.

(** C1 as stated extends to link state.  [eth0] has no link state
    operation ([__ethtool_get_link] returns [-EOPNOTSUPP]); a request for
    the link state alone is prepared with the link state still in the
    achieved mask, and the reply holds a link state nest, empty. *)
Lemma prepare_settings_keeps_link_state :
  let '(ret, data', _) :=
    Settings.prepare_settings Samples.link_state_data Samples.eth0 None in
  req_mask (reqinfo_base Samples.link_state_data)
    = Settings.ETHTOOL_IM_SETTINGS_LINKSTATE
  /\ __ethtool_get_link Samples.eth0 (priv Samples.eth0) = - EOPNOTSUPP
  /\ ret = 0
  /\ info_mask (repdata_base data') = Settings.ETHTOOL_IM_SETTINGS_LINKSTATE
  /\ info_mask (repdata_base data') <> 0
  /\ Settings.fill_settings data' (Samples.empty_skb 4096)
     = (0, {| skb_data := [INest Settings.ETHTOOL_A_SETTINGS_LINK_STATE; INestEnd];
              skb_end := 4096 |}).
Proof. vm_compute. repeat split. discriminate. Qed.

End PrepareFacts.

(** ** Reply sizes *)

Module SizeFacts.
Import Nl Dev Netlink BufferFacts FillFacts PrepareFacts.

Section WithDriver.
Context {drv : Type} {codec : bitset_codec}.

Lemma written_le {A : Type} (P : item -> Prop) (n : Z) (m : skbM A)
    (skb : sk_buff) :
  appends P n m -> skb_len (snd (m skb)) - skb_len skb <= n.
Proof.
  intros Hm. destruct (Hm skb) as [_ [ext [Hd [Hl _]]]].
  unfold skb_len. rewrite Hd, items_len_app. lia.
Qed.

(** When [link_modes_size] succeeds and the codec's sizes bound what it
    writes for our modes and for the peer's, the size covers what
    [fill_link_modes] writes. *)
Lemma link_modes_size_covers (ks : ethtool_link_ksettings)
    (lpm_empty compact : bool) :
  let flags := if compact then ETHNL_BITSET_COMPACT else 0 in
  let ours := {| bs_nbits := Settings.__ETHTOOL_LINK_MODE_MASK_NBITS;
                 bs_val := advertising (link_modes ks);
                 bs_mask := Some (supported (link_modes ks));
                 bs_flags := flags |} in
  let peer f := {| bs_nbits := Settings.__ETHTOOL_LINK_MODE_MASK_NBITS;
                   bs_val := lp_advertising (link_modes ks);
                   bs_mask := None;
                   bs_flags := f |} in
  (0 <= ethnl_bitset32_size ours ->
   bitset32_put_len ours <= ethnl_bitset32_size ours) ->
  (lpm_empty = false ->
   0 <= ethnl_bitset32_size (peer (Z.land flags ETHNL_BITSET_LIST)) ->
   bitset32_put_len (peer (Z.lor flags ETHNL_BITSET_LIST))
   <= ethnl_bitset32_size (peer (Z.land flags ETHNL_BITSET_LIST))) ->
  0 <= Settings.link_modes_size ks compact ->
  nla_total_size 0
  + (nla_total_size 1
     + (Z.max 0 (bitset32_put_len ours)
        + ((if lpm_empty then 0
            else Z.max 0 (bitset32_put_len (peer (Z.lor flags ETHNL_BITSET_LIST))))
           + ((nla_total_size 4 + nla_total_size 1) + 0))))
  <= Settings.link_modes_size ks compact.
Proof.
  intros flags ours peer Hours Hpeer. unfold Settings.link_modes_size.
  fold flags. fold ours. fold (peer (Z.land flags ETHNL_BITSET_LIST)).
  destruct (Z.ltb_spec (ethnl_bitset32_size ours) 0) as [|Ho]; [lia|].
  destruct (Z.ltb_spec (ethnl_bitset32_size (peer (Z.land flags ETHNL_BITSET_LIST))) 0)
    as [|Hp]; [lia|].
  intros _.
  pose proof (nla_total_size_ge
    (0 + (nla_total_size 4 + 2 * nla_total_size 1) + ethnl_bitset32_size ours
     + ethnl_bitset32_size (peer (Z.land flags ETHNL_BITSET_LIST)))) as Hge.
  specialize (Hours Ho).
  change (nla_total_size 0) with 4 in *. change (nla_total_size 1) with 8 in *.
  change (nla_total_size 4) with 8 in *. change NLA_HDRLEN with 4 in *.
  destruct lpm_empty.
  - lia.
  - specialize (Hpeer eq_refl Hp). lia.
Qed.


End WithDriver.

#[local] Existing Instance sample_codec.


End SizeFacts.

(** ** Dumps *)

Module DumpFacts.
Import Nl Dev Netlink BufferFacts FillFacts.

Lemma concat_drop {A : Type} (l : list (list A)) : forall k : nat,
  concat (drop k l) = default [] (l !! k) ++ concat (drop (S k) l).
Proof.
  induction l as [|x l IH]; intros [|k]; simpl; try reflexivity.
  apply IH.
Qed.

Section WithDriver.
Context {drv : Type} {codec : bitset_codec} {Q R : Type}.
Variable ops : get_request_ops drv Q R.

Lemma skb_eq (a b : sk_buff) :
  skb_data a = skb_data b -> skb_end a = skb_end b -> a = b.
Proof. destruct a, b; simpl; intros -> ->; reflexivity. Qed.

Lemma skb_trim_append (skb skb' : sk_buff) (ext : list item) :
  skb_end skb' = skb_end skb -> skb_data skb' = skb_data skb ++ ext ->
  skb_trim skb' (length (skb_data skb)) = skb.
Proof.
  intros He Hd. apply skb_eq; simpl; [|assumption].
  rewrite Hd. apply take_app_length.
Qed.

Lemma keeps_prefix_fill_dev (dev : net_device drv) (ty : nat) :
  keeps_prefix (ethnl_fill_dev dev ty).
Proof.
  intros skb. unfold ethnl_fill_dev, bind, nla_nest_start, nla_put_u32,
    nla_put_string, nla_put, put_item, nla_nest_cancel, nla_nest_end, ret.
  destruct (skb_tailroom skb <? nla_total_size 0); simpl.
  { split; [reflexivity|]. exists []. rewrite app_nil_r. reflexivity. }
  destruct (skb_tailroom _ <? nla_total_size 4); simpl.
  { split; [reflexivity|]. exists []. rewrite app_nil_r.
    rewrite take_app_length. reflexivity. }
  destruct (skb_tailroom _ <? nla_total_size _); simpl.
  { split; [reflexivity|]. exists []. rewrite app_nil_r.
    rewrite <- app_assoc. rewrite take_app_length. reflexivity. }
  split; [reflexivity|]. rewrite <- !app_assoc. eexists. reflexivity.
Qed.

Lemma skb_tailroom_append (skb : sk_buff) (i : item) :
  skb_tailroom (skb_append skb i) = skb_tailroom skb - item_len i.
Proof.
  unfold skb_tailroom, skb_len, skb_append. simpl.
  rewrite items_len_app. simpl. lia.
Qed.

Lemma nla_total_size_string (s : string) : 8 <= nla_total_size (strlen s + 1).
Proof.
  unfold nla_total_size, strlen, NLA_HDRLEN. rewrite NLA_ALIGN_eq.
  assert (2 <= (4 + (Z.of_nat (String.length s) + 1) + 3) / 4)
    by (apply Z.div_le_lower_bound; lia).
  lia.
Qed.

(** The identification nest takes at least as much room as the message
    header: where the header did not fit, the nest does not either, and the
    buffer is as before. *)
Lemma fill_dev_no_room (dev : net_device drv) (ty : nat) (skb : sk_buff) :
  skb_tailroom skb < nlmsg_total_size GENL_HDRLEN ->
  ethnl_fill_dev dev ty skb = (- EMSGSIZE, skb).
Proof.
  intros Hroom. change (nlmsg_total_size GENL_HDRLEN) with 20 in Hroom.
  pose proof (nla_total_size_string (name dev)) as Hs.
  unfold ethnl_fill_dev, bind, nla_nest_start, nla_put_u32,
    nla_put_string, nla_put, put_item, nla_nest_cancel, nla_nest_end, ret.
  destruct (Z.ltb_spec (skb_tailroom skb) (nla_total_size 0)) as [H0|H0]; simpl;
    [reflexivity|].
  rewrite skb_tailroom_append.
  destruct (Z.ltb_spec (skb_tailroom skb - item_len (INest ty)) (nla_total_size 4))
    as [H1|H1]; simpl.
  { f_equal. apply skb_eq; simpl; [apply take_app_length|reflexivity]. }
  rewrite skb_tailroom_append, skb_tailroom_append.
  match goal with
  | |- context [?a <? nla_total_size (strlen (name dev) + 1)] =>
      destruct (Z.ltb_spec a (nla_total_size (strlen (name dev) + 1))) as [H2|H2]
  end; simpl.
  { f_equal. apply skb_eq; simpl; [|reflexivity].
    rewrite <- app_assoc. apply take_app_length. }
  exfalso. revert H0 H1 H2. simpl item_len.
  change (nla_total_size 0) with 4. change (nla_total_size 4) with 8. lia.
Qed.

(** One device of a dump leaves what the buffer held in place. *)
Lemma dump_one_keeps_prefix (dev : net_device drv) (data : get_data drv Q R)
    (skb : sk_buff) :
  (forall d, keeps_prefix (fill_reply ops d)) ->
  skb_end (snd (ethnl_get_dump_one ops dev data skb)) = skb_end skb
  /\ exists ext, skb_data (snd (ethnl_get_dump_one ops dev data skb))
                 = skb_data skb ++ ext.
Proof.
  intros Hfill. unfold ethnl_get_dump_one.
  destruct (prepare_data ops _ dev None) as [[ret d] i].
  destruct (ret <? 0); simpl.
  { split; [reflexivity|]. exists []. rewrite app_nil_r. reflexivity. }
  pose proof (keeps_prefix_fill_dev dev (dev_attrtype ops) skb) as [He [ext Hd]].
  destruct (ethnl_fill_dev dev (dev_attrtype ops) skb) as [r skb1]. simpl in *.
  destruct (r <? 0); simpl.
  { split; [assumption|]. exists ext. assumption. }
  pose proof (Hfill d skb1) as [He2 [ext2 Hd2]].
  destruct (fill_reply ops d skb1) as [r2 skb2]. simpl in *.
  split; [congruence|]. exists (ext ++ ext2). rewrite Hd2, Hd, app_assoc. reflexivity.
Qed.

(** Where the header did not fit, a device cannot succeed, and the buffer
    is as before. *)
Lemma dump_one_no_room (dev : net_device drv) (data : get_data drv Q R)
    (skb : sk_buff) :
  skb_tailroom skb < nlmsg_total_size GENL_HDRLEN ->
  fst (fst (ethnl_get_dump_one ops dev data skb)) < 0
  /\ snd (ethnl_get_dump_one ops dev data skb) = skb.
Proof.
  intros Hroom. unfold ethnl_get_dump_one.
  destruct (prepare_data ops _ dev None) as [[ret d] i].
  destruct (Z.ltb_spec ret 0); simpl; [split; [assumption|reflexivity]|].
  rewrite fill_dev_no_room by assumption. simpl. split; [reflexivity|reflexivity].
Qed.

(** Cancelling the message of a device that failed gives the buffer as it
    was before the device. *)
Lemma cancel_restores (dev : net_device drv) (data : get_data drv Q R)
    (skb : sk_buff) :
  (forall d, keeps_prefix (fill_reply ops d)) ->
  let (ehdr, skb1) := genlmsg_put (reply_cmd ops) skb in
  let '(ret, _, skb2) := ethnl_get_dump_one ops dev data skb1 in
  snd (genlmsg_cancel ehdr skb2) = skb.
Proof.
  intros Hfill. unfold genlmsg_put, put_item.
  destruct (Z.ltb_spec (skb_tailroom skb) (nlmsg_total_size GENL_HDRLEN)) as [H|H];
    simpl.
  - pose proof (dump_one_no_room dev data skb H) as [_ Hs].
    destruct (ethnl_get_dump_one ops dev data skb) as [[r d] k]. simpl in *.
    assumption.
  - pose proof (dump_one_keeps_prefix dev data
                  (skb_append skb (IMsgHdr (reply_cmd ops))) Hfill) as [He [ext Hd]].
    destruct (ethnl_get_dump_one ops dev data _) as [[r d] k]. simpl in *.
    apply skb_eq; simpl; [|assumption].
    rewrite Hd, <- app_assoc. apply take_app_length.
Qed.

(** *** The walk over a bucket *)

(** Past the start position the walk does not look at it any more. *)
Lemma dump_bucket_past (devs : list (net_device drv)) :
  forall (idx s_idx s_idx' : nat) (data : get_data drv Q R) (skb : sk_buff),
    (s_idx <= idx)%nat -> (s_idx' <= idx)%nat ->
    dump_bucket ops devs idx s_idx data skb
    = dump_bucket ops devs idx s_idx' data skb.
Proof.
  induction devs as [|dev rest IH]; intros idx s s' data skb Hs Hs'; simpl;
    [reflexivity|].
  rewrite (proj2 (Nat.ltb_ge idx s) Hs), (proj2 (Nat.ltb_ge idx s') Hs').
  destruct (genlmsg_put (reply_cmd ops) skb) as [ehdr skb1].
  destruct (ethnl_get_dump_one ops dev data skb1) as [[ret d] skb2].
  destruct (ret <? 0).
  - destruct (genlmsg_cancel ehdr skb2) as [u skb3].
    destruct (ret =? - EOPNOTSUPP); [|reflexivity].
    apply IH; lia.
  - destruct (genlmsg_end ehdr skb2) as [u skb3]. apply IH; lia.
Qed.

(** The devices before the start position are passed over. *)
Lemma dump_bucket_skip (pre devs : list (net_device drv)) :
  forall (idx s_idx : nat) (data : get_data drv Q R) (skb : sk_buff),
    (idx + length pre <= s_idx)%nat ->
    dump_bucket ops (pre ++ devs) idx s_idx data skb
    = dump_bucket ops devs (idx + length pre) s_idx data skb.
Proof.
  induction pre as [|dev pre IH]; intros idx s data skb Hs; simpl in *.
  - rewrite Nat.add_0_r. reflexivity.
  - rewrite (proj2 (Nat.ltb_lt idx s)) by lia.
    rewrite IH by lia. f_equal. lia.
Qed.

(** The loop body at a device that fails: a device that is not supported
    is passed and the buffer is as before it; at any other failure the
    walk stops at the device, with the buffer as before it. *)
Lemma dump_bucket_failure (dev : net_device drv) (rest : list (net_device drv))
    (idx s_idx : nat) (data : get_data drv Q R) (skb : sk_buff) :
  (forall d, keeps_prefix (fill_reply ops d)) ->
  (s_idx <= idx)%nat ->
  let r := ethnl_get_dump_one ops dev data (snd (genlmsg_put (reply_cmd ops) skb)) in
  fst (fst r) < 0 ->
  dump_bucket ops (dev :: rest) idx s_idx data skb
  = if fst (fst r) =? - EOPNOTSUPP
    then dump_bucket ops rest (S idx) s_idx (snd (fst r)) skb
    else (if skb_len skb =? 0 then GotoOutErr (fst (fst r)) else GotoOut,
          idx, snd (fst r), skb).
Proof.
  intros Hfill Hs r Hret. subst r. simpl.
  rewrite (proj2 (Nat.ltb_ge idx s_idx) Hs).
  pose proof (cancel_restores dev data skb Hfill) as Hc.
  destruct (genlmsg_put (reply_cmd ops) skb) as [ehdr skb1]. simpl in *.
  destruct (ethnl_get_dump_one ops dev data skb1) as [[ret d] skb2]. simpl in *.
  rewrite (proj2 (Z.ltb_lt ret 0) Hret).
  destruct (genlmsg_cancel ehdr skb2) as [u skb3]. simpl in Hc. subst skb3.
  destruct (ret =? - EOPNOTSUPP); [reflexivity|].
  destruct (skb_len skb =? 0); reflexivity.
Qed.

(** *** The walk over a list *)

Lemma dump_devices_partition (devs : list (net_device drv)) :
  forall (data : get_data drv Q R) (skb : sk_buff) exit passed rest_ data' skb',
    dump_devices ops devs data skb = (exit, passed, rest_, data', skb') ->
    passed ++ rest_ = devs
    /\ match exit with
       | Done => rest_ = []
       | GotoOut => skb_len skb' <> 0
       | GotoOutErr ret => ret < 0 /\ skb_len skb' = 0
       end.
Proof.
  induction devs as [|dev rest IH]; intros data skb exit passed rest_ data' skb';
    simpl.
  - intros [= <- <- <- <- <-]. split; reflexivity.
  - destruct (genlmsg_put (reply_cmd ops) skb) as [ehdr skb1].
    destruct (ethnl_get_dump_one ops dev data skb1) as [[ret d] skb2].
    destruct (Z.ltb_spec ret 0) as [Hneg|Hneg].
    + destruct (genlmsg_cancel ehdr skb2) as [u skb3].
      destruct (ret =? - EOPNOTSUPP).
      * destruct (dump_devices ops rest d skb3) as [[[[e p] l] d'] k] eqn:E.
        intros [= <- <- <- <- <-]. destruct (IH _ _ _ _ _ _ _ E) as [Hp He].
        split; [simpl; f_equal; assumption|assumption].
      * destruct (Z.eqb_spec (skb_len skb3) 0) as [Hz|Hz]; simpl;
          intros [= <- <- <- <- <-]; (split; [reflexivity|]).
        -- split; assumption.
        -- exact Hz.
    + destruct (dump_devices ops rest d _) as [[[[e p] l] d'] k] eqn:E.
      intros [= <- <- <- <- <-]. destruct (IH _ _ _ _ _ _ _ E) as [Hp He].
      split; [simpl; f_equal; assumption|assumption].
Qed.

Lemma dump_devices_app (l1 l2 : list (net_device drv)) :
  forall (data : get_data drv Q R) (skb : sk_buff),
    dump_devices ops (l1 ++ l2) data skb
    = let '(exit, passed, rest_, data', skb') := dump_devices ops l1 data skb in
      match exit with
      | Done =>
          let '(exit, passed2, rest_, data', skb') :=
            dump_devices ops l2 data' skb' in
          (exit, passed ++ passed2, rest_, data', skb')
      | _ => (exit, passed, rest_ ++ l2, data', skb')
      end.
Proof.
  induction l1 as [|dev rest IH]; intros data skb; simpl.
  - destruct (dump_devices ops l2 data skb) as [[[[e p] l] d'] k]. reflexivity.
  - destruct (genlmsg_put (reply_cmd ops) skb) as [ehdr skb1].
    destruct (ethnl_get_dump_one ops dev data skb1) as [[ret d] skb2].
    destruct (ret <? 0).
    + destruct (genlmsg_cancel ehdr skb2) as [u skb3].
      destruct (ret =? - EOPNOTSUPP).
      * rewrite IH.
        destruct (dump_devices ops rest d skb3) as [[[[e p] l] d'] k].
        destruct e; [|reflexivity|reflexivity].
        destruct (dump_devices ops l2 d' k) as [[[[e2 p2] l'] d2] k2]. reflexivity.
      * destruct (negb (skb_len skb3 =? 0)); reflexivity.
    + rewrite IH.
      destruct (dump_devices ops rest d _) as [[[[e p] l] d'] k].
      destruct e; [|reflexivity|reflexivity].
      destruct (dump_devices ops l2 d' k) as [[[[e2 p2] l'] d2] k2]. reflexivity.
Qed.

(** The walk over a bucket is the walk over the list of its devices from
    the start position on, and the position it ends at is that of the
    first device left. *)
Lemma dump_bucket_devices (devs : list (net_device drv)) :
  forall (idx s_idx : nat) (data : get_data drv Q R) (skb : sk_buff),
    let '(exit, idx', data', skb') := dump_bucket ops devs idx s_idx data skb in
    let '(exit2, passed, rest_, data2, skb2) :=
      dump_devices ops (drop (s_idx - idx) devs) data skb in
    exit = exit2 /\ data' = data2 /\ skb' = skb2
    /\ (idx <= idx')%nat /\ drop (idx' - idx) devs = rest_.
Proof.
  induction devs as [|dev rest IH]; intros idx s data skb.
  - simpl. rewrite drop_nil. simpl. rewrite Nat.sub_diag. repeat split. lia.
  - simpl dump_bucket. destruct (Nat.ltb_spec idx s) as [Hlt|Hge].
    + specialize (IH (S idx) s data skb).
      destruct (dump_bucket ops rest (S idx) s data skb) as [[[e i'] d'] k'].
      replace (s - idx)%nat with (S (s - S idx)) by lia. simpl drop.
      destruct (dump_devices ops (drop (s - S idx) rest) data skb)
        as [[[[e2 p] l] d2] k2].
      destruct IH as (He & Hd & Hk & Hi & Hl). repeat split; try assumption; [lia|].
      replace (i' - idx)%nat with (S (i' - S idx)) by lia. exact Hl.
    + replace (s - idx)%nat with 0%nat by lia. simpl drop. simpl dump_devices.
      destruct (genlmsg_put (reply_cmd ops) skb) as [ehdr skb1].
      destruct (ethnl_get_dump_one ops dev data skb1) as [[ret d] skb2].
      destruct (ret <? 0).
      * destruct (genlmsg_cancel ehdr skb2) as [u skb3].
        destruct (ret =? - EOPNOTSUPP).
        -- specialize (IH (S idx) s d skb3).
           destruct (dump_bucket ops rest (S idx) s d skb3) as [[[e i'] d'] k'].
           replace (s - S idx)%nat with 0%nat in IH by lia.
           change (drop 0 rest) with rest in IH.
           destruct (dump_devices ops rest d skb3) as [[[[e2 p] l] d2] k2].
           destruct IH as (He & Hd & Hk & Hi & Hl).
           repeat split; try assumption; [lia|].
           replace (i' - idx)%nat with (S (i' - S idx)) by lia. exact Hl.
        -- destruct (negb (skb_len skb3 =? 0)); rewrite Nat.sub_diag;
             repeat split; lia.
      * match goal with
        | |- context [dump_bucket ops rest (S idx) s d ?k] => set (skb3 := k)
        end.
        specialize (IH (S idx) s d skb3).
        destruct (dump_bucket ops rest (S idx) s d skb3) as [[[e i'] d'] k'].
        replace (s - S idx)%nat with 0%nat in IH by lia.
           change (drop 0 rest) with rest in IH.
        destruct (dump_devices ops rest d skb3) as [[[[e2 p] l] d2] k2].
        destruct IH as (He & Hd & Hk & Hi & Hl).
        repeat split; try assumption; [lia|].
        replace (i' - idx)%nat with (S (i' - S idx)) by lia. exact Hl.
Qed.

(** The loop over the buckets is the walk over the devices of the rest of
    the first bucket and of the buckets after it. *)
Lemma dump_buckets_devices (heads : list (list (net_device drv))) :
  forall (todo h idx0 s_idx : nat) (data : get_data drv Q R) (skb : sk_buff),
    (length heads <= h + todo)%nat ->
    (todo = 0 \/ h + todo = length heads)%nat ->
    let '(exit, h', idx', data', skb') :=
      dump_buckets ops heads todo h idx0 s_idx data skb in
    let '(exit2, passed, rest_, data2, skb2) :=
      dump_devices ops
        (drop s_idx (default [] (heads !! h)) ++ concat (drop (S h) heads))
        data skb in
    exit = exit2 /\ data' = data2 /\ skb' = skb2
    /\ drop idx' (default [] (heads !! h')) ++ concat (drop (S h') heads) = rest_.
Proof.
  induction todo as [|todo IH]; intros h idx0 s_idx data skb Hlen Hsum.
  - simpl dump_buckets.
    rewrite (lookup_ge_None_2 heads h) by lia.
    rewrite (drop_ge heads (S h)) by lia.
    simpl. rewrite !drop_nil. simpl. repeat split.
    rewrite (lookup_ge_None_2 heads h) by lia. simpl. rewrite drop_nil. reflexivity.
  - simpl dump_buckets.
    pose proof (dump_bucket_devices (default [] (heads !! h)) 0 s_idx data skb) as Hb.
    rewrite dump_devices_app.
    destruct (dump_bucket ops (default [] (heads !! h)) 0 s_idx data skb)
      as [[[e i'] d'] k'].
    rewrite Nat.sub_0_r in Hb.
    destruct (dump_devices ops (drop s_idx (default [] (heads !! h))) data skb)
      as [[[[e2 p] l] d2] k2].
    destruct Hb as (-> & -> & -> & _ & Hl). rewrite Nat.sub_0_r in Hl.
    destruct e2.
    + specialize (IH (S h) i' 0%nat d2 k2 ltac:(lia) ltac:(lia)).
      destruct (dump_buckets ops heads todo (S h) i' 0 d2 k2)
        as [[[[e3 h3] i3] d3] k3].
      change (drop 0 (default [] (heads !! S h))) with (default [] (heads !! S h)) in IH.
      rewrite <- concat_drop in IH.
      destruct (dump_devices ops (concat (drop (S h) heads)) d2 k2)
        as [[[[e4 p4] l4] d4] k4].
      exact IH.
    + repeat split. rewrite Hl. reflexivity.
    + repeat split. rewrite Hl. reflexivity.
Qed.

(** One call of the dump step is the walk over the devices its cursor has
    not passed, and the cursor it leaves has not passed exactly the devices
    the walk left. *)
Lemma dumpit_devices (n : net drv) (skb : sk_buff)
    (cb : netlink_callback drv Q R) :
  length (dev_index_head n) = NETDEV_HASHENTRIES ->
  let '(ret, skb', cb') := ethnl_get_dumpit ops n skb cb in
  let '(exit, passed, rest_, data, skb2) :=
    dump_devices ops (pending n cb) (cb_data cb) skb in
  ret = dump_ret exit skb2 /\ skb' = skb2 /\ cb_data cb' = data
  /\ pending n cb' = rest_.
Proof.
  intros Hlen. unfold ethnl_get_dumpit, pending.
  pose proof (dump_buckets_devices (dev_index_head n)
                (NETDEV_HASHENTRIES - cb_h cb) (cb_h cb) 0 (cb_idx cb)
                (cb_data cb) skb ltac:(lia) ltac:(lia)) as H.
  destruct (dump_buckets ops (dev_index_head n) _ (cb_h cb) 0 (cb_idx cb)
              (cb_data cb) skb) as [[[[e h'] i'] d'] k'].
  destruct (dump_devices ops _ (cb_data cb) skb) as [[[[e2 p] l] d2] k2].
  destruct H as (-> & -> & -> & Hl). simpl.
  repeat split; assumption.
Qed.

Lemma pending_start (n : net drv) (data : get_data drv Q R) :
  pending n {| cb_data := data; cb_h := 0; cb_idx := 0 |} = all_devices n.
Proof.
  unfold pending, all_devices. cbn [cb_h cb_idx].
  change (concat (dev_index_head n)) with (concat (drop 0 (dev_index_head n))).
  rewrite (concat_drop (dev_index_head n) 0). reflexivity.
Qed.

Lemma appends_keeps_prefix {A : Type} (P : item -> Prop) (k : Z) (m : skbM A) :
  appends P k m -> keeps_prefix m.
Proof.
  intros Hm skb. destruct (Hm skb) as [He [ext [Hd _]]].
  split; [assumption|]. exists ext. assumption.
Qed.

(** C8.  Take a reply writer that only adds to the buffer.  When the
    device the dump loop is at fails, its message is cancelled and the
    buffer is as it was before the device.  If the failure is
    [-EOPNOTSUPP] the loop goes on with the next device.  At any other
    failure the loop stops at the device: with earlier output in the
    buffer the call returns the length of the buffer, with an empty buffer
    it returns the error; the cursor stays at the device.  The first part
    is the loop at any position, the second the call whose cursor is at the
    device. *)
Theorem dump_failure (n : net drv) (skb : sk_buff)
    (cb : netlink_callback drv Q R) (devs : list (net_device drv))
    (dev : net_device drv) :
  (forall d, keeps_prefix (fill_reply ops d)) ->
  dev_index_head n !! cb_h cb = Some devs ->
  (cb_h cb < NETDEV_HASHENTRIES)%nat ->
  devs !! cb_idx cb = Some dev ->
  let r := ethnl_get_dump_one ops dev (cb_data cb)
             (snd (genlmsg_put (reply_cmd ops) skb)) in
  let ret := fst (fst r) in
  let data' := snd (fst r) in
  ret < 0 ->
  (forall rest idx s_idx, (s_idx <= idx)%nat ->
     dump_bucket ops (dev :: rest) idx s_idx (cb_data cb) skb
     = if ret =? - EOPNOTSUPP
       then dump_bucket ops rest (S idx) s_idx data' skb
       else (if skb_len skb =? 0 then GotoOutErr ret else GotoOut,
             idx, data', skb))
  /\ ethnl_get_dumpit ops n skb cb
     = if ret =? - EOPNOTSUPP
       then ethnl_get_dumpit ops n skb
              {| cb_data := data'; cb_h := cb_h cb; cb_idx := S (cb_idx cb) |}
       else (if skb_len skb =? 0 then ret else skb_len skb, skb,
             {| cb_data := data'; cb_h := cb_h cb; cb_idx := cb_idx cb |}).
Proof.
  intros Hfill Hh Hlt Hdev r ret data' Hret.
  assert (Hloop : forall rest idx s_idx, (s_idx <= idx)%nat ->
     dump_bucket ops (dev :: rest) idx s_idx (cb_data cb) skb
     = if ret =? - EOPNOTSUPP
       then dump_bucket ops rest (S idx) s_idx data' skb
       else (if skb_len skb =? 0 then GotoOutErr ret else GotoOut,
             idx, data', skb)).
  { intros rest idx s_idx Hs.
    exact (dump_bucket_failure dev rest idx s_idx (cb_data cb) skb Hfill Hs Hret). }
  split; [exact Hloop|].
  unfold ethnl_get_dumpit. cbn [cb_h cb_idx cb_data].
  destruct (NETDEV_HASHENTRIES - cb_h cb)%nat as [|todo] eqn:Htodo; [lia|].
  cbn [dump_buckets]. rewrite Hh. cbn [default]. unfold id.
  pose proof (take_drop_middle devs (cb_idx cb) dev Hdev) as Hsplit.
  assert (Hpre : length (take (cb_idx cb) devs) = cb_idx cb).
  { apply length_take_le. apply lookup_lt_Some in Hdev. lia. }
  set (pre := take (cb_idx cb) devs) in *.
  set (rest := drop (S (cb_idx cb)) devs) in *.
  clearbody pre rest. rewrite <- Hsplit.
  rewrite (dump_bucket_skip pre) by (rewrite Hpre; simpl; lia).
  rewrite Hpre. cbn [Nat.add].
  rewrite (Hloop _ (cb_idx cb) (cb_idx cb)) by lia.
  destruct (ret =? - EOPNOTSUPP).
  - replace (pre ++ dev :: rest) with ((pre ++ [dev]) ++ rest)
      by (rewrite <- app_assoc; reflexivity).
    rewrite (dump_bucket_skip (pre ++ [dev]))
      by (rewrite length_app, Hpre; simpl; lia).
    rewrite length_app, Hpre. simpl length. cbn [Nat.add].
    replace (cb_idx cb + 1)%nat with (S (cb_idx cb)) by lia.
    rewrite (dump_bucket_past _ (S (cb_idx cb)) (cb_idx cb) (S (cb_idx cb)))
      by lia.
    reflexivity.
  - destruct (skb_len skb =? 0); reflexivity.
Qed.


End WithDriver.

#[local] Existing Instance sample_codec.

Lemma fill_params_keeps_prefix {drv : Type} (d : @Params.params_data drv) :
  keeps_prefix (fill_reply Params.params_request_ops d).
Proof.
  change (keeps_prefix (Params.fill_params d)).
  pose proof (fill_params_appends d) as H. cbv zeta in H.
  exact (appends_keeps_prefix _ _ _ H).
Qed.

(** In the sample registry for dumps [eth4], the second device of bucket
    2, is not supported, and a call whose cursor is at it does what a call
    whose cursor is past it does; [eth5], the device of bucket 7, fails
    with [-ENODEV], and a call whose cursor is at it stops there. *)
Lemma dump_failure_witness :
  let ops := @Params.params_request_ops Samples.sample_priv sample_codec in
  let n := Samples.dump_net in
  let skb := Samples.empty_skb 4096 in
  (let cb := {| cb_data := Samples.all_params_data; cb_h := 2; cb_idx := 1 |} in
   let r := ethnl_get_dump_one ops Samples.eth4 (cb_data cb)
              (snd (genlmsg_put (reply_cmd ops) skb)) in
   let ret := fst (fst r) in
   let data' := snd (fst r) in
   ret = - EOPNOTSUPP
   /\ (forall rest idx s_idx, (s_idx <= idx)%nat ->
         dump_bucket ops (Samples.eth4 :: rest) idx s_idx (cb_data cb) skb
         = if ret =? - EOPNOTSUPP
           then dump_bucket ops rest (S idx) s_idx data' skb
           else (if skb_len skb =? 0 then GotoOutErr ret else GotoOut,
                 idx, data', skb))
   /\ ethnl_get_dumpit ops n skb cb
      = if ret =? - EOPNOTSUPP
        then ethnl_get_dumpit ops n skb
               {| cb_data := data'; cb_h := cb_h cb; cb_idx := S (cb_idx cb) |}
        else (if skb_len skb =? 0 then ret else skb_len skb, skb,
              {| cb_data := data'; cb_h := cb_h cb; cb_idx := cb_idx cb |}))
  /\ (let cb := {| cb_data := Samples.all_params_data; cb_h := 7; cb_idx := 0 |} in
      let r := ethnl_get_dump_one ops Samples.eth5 (cb_data cb)
                 (snd (genlmsg_put (reply_cmd ops) skb)) in
      let ret := fst (fst r) in
      let data' := snd (fst r) in
      (ret = - ENODEV /\ skb_len skb = 0)
      /\ (forall rest idx s_idx, (s_idx <= idx)%nat ->
            dump_bucket ops (Samples.eth5 :: rest) idx s_idx (cb_data cb) skb
            = if ret =? - EOPNOTSUPP
              then dump_bucket ops rest (S idx) s_idx data' skb
              else (if skb_len skb =? 0 then GotoOutErr ret else GotoOut,
                    idx, data', skb))
      /\ ethnl_get_dumpit ops n skb cb
         = if ret =? - EOPNOTSUPP
           then ethnl_get_dumpit ops n skb
                  {| cb_data := data'; cb_h := cb_h cb; cb_idx := S (cb_idx cb) |}
           else (if skb_len skb =? 0 then ret else skb_len skb, skb,
                 {| cb_data := data'; cb_h := cb_h cb; cb_idx := cb_idx cb |})).
Proof.
  intros ops n skb. split.
  - intros cb r ret data'. split; [vm_compute; reflexivity|].
    apply (dump_failure ops n skb cb [Samples.eth0; Samples.eth4] Samples.eth4).
    + exact fill_params_keeps_prefix.
    + vm_compute. reflexivity.
    + vm_compute. lia.
    + vm_compute. reflexivity.
    + vm_compute. reflexivity.
  - intros cb r ret data'. split; [vm_compute; split; reflexivity|].
    apply (dump_failure ops n skb cb [Samples.eth5] Samples.eth5).
    + exact fill_params_keeps_prefix.
    + vm_compute. reflexivity.
    + vm_compute. lia.
    + vm_compute. reflexivity.
    + vm_compute. reflexivity.
Defined.


End DumpFacts.

(** ** Device resolution: every path *)

Module DevGetAllFacts.
Import Nl Dev Netlink ParseFacts.

Section WithDriver.
Context {drv : Type}.

Lemma dev_get_by_index_spec (n : net drv) (idx : Z) :
  match dev_get_by_index n idx with
  | (Some dev, n') =>
      In dev (all_devices n) /\ ifindex dev = idx /\ n' = dev_hold n (ifindex dev)
  | (None, n') => n' = n
  end.
Proof.
  unfold dev_get_by_index. destruct (find _ _) as [d|] eqn:Hf; [|reflexivity].
  apply find_some in Hf as [Hin Heq]. apply Z.eqb_eq in Heq. auto.
Qed.

Lemma dev_get_by_name_spec (n : net drv) (nm : string) :
  match dev_get_by_name n nm with
  | (Some dev, n') =>
      In dev (all_devices n) /\ name dev = nm /\ n' = dev_hold n (ifindex dev)
  | (None, n') => n' = n
  end.
Proof.
  unfold dev_get_by_name. destruct (find _ _) as [d|] eqn:Hf; [|reflexivity].
  apply find_some in Hf as [Hin Heq].
  destruct (string_dec (name d) nm); [auto|discriminate].
Qed.

Lemma dev_hold_refcnt (n : net drv) (idx i : Z) :
  dev_refcnt (dev_hold n idx) i
  = dev_refcnt n i + (if i =? idx then 1 else 0).
Proof. simpl. destruct (i =? idx); lia. Qed.

Lemma dev_put_hold (n : net drv) (dev : net_device drv) (i : Z) :
  dev_refcnt (dev_put (dev_hold n (ifindex dev)) dev) i = dev_refcnt n i.
Proof. simpl. destruct (i =? ifindex dev); lia. Qed.

(** What a call of [ethnl_dev_get] does to the registry: on success it
    holds the device it returns; on failure it holds nothing, or has held
    a device and given it back. *)
Lemma ethnl_dev_get_net (n : net drv) (info : genl_info)
    (nest : option nla_data) :
  let '(r, _, n') := ethnl_dev_get n info nest in
  match r with
  | inl _ => n' = n \/ exists d, n' = dev_put (dev_hold n (ifindex d)) d
  | inr dev => In dev (all_devices n) /\ n' = dev_hold n (ifindex dev)
  end.
Proof.
  unfold ethnl_dev_get. destruct nest as [nst|]; [|left; reflexivity].
  destruct (nla_parse _ _ _) as [e|tb]; [left; reflexivity|].
  destruct (tb_get tb ETHTOOL_A_DEV_INDEX) as [a_index|].
  - pose proof (dev_get_by_index_spec n (nla_get_u32 a_index)) as Hg.
    destruct (dev_get_by_index n (nla_get_u32 a_index)) as [[dev|] n1].
    + destruct Hg as (Hin & _ & ->).
      destruct (tb_get tb ETHTOOL_A_DEV_NAME) as [a_name|]; [|auto].
      destruct (negb _); [right; eauto|auto].
    + left. assumption.
  - destruct (tb_get tb ETHTOOL_A_DEV_NAME) as [a_name|]; [|left; reflexivity].
    pose proof (dev_get_by_name_spec n (nla_data_string a_name)) as Hg.
    destruct (dev_get_by_name n (nla_data_string a_name)) as [[dev|] n1].
    + destruct Hg as (Hin & _ & ->). destruct (negb _); [right; eauto|auto].
    + left. assumption.
Qed.

(** X1.  [ethnl_dev_get] leaves the registry's devices as they are.  When
    it fails, with [-EINVAL] or [-ENODEV], it holds no reference: every
    reference count is what it was before the call.  When it succeeds the
    device it returns is a registered one, and it holds exactly one more
    reference on that device and none on any other. *)
Theorem ethnl_dev_get_references (n : net drv) (info : genl_info)
    (nest : option nla_data) :
  let '(r, _, n') := ethnl_dev_get n info nest in
  dev_index_head n' = dev_index_head n
  /\ match r with
     | inl err =>
         (err = - EINVAL \/ err = - ENODEV)
         /\ forall i, dev_refcnt n' i = dev_refcnt n i
     | inr dev =>
         In dev (all_devices n)
         /\ forall i, dev_refcnt n' i
                      = dev_refcnt n i + (if i =? ifindex dev then 1 else 0)
     end.
Proof.
  unfold ethnl_dev_get. destruct nest as [nst|]; [|simpl; auto].
  destruct (nla_parse _ _ _) as [e|tb] eqn:Hp.
  { apply nla_parse_from_error in Hp. subst e. simpl. auto. }
  destruct (tb_get tb ETHTOOL_A_DEV_INDEX) as [a_index|].
  - pose proof (dev_get_by_index_spec n (nla_get_u32 a_index)) as Hg.
    destruct (dev_get_by_index n (nla_get_u32 a_index)) as [[dev|] n1].
    + destruct Hg as (Hin & _ & ->).
      destruct (tb_get tb ETHTOOL_A_DEV_NAME) as [a_name|].
      * destruct (negb _).
        -- split; [reflexivity|]. split; [auto|]. intros i. apply dev_put_hold.
        -- split; [reflexivity|]. split; [assumption|]. intros i.
           apply dev_hold_refcnt.
      * split; [reflexivity|]. split; [assumption|]. intros i.
        apply dev_hold_refcnt.
    + subst n1. simpl. auto.
  - destruct (tb_get tb ETHTOOL_A_DEV_NAME) as [a_name|]; [|simpl; auto].
    pose proof (dev_get_by_name_spec n (nla_data_string a_name)) as Hg.
    destruct (dev_get_by_name n (nla_data_string a_name)) as [[dev|] n1].
    + destruct Hg as (Hin & _ & ->). destruct (negb _).
      * split; [reflexivity|]. split; [auto|]. intros i. apply dev_put_hold.
      * split; [reflexivity|]. split; [assumption|]. intros i.
        apply dev_hold_refcnt.
    + subst n1. simpl. auto.
Qed.

(** X2.  A device [ethnl_dev_get] returns is the one that was asked for,
    and the extended ack is left alone.  Asked for by index, it has that
    index, and the name given with the index, if any, agrees with its own
    on the first [IFNAMSIZ] characters.  Asked for by name alone, it has
    that name and is present. *)
Theorem ethnl_dev_get_matches (n n' : net drv) (info info' : genl_info)
    (nst : nla_data) (dev : net_device drv) :
  ethnl_dev_get n info (Some nst) = (inr dev, info', n') ->
  info' = info
  /\ exists tb,
       nla_parse ETHTOOL_A_DEV_MAX dev_policy (nla_nested nst) = inr tb
       /\ match tb_get tb ETHTOOL_A_DEV_INDEX, tb_get tb ETHTOOL_A_DEV_NAME with
          | Some a_index, Some a_name =>
              ifindex dev = nla_get_u32 a_index
              /\ strncmp (name dev) (nla_data_string a_name) IFNAMSIZ = 0
          | Some a_index, None => ifindex dev = nla_get_u32 a_index
          | None, Some a_name =>
              name dev = nla_data_string a_name
              /\ netif_device_present dev = true
          | None, None => False
          end.
Proof.
  unfold ethnl_dev_get.
  destruct (nla_parse _ _ _) as [e|tb] eqn:Hp; [discriminate|].
  destruct (tb_get tb ETHTOOL_A_DEV_INDEX) as [a_index|] eqn:Ei.
  - pose proof (dev_get_by_index_spec n (nla_get_u32 a_index)) as Hg.
    destruct (dev_get_by_index n (nla_get_u32 a_index)) as [[d|] n1];
      [|discriminate].
    destruct Hg as (_ & Hidx & _).
    destruct (tb_get tb ETHTOOL_A_DEV_NAME) as [a_name|] eqn:En.
    + destruct (Z.eqb_spec (strncmp (name d) (nla_data_string a_name) IFNAMSIZ) 0)
        as [Hc|Hc]; simpl; [|discriminate].
      intros [= <- <- <-]. split; [reflexivity|]. exists tb.
      rewrite Ei, En. auto.
    + intros [= <- <- <-]. split; [reflexivity|]. exists tb.
      rewrite Ei, En. auto.
  - destruct (tb_get tb ETHTOOL_A_DEV_NAME) as [a_name|] eqn:En; [|discriminate].
    pose proof (dev_get_by_name_spec n (nla_data_string a_name)) as Hg.
    destruct (dev_get_by_name n (nla_data_string a_name)) as [[d|] n1];
      [|discriminate].
    destruct Hg as (_ & Hnm & _).
    destruct (netif_device_present d) eqn:Hpres; simpl; [|discriminate].
    intros [= <- <- <-]. split; [reflexivity|]. exists tb.
    rewrite Ei, En. auto.
Qed.

End WithDriver.

(** Asked for by the name "eth0", the sample registry gives [eth0]. *)
Lemma ethnl_dev_get_matches_witness :
  Samples.no_info = Samples.no_info
  /\ exists tb,
       nla_parse ETHTOOL_A_DEV_MAX dev_policy
         (nla_nested (DNested [(ETHTOOL_A_DEV_NAME, DString "eth0")])) = inr tb
       /\ match tb_get tb ETHTOOL_A_DEV_INDEX, tb_get tb ETHTOOL_A_DEV_NAME with
          | Some a_index, Some a_name =>
              ifindex Samples.eth0 = nla_get_u32 a_index
              /\ strncmp (name Samples.eth0) (nla_data_string a_name) IFNAMSIZ = 0
          | Some a_index, None => ifindex Samples.eth0 = nla_get_u32 a_index
          | None, Some a_name =>
              name Samples.eth0 = nla_data_string a_name
              /\ netif_device_present Samples.eth0 = true
          | None, None => False
          end.
Proof.
  apply (ethnl_dev_get_matches Samples.sample_net
           (dev_hold Samples.sample_net 2) Samples.no_info Samples.no_info
           (DNested [(ETHTOOL_A_DEV_NAME, DString "eth0")]) Samples.eth0).
  reflexivity.
Defined.

End DevGetAllFacts.

(** ** What the writers put in a message *)

Module LayoutFacts.
Import Nl Dev Netlink Layout BufferFacts.

Section WithCodec.
Context {codec : bitset_codec}.

Lemma skb_ext (a b : sk_buff) :
  skb_data a = skb_data b -> skb_end a = skb_end b -> a = b.
Proof. destruct a, b; simpl; intros -> ->; reflexivity. Qed.

Lemma skb_tailroom_app (skb : sk_buff) (ext : list item) :
  skb_tailroom {| skb_data := skb_data skb ++ ext; skb_end := skb_end skb |}
  = skb_tailroom skb - items_len ext.
Proof. unfold skb_tailroom, skb_len. simpl. rewrite items_len_app. lia. Qed.

Lemma items_len_nonneg (items : list item) :
  Forall (fun i => 0 <= item_len i) items -> 0 <= items_len items.
Proof.
  induction 1 as [|i l Hi _ IH]; simpl; [reflexivity|]. lia.
Qed.

Lemma skb_app_nil (skb : sk_buff) :
  {| skb_data := skb_data skb ++ []; skb_end := skb_end skb |} = skb.
Proof. apply skb_ext; simpl; [apply app_nil_r|reflexivity]. Qed.

Lemma skb_app_app (skb : sk_buff) (e1 e2 : list item) :
  {| skb_data := skb_data {| skb_data := skb_data skb ++ e1;
                             skb_end := skb_end skb |} ++ e2;
     skb_end := skb_end {| skb_data := skb_data skb ++ e1;
                           skb_end := skb_end skb |} |}
  = {| skb_data := skb_data skb ++ e1 ++ e2; skb_end := skb_end skb |}.
Proof. apply skb_ext; simpl; [symmetry; apply app_assoc|reflexivity]. Qed.

(** *** Sequences of puts *)

Lemma puts_ret0 : puts (ret 0) [].
Proof.
  split; [constructor|]. intros skb Hroom. simpl.
  destruct (Z.ltb_spec (skb_tailroom skb) 0); [lia|].
  unfold ret. rewrite skb_app_nil. reflexivity.
Qed.

Lemma puts_put_item (i : item) :
  0 <= item_len i -> puts (put_item (item_len i) i) [i].
Proof.
  intros Hi. split; [constructor; [assumption|constructor]|].
  intros skb Hroom. unfold put_item. simpl items_len.
  replace (item_len i + 0) with (item_len i) by lia.
  destruct (skb_tailroom skb <? item_len i); simpl.
  - split; [reflexivity|]. split; [reflexivity|]. exists [].
    rewrite app_nil_r. reflexivity.
  - reflexivity.
Qed.

Lemma nla_total_size_nonneg (len : Z) : 0 <= len -> 0 <= nla_total_size len.
Proof.
  intros H. pose proof (nla_total_size_ge len). unfold NLA_HDRLEN in *. lia.
Qed.

Lemma puts_nla_put (ty : nat) (len : Z) (d : nla_data) :
  0 <= len -> puts (nla_put ty len d) [IAttr ty len d].
Proof.
  intros H. apply (puts_put_item (IAttr ty len d)). simpl.
  apply nla_total_size_nonneg. assumption.
Qed.

Lemma puts_bitset (ty : nat) (a : bitset_args) :
  0 <= bitset32_put_len a -> puts (ethnl_put_bitset32 ty a) [IBitset ty a].
Proof. intros H. apply (puts_put_item (IBitset ty a)). exact H. Qed.

Lemma puts_if (c : bool) (m : skbM Z) (items : list item) :
  puts m items -> puts (if c then m else ret 0) (if c then items else []).
Proof. intros H. destruct c; [assumption|apply puts_ret0]. Qed.

(** Running [k] after [a] when [a] went well, whatever the test used to
    tell. *)
Lemma puts_then (a k : skbM Z) (i1 i2 : list item) (c : Z -> skbM Z) :
  puts a i1 -> puts k i2 ->
  c 0 = k -> c (- EMSGSIZE) = ret (- EMSGSIZE) ->
  puts (bind a c) (i1 ++ i2).
Proof.
  intros [Hn1 Ha] [Hn2 Hk] Hc0 Hce.
  pose proof (items_len_nonneg _ Hn1) as H1.
  pose proof (items_len_nonneg _ Hn2) as H2.
  split; [apply Forall_app; auto|].
  intros skb Hroom. rewrite items_len_app. unfold bind.
  specialize (Ha skb Hroom).
  destruct (Z.ltb_spec (skb_tailroom skb) (items_len i1)) as [Hlt|Hge].
  - destruct (a skb) as [r skb1]. simpl in Ha. destruct Ha as (-> & He & ext & Hd).
    rewrite Hce. simpl.
    destruct (Z.ltb_spec (skb_tailroom skb) (items_len i1 + items_len i2)); [|lia].
    split; [reflexivity|]. split; [assumption|]. exists ext. assumption.
  - rewrite Ha, Hc0.
    specialize (Hk {| skb_data := skb_data skb ++ i1; skb_end := skb_end skb |}).
    rewrite skb_tailroom_app in Hk. specialize (Hk ltac:(lia)).
    destruct (Z.ltb_spec (skb_tailroom skb - items_len i1) (items_len i2)).
    + destruct (Z.ltb_spec (skb_tailroom skb) (items_len i1 + items_len i2)); [|lia].
      destruct Hk as (Hr & He & ext & Hd). split; [assumption|].
      split; [rewrite He; reflexivity|]. exists (i1 ++ ext).
      rewrite Hd. simpl. rewrite app_assoc. reflexivity.
    + destruct (Z.ltb_spec (skb_tailroom skb) (items_len i1 + items_len i2)); [lia|].
      rewrite Hk. rewrite skb_app_app. reflexivity.
Qed.

Lemma puts_orM (a b : skbM Z) (i1 i2 : list item) :
  puts a i1 -> puts b i2 -> puts (orM a b) (i1 ++ i2).
Proof.
  intros Ha Hb. unfold orM. eapply puts_then; [eassumption|eassumption| |];
    reflexivity.
Qed.

(** The chain of a reply: the next category is written when the one before
    it did not fail. *)
Lemma puts_seq (a k : skbM Z) (i1 i2 : list item) :
  puts a i1 -> puts k i2 ->
  puts (bind a (fun r => if r <? 0 then ret r else k)) (i1 ++ i2).
Proof.
  intros Ha Hk. eapply puts_then; [eassumption|eassumption| |]; reflexivity.
Qed.

(** *** Inside a nest *)

Lemma closes_end (mark mark' : nat) :
  closes mark (bind (nla_nest_end mark') (fun _ => ret 0)) [INestEnd].
Proof.
  split; [constructor; [simpl; lia|constructor]|].
  intros skb _ Hroom. change (items_len [INestEnd]) with 0.
  destruct (Z.ltb_spec (skb_tailroom skb) 0); [lia|]. reflexivity.
Qed.

Lemma skb_trim_app (skb : sk_buff) (ext : list item) (mark : nat) (e : Z) :
  (mark <= length (skb_data skb))%nat -> e = skb_end skb ->
  skb_trim {| skb_data := skb_data skb ++ ext; skb_end := e |} mark
  = skb_trim skb mark.
Proof.
  intros Hm ->. unfold skb_trim. simpl. f_equal. apply take_app_le. assumption.
Qed.

Lemma closes_step (mark : nat) (a k : skbM Z) (i1 i2 : list item)
    (c : Z -> skbM Z) :
  puts a i1 -> closes mark k i2 ->
  c 0 = k ->
  c (- EMSGSIZE) = bind (nla_nest_cancel mark) (fun _ => ret (- EMSGSIZE)) ->
  closes mark (bind a c) (i1 ++ i2).
Proof.
  intros [Hn1 Ha] [Hn2 Hk] Hc0 Hce.
  pose proof (items_len_nonneg _ Hn1) as H1.
  pose proof (items_len_nonneg _ Hn2) as H2.
  split; [apply Forall_app; auto|].
  intros skb Hmark Hroom. rewrite items_len_app. unfold bind.
  specialize (Ha skb Hroom).
  destruct (Z.ltb_spec (skb_tailroom skb) (items_len i1)) as [Hlt|Hge].
  - destruct (a skb) as [r skb1]. simpl in Ha. destruct Ha as (-> & He & ext & Hd).
    rewrite Hce. destruct skb1 as [d1 e1]. simpl in *. subst d1.
    destruct (Z.ltb_spec (skb_tailroom skb) (items_len i1 + items_len i2)); [|lia].
    unfold bind, nla_nest_cancel, ret. f_equal.
    apply skb_trim_app; assumption.
  - rewrite Ha, Hc0.
    specialize (Hk {| skb_data := skb_data skb ++ i1; skb_end := skb_end skb |}).
    rewrite skb_tailroom_app in Hk. simpl in Hk.
    specialize (Hk ltac:(rewrite length_app; lia) ltac:(lia)).
    rewrite Hk.
    destruct (Z.ltb_spec (skb_tailroom skb - items_len i1) (items_len i2)).
    + destruct (Z.ltb_spec (skb_tailroom skb) (items_len i1 + items_len i2)); [|lia].
      f_equal. apply (skb_trim_app skb i1); [assumption|reflexivity].
    + destruct (Z.ltb_spec (skb_tailroom skb) (items_len i1 + items_len i2)); [lia|].
      rewrite <- app_assoc. reflexivity.
Qed.

(** A step whose failure is told by a negative result. *)
Lemma closes_step_neg (mark : nat) (a k : skbM Z) (i1 i2 : list item) :
  puts a i1 -> closes mark k i2 ->
  closes mark
    (bind a (fun r => if r <? 0
                      then bind (nla_nest_cancel mark) (fun _ => ret (- EMSGSIZE))
                      else k)) (i1 ++ i2).
Proof. intros Ha Hk. eapply closes_step; eauto. Qed.

(** A step whose failure is told by a result that is not zero. *)
Lemma closes_step_nz (mark : nat) (a k : skbM Z) (i1 i2 : list item) :
  puts a i1 -> closes mark k i2 ->
  closes mark
    (bind a (fun r => if negb (r =? 0)
                      then bind (nla_nest_cancel mark) (fun _ => ret (- EMSGSIZE))
                      else k)) (i1 ++ i2).
Proof. intros Ha Hk. eapply closes_step; eauto. Qed.

Lemma exactly_nest (ty : nat) (body : nat -> skbM Z) (items : list item) :
  (forall mark, closes mark (body mark) items) ->
  exactly (bind (nla_nest_start ty)
             (fun nest => match nest with
                          | None => ret (- EMSGSIZE)
                          | Some nest => body nest
                          end)) (INest ty :: items).
Proof.
  intros Hbody skb Hroom. unfold bind, nla_nest_start, put_item.
  destruct (Hbody (length (skb_data skb))) as [Hn Hk].
  pose proof (items_len_nonneg _ Hn) as Hlen.
  simpl items_len. change (item_len (INest ty)) with 4.
  change (nla_total_size 0) with 4.
  destruct (Z.ltb_spec (skb_tailroom skb) 4) as [Hlt|Hge]; simpl.
  - destruct (Z.ltb_spec (skb_tailroom skb) (4 + items_len items)); [|lia].
    reflexivity.
  - specialize (Hk (skb_append skb (INest ty))).
    unfold skb_append in Hk. rewrite skb_tailroom_app in Hk.
    change (items_len [INest ty]) with 4 in Hk.
    specialize (Hk ltac:(simpl; rewrite length_app; lia) ltac:(lia)).
    unfold skb_append. rewrite Hk.
    destruct (Z.ltb_spec (skb_tailroom skb - 4) (items_len items)).
    + destruct (Z.ltb_spec (skb_tailroom skb) (4 + items_len items)); [|lia].
      f_equal. apply skb_ext; simpl; [apply take_app_length|reflexivity].
    + destruct (Z.ltb_spec (skb_tailroom skb) (4 + items_len items)); [lia|].
      simpl. rewrite <- app_assoc. reflexivity.
Qed.

Lemma exactly_puts (m : skbM Z) (items : list item) :
  Forall (fun i => 0 <= item_len i) items -> exactly m items -> puts m items.
Proof.
  intros Hn Hm. split; [assumption|]. intros skb Hroom. rewrite (Hm skb Hroom).
  destruct (skb_tailroom skb <? items_len items); simpl; [|reflexivity].
  split; [reflexivity|]. split; [reflexivity|]. exists []. rewrite app_nil_r.
  reflexivity.
Qed.

Lemma closes_step_nz_eq (mark : nat) (a k : skbM Z) (i1 i2 items : list item) :
  puts a i1 -> closes mark k i2 -> items = i1 ++ i2 ->
  closes mark
    (bind a (fun r => if negb (r =? 0)
                      then bind (nla_nest_cancel mark) (fun _ => ret (- EMSGSIZE))
                      else k)) items.
Proof. intros Ha Hk ->. apply closes_step_nz; assumption. Qed.

Lemma closes_step_neg_eq (mark : nat) (a k : skbM Z) (i1 i2 items : list item) :
  puts a i1 -> closes mark k i2 -> items = i1 ++ i2 ->
  closes mark
    (bind a (fun r => if r <? 0
                      then bind (nla_nest_cancel mark) (fun _ => ret (- EMSGSIZE))
                      else k)) items.
Proof. intros Ha Hk ->. apply closes_step_neg; assumption. Qed.

Lemma puts_eq (m : skbM Z) (i1 items : list item) :
  puts m i1 -> items = i1 -> puts m items.
Proof. intros H ->. exact H. Qed.

(** A nest whose writer returns without cutting it back when an attribute
    did not fit. *)
Lemma puts_nest_left_open (ty : nat) (a : skbM Z) (items : list item) :
  puts a items ->
  puts (bind (nla_nest_start ty)
          (fun nest => match nest with
                       | None => ret (- EMSGSIZE)
                       | Some nest =>
                           bind a (fun r =>
                             if negb (r =? 0) then ret (- EMSGSIZE)
                             else bind (nla_nest_end nest) (fun _ => ret 0))
                       end)) (INest ty :: items ++ [INestEnd]).
Proof.
  intros [Hn Ha]. pose proof (items_len_nonneg _ Hn) as Hlen.
  split.
  { constructor; [change (0 <= 4); lia|]. apply Forall_app. split; [assumption|].
    constructor; [change (0 <= 0); lia|constructor]. }
  intros skb Hroom. unfold bind, nla_nest_start, put_item.
  simpl items_len. rewrite items_len_app. change (items_len [INestEnd]) with 0.
  change (item_len (INest ty)) with 4. change (nla_total_size 0) with 4.
  destruct (Z.ltb_spec (skb_tailroom skb) 4) as [Hlt|Hge]; simpl.
  - destruct (Z.ltb_spec (skb_tailroom skb) (4 + (items_len items + 0))); [|lia].
    split; [reflexivity|]. split; [reflexivity|]. exists []. rewrite app_nil_r.
    reflexivity.
  - specialize (Ha (skb_append skb (INest ty))).
    unfold skb_append in *. rewrite skb_tailroom_app in Ha.
    change (items_len [INest ty]) with 4 in Ha. specialize (Ha ltac:(lia)).
    destruct (Z.ltb_spec (skb_tailroom skb - 4) (items_len items)).
    + destruct (Z.ltb_spec (skb_tailroom skb) (4 + (items_len items + 0))); [|lia].
      destruct (a _) as [r skb1]. simpl in Ha. destruct Ha as (-> & He & ext & Hd).
      simpl in *. split; [reflexivity|]. split; [assumption|].
      exists (INest ty :: ext). rewrite Hd, <- app_assoc. reflexivity.
    + destruct (Z.ltb_spec (skb_tailroom skb) (4 + (items_len items + 0))); [lia|].
      rewrite Ha. simpl. unfold skb_append. simpl. f_equal. f_equal.
      rewrite <- !app_assoc. reflexivity.
Qed.

End WithCodec.

Ltac puts_one :=
  unfold nla_put_u32, nla_put_u8, nla_put_string, nla_put_bitfield32;
  first [ apply puts_ret0
        | apply puts_nla_put; first [ lia | unfold strlen; lia
                                    | vm_compute; discriminate ]
        | apply puts_bitset; auto
        | apply puts_if; puts_one ].

Ltac puts_chain :=
  lazymatch goal with
  | |- puts (orM _ _) _ => eapply puts_orM; [puts_one | puts_chain]
  | |- _ => puts_one
  end.

Ltac closes_chain :=
  lazymatch goal with
  | |- closes _ (bind (nla_nest_end _) _) _ => apply closes_end
  | |- closes _ (bind _ (fun r => if negb (r =? 0) then _ else _)) _ =>
      eapply closes_step_nz_eq; [ | closes_chain | ]
  | |- closes _ (bind _ (fun r => if r <? 0 then _ else _)) _ =>
      eapply closes_step_neg_eq; [ | closes_chain | ]
  end.

Section WithCodec.
Context {codec : bitset_codec}.

Section WithDriver.
Context {drv : Type}.

Lemma ethnl_fill_dev_layout (dev : net_device drv) (ty : nat) :
  exactly (ethnl_fill_dev dev ty) (dev_items dev ty)
  /\ puts (ethnl_fill_dev dev ty) (dev_items dev ty).
Proof.
  unfold ethnl_fill_dev, dev_items, nested.
  assert (H : forall mark,
    closes mark
      (bind (nla_put_u32 ETHTOOL_A_DEV_INDEX (ifindex dev)) (fun r =>
       if negb (r =? 0)
       then bind (nla_nest_cancel mark) (fun _ => ret (- EMSGSIZE))
       else
       bind (nla_put_string ETHTOOL_A_DEV_NAME (name dev)) (fun r =>
       if negb (r =? 0)
       then bind (nla_nest_cancel mark) (fun _ => ret (- EMSGSIZE))
       else bind (nla_nest_end mark) (fun _ => ret 0))))
      ([ u32 ETHTOOL_A_DEV_INDEX (ifindex dev);
         IAttr ETHTOOL_A_DEV_NAME (strlen (name dev) + 1) (DString (name dev)) ]
       ++ [INestEnd])).
  { intros mark.
    closes_chain; [puts_one | puts_one | reflexivity | reflexivity]. }
  split.
  - apply exactly_nest. exact H.
  - apply exactly_puts; [|apply exactly_nest; exact H].
    constructor; [change (0 <= 4); lia|]. exact (proj1 (H 0%nat)).
Qed.

(** X3.  [ethnl_fill_dev] writes the identification nest of the device,
    its index and its name, or nothing: with room for the whole nest it
    returns 0, with less it returns [-EMSGSIZE] and the buffer is as it
    was. *)
Theorem ethnl_fill_dev_exactly (dev : net_device drv) (ty : nat) :
  exactly (ethnl_fill_dev dev ty) (dev_items dev ty).
Proof.
  unfold ethnl_fill_dev, dev_items, nested. apply exactly_nest. intros mark.
  closes_chain; [puts_one | puts_one | reflexivity | reflexivity].
Qed.

End WithDriver.

(** *** The writers of the two handlers *)

Lemma puts_nest (ty : nat) (body : nat -> skbM Z) (items : list item) :
  (forall mark, closes mark (body mark) items) ->
  puts (bind (nla_nest_start ty)
          (fun nest => match nest with
                       | None => ret (- EMSGSIZE)
                       | Some nest => body nest
                       end)) (INest ty :: items).
Proof.
  intros Hbody. apply exactly_puts; [|apply exactly_nest; assumption].
  constructor; [change (0 <= 4); lia|]. exact (proj1 (Hbody 0%nat)).
Qed.

Lemma fill_coalesce_closes (c : ethtool_coalesce) (mark : nat) :
  closes mark
    (bind
       (orM (nla_put_u32 Params.ETHTOOL_A_COALESCE_RX_USECS (c rx_coalesce_usecs))
       (orM (nla_put_u32 Params.ETHTOOL_A_COALESCE_RX_MAXFRM
               (c rx_max_coalesced_frames))
       (orM (nla_put_u32 Params.ETHTOOL_A_COALESCE_RX_USECS_IRQ
               (c rx_coalesce_usecs_irq))
       (orM (nla_put_u32 Params.ETHTOOL_A_COALESCE_RX_MAXFRM_IRQ
               (c rx_max_coalesced_frames_irq))
       (orM (nla_put_u32 Params.ETHTOOL_A_COALESCE_RX_USECS_LOW
               (c rx_coalesce_usecs_low))
       (orM (nla_put_u32 Params.ETHTOOL_A_COALESCE_RX_MAXFRM_LOW
               (c rx_max_coalesced_frames_low))
       (orM (nla_put_u32 Params.ETHTOOL_A_COALESCE_RX_USECS_HIGH
               (c rx_coalesce_usecs_high))
       (orM (nla_put_u32 Params.ETHTOOL_A_COALESCE_RX_MAXFRM_HIGH
               (c rx_max_coalesced_frames_high))
       (orM (nla_put_u32 Params.ETHTOOL_A_COALESCE_TX_USECS (c tx_coalesce_usecs))
       (orM (nla_put_u32 Params.ETHTOOL_A_COALESCE_TX_MAXFRM
               (c tx_max_coalesced_frames))
       (orM (nla_put_u32 Params.ETHTOOL_A_COALESCE_TX_USECS_IRQ
               (c tx_coalesce_usecs_irq))
       (orM (nla_put_u32 Params.ETHTOOL_A_COALESCE_TX_MAXFRM_IRQ
               (c tx_max_coalesced_frames_irq))
       (orM (nla_put_u32 Params.ETHTOOL_A_COALESCE_TX_USECS_LOW
               (c tx_coalesce_usecs_low))
       (orM (nla_put_u32 Params.ETHTOOL_A_COALESCE_TX_MAXFRM_LOW
               (c tx_max_coalesced_frames_low))
       (orM (nla_put_u32 Params.ETHTOOL_A_COALESCE_TX_USECS_HIGH
               (c tx_coalesce_usecs_high))
       (orM (nla_put_u32 Params.ETHTOOL_A_COALESCE_TX_MAXFRM_HIGH
               (c tx_max_coalesced_frames_high))
       (orM (nla_put_u32 Params.ETHTOOL_A_COALESCE_PKT_RATE_LOW (c pkt_rate_low))
       (orM (nla_put_u32 Params.ETHTOOL_A_COALESCE_PKT_RATE_HIGH (c pkt_rate_high))
       (orM (nla_put_u8 Params.ETHTOOL_A_COALESCE_RX_USE_ADAPTIVE
               (to_bool (c use_adaptive_rx_coalesce)))
       (orM (nla_put_u8 Params.ETHTOOL_A_COALESCE_TX_USE_ADAPTIVE
               (to_bool (c use_adaptive_tx_coalesce)))
       (orM (nla_put_u32 Params.ETHTOOL_A_COALESCE_RATE_SAMPLE_INTERVAL
               (c rate_sample_interval))
            (nla_put_u32 Params.ETHTOOL_A_COALESCE_STATS_BLOCK_USECS
               (c stats_block_coalesce_usecs)))))))))))))))))))))))
       (fun r =>
          if negb (r =? 0)
          then bind (nla_nest_cancel mark) (fun _ => ret (- EMSGSIZE))
          else bind (nla_nest_end mark) (fun _ => ret 0)))
    (tail (coalesce_items c)).
Proof. closes_chain; [puts_chain|reflexivity]. Qed.

Lemma fill_ring_closes (r : ethtool_ringparam) (mark : nat) :
  closes mark
    (bind
       (orM (nla_put_u32 Params.ETHTOOL_A_RING_RX_MAX_PENDING (rx_max_pending r))
       (orM (nla_put_u32 Params.ETHTOOL_A_RING_RX_MINI_MAX_PENDING
               (rx_mini_max_pending r))
       (orM (nla_put_u32 Params.ETHTOOL_A_RING_RX_JUMBO_MAX_PENDING
               (rx_jumbo_max_pending r))
       (orM (nla_put_u32 Params.ETHTOOL_A_RING_TX_MAX_PENDING (tx_max_pending r))
       (orM (nla_put_u32 Params.ETHTOOL_A_RING_RX_PENDING (rx_pending r))
       (orM (nla_put_u32 Params.ETHTOOL_A_RING_RX_MINI_PENDING (rx_mini_pending r))
       (orM (nla_put_u32 Params.ETHTOOL_A_RING_RX_JUMBO_PENDING (rx_jumbo_pending r))
            (nla_put_u32 Params.ETHTOOL_A_RING_TX_PENDING (tx_pending r)))))))))
       (fun r =>
          if negb (r =? 0)
          then bind (nla_nest_cancel mark) (fun _ => ret (- EMSGSIZE))
          else bind (nla_nest_end mark) (fun _ => ret 0)))
    (tail (ring_items r)).
Proof. closes_chain; [puts_chain|reflexivity]. Qed.

Lemma fill_pause_closes (p : ethtool_pauseparam) (mark : nat) :
  closes mark
    (bind
       (orM (nla_put_u8 Params.ETHTOOL_A_PAUSE_AUTONEG (to_bool (pause_autoneg p)))
       (orM (nla_put_u8 Params.ETHTOOL_A_PAUSE_RX (to_bool (rx_pause p)))
            (nla_put_u8 Params.ETHTOOL_A_PAUSE_TX (to_bool (tx_pause p)))))
       (fun r =>
          if negb (r =? 0)
          then bind (nla_nest_cancel mark) (fun _ => ret (- EMSGSIZE))
          else bind (nla_nest_end mark) (fun _ => ret 0)))
    (tail (pause_items p)).
Proof. closes_chain; [puts_chain|reflexivity]. Qed.

Lemma fill_channels_puts (ch : ethtool_channels) :
  puts (Params.fill_channels ch) (channels_items ch).
Proof.
  unfold Params.fill_channels, channels_items, nested.
  apply puts_nest_left_open. eapply puts_eq; [puts_chain|reflexivity].
Qed.

(** X5.  Each writer of a parameters category with a clean-up writes its
    complete nest or nothing, and the room it needs is what the size
    function of the category returns.  [fill_channels] has no clean-up:
    with room for its nest it writes it, with less it fails and the buffer
    keeps what it held. *)
Theorem params_writers_exactly (c : ethtool_coalesce) (r : ethtool_ringparam)
    (p : ethtool_pauseparam) (ch : ethtool_channels) :
  (exactly (Params.fill_coalesce c) (coalesce_items c)
   /\ items_len (coalesce_items c) = Params.coalesce_size)
  /\ (exactly (Params.fill_ring r) (ring_items r)
      /\ items_len (ring_items r) = Params.ring_size)
  /\ (exactly (Params.fill_pause p) (pause_items p)
      /\ items_len (pause_items p) = Params.pause_size)
  /\ (puts (Params.fill_channels ch) (channels_items ch)
      /\ items_len (channels_items ch) = Params.channels_size).
Proof.
  split; [|split; [|split]]; (split; [|reflexivity]).
  - apply exactly_nest. intros mark. apply fill_coalesce_closes.
  - apply exactly_nest. intros mark. apply fill_ring_closes.
  - apply exactly_nest. intros mark. apply fill_pause_closes.
  - apply fill_channels_puts.
Qed.

Section WithDriver.
Context {drv : Type}.

Lemma puts_on (mask bit : Z) (m : skbM Z) (items : list item) :
  puts m items ->
  puts (if negb (Z.land mask bit =? 0) then m else ret 0) (on mask bit items).
Proof. intros H. unfold on. apply puts_if. assumption. Qed.

Lemma fill_params_layout (data : @Params.params_data drv) :
  puts (Params.fill_params data) (params_items data).
Proof.
  unfold Params.fill_params, params_items.
  eapply puts_eq.
  - apply puts_seq; [apply puts_on; apply puts_nest; apply fill_coalesce_closes|].
    apply puts_seq; [apply puts_on; apply puts_nest; apply fill_ring_closes|].
    apply puts_seq; [apply puts_on; apply puts_nest; apply fill_pause_closes|].
    apply puts_seq; [apply puts_on; apply fill_channels_puts|].
    apply puts_ret0.
  - rewrite app_nil_r. reflexivity.
Qed.

Lemma params_items_len (data : @Params.params_data drv) :
  items_len (params_items data) = Params.params_size data - dev_ident_size.
Proof.
  assert (Hc : forall c, items_len (coalesce_items c) = Params.coalesce_size)
    by reflexivity.
  assert (Hr : forall r, items_len (ring_items r) = Params.ring_size)
    by reflexivity.
  assert (Hp : forall p, items_len (pause_items p) = Params.pause_size)
    by reflexivity.
  assert (Hh : forall c, items_len (channels_items c) = Params.channels_size)
    by reflexivity.
  unfold params_items, Params.params_size, on. rewrite !items_len_app.
  repeat match goal with
         | |- context [negb ?b] => destruct b; simpl negb; cbv iota
         end;
    rewrite ?Hc, ?Hr, ?Hp, ?Hh; change (items_len []) with 0; lia.
Qed.

(** X6.  [fill_params] writes the nests of the categories in the achieved
    mask, in the order coalesce, ring, pause, channels, when there is room
    for all of them, and fails with [-EMSGSIZE] when there is not; the
    room they take is what [params_size] returns less the room counted for
    the identification of the device. *)
Theorem fill_params_exact_size (data : @Params.params_data drv) :
  puts (Params.fill_params data) (params_items data)
  /\ items_len (params_items data) = Params.params_size data - dev_ident_size.
Proof.
  split.
  - apply fill_params_layout.
  - apply params_items_len.
Qed.

End WithDriver.

Lemma nest_layout (ty : nat) (body : nat -> skbM Z) (items : list item) :
  (forall mark, closes mark (body mark) items) ->
  let m := bind (nla_nest_start ty)
             (fun nest => match nest with
                          | None => ret (- EMSGSIZE)
                          | Some nest => body nest
                          end) in
  exactly m (INest ty :: items) /\ puts m (INest ty :: items).
Proof.
  intros Hbody m. split; [apply exactly_nest|apply puts_nest]; assumption.
Qed.

Lemma fill_link_info_layout (l : ethtool_link_settings) :
  exactly (Settings.fill_link_info l) (link_info_items l)
  /\ puts (Settings.fill_link_info l) (link_info_items l).
Proof.
  unfold Settings.fill_link_info, link_info_items, nested.
  apply nest_layout. intros mark. closes_chain; [puts_chain|reflexivity].
Qed.

Lemma fill_link_state_layout (link : Z) :
  exactly (Settings.fill_link_state link) (link_state_items link)
  /\ puts (Settings.fill_link_state link) (link_state_items link).
Proof.
  unfold Settings.fill_link_state, link_state_items, nested.
  apply nest_layout. intros mark. closes_chain; [puts_one|reflexivity].
Qed.

Lemma fill_wolinfo_layout (wol : ethtool_wolinfo) (privileged : bool) :
  exactly (Settings.fill_wolinfo wol privileged) (wol_items wol privileged)
  /\ puts (Settings.fill_wolinfo wol privileged) (wol_items wol privileged).
Proof.
  unfold Settings.fill_wolinfo, wol_items, nested.
  apply nest_layout. intros mark. cbv zeta.
  closes_chain; [puts_one|puts_one|reflexivity|reflexivity].
Qed.

Lemma fill_link_modes_layout (ks : ethtool_link_ksettings)
    (lpm_empty compact : bool) :
  (forall a, 0 <= bitset32_put_len a) ->
  exactly (Settings.fill_link_modes ks lpm_empty compact)
    (link_modes_items ks lpm_empty compact)
  /\ puts (Settings.fill_link_modes ks lpm_empty compact)
       (link_modes_items ks lpm_empty compact).
Proof.
  intros Hlen.
  unfold Settings.fill_link_modes, link_modes_items, nested.
  apply nest_layout. intros mark. cbv zeta.
  destruct lpm_empty; simpl negb; cbv iota;
    (closes_chain;
     [puts_one|puts_one|puts_one|puts_chain
     |reflexivity|reflexivity|reflexivity|reflexivity]).
Qed.

(** X4.  With a bitset encoder that writes no negative lengths, each of
    the four writers of a link settings category writes its complete nest
    or nothing: with room for the nest it returns 0, with less it returns
    [-EMSGSIZE] and the buffer is as it was.  The link state nest is empty
    when the link state is negative, and the wake-on-LAN nest holds the
    pass-phrase for a privileged requester only. *)
Theorem settings_writers_exactly (ks : ethtool_link_ksettings)
    (lpm_empty compact : bool) (link : Z) (wol : ethtool_wolinfo)
    (privileged : bool) :
  (forall a, 0 <= bitset32_put_len a) ->
  exactly (Settings.fill_link_info (base ks)) (link_info_items (base ks))
  /\ exactly (Settings.fill_link_modes ks lpm_empty compact)
       (link_modes_items ks lpm_empty compact)
  /\ exactly (Settings.fill_link_state link) (link_state_items link)
  /\ exactly (Settings.fill_wolinfo wol privileged) (wol_items wol privileged).
Proof.
  intros Hlen. split; [|split; [|split]].
  - apply fill_link_info_layout.
  - apply fill_link_modes_layout. assumption.
  - apply fill_link_state_layout.
  - apply fill_wolinfo_layout.
Qed.

Section WithDriver.
Context {drv : Type}.

(** X7.  With a bitset encoder that writes no negative lengths,
    [fill_settings] writes the nests of the categories in the achieved
    mask, in the order link info, link modes, link state, wake-on-LAN,
    when there is room for all of them, and fails with [-EMSGSIZE] when
    there is not. *)
Theorem fill_settings_puts (data : @Settings.settings_data drv) :
  (forall a, 0 <= bitset32_put_len a) ->
  puts (Settings.fill_settings data) (settings_items data).
Proof.
  intros Hlen. unfold Settings.fill_settings, settings_items.
  eapply puts_eq.
  - apply puts_seq; [apply puts_on; apply fill_link_info_layout|].
    apply puts_seq; [apply puts_on; apply fill_link_modes_layout; assumption|].
    apply puts_seq; [apply puts_on; apply fill_link_state_layout|].
    apply puts_seq; [apply puts_on; apply fill_wolinfo_layout|].
    apply puts_ret0.
  - rewrite app_nil_r. reflexivity.
Qed.

End WithDriver.

End WithCodec.

#[local] Existing Instance sample_codec.

(** With the sample codec, on the link settings of [eth3]. *)
Lemma settings_writers_exactly_witness :
  let ks := snd (__ethtool_get_link_ksettings Samples.eth3
                   (priv Samples.eth3)) in
  let wol := snd (__ethtool_get_wol Samples.eth3 (priv Samples.eth3)) in
  exactly (Settings.fill_link_info (base ks)) (link_info_items (base ks))
  /\ exactly (Settings.fill_link_modes ks false true)
       (link_modes_items ks false true)
  /\ exactly (Settings.fill_link_state 1) (link_state_items 1)
  /\ exactly (Settings.fill_wolinfo wol false) (wol_items wol false).
Proof.
  intros ks wol.
  apply (settings_writers_exactly ks false true 1 wol false).
  intros a. vm_compute. discriminate.
Defined.

(** With the sample codec, on the record [prepare_settings] leaves for
    [eth3] when everything was asked for. *)
Lemma fill_settings_puts_witness :
  let data := snd (fst (Settings.prepare_settings Samples.all_settings_data
                          Samples.eth3 None)) in
  puts (Settings.fill_settings data) (settings_items data).
Proof.
  intros data. apply (fill_settings_puts data).
  intros a. vm_compute. discriminate.
Defined.

End LayoutFacts.

(** ** What a writer adds *)

Module AddsFacts.
Import Nl Dev Netlink Layout.

Section WithCodec.
Context {codec : bitset_codec}.

Lemma adds_ret {A : Type} (P : item -> Prop) (x : A) : adds P (ret x).
Proof.
  intros skb. simpl. split; [reflexivity|]. exists []. rewrite app_nil_r. auto.
Qed.

Lemma adds_put_item (P : item -> Prop) (need : Z) (i : item) :
  P i -> adds P (put_item need i).
Proof.
  intros HP skb. unfold put_item. destruct (skb_tailroom skb <? need); simpl.
  - split; [reflexivity|]. exists []. rewrite app_nil_r. auto.
  - split; [reflexivity|]. exists [i]. auto.
Qed.

Lemma adds_bind {A B : Type} (P : item -> Prop) (m : skbM A) (k : A -> skbM B) :
  adds P m -> (forall x, adds P (k x)) -> adds P (bind m k).
Proof.
  intros Hm Hk skb. unfold bind. destruct (Hm skb) as (He & ext & Hd & Hf).
  destruct (m skb) as [x skb1]. simpl in *.
  destruct (Hk x skb1) as (He2 & ext2 & Hd2 & Hf2).
  split; [congruence|]. exists (ext ++ ext2). split.
  - rewrite Hd2, Hd, app_assoc. reflexivity.
  - apply Forall_app. auto.
Qed.

Lemma adds_orM (P : item -> Prop) (a b : skbM Z) :
  adds P a -> adds P b -> adds P (orM a b).
Proof.
  intros Ha Hb. unfold orM. apply adds_bind; [assumption|].
  intros r. destruct (r =? 0); [assumption|apply adds_ret].
Qed.

Lemma adds_in_cancel {A : Type} (mark : nat) (P : item -> Prop) (x : A) :
  adds_in mark P (bind (nla_nest_cancel mark) (fun _ => ret x)).
Proof. intros skb Hm. simpl. split; [reflexivity|]. left. reflexivity. Qed.

Lemma adds_in_end {A : Type} (mark mark' : nat) (P : item -> Prop) (x : A) :
  P INestEnd -> adds_in mark P (bind (nla_nest_end mark') (fun _ => ret x)).
Proof.
  intros HP skb Hm. simpl. split; [reflexivity|]. right. exists [INestEnd]. auto.
Qed.

Lemma adds_in_ret {A : Type} (mark : nat) (P : item -> Prop) (x : A) :
  adds_in mark P (ret x).
Proof.
  intros skb Hm. simpl. split; [reflexivity|]. right. exists [].
  rewrite app_nil_r. auto.
Qed.

Lemma adds_in_bind {A B : Type} (mark : nat) (P : item -> Prop) (m : skbM A)
    (k : A -> skbM B) :
  adds P m -> (forall x, adds_in mark P (k x)) -> adds_in mark P (bind m k).
Proof.
  intros Hm Hk skb Hmark. unfold bind. destruct (Hm skb) as (He & ext & Hd & Hf).
  destruct (m skb) as [x skb1]. simpl in *.
  destruct (Hk x skb1) as (He2 & H2).
  { rewrite Hd, length_app. lia. }
  split; [congruence|]. destruct H2 as [H2|(ext2 & Hd2 & Hf2)].
  - left. rewrite H2, Hd. apply take_app_le. assumption.
  - right. exists (ext ++ ext2). split.
    + rewrite Hd2, Hd, app_assoc. reflexivity.
    + apply Forall_app. auto.
Qed.

Lemma adds_nest (P : item -> Prop) (ty : nat) (e : Z) (body : nat -> skbM Z) :
  P (INest ty) -> (forall mark, adds_in mark P (body mark)) ->
  adds P (bind (nla_nest_start ty)
            (fun nest => match nest with
                         | None => ret e
                         | Some nest => body nest
                         end)).
Proof.
  intros HP Hbody skb. unfold bind, nla_nest_start, put_item.
  destruct (skb_tailroom skb <? nla_total_size 0); simpl.
  - split; [reflexivity|]. exists []. rewrite app_nil_r. auto.
  - destruct (Hbody (length (skb_data skb)) (skb_append skb (INest ty)))
      as (He & H).
    { simpl. rewrite length_app. lia. }
    split; [exact He|]. destruct H as [H|(ext & Hd & Hf)].
    + exists []. rewrite H. simpl. rewrite take_app_length, app_nil_r. auto.
    + exists (INest ty :: ext). rewrite Hd. simpl. rewrite <- app_assoc. auto.
Qed.

End WithCodec.

(** Steps through a writer; what is left are the conditions on the items. *)
Ltac adds_step :=
  first
    [ apply adds_ret
    | apply adds_in_ret
    | apply adds_in_cancel
    | apply adds_in_end
    | apply adds_put_item
    | apply adds_orM
    | apply adds_nest; [|intros ?]
    | apply adds_in_bind; [|intros ?]
    | apply adds_bind; [|intros ?]
    | match goal with
      | |- adds _ (if ?c then _ else _) => destruct c
      | |- adds_in _ _ (if ?c then _ else _) => destruct c
      | |- adds_in _ _ (match ?c with Some _ => _ | None => _ end) => destruct c
      end ].

Ltac adds_auto :=
  unfold nla_put_u32, nla_put_u8, nla_put_string, nla_put_bitfield32, nla_put,
    ethnl_put_bitset32;
  repeat adds_step; try exact I.

Section WithCodec.
Context {codec : bitset_codec}.

Section WithDriver.
Context {drv : Type}.

Lemma ethnl_fill_dev_adds (dev : net_device drv) (ty : nat) :
  adds no_binary (ethnl_fill_dev dev ty).
Proof. unfold ethnl_fill_dev. adds_auto. Qed.

Lemma fill_settings_adds (data : @Settings.settings_data drv) :
  Settings.privileged (req_rest data) = false ->
  adds no_binary (Settings.fill_settings data).
Proof.
  intros Hp. unfold Settings.fill_settings. rewrite Hp.
  unfold Settings.fill_link_info, Settings.fill_link_modes,
    Settings.fill_link_state, Settings.fill_wolinfo. cbv zeta.
  adds_auto.
Qed.

End WithDriver.
End WithCodec.
End AddsFacts.

(** ** Replies to GET requests *)

Module ReplyFacts.
Import Nl Dev Netlink Layout Reply BufferFacts LayoutFacts AddsFacts
  DevGetAllFacts.

Section WithDriver.
Context {drv : Type} {codec : bitset_codec}.

Lemma dev_put_hold_net (n : net drv) (d : net_device drv) :
  dev_index_head (dev_put (dev_hold n (ifindex d)) d) = dev_index_head n
  /\ forall i, dev_refcnt (dev_put (dev_hold n (ifindex d)) d) i = dev_refcnt n i.
Proof. split; [reflexivity|]. intros i. apply dev_put_hold. Qed.

(** The three parsers take their reference through [ethnl_dev_get] and
    leave the device in the request when it succeeded. *)
Lemma parse_settings_holds :
  parse_holds_req_dev (@Settings.settings_request_ops drv codec).
Proof.
  intros n req nlhdr info Hnone. simpl. unfold Settings.parse_settings.
  destruct (nla_parse _ _ _) as [e|tb].
  { simpl. rewrite Hnone. split; [reflexivity|].
    split; [discriminate|]. intros i. lia. }
  destruct (tb_get tb Settings.ETHTOOL_A_SETTINGS_DEV) as [a_dev|].
  - pose proof (ethnl_dev_get_net n info (Some a_dev)) as Hg.
    destruct (ethnl_dev_get n info (Some a_dev)) as [[[e|dev] info1] n1]; simpl.
    + split; [destruct Hg as [->|[d ->]]; reflexivity|].
      split; [discriminate|]. intros i.
      destruct Hg as [->|[d ->]]; [lia|]. rewrite dev_put_hold. lia.
    + destruct Hg as [Hin ->]. split; [reflexivity|].
      split; [intros d [= <-]; assumption|]. intros i. apply dev_hold_refcnt.
  - simpl. rewrite Hnone. split; [reflexivity|].
    split; [discriminate|]. intros i. lia.
Qed.

Lemma parse_params_holds :
  parse_holds_req_dev (@Params.params_request_ops drv codec).
Proof.
  intros n req nlhdr info Hnone. simpl. unfold Params.parse_params.
  destruct (nla_parse _ _ _) as [e|tb].
  { rewrite Hnone. split; [reflexivity|].
    split; [discriminate|]. intros i. lia. }
  destruct (tb_get tb Params.ETHTOOL_A_PARAMS_DEV) as [a_dev|].
  - pose proof (ethnl_dev_get_net n info (Some a_dev)) as Hg.
    destruct (ethnl_dev_get n info (Some a_dev)) as [[[e|dev] info1] n1]; simpl.
    + split; [destruct Hg as [->|[d ->]]; reflexivity|].
      split; [discriminate|]. intros i.
      destruct Hg as [->|[d ->]]; [lia|]. rewrite dev_put_hold. lia.
    + destruct Hg as [Hin ->]. split; [reflexivity|].
      split; [intros d [= <-]; assumption|]. intros i. apply dev_hold_refcnt.
  - simpl. rewrite Hnone. split; [reflexivity|].
    split; [discriminate|]. intros i. lia.
Qed.

Variable alloc_skb : Z -> option Z.
Variable genlmsg_reply : sk_buff -> Z.

Lemma doit_balanced {Q R : Type} (ops : get_request_ops drv Q R)
    (req : get_data drv Q R) (n : net drv) (nlhdr : nlmsghdr) (info : genl_info) :
  parse_holds_req_dev ops ->
  req_dev (reqinfo_base req) = None ->
  let r := ethnl_get_doit alloc_skb genlmsg_reply (Some ops) (Some req) n nlhdr
             info in
  dev_index_head (dr_net r) = dev_index_head n
  /\ forall i, dev_refcnt (dr_net r) i = dev_refcnt n i.
Proof.
  intros Hparse Hnone r. subst r. unfold ethnl_get_doit.
  specialize (Hparse n req nlhdr info Hnone).
  destruct (parse_request ops n req nlhdr info) as [[[ret data] info1] n1].
  destruct Hparse as (Hheads & _ & Hrefs).
  destruct (req_dev (reqinfo_base data)) as [dev|].
  2:{ simpl. split; [assumption|]. intros i. rewrite Hrefs. lia. }
  assert (Hput : dev_index_head (dev_put n1 dev) = dev_index_head n
                 /\ forall i, dev_refcnt (dev_put n1 dev) i = dev_refcnt n i).
  { split; [assumption|]. intros i. simpl. rewrite Hrefs.
    destruct (i =? ifindex dev); lia. }
  destruct (ret <? 0); [exact Hput|].
  destruct (prepare_data ops _ dev (Some info1)) as [[ret2 data2] oinfo].
  destruct (ret2 <? 0); [exact Hput|].
  destruct (ethnl_reply_init _ _ _ _ _ _) as [[[rskb ehdr]|] oinfo2];
    [|exact Hput].
  destruct (fill_reply ops data2 rskb) as [ret3 rskb2].
  destruct (ret3 <? 0); exact Hput.
Qed.


(** X9.  A GET request that carries no device identification is refused
    with [-EINVAL] and the message that no device was specified; no reply
    is sent and the registry is as before. *)
Theorem ethnl_get_doit_no_device (n : net drv) (nlhdr : nlmsghdr)
    (info : genl_info) (sreq : @Settings.settings_data drv)
    (preq : @Params.params_data drv) (stb ptb : list (option nla_data)) :
  req_dev (reqinfo_base sreq) = None ->
  req_dev (reqinfo_base preq) = None ->
  nla_parse Settings.ETHTOOL_A_SETTINGS_MAX Settings.get_settings_policy
    (nlmsg_attrs nlhdr) = inr stb ->
  tb_get stb Settings.ETHTOOL_A_SETTINGS_DEV = None ->
  nla_parse Params.ETHTOOL_A_PARAMS_MAX Params.get_params_policy
    (nlmsg_attrs nlhdr) = inr ptb ->
  tb_get ptb Params.ETHTOOL_A_PARAMS_DEV = None ->
  let refused :=
    {| dr_ret := - EINVAL;
       dr_info := GENL_SET_ERR_MSG info "device not specified in do request";
       dr_net := n; dr_reply := None |} in
  ethnl_get_doit alloc_skb genlmsg_reply (Some Settings.settings_request_ops)
    (Some sreq) n nlhdr info = refused
  /\ ethnl_get_doit alloc_skb genlmsg_reply (Some Params.params_request_ops)
       (Some preq) n nlhdr info = refused.
Proof.
  intros Hs Hp Hstb Hsdev Hptb Hpdev refused. subst refused. split.
  - unfold ethnl_get_doit. simpl parse_request. unfold Settings.parse_settings.
    rewrite Hstb, Hsdev. simpl. rewrite Hs. reflexivity.
  - unfold ethnl_get_doit. simpl parse_request. unfold Params.parse_params.
    rewrite Hptb, Hpdev. simpl. rewrite Hp. reflexivity.
Qed.

Lemma nlmsg_room (payload : Z) :
  nlmsg_total_size GENL_HDRLEN + payload
  <= nlmsg_total_size (genlmsg_total_size payload).
Proof.
  unfold nlmsg_total_size, genlmsg_total_size.
  pose proof (NLA_ALIGN_ge (GENL_HDRLEN + payload)).
  pose proof (NLA_ALIGN_ge (NLMSG_HDRLEN + NLA_ALIGN (GENL_HDRLEN + payload))).
  change (NLA_ALIGN (NLMSG_HDRLEN + GENL_HDRLEN)) with 20.
  unfold NLMSG_HDRLEN, GENL_HDRLEN in *. lia.
Qed.

Lemma dev_items_len (dev : net_device drv) (ty : nat) :
  (String.length (name dev) < IFNAMSIZ)%nat ->
  items_len (dev_items dev ty) <= dev_ident_size.
Proof.
  intros Hlen. unfold dev_items, nested, dev_ident_size. simpl items_len.
  change (nla_total_size 0) with 4. change (nla_total_size 4) with 8.
  change (nla_total_size (8 + nla_total_size (Z.of_nat IFNAMSIZ))) with 32.
  unfold nla_total_size, strlen, NLA_HDRLEN. rewrite NLA_ALIGN_eq.
  assert ((4 + (Z.of_nat (String.length (name dev)) + 1) + 3) / 4 < 6).
  { apply Z.div_lt_upper_bound; [lia|]. unfold IFNAMSIZ in Hlen. lia. }
  lia.
Qed.

(** X10.  The room [params_size] computes suffices.  When the request
    for the parameters of a device parsed, the data could be prepared and
    the allocator gave a buffer with the room asked for, [ethnl_get_doit]
    sends a reply: the header, the identification of the device, the
    categories of the achieved mask, in a buffer that none of them
    overflowed.  What it returns is what sending the reply returned, and
    the reference on the device is given back. *)
Theorem get_params_reply_fits (n n1 : net drv) (nlhdr : nlmsghdr)
    (info info1 : genl_info) (req data data2 : @Params.params_data drv)
    (dev : net_device drv) (oinfo : option genl_info) (ret ret2 cap : Z) :
  (forall size c, alloc_skb size = Some c -> size <= c) ->
  Params.parse_params n req nlhdr info = (ret, data, info1, n1) ->
  0 <= ret ->
  req_dev (reqinfo_base data) = Some dev ->
  (String.length (name dev) < IFNAMSIZ)%nat ->
  Params.prepare_params
    (ethnl_init_reply_data Params.params_request_ops data dev) dev (Some info1)
  = (ret2, data2, oinfo) ->
  0 <= ret2 ->
  alloc_skb (nlmsg_total_size (genlmsg_total_size (Params.params_size data2)))
  = Some cap ->
  let msg :=
    {| skb_data := IMsgHdr Params.ETHNL_CMD_SET_PARAMS
                   :: dev_items dev Params.ETHTOOL_A_PARAMS_DEV
                   ++ params_items data2 ++ [IMsgEnd];
       skb_end := cap |} in
  skb_len msg <= cap
  /\ ethnl_get_doit alloc_skb genlmsg_reply (Some Params.params_request_ops)
       (Some req) n nlhdr info
     = {| dr_ret := genlmsg_reply msg; dr_info := default info1 oinfo;
          dr_net := dev_put n1 dev; dr_reply := Some msg |}.
Proof.
  intros Halloc Hparse Hret Hdev Hname Hprep Hret2 Hcap msg.
  pose proof (Halloc _ _ Hcap) as Hroom.
  pose proof (nlmsg_room (Params.params_size data2)) as Hsz.
  pose proof (dev_items_len dev Params.ETHTOOL_A_PARAMS_DEV Hname) as Hdl.
  pose proof (params_items_len data2) as Hpl.
  change (nlmsg_total_size GENL_HDRLEN) with 20 in Hsz.
  assert (Hd0 : 0 <= items_len (dev_items dev Params.ETHTOOL_A_PARAMS_DEV)).
  { apply items_len_nonneg.
    apply (proj1 (proj2 (ethnl_fill_dev_layout dev Params.ETHTOOL_A_PARAMS_DEV))). }
  assert (Hp0 : 0 <= items_len (params_items data2)).
  { apply items_len_nonneg. apply (proj1 (fill_params_layout data2)). }
  split.
  { subst msg.
    change (items_len ([IMsgHdr Params.ETHNL_CMD_SET_PARAMS]
                       ++ dev_items dev Params.ETHTOOL_A_PARAMS_DEV
                       ++ params_items data2 ++ [IMsgEnd]) <= cap).
    rewrite !items_len_app.
    change (items_len [IMsgHdr Params.ETHNL_CMD_SET_PARAMS]) with 20.
    change (items_len [IMsgEnd]) with 0. lia. }
  unfold ethnl_get_doit. simpl parse_request. rewrite Hparse, Hdev.
  rewrite (proj2 (Z.ltb_ge ret 0) Hret).
  simpl prepare_data. rewrite Hprep.
  rewrite (proj2 (Z.ltb_ge ret2 0) Hret2).
  unfold ethnl_reply_init, genlmsg_new. simpl reply_size. rewrite Hcap.
  unfold genlmsg_put, put_item.
  change (skb_tailroom {| skb_data := []; skb_end := cap |}) with (cap - 0).
  change (nlmsg_total_size GENL_HDRLEN) with 20.
  destruct (Z.ltb_spec (cap - 0) 20) as [|_]; [lia|]. simpl.
  change (skb_append {| skb_data := []; skb_end := cap |}
            (IMsgHdr Params.ETHNL_CMD_SET_PARAMS))
    with {| skb_data := [IMsgHdr Params.ETHNL_CMD_SET_PARAMS];
            skb_end := cap |}.
  pose proof (proj1 (ethnl_fill_dev_layout dev Params.ETHTOOL_A_PARAMS_DEV)
                {| skb_data := [IMsgHdr Params.ETHNL_CMD_SET_PARAMS];
                   skb_end := cap |}) as Hfd.
  assert (Ht1 : skb_tailroom
                  {| skb_data := [IMsgHdr Params.ETHNL_CMD_SET_PARAMS];
                     skb_end := cap |} = cap - 20) by reflexivity.
  rewrite Ht1 in Hfd. specialize (Hfd ltac:(lia)).
  destruct (Z.ltb_spec (cap - 20)
              (items_len (dev_items dev Params.ETHTOOL_A_PARAMS_DEV)))
    as [|_]; [lia|].
  rewrite Hfd.
  change (0 <? 0) with false. cbv iota.
  change (skb_data {| skb_data := [IMsgHdr Params.ETHNL_CMD_SET_PARAMS];
                      skb_end := cap |}
          ++ dev_items dev Params.ETHTOOL_A_PARAMS_DEV)
    with (IMsgHdr Params.ETHNL_CMD_SET_PARAMS
          :: dev_items dev Params.ETHTOOL_A_PARAMS_DEV).
  change (skb_end {| skb_data := [IMsgHdr Params.ETHNL_CMD_SET_PARAMS];
                     skb_end := cap |}) with cap.
  simpl fill_reply.
  pose proof (proj2 (fill_params_layout data2)
                {| skb_data := IMsgHdr Params.ETHNL_CMD_SET_PARAMS
                               :: dev_items dev Params.ETHTOOL_A_PARAMS_DEV;
                   skb_end := cap |}) as Hfp.
  assert (Ht2 : skb_tailroom
                  {| skb_data := IMsgHdr Params.ETHNL_CMD_SET_PARAMS
                                 :: dev_items dev Params.ETHTOOL_A_PARAMS_DEV;
                     skb_end := cap |}
                = cap - 20 - items_len (dev_items dev Params.ETHTOOL_A_PARAMS_DEV)).
  { unfold skb_tailroom, skb_len. simpl skb_data. simpl skb_end.
    change (items_len (IMsgHdr Params.ETHNL_CMD_SET_PARAMS
                       :: dev_items dev Params.ETHTOOL_A_PARAMS_DEV))
      with (20 + items_len (dev_items dev Params.ETHTOOL_A_PARAMS_DEV)). lia. }
  rewrite Ht2 in Hfp. specialize (Hfp ltac:(lia)).
  destruct (Z.ltb_spec
              (cap - 20 - items_len (dev_items dev Params.ETHTOOL_A_PARAMS_DEV))
              (items_len (params_items data2))) as [|_]; [lia|].
  simpl skb_data in Hfp. simpl skb_end in Hfp. rewrite Hfp.
  change (0 <? 0) with false. cbv iota.
  subst msg. reflexivity.
Qed.

(** X11.  The reply to a GET request for the link settings from a sender
    that is not privileged holds no binary attribute: the pass-phrase of
    wake-on-LAN, the one binary attribute of the handler, is not in it. *)
Theorem get_settings_reply_hides_sopass (n : net drv) (nlhdr : nlmsghdr)
    (info : genl_info) (req : @Settings.settings_data drv) (msg : sk_buff) :
  sender_privileged nlhdr = false ->
  dr_reply (ethnl_get_doit alloc_skb genlmsg_reply
              (Some Settings.settings_request_ops) (Some req) n nlhdr info)
  = Some msg ->
  Forall no_binary (skb_data msg).
Proof.
  intros Hpriv. unfold ethnl_get_doit. simpl parse_request.
  assert (Hparse : Settings.privileged
                     (req_rest (snd (fst (fst (Settings.parse_settings n req
                                                 nlhdr info))))) = false).
  { unfold Settings.parse_settings. rewrite Hpriv.
    destruct (nla_parse _ _ _) as [e|tb]; [reflexivity|].
    destruct (tb_get tb Settings.ETHTOOL_A_SETTINGS_DEV) as [a|];
      [|reflexivity].
    destruct (ethnl_dev_get n info (Some a)) as [[[e|d] i1] n1]; reflexivity. }
  destruct (Settings.parse_settings n req nlhdr info) as [[[ret data] info1] n1].
  simpl in Hparse.
  destruct (req_dev (reqinfo_base data)) as [dev|]; [|discriminate].
  destruct (ret <? 0); [discriminate|].
  simpl prepare_data.
  assert (Hprep : Settings.privileged
                    (req_rest (snd (fst (Settings.prepare_settings
                       (ethnl_init_reply_data Settings.settings_request_ops
                          data dev) dev (Some info1))))) = false).
  { unfold Settings.prepare_settings. simpl.
    repeat first
      [ exact Hparse
      | match goal with
        | |- context [if ?c then _ else _] => destruct c
        | |- context [Settings.ethnl_get_link_ksettings ?a ?b] =>
            destruct (Settings.ethnl_get_link_ksettings a b) as [[? ?] ?]
        | |- context [Settings.ethnl_get_wol ?a ?b] =>
            destruct (Settings.ethnl_get_wol a b) as [[? ?] ?]
        end ]. }
  destruct (Settings.prepare_settings _ dev (Some info1)) as [[ret2 data2] oinfo].
  simpl in Hprep.
  destruct (ret2 <? 0); [discriminate|].
  unfold ethnl_reply_init, genlmsg_new.
  destruct (alloc_skb _) as [cap|]; [|discriminate].
  unfold genlmsg_put, put_item.
  destruct (skb_tailroom _ <? _); simpl; [discriminate|].
  match goal with
  | |- context [ethnl_fill_dev dev ?ty ?skb] =>
      pose proof (ethnl_fill_dev_adds dev ty skb) as (_ & ext1 & Hd1 & Hf1)
  end.
  destruct (ethnl_fill_dev dev _ _) as [r1 skb1]. simpl in Hd1.
  destruct (r1 <? 0); [discriminate|].
  simpl fill_reply.
  pose proof (fill_settings_adds data2 Hprep skb1) as (_ & ext2 & Hd2 & Hf2).
  destruct (Settings.fill_settings data2 skb1) as [r2 skb2]. simpl in Hd2.
  destruct (r2 <? 0); [discriminate|].
  simpl. intros [= <-]. simpl. rewrite Hd2, Hd1.
  apply Forall_app; split; [apply Forall_app; split|].
  - constructor; [exact I|exact Hf1].
  - exact Hf2.
  - constructor; [exact I|constructor].
Qed.

End WithDriver.

#[local] Existing Instance sample_codec.


Import MoreSamples.

Lemma alloc_exact_room (size c : Z) : alloc_exact size = Some c -> size <= c.
Proof.
  unfold alloc_exact. destruct (size <? 0); [discriminate|].
  intros [= <-]. lia.
Qed.

(** A GET request without a device. *)
Lemma ethnl_get_doit_no_device_witness :
  let refused :=
    {| dr_ret := - EINVAL;
       dr_info := GENL_SET_ERR_MSG Samples.no_info
                    "device not specified in do request";
       dr_net := Samples.sample_net; dr_reply := None |} in
  ethnl_get_doit alloc_exact reply_ok (Some Settings.settings_request_ops)
    (Some Samples.fresh_settings_data) Samples.sample_net nodev_msg
    Samples.no_info = refused
  /\ ethnl_get_doit alloc_exact reply_ok (Some Params.params_request_ops)
       (Some Samples.fresh_params_data) Samples.sample_net nodev_msg
       Samples.no_info = refused.
Proof.
  apply (ethnl_get_doit_no_device alloc_exact reply_ok Samples.sample_net
           nodev_msg Samples.no_info Samples.fresh_settings_data
           Samples.fresh_params_data
           [None; None; Some (DU32 0); None; None; None; None; None]
           [None; None; Some (DU32 0); None; None; None; None; None]);
    reflexivity.
Defined.

(** The parameters of [eth0], in a buffer of the 300 bytes asked for. *)
Lemma get_params_reply_fits_witness :
  let r := Params.parse_params Samples.sample_net Samples.fresh_params_data
             Samples.get_zero_mask_msg Samples.no_info in
  let data := snd (fst (fst r)) in
  let p := Params.prepare_params
             (ethnl_init_reply_data Params.params_request_ops data Samples.eth0)
             Samples.eth0 (Some (snd (fst r))) in
  let msg :=
    {| skb_data := IMsgHdr Params.ETHNL_CMD_SET_PARAMS
                   :: dev_items Samples.eth0 Params.ETHTOOL_A_PARAMS_DEV
                   ++ params_items (snd (fst p)) ++ [IMsgEnd];
       skb_end := 300 |} in
  skb_len msg <= 300
  /\ ethnl_get_doit alloc_exact reply_ok (Some Params.params_request_ops)
       (Some Samples.fresh_params_data) Samples.sample_net
       Samples.get_zero_mask_msg Samples.no_info
     = {| dr_ret := reply_ok msg;
          dr_info := default (snd (fst r)) (snd p);
          dr_net := dev_put (snd r) Samples.eth0; dr_reply := Some msg |}.
Proof.
  intros r data p.
  assert (Hparse : r = (fst (fst (fst r)), data, snd (fst r), snd r))
    by reflexivity.
  assert (Hret : 0 <= fst (fst (fst r))) by (vm_compute; discriminate).
  assert (Hdev : req_dev (reqinfo_base data) = Some Samples.eth0)
    by reflexivity.
  assert (Hname : (String.length (name Samples.eth0) < IFNAMSIZ)%nat)
    by (vm_compute; lia).
  assert (Hprep : p = (fst (fst p), snd (fst p), snd p)) by reflexivity.
  assert (Hret2 : 0 <= fst (fst p)) by (vm_compute; discriminate).
  assert (Hcap : alloc_exact (nlmsg_total_size (genlmsg_total_size
                   (Params.params_size (snd (fst p))))) = Some 300)
    by reflexivity.
  exact (get_params_reply_fits alloc_exact reply_ok Samples.sample_net (snd r)
           Samples.get_zero_mask_msg Samples.no_info (snd (fst r))
           Samples.fresh_params_data data (snd (fst p)) Samples.eth0 (snd p)
           (fst (fst (fst r))) (fst (fst p)) 300
           alloc_exact_room Hparse Hret Hdev Hname Hprep Hret2 Hcap).
Defined.

(** The link settings of [eth3], which has a pass-phrase, asked for
    without privileges. *)
Lemma get_settings_reply_hides_sopass_witness :
  let r := ethnl_get_doit alloc_exact reply_ok
             (Some Settings.settings_request_ops)
             (Some Samples.fresh_settings_data) Samples.dump_net get_eth3_msg
             Samples.no_info in
  Forall no_binary (skb_data (default (Samples.empty_skb 0) (dr_reply r))).
Proof.
  intros r.
  apply (get_settings_reply_hides_sopass alloc_exact reply_ok Samples.dump_net
           get_eth3_msg Samples.no_info Samples.fresh_settings_data
           (default (Samples.empty_skb 0) (dr_reply r)));
    reflexivity.
Defined.

End ReplyFacts.

(** ** SET_PARAMS: references, notifications, channel counts *)

Module SetParamsFacts.
Import Nl Dev Netlink Params Calls ParamsSetFacts DevGetAllFacts.

Section WithDriver.
Context {drv : Type}.

Lemma with_priv_priv (dev : net_device drv) : with_priv dev (priv dev) = dev.
Proof. destruct dev. reflexivity. Qed.

Lemma nla_parse_from_negative (maxtype : nat) (policy : list nla_policy)
    (attrs : list nlattr) :
  forall tb e, nla_parse_from tb maxtype policy attrs = inl e -> e < 0.
Proof.
  induction attrs as [|[ty d] rest IH]; intros tb e; simpl; [discriminate|].
  destruct (maxtype <? ty)%nat; [apply IH|].
  destruct (policy !! ty) as [p|]; [|apply IH].
  destruct (validate_nla p d); [apply IH|].
  intros [= <-]. unfold EINVAL. lia.
Qed.

Lemma nla_parse_negative (maxtype : nat) (policy : list nla_policy)
    (attrs : list nlattr) (e : Z) :
  nla_parse maxtype policy attrs = inl e -> e < 0.
Proof. apply nla_parse_from_negative. Qed.

Ltac outcome_none dev :=
  cbn [fst snd];
  split; [exists (priv dev); symmetry; apply with_priv_priv|];
  left; split; [reflexivity|]; try (unfold EOPNOTSUPP, EINVAL; lia).

Ltac outcome_call :=
  cbn [fst snd];
  split; [eexists; reflexivity|];
  right; eexists; split; [reflexivity|]; split; [exact I|];
  match goal with
  | |- context [?r <? 0] => destruct (Z.ltb_spec r 0); [left; assumption|right; reflexivity]
  end.

Lemma update_coalesce_outcome (info : genl_info) (dev : net_device drv)
    (nest : option nla_data) :
  update_outcome dev is_set_coalesce (update_coalesce info dev nest).
Proof.
  unfold update_coalesce, update_outcome.
  destruct nest; [|outcome_none dev].
  destruct (get_coalesce (ops dev)) as [get|]; [|outcome_none dev].
  destruct (set_coalesce (ops dev)) as [set|]; [|outcome_none dev].
  destruct (get (priv dev)) as [ret data].
  destruct (Z.ltb_spec ret 0); [outcome_none dev; lia|].
  destruct (nla_parse _ _ _) as [e|tb] eqn:Hp.
  { apply nla_parse_negative in Hp. outcome_none dev; lia. }
  match goal with |- context [let (_, _) := ?x in _] => destruct x as [d m] end.
  destruct (negb m); [outcome_none dev|].
  destruct (set d (priv dev)) as [r p]. outcome_call.
Qed.

Lemma update_ring_outcome (info : genl_info) (dev : net_device drv)
    (nest : option nla_data) :
  update_outcome dev is_set_ringparam (update_ring info dev nest).
Proof.
  unfold update_ring, update_outcome.
  destruct nest; [|outcome_none dev].
  destruct (get_ringparam (ops dev)) as [get|]; [|outcome_none dev].
  destruct (set_ringparam (ops dev)) as [set|]; [|outcome_none dev].
  destruct (nla_parse _ _ _) as [e|tb] eqn:Hp.
  { apply nla_parse_negative in Hp. outcome_none dev; lia. }
  rewrite !ethnl_update_u32_spec.
  match goal with |- context [if negb ?m then _ else _] => destruct (negb m) end;
    [outcome_none dev|].
  match goal with |- context [match ?x with Some _ => _ | None => _ end] =>
    destruct x end; [outcome_none dev|].
  match goal with |- context [let (_, _) := ?x in _] => destruct x as [r p] end.
  outcome_call.
Qed.

Lemma update_pause_outcome (info : genl_info) (dev : net_device drv)
    (nest : option nla_data) :
  update_outcome dev is_set_pauseparam (update_pause info dev nest).
Proof.
  unfold update_pause, update_outcome.
  destruct nest; [|outcome_none dev].
  destruct (get_pauseparam (ops dev)) as [get|]; [|outcome_none dev].
  destruct (set_pauseparam (ops dev)) as [set|]; [|outcome_none dev].
  destruct (nla_parse _ _ _) as [e|tb] eqn:Hp.
  { apply nla_parse_negative in Hp. outcome_none dev; lia. }
  rewrite !ethnl_update_u32_spec.
  match goal with |- context [if negb ?m then _ else _] => destruct (negb m) end;
    [outcome_none dev|].
  match goal with |- context [let (_, _) := ?x in _] => destruct x as [r p] end.
  outcome_call.
Qed.

Lemma update_channels_outcome (info : genl_info) (dev : net_device drv)
    (nest : option nla_data) :
  update_outcome dev is_set_channels (update_channels info dev nest).
Proof.
  unfold update_channels, update_outcome.
  destruct nest; [|outcome_none dev].
  destruct (get_channels (ops dev)) as [get|]; [|outcome_none dev].
  destruct (set_channels (ops dev)) as [set|]; [|outcome_none dev].
  destruct (nla_parse _ _ _) as [e|tb] eqn:Hp.
  { apply nla_parse_negative in Hp. outcome_none dev; lia. }
  rewrite !ethnl_update_u32_spec.
  match goal with |- context [if negb ?m then _ else _] => destruct (negb m) end;
    [outcome_none dev|].
  match goal with |- context [match ?x with Some _ => _ | None => _ end] =>
    destruct x end; [outcome_none dev|].
  match goal with |- context [let (_, _) := ?x in _] => destruct x as [r p] end.
  outcome_call.
Qed.

(** The registry after the device was held, changed by its driver and
    given back. *)
Lemma store_put_balanced (n : net drv) (dev dev' : net_device drv) :
  ifindex dev' = ifindex dev ->
  same_registry n (dev_put (dev_store (dev_hold n (ifindex dev)) dev') dev').
Proof.
  intros Hidx. split.
  - intros i. simpl. rewrite Hidx. destruct (i =? ifindex dev); lia.
  - simpl. rewrite map_map. apply map_ext. intros l.
    rewrite map_map. apply map_ext. intros d.
    destruct (Z.eqb_spec (ifindex d) (ifindex dev')); congruence.
Qed.

Lemma same_registry_refl (n : net drv) : same_registry n n.
Proof. split; reflexivity. Qed.

Lemma put_hold_same (n : net drv) (d : net_device drv) :
  same_registry n (dev_put (dev_hold n (ifindex d)) d).
Proof.
  split; [|reflexivity]. intros i. simpl. destruct (i =? ifindex d); lia.
Qed.

(** X12.  A SET_PARAMS request holds no reference when it returns and
    leaves every device in its place: whatever the outcome, the reference
    counts are what they were and the buckets hold the same devices. *)
Theorem ethnl_set_params_references (n : net drv) (nlhdr : nlmsghdr)
    (info : genl_info) :
  same_registry n (sr_net (ethnl_set_params n nlhdr info)).
Proof.
  unfold ethnl_set_params.
  destruct (nla_parse _ _ _) as [e|tb]; [apply same_registry_refl|].
  pose proof (ethnl_dev_get_net n info (tb_get tb ETHTOOL_A_PARAMS_DEV)) as Hg.
  destruct (ethnl_dev_get n info _) as [[[e|dev] info1] n1].
  { destruct Hg as [->|[d ->]]; [apply same_registry_refl|apply put_hold_same]. }
  destruct Hg as [_ ->].
  destruct (ethnl_before_ops dev (priv dev) <? 0); [apply put_hold_same|].
  pose proof (update_coalesce_outcome info1 dev
                (tb_get tb ETHTOOL_A_PARAMS_COALESCE)) as [[p1 Hd1] _].
  destruct (update_coalesce info1 dev _) as [[[ret1 info2] dev1] c1].
  cbn [fst snd] in Hd1. subst dev1.
  destruct (ret1 <? 0); [apply store_put_balanced; reflexivity|].
  pose proof (update_ring_outcome info2 (with_priv dev p1)
                (tb_get tb ETHTOOL_A_PARAMS_RING)) as [[p2 Hd2] _].
  destruct (update_ring info2 _ _) as [[[ret2 info3] dev2] c2].
  cbn [fst snd] in Hd2. subst dev2.
  destruct (ret2 <? 0); [apply store_put_balanced; reflexivity|].
  pose proof (update_pause_outcome info3 (with_priv (with_priv dev p1) p2)
                (tb_get tb ETHTOOL_A_PARAMS_PAUSE)) as [[p3 Hd3] _].
  destruct (update_pause info3 _ _) as [[[ret3 info4] dev3] c3].
  cbn [fst snd] in Hd3. subst dev3.
  destruct (ret3 <? 0); [apply store_put_balanced; reflexivity|].
  pose proof (update_channels_outcome info4
                (with_priv (with_priv (with_priv dev p1) p2) p3)
                (tb_get tb ETHTOOL_A_PARAMS_CHANNELS)) as [[p4 Hd4] _].
  destruct (update_channels info4 _ _) as [[[ret4 info5] dev4] c4].
  cbn [fst snd] in Hd4. subst dev4.
  destruct (ret4 <? 0); apply store_put_balanced; reflexivity.
Qed.

Ltac no_calls :=
  (split; [|split; [|split; [|split]]]);
  first [ intros Hb; exfalso; apply Hb; reflexivity | reflexivity ].

Ltac outcome_cases H :=
  unfold update_outcome in H; cbn [fst snd] in H;
  destruct H as [_ [[-> ?] | (? & -> & ? & [ ? | -> ])]].

(** X13.  A SET_PARAMS request notifies a category only when it has called
    the driver's operation that sets it: a bit of the mask passed to
    [ethtool_notify] stands for a call made, and a request that made no
    call notifies nothing. *)
Theorem set_params_notifies_changes (n : net drv) (nlhdr : nlmsghdr)
    (info : genl_info) :
  let r := ethnl_set_params n nlhdr info in
  (Z.land (sr_notify r) ETHTOOL_IM_PARAMS_COALESCE <> 0 ->
   Exists is_set_coalesce (sr_calls r))
  /\ (Z.land (sr_notify r) ETHTOOL_IM_PARAMS_RING <> 0 ->
      Exists is_set_ringparam (sr_calls r))
  /\ (Z.land (sr_notify r) ETHTOOL_IM_PARAMS_PAUSE <> 0 ->
      Exists is_set_pauseparam (sr_calls r))
  /\ (Z.land (sr_notify r) ETHTOOL_IM_PARAMS_CHANNELS <> 0 ->
      Exists is_set_channels (sr_calls r))
  /\ (sr_calls r = [] -> sr_notify r = 0).
Proof.
  intros r. subst r. unfold ethnl_set_params.
  destruct (nla_parse _ _ _) as [e|tb];
    [cbn [sr_notify sr_calls]; no_calls|].
  destruct (ethnl_dev_get n info _) as [[[e|dev] info1] n1];
    [cbn [sr_notify sr_calls]; no_calls|].
  destruct (ethnl_before_ops dev (priv dev) <? 0);
    [cbn [sr_notify sr_calls]; no_calls|].
  pose proof (update_coalesce_outcome info1 dev
                (tb_get tb ETHTOOL_A_PARAMS_COALESCE)) as H1.
  destruct (update_coalesce info1 dev _) as [[[ret1 info2] dev1] c1].
  pose proof (update_ring_outcome info2 dev1
                (tb_get tb ETHTOOL_A_PARAMS_RING)) as H2.
  destruct (update_ring info2 dev1 _) as [[[ret2 info3] dev2] c2].
  pose proof (update_pause_outcome info3 dev2
                (tb_get tb ETHTOOL_A_PARAMS_PAUSE)) as H3.
  destruct (update_pause info3 dev2 _) as [[[ret3 info4] dev3] c3].
  pose proof (update_channels_outcome info4 dev3
                (tb_get tb ETHTOOL_A_PARAMS_CHANNELS)) as H4.
  destruct (update_channels info4 dev3 _) as [[[ret4 info5] dev4] c4].
  outcome_cases H1; outcome_cases H2; outcome_cases H3; outcome_cases H4;
    repeat match goal with
           | |- context [?a <? 0] => destruct (Z.ltb_spec a 0); try lia
           | |- context [?a =? 0] => destruct (Z.eqb_spec a 0); try lia
           end;
    cbn [sr_notify sr_calls negb app];
    (split; [|split; [|split; [|split]]]);
    match goal with
    | |- _ <> 0 -> _ =>
        intros Hb;
        first [ exfalso; apply Hb; reflexivity
              | repeat first [ apply Exists_cons_hd; assumption
                             | apply Exists_cons_tl ] ]
    | |- _ = [] -> _ => intros Hc; first [ reflexivity | discriminate Hc ]
    end.
Qed.

Lemma proposed_over (cur max : Z) (tb : list (option nla_data)) (ty : nat) :
  cur <= max ->
  max < proposed cur (tb_get tb ty) ->
  tb_ref tb ty = Some (InTable ty).
Proof.
  unfold proposed, tb_ref. destruct (tb_get tb ty); [reflexivity|lia].
Qed.

(** X14.  On a device whose channel counts are within the maximums it
    reports, the driver is asked for new counts only when each of them is
    within its maximum, and then for the counts the request proposes over
    the current ones; a request that proposes a count above its maximum
    is refused with [-EINVAL], the error names an attribute of the
    request, no call is made and the device is as it was. *)
Theorem update_channels_within_max (info : genl_info) (dev : net_device drv)
    (nst : nla_data) (tb : list (option nla_data))
    (get : drv -> ethtool_channels)
    (set : ethtool_channels -> drv -> Z * drv) :
  get_channels (ops dev) = Some get ->
  set_channels (ops dev) = Some set ->
  nla_parse ETHTOOL_A_CHANNELS_MAX channels_policy (nla_nested nst) = inr tb ->
  channels_within_max (get (priv dev)) = true ->
  let cur := get (priv dev) in
  let new := proposed_channels cur tb in
  let res := update_channels info dev (Some nst) in
  (forall c, In c (snd res) ->
     c = CallSetChannels cur new /\ channels_within_max new = true)
  /\ (channels_within_max new = false ->
      fst (fst (fst res)) = - EINVAL
      /\ snd res = [] /\ snd (fst res) = dev
      /\ _msg (snd (fst (fst res)))
         = Some "requested channel count exceeeds maximum"%string
      /\ exists ty, bad_attr (snd (fst (fst res))) = Some (InTable ty)).
Proof.
  intros Hget Hset Hparse Hcur cur new res. subst cur new res.
  unfold update_channels. rewrite Hget, Hset, Hparse.
  rewrite !ethnl_update_u32_spec.
  unfold proposed_channels, channels_within_max in *.
  destruct (get (priv dev)) as [mrx mtx mother mcomb crx ctx cother ccomb].
  unfold set_counts.
  cbn [rx_count tx_count other_count combined_count max_rx max_tx max_other
       max_combined] in *.
  apply andb_prop in Hcur as [Hcur H4]. apply andb_prop in Hcur as [Hcur H3].
  apply andb_prop in Hcur as [H1 H2].
  apply Z.leb_le in H1, H2, H3, H4.
  set (n1 := proposed crx (tb_get tb ETHTOOL_A_CHANNELS_RX_COUNT)).
  set (n2 := proposed ctx (tb_get tb ETHTOOL_A_CHANNELS_TX_COUNT)).
  set (n3 := proposed cother (tb_get tb ETHTOOL_A_CHANNELS_OTHER_COUNT)).
  set (n4 := proposed ccomb (tb_get tb ETHTOOL_A_CHANNELS_COMBINED_COUNT)).
  destruct (negb (negb (crx =? n1) || negb (ctx =? n2) || negb (cother =? n3)
                  || negb (ccomb =? n4))) eqn:Hmod.
  { apply negb_true_iff in Hmod.
    apply orb_false_elim in Hmod as [Hmod E4].
    apply orb_false_elim in Hmod as [Hmod E3].
    apply orb_false_elim in Hmod as [E1 E2].
    apply negb_false_iff, Z.eqb_eq in E1, E2, E3, E4.
    cbn [fst snd]. split; [intros c []|].
    rewrite <- E1, <- E2, <- E3, <- E4.
    rewrite (proj2 (Z.leb_le _ _) H1), (proj2 (Z.leb_le _ _) H2),
      (proj2 (Z.leb_le _ _) H3), (proj2 (Z.leb_le _ _) H4).
    discriminate. }
  destruct (Z.ltb_spec mrx n1) as [L1|L1].
  { rewrite (proposed_over crx mrx tb _ H1 L1). cbn [fst snd].
    split; [intros c []|]. intros _. repeat split. eexists. reflexivity. }
  destruct (Z.ltb_spec mtx n2) as [L2|L2].
  { rewrite (proposed_over ctx mtx tb _ H2 L2). cbn [fst snd].
    split; [intros c []|]. intros _. repeat split. eexists. reflexivity. }
  destruct (Z.ltb_spec mother n3) as [L3|L3].
  { rewrite (proposed_over cother mother tb _ H3 L3). cbn [fst snd].
    split; [intros c []|]. intros _. repeat split. eexists. reflexivity. }
  destruct (Z.ltb_spec mcomb n4) as [L4|L4].
  { rewrite (proposed_over ccomb mcomb tb _ H4 L4). cbn [fst snd].
    split; [intros c []|]. intros _. repeat split. eexists. reflexivity. }
  assert (Hw : (n1 <=? mrx) && (n2 <=? mtx) && (n3 <=? mother) && (n4 <=? mcomb)
               = true).
  { rewrite (proj2 (Z.leb_le _ _) L1), (proj2 (Z.leb_le _ _) L2),
      (proj2 (Z.leb_le _ _) L3), (proj2 (Z.leb_le _ _) L4). reflexivity. }
  match goal with
  | |- context [__ethtool_set_channels ?d ?o ?n ?p] =>
      destruct (__ethtool_set_channels d o n p)
  end.
  cbn [fst snd]. split.
  - intros c [<-|[]]. split; [reflexivity|exact Hw].
  - rewrite Hw. discriminate.
Qed.

Lemma proposed_idem (cur : Z) (attr : option nla_data) :
  proposed (proposed cur attr) attr = proposed cur attr.
Proof. destruct attr; reflexivity. Qed.

(** X15.  A ring update that was applied does nothing when it is repeated.
    On a driver that reports the sizes it was last given, the same request
    on the device as the first one left it makes no call and returns 0, so
    that nothing is notified. *)
Theorem update_ring_repeated (info info1 : genl_info)
    (dev dev1 : net_device drv) (nst : nla_data)
    (get : drv -> ethtool_ringparam)
    (set : ethtool_ringparam -> drv -> Z * drv) (calls : list set_call) :
  get_ringparam (ops dev) = Some get ->
  set_ringparam (ops dev) = Some set ->
  (forall d p, get (snd (set d p)) = d) ->
  update_ring info dev (Some nst) = (1, info1, dev1, calls) ->
  update_ring info1 dev1 (Some nst) = (0, info1, dev1, []).
Proof.
  intros Hget Hset Hlaw. unfold update_ring at 1. rewrite Hget, Hset.
  destruct (nla_parse _ _ _) as [e|tb] eqn:Hparse; [intros [= He]|].
  { apply nla_parse_negative in Hparse. lia. }
  destruct (get (priv dev)) as [mrx mmini mjumbo mtx crx cmini cjumbo ctx].
  rewrite !ethnl_update_u32_spec.
  unfold set_rx_pending, set_rx_mini_pending, set_rx_jumbo_pending, set_tx_pending.
  cbn [rx_pending rx_mini_pending rx_jumbo_pending tx_pending rx_max_pending
       rx_mini_max_pending rx_jumbo_max_pending tx_max_pending].
  match goal with |- context [if negb ?m then _ else _] => destruct (negb m) end;
    [intros [= ? ? ?]; discriminate|].
  match goal with |- context [match ?x with Some _ => _ | None => _ end] =>
    destruct x end; [intros [= He]; unfold EINVAL in He; lia|].
  match goal with |- context [set ?d (priv dev)] =>
    pose proof (Hlaw d (priv dev)) as Hd; destruct (set d (priv dev)) as [r p]
  end.
  cbn [snd] in Hd. intros [= _ <- <- _].
  unfold update_ring. cbn [ops priv with_priv]. rewrite Hget, Hset, Hparse, Hd.
  rewrite !ethnl_update_u32_spec.
  unfold set_rx_pending, set_rx_mini_pending, set_rx_jumbo_pending, set_tx_pending.
  cbn [rx_pending rx_mini_pending rx_jumbo_pending tx_pending rx_max_pending
       rx_mini_max_pending rx_jumbo_max_pending tx_max_pending].
  rewrite !proposed_idem, !Z.eqb_refl. reflexivity.
Qed.


End WithDriver.
Import MoreSamples.

(** Sixteen send channels asked of [eth6], which has eight. *)
Lemma update_channels_within_max_witness :
  let cur := sample_channels in
  let new := proposed_channels cur channels_tb in
  let res := update_channels Samples.no_info eth6 (Some channels_nest) in
  (forall c, In c (snd res) ->
     c = CallSetChannels cur new /\ channels_within_max new = true)
  /\ (channels_within_max new = false ->
      fst (fst (fst res)) = - EINVAL
      /\ snd res = [] /\ snd (fst res) = eth6
      /\ _msg (snd (fst (fst res)))
         = Some "requested channel count exceeeds maximum"%string
      /\ exists ty, bad_attr (snd (fst (fst res))) = Some (InTable ty)).
Proof.
  apply (update_channels_within_max Samples.no_info eth6 channels_nest
           channels_tb (fun _ => sample_channels) (fun _ p => (0, p)));
    reflexivity.
Defined.

(** 512 rx descriptors asked of [eth0] twice. *)
Lemma update_ring_repeated_witness :
  let first := update_ring Samples.no_info Samples.eth0 (Some rx_512_nest) in
  update_ring (snd (fst (fst first))) (snd (fst first)) (Some rx_512_nest)
  = (0, snd (fst (fst first)), snd (fst first), []).
Proof.
  intros first.
  apply (update_ring_repeated Samples.no_info (snd (fst (fst first)))
           Samples.eth0 (snd (fst first)) rx_512_nest Samples.sp_ring
           (fun r p => (0, {| Samples.sp_ring := r;
                              Samples.sp_coalesce := Samples.sp_coalesce p |}))
           (snd first));
    [reflexivity | reflexivity | intros d p; reflexivity | reflexivity].
Defined.

End SetParamsFacts.

(** ** SET_SETTINGS *)

Module SetSettingsFacts.
Import Nl Dev Netlink Settings SettingsSet Calls DevGetAllFacts SetParamsFacts.

(** An attribute that its policy refuses fails the parse, wherever it is
    in the message. *)
Lemma nla_parse_from_rejects (maxtype : nat) (policy : list nla_policy)
    (p : nla_policy) (ty : nat) (d : nla_data) (attrs : list nlattr) :
  (ty <= maxtype)%nat ->
  policy !! ty = Some p ->
  validate_nla p d = false ->
  In (ty, d) attrs ->
  forall tb, nla_parse_from tb maxtype policy attrs = inl (- EINVAL).
Proof.
  intros Hle Hpol Hval. induction attrs as [|[ty' d'] rest IH]; [intros []|].
  intros [Heq|Hin] tb; simpl.
  - inversion Heq; subst ty' d'.
    destruct (Nat.ltb_spec maxtype ty); [lia|]. rewrite Hpol, Hval. reflexivity.
  - destruct (maxtype <? ty')%nat; [apply IH; assumption|].
    destruct (policy !! ty') as [p'|]; [|apply IH; assumption].
    destruct (validate_nla p' d'); [apply IH; assumption|reflexivity].
Qed.

Lemma ethnl_update_u8_keeps (dst : Z) (attr : option nla_data) :
  fst (ethnl_update_u8 dst attr) = false -> snd (ethnl_update_u8 dst attr) = dst.
Proof.
  unfold ethnl_update_u8. destruct attr as [d|]; [|reflexivity].
  destruct (dst =? nla_get_u8 d); [reflexivity|discriminate].
Qed.

(** X16.  A link info update changes nothing but the port, the PHY address
    and the MDI-X control: speed, duplex, autonegotiation, the MDI-X
    status and the transceiver are as before.  When it reports no change
    or an error the settings are as they were, and a nest that carries
    the MDI-X status or the transceiver is refused with [-EINVAL]. *)
Theorem update_linkinfo_read_only (nest : option nla_data)
    (l : ethtool_link_settings) :
  let (ret, l') := update_linkinfo nest l in
  (speed l' = speed l /\ duplex l' = duplex l /\ autoneg l' = autoneg l
   /\ eth_tp_mdix l' = eth_tp_mdix l /\ transceiver l' = transceiver l)
  /\ (ret <= 0 -> l' = l)
  /\ (forall nst d, nest = Some nst ->
        In (ETHTOOL_A_LINKINFO_TP_MDIX, d) (nla_nested nst)
        \/ In (ETHTOOL_A_LINKINFO_TRANSCEIVER, d) (nla_nested nst) ->
        ret = - EINVAL /\ l' = l).
Proof.
  unfold update_linkinfo. destruct nest as [nst|].
  { destruct (nla_parse _ _ _) as [e|tb] eqn:Hp.
    - split; [repeat split|]. split; [reflexivity|].
      intros nst' d [= <-] [Hin|Hin]; split; try reflexivity.
      + unfold nla_parse in Hp.
        rewrite (nla_parse_from_rejects ETHTOOL_A_LINKINFO_MAX
                   set_linkinfo_policy (pol NLA_REJECT)
                   ETHTOOL_A_LINKINFO_TP_MDIX d (nla_nested nst)) in Hp;
          [congruence|unfold ETHTOOL_A_LINKINFO_MAX, ETHTOOL_A_LINKINFO_TRANSCEIVER,
                        ETHTOOL_A_LINKINFO_TP_MDIX; lia|reflexivity|reflexivity
          |assumption].
      + unfold nla_parse in Hp.
        rewrite (nla_parse_from_rejects ETHTOOL_A_LINKINFO_MAX
                   set_linkinfo_policy (pol NLA_REJECT)
                   ETHTOOL_A_LINKINFO_TRANSCEIVER d (nla_nested nst)) in Hp;
          [congruence|unfold ETHTOOL_A_LINKINFO_MAX; lia|reflexivity|reflexivity
          |assumption].
    - unfold set_eth_tp_mdix_ctrl, set_phy_address, set_port.
      pose proof (ethnl_update_u8_keeps (port l)
                    (tb_get tb ETHTOOL_A_LINKINFO_PORT)) as K1.
      destruct (ethnl_update_u8 (port l) _) as [m1 v1].
      cbn [speed duplex autoneg eth_tp_mdix transceiver port phy_address
           eth_tp_mdix_ctrl].
      pose proof (ethnl_update_u8_keeps (phy_address l)
                    (tb_get tb ETHTOOL_A_LINKINFO_PHYADDR)) as K2.
      destruct (ethnl_update_u8 (phy_address l) _) as [m2 v2].
      cbn [speed duplex autoneg eth_tp_mdix transceiver port phy_address
           eth_tp_mdix_ctrl].
      pose proof (ethnl_update_u8_keeps (eth_tp_mdix_ctrl l)
                    (tb_get tb ETHTOOL_A_LINKINFO_TP_MDIX_CTRL)) as K3.
      destruct (ethnl_update_u8 (eth_tp_mdix_ctrl l) _) as [m3 v3].
      cbn [fst snd] in K1, K2, K3.
      cbn [speed duplex autoneg eth_tp_mdix transceiver port phy_address
           eth_tp_mdix_ctrl].
      split; [repeat split|]. split.
      + destruct m1, m2, m3; try (intros; lia).
        intros _. rewrite K1, K2, K3 by reflexivity. destruct l. reflexivity.
      + intros nst' d [= <-] [Hin|Hin]; exfalso; unfold nla_parse in Hp.
        * rewrite (nla_parse_from_rejects ETHTOOL_A_LINKINFO_MAX
                     set_linkinfo_policy (pol NLA_REJECT)
                     ETHTOOL_A_LINKINFO_TP_MDIX d (nla_nested nst)) in Hp;
            [discriminate|unfold ETHTOOL_A_LINKINFO_MAX,
                            ETHTOOL_A_LINKINFO_TRANSCEIVER,
                            ETHTOOL_A_LINKINFO_TP_MDIX; lia|reflexivity
            |reflexivity|assumption].
        * rewrite (nla_parse_from_rejects ETHTOOL_A_LINKINFO_MAX
                     set_linkinfo_policy (pol NLA_REJECT)
                     ETHTOOL_A_LINKINFO_TRANSCEIVER d (nla_nested nst)) in Hp;
            [discriminate|unfold ETHTOOL_A_LINKINFO_MAX; lia|reflexivity
            |reflexivity|assumption]. }
  split; [repeat split|]. split; [reflexivity|]. intros nst d [=].
Qed.

Ltac settings_cases :=
  (split; [|split; [|split]]);
  match goal with
  | |- _ <> 0 -> _ =>
      intros Hb;
      first [ exfalso; apply Hb; reflexivity
            | repeat first [ apply Exists_cons_hd; exact I
                           | apply Exists_cons_tl ] ]
  | |- _ = [] -> _ => intros Hc; first [ reflexivity | discriminate Hc ]
  | |- _ = 0 => reflexivity
  end.

Section WithDriver.
Context {drv : Type} {codec : bitset_codec}.
Variable ethtool_ops_of : net_device drv -> settings_ops drv.
Variable ethnl_update_bitfield32 : Z -> option nla_data -> bool * Z.
Variable ethnl_update_binary : list Z -> Z -> option nla_data -> bool * list Z.

(** What the update of the link settings hands back, started with an empty
    request mask: the device with the state its driver left, at most one
    call, and a mask of link info and link modes that is empty unless the
    call was made. *)
Lemma update_ksettings_outcome (info : genl_info)
    (tb : list (option nla_data)) (dev : net_device drv)
    (eops : settings_ops drv) :
  let res := ethnl_update_ksettings info tb dev eops 0 in
  (exists p, snd (fst (fst res)) = with_priv dev p)
  /\ ((snd (fst res) = [] /\ snd res = 0)
      \/ (exists ks, snd (fst res) = [CallSetLinkKsettings ks]
                     /\ (snd res = 0 \/ snd res = 1 \/ snd res = 2
                         \/ snd res = 3))).
Proof.
  unfold ethnl_update_ksettings, ethnl_set_link_ksettings.
  destruct (ethnl_get_link_ksettings (Some info) dev) as [[ret ks] oinfo].
  destruct (ret <? 0).
  { cbn [fst snd]. split; [exists (priv dev); symmetry; apply with_priv_priv|].
    left. split; reflexivity. }
  destruct (update_linkinfo _ _) as [ret1 l1].
  destruct (ret1 <? 0).
  { cbn [fst snd]. split; [exists (priv dev); symmetry; apply with_priv_priv|].
    left. split; reflexivity. }
  destruct (update_link_modes _ _) as [ret2 ks2].
  destruct (ret2 <? 0).
  { cbn [fst snd]. split; [exists (priv dev); symmetry; apply with_priv_priv|].
    left. split; reflexivity. }
  destruct (negb (ret1 =? 0)), (negb (ret2 =? 0)); cbn [negb Z.eqb Z.lor];
    try match goal with
        | |- context [set_link_ksettings eops ?k ?p] =>
            destruct (set_link_ksettings eops k p) as [r p']
        end;
    try match goal with
        | |- context [?r <? 0] => destruct (r <? 0)
        end;
    cbn [fst snd];
    (split;
     [ first [ eexists; reflexivity
             | exists (priv dev); symmetry; apply with_priv_priv ]
     | first [ left; split; reflexivity
             | right; eexists; split; [reflexivity|]; vm_compute; tauto ] ]).
Qed.

Lemma update_wol_outcome (info : genl_info) (nest : option nla_data)
    (dev : net_device drv) (eops : settings_ops drv) :
  let res := update_wol ethnl_update_bitfield32 ethnl_update_binary info nest
               dev eops in
  (exists p, snd (fst res) = with_priv dev p)
  /\ ((snd res = [] /\ fst (fst (fst res)) <= 0)
      \/ (exists w, snd res = [CallSetWol w]
                    /\ (fst (fst (fst res)) < 0 \/ fst (fst (fst res)) = 1))).
Proof.
  unfold update_wol.
  destruct nest as [nst|].
  2:{ cbn [fst snd]. split; [exists (priv dev); symmetry; apply with_priv_priv|].
      left. split; [reflexivity|lia]. }
  destruct (nla_parse _ _ _) as [e|tb] eqn:Hp.
  { apply nla_parse_negative in Hp. cbn [fst snd].
    split; [exists (priv dev); symmetry; apply with_priv_priv|].
    left. split; [reflexivity|lia]. }
  destruct (ethnl_get_wol (Some info) dev) as [[ret wol] oinfo].
  destruct (Z.ltb_spec ret 0).
  { cbn [fst snd]. split; [exists (priv dev); symmetry; apply with_priv_priv|].
    left. split; [reflexivity|lia]. }
  destruct (ethnl_update_bitfield32 _ _) as [m1 v1].
  destruct (ethnl_update_binary _ _ _) as [m2 v2].
  destruct m1, m2; cbn [negb Z.eqb];
    try match goal with
        | |- context [set_wol eops ?w ?p] =>
            destruct (set_wol eops w p) as [r p']
        end;
    try match goal with
        | |- context [?r <? 0] => destruct (Z.ltb_spec r 0)
        end;
    cbn [fst snd];
    (split;
     [ first [ eexists; reflexivity
             | exists (priv dev); symmetry; apply with_priv_priv ]
     | first [ left; split; [reflexivity|lia]
             | right; eexists; split; [reflexivity|]; first [left; assumption|right; reflexivity] ] ]).
Qed.



(** X19.  On a device without [get_link_ksettings], a SET_SETTINGS request
    that carries link info or link modes returns [-EOPNOTSUPP]; nothing is
    applied, not the Wake-on-LAN settings of the request either; no call
    is made to the driver and nothing is notified. *)
Theorem set_settings_unsupported (n n1 : net drv) (nlhdr : nlmsghdr)
    (info info1 : genl_info) (tb : list (option nla_data))
    (dev : net_device drv) :
  nla_parse ETHTOOL_A_SETTINGS_MAX set_settings_policy (nlmsg_attrs nlhdr)
  = inr tb ->
  ethnl_dev_get n info (tb_get tb ETHTOOL_A_SETTINGS_DEV) = (inr dev, info1, n1) ->
  0 <= ethnl_before_ops dev (priv dev) ->
  get_link_ksettings (ethtool_ops_of dev) = false ->
  is_Some (tb_get tb ETHTOOL_A_SETTINGS_LINK_INFO)
  \/ is_Some (tb_get tb ETHTOOL_A_SETTINGS_LINK_MODES) ->
  ethnl_set_settings ethtool_ops_of ethnl_update_bitfield32 ethnl_update_binary
    n nlhdr info
  = {| ssr_ret := - EOPNOTSUPP; ssr_info := info1;
       ssr_net := dev_put (dev_store n1 dev) dev;
       ssr_calls := []; ssr_notify := 0 |}.
Proof.
  intros Hparse Hdev Hbefore Hget Hnest.
  unfold ethnl_set_settings. rewrite Hparse, Hdev.
  destruct (Z.ltb_spec (ethnl_before_ops dev (priv dev)) 0); [lia|].
  cbv zeta. rewrite Hget.
  assert (Hp : bool_decide (is_Some (tb_get tb ETHTOOL_A_SETTINGS_LINK_INFO))
               || bool_decide (is_Some (tb_get tb ETHTOOL_A_SETTINGS_LINK_MODES))
               = true).
  { destruct Hnest as [H0|H0]; rewrite (bool_decide_eq_true_2 _ H0);
      [reflexivity|apply orb_true_r]. }
  rewrite Hp. reflexivity.
Qed.

End WithDriver.
#[local] Existing Instance sample_codec.
Import MoreSamples.

(** A new port and new Wake-on-LAN modes asked of a device without
    [get_link_ksettings]. *)
Lemma set_settings_unsupported_witness :
  ethnl_set_settings no_ksettings_ops sample_update_bitfield32
    sample_update_binary Samples.sample_net set_port_wol_msg Samples.no_info
  = {| ssr_ret := - EOPNOTSUPP; ssr_info := Samples.no_info;
       ssr_net := dev_put (dev_store (dev_hold Samples.sample_net 2)
                             Samples.eth0) Samples.eth0;
       ssr_calls := []; ssr_notify := 0 |}.
Proof.
  apply (set_settings_unsupported no_ksettings_ops sample_update_bitfield32
           sample_update_binary Samples.sample_net
           (dev_hold Samples.sample_net 2) set_port_wol_msg Samples.no_info
           Samples.no_info set_port_wol_tb Samples.eth0).
  - reflexivity.
  - reflexivity.
  - vm_compute. discriminate.
  - reflexivity.
  - left. eexists. reflexivity.
Defined.

End SetSettingsFacts.

(** ** Outcomes of a GET request, device list notifications *)

Module NotifyFacts.
Import Nl Dev Netlink Layout Reply Notify BufferFacts LayoutFacts ReplyFacts.

Section WithDriver.
Context {drv : Type} {codec : bitset_codec}.
Variable alloc_skb : Z -> option Z.
Variable genlmsg_reply : sk_buff -> Z.
Variable ETHNL_CMD_EVENT : Z.

(** X20.  A GET request either sends a reply, closed by the end of the
    message, and returns what sending it returned, or sends none and
    returns a negative error: it never reports success without a reply. *)
Theorem ethnl_get_doit_outcome {Q R : Type}
    (ops : option (get_request_ops drv Q R))
    (req_info : option (get_data drv Q R)) (n : net drv) (nlhdr : nlmsghdr)
    (info : genl_info) :
  let r := ethnl_get_doit alloc_skb genlmsg_reply ops req_info n nlhdr info in
  match dr_reply r with
  | Some msg => dr_ret r = genlmsg_reply msg /\ last (skb_data msg) = Some IMsgEnd
  | None => dr_ret r < 0
  end.
Proof.
  intros r. subst r. unfold ethnl_get_doit.
  destruct ops as [ops|]; [|cbn; unfold EOPNOTSUPP; lia].
  destruct req_info as [req|]; [|cbn; unfold ENOMEM; lia].
  destruct (parse_request ops n req nlhdr info) as [[[ret data] info1] n1].
  destruct (req_dev (reqinfo_base data)) as [dev|]; [|cbn; unfold EINVAL; lia].
  destruct (Z.ltb_spec ret 0); [cbn; assumption|].
  destruct (prepare_data ops _ dev (Some info1)) as [[ret2 data2] oinfo].
  destruct (Z.ltb_spec ret2 0); [cbn; assumption|].
  destruct (ethnl_reply_init _ _ _ _ _ _) as [[[rskb ehdr]|] oinfo2];
    [|cbn; unfold ENOMEM; lia].
  destruct (fill_reply ops data2 rskb) as [ret3 rskb2].
  destruct (Z.ltb_spec ret3 0); [cbn; assumption|].
  cbn. split; [reflexivity|]. apply last_snoc.
Qed.

(** X21.  [ethnl_get_doit] does not look at the size it computed.  When the
    size of the reply to a GET request for the link settings is an error
    and the allocator gives no buffer for it, the request fails with
    [-ENOMEM] and the message of a failed allocation, not with the error
    of the size. *)
Theorem get_settings_size_error_masked (n n1 : net drv) (nlhdr : nlmsghdr)
    (info info1 : genl_info) (req data data2 : @Settings.settings_data drv)
    (dev : net_device drv) (oinfo : option genl_info) (ret ret2 : Z) :
  Settings.parse_settings n req nlhdr info = (ret, data, info1, n1) ->
  0 <= ret ->
  req_dev (reqinfo_base data) = Some dev ->
  Settings.prepare_settings
    (ethnl_init_reply_data Settings.settings_request_ops data dev) dev
    (Some info1) = (ret2, data2, oinfo) ->
  0 <= ret2 ->
  Settings.settings_size data2 < 0 ->
  alloc_skb (nlmsg_total_size (genlmsg_total_size (Settings.settings_size data2)))
  = None ->
  ethnl_get_doit alloc_skb genlmsg_reply (Some Settings.settings_request_ops)
    (Some req) n nlhdr info
  = {| dr_ret := - ENOMEM;
       dr_info := GENL_SET_ERR_MSG (default info1 oinfo)
                    "failed to allocate reply message";
       dr_net := dev_put n1 dev; dr_reply := None |}.
Proof.
  intros Hparse Hret Hdev Hprep Hret2 _ Halloc.
  unfold ethnl_get_doit. simpl parse_request. rewrite Hparse, Hdev.
  rewrite (proj2 (Z.ltb_ge ret 0) Hret).
  simpl prepare_data. rewrite Hprep.
  rewrite (proj2 (Z.ltb_ge ret2 0) Hret2).
  unfold ethnl_reply_init, genlmsg_new. simpl reply_size. rewrite Halloc.
  reflexivity.
Qed.


End WithDriver.
Import MoreSamples.

(** The link settings of [eth3] with a codec whose sizes fail. *)
Lemma get_settings_size_error_masked_witness :
  let r := @Settings.parse_settings _ Samples.dump_net
             Samples.fresh_settings_data get_eth3_msg Samples.no_info in
  let data := snd (fst (fst r)) in
  let p := @Settings.prepare_settings _
             (ethnl_init_reply_data
                (@Settings.settings_request_ops _ failing_codec) data
                Samples.eth3)
             Samples.eth3 (Some (snd (fst r))) in
  @ethnl_get_doit _ failing_codec alloc_exact reply_ok _ _
    (Some (@Settings.settings_request_ops _ failing_codec))
    (Some Samples.fresh_settings_data) Samples.dump_net get_eth3_msg
    Samples.no_info
  = {| dr_ret := - ENOMEM;
       dr_info := GENL_SET_ERR_MSG (default (snd (fst r)) (snd p))
                    "failed to allocate reply message";
       dr_net := dev_put (snd r) Samples.eth3; dr_reply := None |}.
Proof.
  intros r data p.
  assert (Hparse : r = (fst (fst (fst r)), data, snd (fst r), snd r))
    by reflexivity.
  assert (Hret : 0 <= fst (fst (fst r))) by (vm_compute; discriminate).
  assert (Hdev : req_dev (reqinfo_base data) = Some Samples.eth3)
    by reflexivity.
  assert (Hprep : p = (fst (fst p), snd (fst p), snd p)) by reflexivity.
  assert (Hret2 : 0 <= fst (fst p)) by (vm_compute; discriminate).
  assert (Hsize : @Settings.settings_size _ failing_codec (snd (fst p)) < 0)
    by (vm_compute; reflexivity).
  assert (Halloc : alloc_exact (nlmsg_total_size (genlmsg_total_size
                     (@Settings.settings_size _ failing_codec (snd (fst p)))))
                   = None) by reflexivity.
  exact (@get_settings_size_error_masked _ failing_codec alloc_exact reply_ok
           Samples.dump_net (snd r) get_eth3_msg Samples.no_info (snd (fst r))
           Samples.fresh_settings_data data (snd (fst p)) Samples.eth3 (snd p)
           (fst (fst (fst r))) (fst (fst p))
           Hparse Hret Hdev Hprep Hret2 Hsize Halloc).
Defined.

#[local] Existing Instance sample_codec.


End NotifyFacts.

(** ** The achieved mask *)

Module AchievedFacts.
Import Nl Dev Netlink Unavailable.

Lemma land_lnot_absent (x c : Z) : Z.land x c = 0 -> Z.land x (Z.lnot c) = x.
Proof.
  intros H. apply Z.bits_inj'. intros n Hn.
  rewrite Z.land_spec, Z.lnot_spec by assumption.
  assert (Hb : Z.testbit (Z.land x c) n = false) by (rewrite H; apply Z.bits_0).
  rewrite Z.land_spec in Hb.
  destruct (Z.testbit x n), (Z.testbit c n); simpl in *; congruence.
Qed.

Lemma land_lnot_lor (x a b : Z) :
  Z.land (Z.land x (Z.lnot a)) (Z.lnot b) = Z.land x (Z.lnot (Z.lor a b)).
Proof.
  apply Z.bits_inj'. intros n Hn.
  rewrite !Z.land_spec, !Z.lnot_spec, Z.lor_spec by assumption.
  destruct (Z.testbit x n), (Z.testbit a n), (Z.testbit b n); reflexivity.
Qed.

Lemma land_lnot_lor_l (x a b : Z) :
  Z.land (Z.land x (Z.lnot (Z.lor a b))) a = 0.
Proof.
  apply Z.bits_inj'. intros n Hn.
  rewrite !Z.land_spec, Z.lnot_spec, Z.lor_spec, Z.bits_0 by assumption.
  destruct (Z.testbit x n), (Z.testbit a n), (Z.testbit b n); reflexivity.
Qed.

Lemma land_lnot_lor_r (x a b : Z) :
  Z.land (Z.land x (Z.lnot (Z.lor a b))) b = 0.
Proof. rewrite Z.lor_comm. apply land_lnot_lor_l. Qed.

Lemma land_lnot_0 (x : Z) : Z.land x (Z.lnot 0) = x.
Proof. change (Z.lnot 0) with (-1). apply Z.land_m1_r. Qed.

(** A mask within another differs from it exactly when the other has a
    bit it lacks. *)
Lemma land_lnot_eqb (req u : Z) :
  (Z.land req (Z.lnot (Z.land req (Z.lnot u))) =? 0)
  = (Z.land req (Z.lnot u) =? req).
Proof.
  assert (H : Z.land req (Z.lnot (Z.land req (Z.lnot u))) = Z.land req u).
  { apply Z.bits_inj'. intros n Hn.
    rewrite !Z.land_spec, !Z.lnot_spec, Z.land_spec, Z.lnot_spec by assumption.
    destruct (Z.testbit req n), (Z.testbit u n); reflexivity. }
  rewrite H.
  destruct (Z.eqb_spec (Z.land req u) 0) as [E|E];
    destruct (Z.eqb_spec (Z.land req (Z.lnot u)) req) as [F|F]; try reflexivity.
  - exfalso. apply F. apply land_lnot_absent. assumption.
  - exfalso. apply E. rewrite <- F at 1. rewrite <- Z.land_assoc.
    rewrite (Z.land_comm (Z.lnot u)), Z.land_lnot_diag. apply Z.land_0_r.
Qed.

(** One step of a [prepare_data] handler: a category is read when it is
    in the mask, and leaves the mask when reading it fails. *)
Lemma prepare_step {A : Type} (mask cat ret : Z) (old new : A) :
  let res := if negb (Z.land mask cat =? 0)
             then if ret <? 0 then (Z.land mask (Z.lnot cat), new)
                  else (mask, new)
             else (mask, old) in
  fst res = Z.land mask (Z.lnot (if ret <? 0 then cat else 0))
  /\ (Z.land (fst res) cat <> 0 -> snd res = new /\ 0 <= ret)
  /\ (snd res = old \/ snd res = new).
Proof.
  cbv zeta. destruct (Z.eqb_spec (Z.land mask cat) 0) as [E|E]; cbn [negb].
  - cbn [fst snd]. split; [|split; [|left; reflexivity]].
    + destruct (ret <? 0); [rewrite land_lnot_absent by assumption|
                            rewrite land_lnot_0]; reflexivity.
    + intros H. contradiction.
  - destruct (Z.ltb_spec ret 0); cbn [fst snd].
    + split; [reflexivity|]. split; [|right; reflexivity].
      intros H'. exfalso. apply H'.
      rewrite <- Z.land_assoc, (Z.land_comm (Z.lnot cat)), Z.land_lnot_diag.
      apply Z.land_0_r.
    + split; [symmetry; apply land_lnot_0|]. split; [|right; reflexivity].
      intros _. split; [reflexivity|assumption].
Qed.

Lemma prepare_step3 {A B : Type} (mask cat ret : Z) (old new : A)
    (iold inew : B) :
  let res := if negb (Z.land mask cat =? 0)
             then if ret <? 0 then (Z.land mask (Z.lnot cat), new, inew)
                  else (mask, new, inew)
             else (mask, old, iold) in
  fst (fst res) = Z.land mask (Z.lnot (if ret <? 0 then cat else 0))
  /\ (Z.land (fst (fst res)) cat <> 0 -> snd (fst res) = new /\ 0 <= ret)
  /\ (snd (fst res) = old \/ snd (fst res) = new)
  /\ (snd res = iold \/ (snd res = inew /\ Z.land mask cat <> 0)).
Proof.
  cbv zeta. destruct (Z.eqb_spec (Z.land mask cat) 0) as [E|E]; cbn [negb].
  - cbn [fst snd]. split; [|split; [|split; left; reflexivity]].
    + destruct (ret <? 0); [rewrite land_lnot_absent by assumption|
                            rewrite land_lnot_0]; reflexivity.
    + intros H. contradiction.
  - destruct (Z.ltb_spec ret 0); cbn [fst snd].
    + split; [reflexivity|].
      split; [|split; [right; reflexivity|right; split; [reflexivity|assumption]]].
      intros H'. exfalso. apply H'.
      rewrite <- Z.land_assoc, (Z.land_comm (Z.lnot cat)), Z.land_lnot_diag.
      apply Z.land_0_r.
    + split; [symmetry; apply land_lnot_0|].
      split; [|split; [right; reflexivity|right; split; [reflexivity|assumption]]].
      intros _. split; [reflexivity|assumption].
Qed.

Section WithDriver.
Context {drv : Type} {codec : bitset_codec}.

Ltac stage H K :=
  match goal with
  | |- context [if negb (Z.land ?mask ?cat =? 0)
                then (if ?ret <? 0 then (Z.land ?mask (Z.lnot ?cat), ?new)
                      else (?mask, ?new))
                else (?mask, ?old)] =>
      pose proof (prepare_step mask cat ret old new) as H; cbv zeta in H;
      revert H;
      generalize (if negb (Z.land mask cat =? 0)
                  then (if ret <? 0 then (Z.land mask (Z.lnot cat), new)
                        else (mask, new))
                  else (mask, old));
      let m := fresh "m" in let r := fresh "r" in
      intros [m r] H; cbn [fst snd] in H; destruct H as (-> & H & K)
  end.

Lemma land_land_nonzero (x y c : Z) :
  Z.land (Z.land x (Z.lnot y)) c <> 0 -> Z.land x c <> 0.
Proof.
  intros H E. apply H.
  rewrite <- Z.land_assoc, (Z.land_comm (Z.lnot y)), Z.land_assoc, E.
  apply Z.land_0_l.
Qed.

(** X23.  When [ethnl_before_ops] lets it run, [prepare_params] succeeds
    and achieves exactly the requested categories that the device can
    report.  For every category it achieved the reply holds what the
    driver's [get] operation reported, and the partial-info message is
    recorded exactly when a requested category is missing. *)
Theorem prepare_params_achieves (data : @Params.params_data drv)
    (dev : net_device drv) (info : option genl_info) :
  0 <= ethnl_before_ops dev (priv dev) ->
  let '(ret, data', info') := Params.prepare_params data dev info in
  let req := req_mask (reqinfo_base data) in
  let m := info_mask (repdata_base data') in
  ret = 0
  /\ m = Z.land req (Z.lnot (unavailable_params dev))
  /\ info' = (if m =? req then info else warn_partial_info info)
  /\ (Z.land m Params.ETHTOOL_IM_PARAMS_COALESCE <> 0 ->
      exists get, get_coalesce (ops dev) = Some get
                  /\ Params.coalesce (rep_rest data') = snd (get (priv dev)))
  /\ (Z.land m Params.ETHTOOL_IM_PARAMS_RING <> 0 ->
      exists get, get_ringparam (ops dev) = Some get
                  /\ Params.ring (rep_rest data') = get (priv dev))
  /\ (Z.land m Params.ETHTOOL_IM_PARAMS_PAUSE <> 0 ->
      exists get, get_pauseparam (ops dev) = Some get
                  /\ Params.pause (rep_rest data') = get (priv dev))
  /\ (Z.land m Params.ETHTOOL_IM_PARAMS_CHANNELS <> 0 ->
      exists get, get_channels (ops dev) = Some get
                  /\ Params.channels (rep_rest data') = get (priv dev)).
Proof.
  intros Hb. unfold Params.prepare_params.
  destruct (Z.ltb_spec (ethnl_before_ops dev (priv dev)) 0) as [|_]; [lia|].
  cbv zeta.
  set (req := req_mask (reqinfo_base data)).
  destruct (Params.ethnl_get_coalesce dev _) as [ret1 c1] eqn:E1.
  stage H1 K1.
  destruct (Params.ethnl_get_ring dev _) as [ret2 c2] eqn:E2.
  stage H2 K2.
  destruct (Params.ethnl_get_pause dev _) as [ret3 c3] eqn:E3.
  stage H3 K3.
  destruct (Params.ethnl_get_channels dev _) as [ret4 c4] eqn:E4.
  stage H4 K4.
  unfold Params.set_reply. cbn [info_mask repdata_base rep_rest].
  assert (U1 : (if ret1 <? 0 then Params.ETHTOOL_IM_PARAMS_COALESCE else 0)
               = match get_coalesce (ops dev) with
                 | Some get => if fst (get (priv dev)) <? 0
                               then Params.ETHTOOL_IM_PARAMS_COALESCE else 0
                 | None => Params.ETHTOOL_IM_PARAMS_COALESCE
                 end).
  { unfold Params.ethnl_get_coalesce in E1.
    destruct (get_coalesce (ops dev)) as [get|].
    - rewrite E1. reflexivity.
    - inversion E1. reflexivity. }
  assert (U2 : (if ret2 <? 0 then Params.ETHTOOL_IM_PARAMS_RING else 0)
               = match get_ringparam (ops dev) with
                 | Some _ => 0
                 | None => Params.ETHTOOL_IM_PARAMS_RING
                 end).
  { unfold Params.ethnl_get_ring in E2.
    destruct (get_ringparam (ops dev)); inversion E2; reflexivity. }
  assert (U3 : (if ret3 <? 0 then Params.ETHTOOL_IM_PARAMS_PAUSE else 0)
               = match get_pauseparam (ops dev) with
                 | Some _ => 0
                 | None => Params.ETHTOOL_IM_PARAMS_PAUSE
                 end).
  { unfold Params.ethnl_get_pause in E3.
    destruct (get_pauseparam (ops dev)); inversion E3; reflexivity. }
  assert (U4 : (if ret4 <? 0 then Params.ETHTOOL_IM_PARAMS_CHANNELS else 0)
               = match get_channels (ops dev) with
                 | Some _ => 0
                 | None => Params.ETHTOOL_IM_PARAMS_CHANNELS
                 end).
  { unfold Params.ethnl_get_channels in E4.
    destruct (get_channels (ops dev)); inversion E4; reflexivity. }
  assert (F2 : Params.coalesce r0 = Params.coalesce r)
    by (destruct K2 as [->| ->]; reflexivity).
  assert (F3 : Params.coalesce r1 = Params.coalesce r0
               /\ Params.ring r1 = Params.ring r0)
    by (destruct K3 as [->| ->]; split; reflexivity).
  assert (F4 : Params.coalesce r2 = Params.coalesce r1
               /\ Params.ring r2 = Params.ring r1
               /\ Params.pause r2 = Params.pause r1)
    by (destruct K4 as [->| ->]; repeat split; reflexivity).
  destruct F3 as [F3a F3b]. destruct F4 as (F4a & F4b & F4c).
  split; [reflexivity|]. split.
  { rewrite !land_lnot_lor, U1, U2, U3, U4, ?Z.lor_assoc. reflexivity. }
  split.
  { rewrite !land_lnot_lor, land_lnot_eqb.
    destruct (_ =? req); reflexivity. }
  split; [|split; [|split]].
  - intros Hm. do 3 apply land_land_nonzero in Hm.
    destruct (H1 Hm) as [-> Hret].
    unfold Params.ethnl_get_coalesce in E1.
    destruct (get_coalesce (ops dev)) as [get|];
      [|inversion E1; subst; unfold EOPNOTSUPP in Hret; lia].
    exists get. split; [reflexivity|].
    rewrite F4a, F3a, F2, E1. reflexivity.
  - intros Hm. do 2 apply land_land_nonzero in Hm.
    destruct (H2 Hm) as [-> Hret].
    unfold Params.ethnl_get_ring in E2.
    destruct (get_ringparam (ops dev)) as [get|];
      [|inversion E2; subst; unfold EOPNOTSUPP in Hret; lia].
    exists get. split; [reflexivity|].
    rewrite F4b, F3b. inversion E2. reflexivity.
  - intros Hm. apply land_land_nonzero in Hm.
    destruct (H3 Hm) as [-> Hret].
    unfold Params.ethnl_get_pause in E3.
    destruct (get_pauseparam (ops dev)) as [get|];
      [|inversion E3; subst; unfold EOPNOTSUPP in Hret; lia].
    exists get. split; [reflexivity|].
    rewrite F4c. inversion E3. reflexivity.
  - intros Hm. destruct (H4 Hm) as [-> Hret].
    unfold Params.ethnl_get_channels in E4.
    destruct (get_channels (ops dev)) as [get|];
      [|inversion E4; subst; unfold EOPNOTSUPP in Hret; lia].
    exists get. split; [reflexivity|]. inversion E4. reflexivity.
Qed.

Lemma get_link_ksettings_info (info : option genl_info) (dev : net_device drv) :
  let '(ret, ks, info') := Settings.ethnl_get_link_ksettings info dev in
  ret = fst (__ethtool_get_link_ksettings dev (priv dev))
  /\ ks = snd (__ethtool_get_link_ksettings dev (priv dev))
  /\ warn_partial_info info' = warn_partial_info info
  /\ (0 <= ret -> info' = info).
Proof.
  unfold Settings.ethnl_get_link_ksettings.
  destruct (__ethtool_get_link_ksettings dev (priv dev)) as [ret ks].
  destruct info as [i|]; [|repeat split].
  destruct (Z.ltb_spec ret 0); repeat split. intros; lia.
Qed.

Lemma get_wol_info (info : option genl_info) (dev : net_device drv) :
  let '(ret, wol, info') := Settings.ethnl_get_wol info dev in
  ret = fst (__ethtool_get_wol dev (priv dev))
  /\ wol = snd (__ethtool_get_wol dev (priv dev))
  /\ warn_partial_info info' = warn_partial_info info
  /\ (0 <= ret -> info' = info).
Proof.
  unfold Settings.ethnl_get_wol.
  destruct (__ethtool_get_wol dev (priv dev)) as [ret wol].
  destruct info as [i|]; [|repeat split].
  destruct (Z.ltb_spec ret 0); repeat split. intros; lia.
Qed.

Ltac stage3 H K L :=
  match goal with
  | |- context [if negb (Z.land ?mask ?cat =? 0)
                then (if ?ret <? 0
                      then (Z.land ?mask (Z.lnot ?cat), ?new, ?inew)
                      else (?mask, ?new, ?inew))
                else (?mask, ?old, ?iold)] =>
      pose proof (prepare_step3 mask cat ret old new iold inew) as H;
      cbv zeta in H; revert H;
      generalize (if negb (Z.land mask cat =? 0)
                  then (if ret <? 0
                        then (Z.land mask (Z.lnot cat), new, inew)
                        else (mask, new, inew))
                  else (mask, old, iold));
      let m := fresh "m" in let r := fresh "r" in let i := fresh "i" in
      intros [[m r] i] H; cbn [fst snd] in H; destruct H as (-> & H & K & L)
  end.

(** X24.  When [ethnl_before_ops] lets it run, [prepare_settings] succeeds
    and achieves exactly the requested categories that the device can
    report; link info and link modes are achieved or missing together and
    the link state stays in the mask whatever the device reports for it.
    For every category it achieved the reply holds what the device
    reported, and the partial-info message is recorded exactly when a
    requested category is missing. *)
Theorem prepare_settings_achieves (data : @Settings.settings_data drv)
    (dev : net_device drv) (info : option genl_info) :
  0 <= ethnl_before_ops dev (priv dev) ->
  let '(ret, data', info') := Settings.prepare_settings data dev info in
  let req := req_mask (reqinfo_base data) in
  let m := info_mask (repdata_base data') in
  ret = 0
  /\ m = Z.land req (Z.lnot (unavailable_settings dev))
  /\ info' = (if m =? req then info else warn_partial_info info)
  /\ (Z.land m (Z.lor Settings.ETHTOOL_IM_SETTINGS_LINKINFO
                      Settings.ETHTOOL_IM_SETTINGS_LINKMODES) <> 0 ->
      Settings.ksettings (rep_rest data')
      = snd (__ethtool_get_link_ksettings dev (priv dev)))
  /\ (Z.land m Settings.ETHTOOL_IM_SETTINGS_LINKSTATE <> 0 ->
      Settings.link (rep_rest data') = __ethtool_get_link dev (priv dev))
  /\ (Z.land m Settings.ETHTOOL_IM_SETTINGS_WOL <> 0 ->
      Settings.wolinfo (rep_rest data') = snd (__ethtool_get_wol dev (priv dev))).
Proof.
  intros Hb. unfold Settings.prepare_settings.
  destruct (Z.ltb_spec (ethnl_before_ops dev (priv dev)) 0) as [|_]; [lia|].
  cbv zeta.
  set (req := req_mask (reqinfo_base data)).
  pose proof (get_link_ksettings_info info dev) as G1.
  destruct (Settings.ethnl_get_link_ksettings info dev) as [[ret1 ks1] info1].
  destruct G1 as (R1 & V1 & W1 & I1).
  stage3 H1 K1 L1.
  set (m1 := Z.land req (Z.lnot (if ret1 <? 0 then _ else 0))) in *.
  set (r2 := if negb (Z.land m1 Settings.ETHTOOL_IM_SETTINGS_LINKMODES =? 0)
             then _ else r).
  assert (F2 : Settings.ksettings r2 = Settings.ksettings r
               /\ Settings.wolinfo r2 = Settings.wolinfo r
               /\ Settings.link r2 = Settings.link r)
    by (subst r2; destruct (negb _); repeat split).
  clearbody r2.
  set (r3 := if negb (Z.land m1 Settings.ETHTOOL_IM_SETTINGS_LINKSTATE =? 0)
             then _ else r2).
  assert (F3 : Settings.ksettings r3 = Settings.ksettings r2
               /\ Settings.wolinfo r3 = Settings.wolinfo r2
               /\ (Z.land m1 Settings.ETHTOOL_IM_SETTINGS_LINKSTATE <> 0 ->
                   Settings.link r3 = __ethtool_get_link dev (priv dev))).
  { subst r3.
    destruct (Z.eqb_spec (Z.land m1 Settings.ETHTOOL_IM_SETTINGS_LINKSTATE) 0);
      cbn [negb]; repeat split; try reflexivity. intros; contradiction. }
  clearbody r3.
  pose proof (get_wol_info i dev) as G2.
  destruct (Settings.ethnl_get_wol i dev) as [[ret2 wol2] info2].
  destruct G2 as (R2 & V2 & W2 & I2).
  stage3 H2 K2 L2.
  unfold Settings.set_reply. cbn [info_mask repdata_base rep_rest].
  destruct F2 as (F2a & F2b & F2c). destruct F3 as (F3a & F3b & F3c).
  assert (F4 : Settings.ksettings r0 = Settings.ksettings r3
               /\ Settings.link r0 = Settings.link r3)
    by (destruct K2 as [->| ->]; split; reflexivity).
  destruct F4 as [F4a F4b].
  subst m1. rewrite !land_lnot_lor.
  split; [reflexivity|]. split.
  { unfold unavailable_settings. rewrite R1, R2. reflexivity. }
  split.
  { rewrite land_lnot_eqb.
    destruct (Z.eqb_spec (Z.land req (Z.lnot (Z.lor
                (if ret1 <? 0
                 then Z.lor Settings.ETHTOOL_IM_SETTINGS_LINKINFO
                            Settings.ETHTOOL_IM_SETTINGS_LINKMODES
                 else 0)
                (if ret2 <? 0 then Settings.ETHTOOL_IM_SETTINGS_WOL else 0))))
              req) as [E|E]; cbn [negb].
    - assert (Hi0 : i0 = i).
      { destruct L2 as [->|[-> Hw]]; [reflexivity|]. apply I2.
        destruct (Z.ltb_spec ret2 0) as [Hneg|]; [|assumption].
        exfalso. apply land_land_nonzero in Hw. apply Hw.
        rewrite <- E. apply land_lnot_lor_r. }
      rewrite Hi0.
      destruct L1 as [->|[-> Hk]]; [reflexivity|]. apply I1.
      destruct (Z.ltb_spec ret1 0) as [Hneg|]; [|assumption].
      exfalso. apply Hk. rewrite <- E. apply land_lnot_lor_l.
    - assert (Hi0 : warn_partial_info i0 = warn_partial_info i)
        by (destruct L2 as [->|[-> _]]; [reflexivity|exact W2]).
      rewrite Hi0.
      destruct L1 as [->|[-> _]]; [reflexivity|exact W1]. }
  split; [|split].
  - intros Hm. rewrite <- land_lnot_lor in Hm. apply land_land_nonzero in Hm.
    destruct (H1 Hm) as [Hr _].
    rewrite F4a, F3a, F2a, Hr. cbn [Settings.ksettings]. exact V1.
  - intros Hm. rewrite <- land_lnot_lor in Hm. apply land_land_nonzero in Hm.
    rewrite F4b. apply F3c. exact Hm.
  - intros Hm. rewrite <- land_lnot_lor in Hm.
    destruct (H2 Hm) as [Hr _]. rewrite Hr. cbn [Settings.wolinfo]. exact V2.
Qed.

End WithDriver.

(** [eth0], which reports coalescing and ring parameters only, asked for
    every category of parameters. *)
Lemma prepare_params_achieves_witness :
  let '(ret, data', info') :=
    Params.prepare_params Samples.all_params_data Samples.eth0
      (Some Samples.no_info) in
  let req := req_mask (reqinfo_base Samples.all_params_data) in
  let m := info_mask (repdata_base data') in
  ret = 0
  /\ m = Z.land req (Z.lnot (unavailable_params Samples.eth0))
  /\ info' = (if m =? req then Some Samples.no_info
              else warn_partial_info (Some Samples.no_info))
  /\ (Z.land m Params.ETHTOOL_IM_PARAMS_COALESCE <> 0 ->
      exists get, get_coalesce (ops Samples.eth0) = Some get
                  /\ Params.coalesce (rep_rest data')
                     = snd (get (priv Samples.eth0)))
  /\ (Z.land m Params.ETHTOOL_IM_PARAMS_RING <> 0 ->
      exists get, get_ringparam (ops Samples.eth0) = Some get
                  /\ Params.ring (rep_rest data') = get (priv Samples.eth0))
  /\ (Z.land m Params.ETHTOOL_IM_PARAMS_PAUSE <> 0 ->
      exists get, get_pauseparam (ops Samples.eth0) = Some get
                  /\ Params.pause (rep_rest data') = get (priv Samples.eth0))
  /\ (Z.land m Params.ETHTOOL_IM_PARAMS_CHANNELS <> 0 ->
      exists get, get_channels (ops Samples.eth0) = Some get
                  /\ Params.channels (rep_rest data')
                     = get (priv Samples.eth0)).
Proof.
  assert (Hb : 0 <= ethnl_before_ops Samples.eth0 (priv Samples.eth0))
    by (vm_compute; discriminate).
  exact (prepare_params_achieves Samples.all_params_data Samples.eth0
           (Some Samples.no_info) Hb).
Defined.

(** [eth3], which reports everything, asked for every category of link
    settings. *)
Lemma prepare_settings_achieves_witness :
  let '(ret, data', info') :=
    Settings.prepare_settings Samples.all_settings_data Samples.eth3
      (Some Samples.no_info) in
  let req := req_mask (reqinfo_base Samples.all_settings_data) in
  let m := info_mask (repdata_base data') in
  ret = 0
  /\ m = Z.land req (Z.lnot (unavailable_settings Samples.eth3))
  /\ info' = (if m =? req then Some Samples.no_info
              else warn_partial_info (Some Samples.no_info))
  /\ (Z.land m (Z.lor Settings.ETHTOOL_IM_SETTINGS_LINKINFO
                      Settings.ETHTOOL_IM_SETTINGS_LINKMODES) <> 0 ->
      Settings.ksettings (rep_rest data')
      = snd (__ethtool_get_link_ksettings Samples.eth3 (priv Samples.eth3)))
  /\ (Z.land m Settings.ETHTOOL_IM_SETTINGS_LINKSTATE <> 0 ->
      Settings.link (rep_rest data')
      = __ethtool_get_link Samples.eth3 (priv Samples.eth3))
  /\ (Z.land m Settings.ETHTOOL_IM_SETTINGS_WOL <> 0 ->
      Settings.wolinfo (rep_rest data')
      = snd (__ethtool_get_wol Samples.eth3 (priv Samples.eth3))).
Proof.
  assert (Hb : 0 <= ethnl_before_ops Samples.eth3 (priv Samples.eth3))
    by (vm_compute; discriminate).
  exact (prepare_settings_achieves Samples.all_settings_data Samples.eth3
           (Some Samples.no_info) Hb).
Defined.

End AchievedFacts.
